(** * ESP_AT_Lib: the command API (esp.c) and the HTTP server
      (apps/http_server/esp_http_server.c) as Rocq functions.

    The C code is embedded shallowly.  Structs are records, enums are
    inductive types, [size_t] values are [Z] with the 32-bit wrap-around
    written out, byte strings are [list ascii].  Calls into the operating
    system port, the connection manager and the user's callbacks are kept
    as a trace of events, and what the environment answers (does an
    allocation succeed, how much transmit credit is left, when is a
    semaphore released) is read from an oracle record. *)

From Stdlib Require Import List String Ascii ZArith NArith Bool Lia.
From Stdlib Require Import DecimalString.
Import ListNotations.

Local Open Scope string_scope.
Local Open Scope list_scope.
Local Open Scope Z_scope.

(** ** Bytes and C strings *)

Definition bytes := list ascii.

Definition b (s : string) : bytes := list_ascii_of_string s.

Definition CR : ascii := ascii_of_nat 13.
Definition LF : ascii := ascii_of_nat 10.
Definition NUL : ascii := ascii_of_nat 0.
Definition CRLF : bytes := [CR; LF].
Definition CRLF_s : string := String CR (String LF EmptyString).

Definition code (c : ascii) : Z := Z.of_N (N_of_ascii c).

Definition zlen {A} (l : list A) : Z := Z.of_nat (List.length l).

(** [size_t] is 32 bits wide on the target. *)
Definition SIZE_MOD : Z := 2 ^ 32.
Definition ESP_SIZET_MAX : Z := SIZE_MOD - 1.
Definition sz (x : Z) : Z := x mod SIZE_MOD.
Definition sz_add (x y : Z) : Z := sz (x + y).
Definition sz_sub (x y : Z) : Z := sz (x - y).

(** The C-string view of a byte array: everything before the first NUL. *)
Fixpoint cstr (l : bytes) : string :=
  match l with
  | [] => EmptyString
  | c :: l' => if Ascii.eqb c NUL then EmptyString else String c (cstr l')
  end.

(** * The command API: esp.c *)

Module Esp.

(** Result codes ([espr_t]); esp.c itself uses [espOK] and [espERR]. *)
Inductive espr_t : Type :=
| espOK | espERR | espPARAMERR | espNOMEM | espTIMEOUT | espCONT
| espCLOSED | espINPROG | espNOTENABLED | espNODEVICE | espCONNFAIL.

Definition espr_eqb (x y : espr_t) : bool :=
  match x, y with
  | espOK, espOK | espERR, espERR | espPARAMERR, espPARAMERR
  | espNOMEM, espNOMEM | espTIMEOUT, espTIMEOUT | espCONT, espCONT
  | espCLOSED, espCLOSED | espINPROG, espINPROG
  | espNOTENABLED, espNOTENABLED | espNODEVICE, espNODEVICE
  | espCONNFAIL, espCONNFAIL => true
  | _, _ => false
  end.

(** Command codes.  [ESP_CMD_IDLE] is the zero value a freshly cleared
    message holds; [send_msg_to_producer_queue] tests it with [!msg->cmd]. *)
Inductive esp_cmd_t : Type :=
| ESP_CMD_IDLE
| ESP_CMD_RESET
| ESP_CMD_UART
| ESP_CMD_WIFI_CWMODE
| ESP_CMD_WIFI_CWJAP
| ESP_CMD_WIFI_CWQAP
| ESP_CMD_WIFI_CWLAP
| ESP_CMD_WIFI_CIPSTA_GET
| ESP_CMD_WIFI_CIPSTA_SET
| ESP_CMD_WIFI_CIPAP_GET
| ESP_CMD_WIFI_CIPAP_SET
| ESP_CMD_WIFI_CIPSTAMAC_GET
| ESP_CMD_WIFI_CIPSTAMAC_SET
| ESP_CMD_WIFI_CIPAPMAC_GET
| ESP_CMD_WIFI_CIPAPMAC_SET
| ESP_CMD_TCPIP_CIPMUX
| ESP_CMD_TCPIP_CIPDINFO
| ESP_CMD_TCPIP_CIPSERVER
| ESP_CMD_TCPIP_CIPSTART
| ESP_CMD_TCPIP_CIPCLOSE
| ESP_CMD_TCPIP_CIPSEND
| ESP_CMD_TCPIP_CIPSTATUS.

Definition cmd_is_idle (c : esp_cmd_t) : bool :=
  match c with ESP_CMD_IDLE => true | _ => false end.

Inductive esp_mode_t : Type := ESP_MODE_STA | ESP_MODE_AP | ESP_MODE_STA_AP.

Inductive esp_conn_type_t : Type :=
| ESP_CONN_TYPE_TCP | ESP_CONN_TYPE_UDP | ESP_CONN_TYPE_SSL.

(** Pointers the API only stores in the message are kept as addresses. *)
Definition ptr := Z.

(** Callback functions are named, not run: [None] is the NULL pointer. *)
Inductive esp_cb_func_t : Type :=
| def_callback
| user_callback (id : nat).

Inductive esp_cb_type_t : Type := ESP_CB_INIT_FINISH.

(** The union [msg->msg] of command parameters. *)
Inductive esp_msg_body : Type :=
| msg_none
| msg_wifi_mode (mode : esp_mode_t)
| msg_sta_join (def : Z) (name : string) (pass : option string) (mac : option bytes)
| msg_sta_ap_getip (ip gw nm : ptr) (def : Z)
| msg_sta_ap_setip (ip : bytes) (gw nm : option bytes) (def : Z)
| msg_sta_ap_getmac (mac : ptr) (def : Z)
| msg_sta_ap_setmac (mac : bytes) (def : Z)
| msg_ap_list (ssid : option string) (aps : ptr) (apsl : Z) (apf : ptr)
| msg_uart (baudrate : Z)
| msg_tcpip_mux (mux : Z)
| msg_tcpip_dinfo (info : Z)
| msg_tcpip_server (port : Z)
| msg_conn_start (conn : ptr) (type : esp_conn_type_t) (host : string)
                 (port : Z) (cb_func : option esp_cb_func_t)
| msg_conn_close (conn : ptr)
| msg_conn_send (conn : ptr) (data : bytes) (btw : Z) (bw : ptr).

(** The only processing function esp.c hands to the queue. *)
Inductive process_fn_t : Type := fn_null | espi_initiate_cmd.

Record esp_msg_t : Type := {
  cmd_def : esp_cmd_t;
  cmd : esp_cmd_t;
  msg : esp_msg_body;
  res : espr_t;
  block_time : Z;
  sem : bool;
  fn : process_fn_t
}.

(** A message as [ESP_MSG_VAR_ALLOC] leaves it: every field zero. *)
Definition msg_zero : esp_msg_t :=
  {| cmd_def := ESP_CMD_IDLE; cmd := ESP_CMD_IDLE; msg := msg_none;
     res := espOK; block_time := 0; sem := false; fn := fn_null |}.

Definition set_cmd_def v (m : esp_msg_t) : esp_msg_t :=
  {| cmd_def := v; cmd := cmd m; msg := msg m; res := res m;
     block_time := block_time m; sem := sem m; fn := fn m |}.
Definition set_cmd v (m : esp_msg_t) : esp_msg_t :=
  {| cmd_def := cmd_def m; cmd := v; msg := msg m; res := res m;
     block_time := block_time m; sem := sem m; fn := fn m |}.
Definition set_msg v (m : esp_msg_t) : esp_msg_t :=
  {| cmd_def := cmd_def m; cmd := cmd m; msg := v; res := res m;
     block_time := block_time m; sem := sem m; fn := fn m |}.
Definition set_res v (m : esp_msg_t) : esp_msg_t :=
  {| cmd_def := cmd_def m; cmd := cmd m; msg := msg m; res := v;
     block_time := block_time m; sem := sem m; fn := fn m |}.
Definition set_block_time v (m : esp_msg_t) : esp_msg_t :=
  {| cmd_def := cmd_def m; cmd := cmd m; msg := msg m; res := res m;
     block_time := v; sem := sem m; fn := fn m |}.
Definition set_sem v (m : esp_msg_t) : esp_msg_t :=
  {| cmd_def := cmd_def m; cmd := cmd m; msg := msg m; res := res m;
     block_time := block_time m; sem := v; fn := fn m |}.
Definition set_fn v (m : esp_msg_t) : esp_msg_t :=
  {| cmd_def := cmd_def m; cmd := cmd m; msg := msg m; res := res m;
     block_time := block_time m; sem := sem m; fn := v |}.

(** The message as [send_msg_to_producer_queue] has it when it writes it
    to the producer mailbox: result cleared, semaphore created for a
    blocking call, start command defaulted to the definitive one, blocking
    time and processing function stored. *)
Definition msg_as_queued (m : esp_msg_t) (process_fn : process_fn_t)
    (block_time : Z) : esp_msg_t :=
  let m := set_res espOK m in
  let m := if block_time =? 0 then m else set_sem true m in
  let m := if cmd_is_idle (cmd m) then set_cmd (cmd_def m) m else m in
  set_fn process_fn (set_block_time block_time m).

(** A mailbox of the system port.  [mbox_put] is the sequence of messages
    ever written to it, in order; the reading thread has taken the first
    [mbox_taken] of them, so [length mbox_put - mbox_taken] are waiting. *)
Record esp_sys_mbox_t : Type := {
  mbox_size : nat;
  mbox_put : list esp_msg_t;
  mbox_taken : nat
}.

Definition mbox_waiting (m : esp_sys_mbox_t) : nat :=
  (List.length (mbox_put m) - mbox_taken m)%nat.

Definition esp_sys_mbox_create (size : nat) : esp_sys_mbox_t :=
  {| mbox_size := size; mbox_put := []; mbox_taken := 0 |}.

(** The global [esp] record, as far as esp.c touches it, the two counters
    the oracle is asked by, and [stores]: what the API functions have
    written through the pointers they were given ([*bw = 0], [*apf = 0]),
    the latest first. *)
Record esp_t : Type := {
  ll_baudrate : Z;
  ll_initialized : bool;
  cb_func : esp_cb_func_t;
  cb_server : esp_cb_func_t;
  sem_sync : option Z;
  mbox_consumer : esp_sys_mbox_t;
  mbox_producer : esp_sys_mbox_t;
  threads : list string;
  buff_size : Z;
  cb_calls : list (esp_cb_func_t * esp_cb_type_t);
  n_msg_alloc : nat;
  n_sem_create : nat;
  stores : list (ptr * Z)
}.

Definition set_mbox_producer v (e : esp_t) : esp_t :=
  {| ll_baudrate := ll_baudrate e; ll_initialized := ll_initialized e;
     cb_func := cb_func e; cb_server := cb_server e; sem_sync := sem_sync e;
     mbox_consumer := mbox_consumer e; mbox_producer := v;
     threads := threads e; buff_size := buff_size e; cb_calls := cb_calls e;
     n_msg_alloc := n_msg_alloc e; n_sem_create := n_sem_create e;
     stores := stores e |}.
Definition set_n_msg_alloc v (e : esp_t) : esp_t :=
  {| ll_baudrate := ll_baudrate e; ll_initialized := ll_initialized e;
     cb_func := cb_func e; cb_server := cb_server e; sem_sync := sem_sync e;
     mbox_consumer := mbox_consumer e; mbox_producer := mbox_producer e;
     threads := threads e; buff_size := buff_size e; cb_calls := cb_calls e;
     n_msg_alloc := v; n_sem_create := n_sem_create e;
     stores := stores e |}.
Definition set_n_sem_create v (e : esp_t) : esp_t :=
  {| ll_baudrate := ll_baudrate e; ll_initialized := ll_initialized e;
     cb_func := cb_func e; cb_server := cb_server e; sem_sync := sem_sync e;
     mbox_consumer := mbox_consumer e; mbox_producer := mbox_producer e;
     threads := threads e; buff_size := buff_size e; cb_calls := cb_calls e;
     n_msg_alloc := n_msg_alloc e; n_sem_create := v;
     stores := stores e |}.
Definition store (p : ptr) (v : Z) (e : esp_t) : esp_t :=
  {| ll_baudrate := ll_baudrate e; ll_initialized := ll_initialized e;
     cb_func := cb_func e; cb_server := cb_server e; sem_sync := sem_sync e;
     mbox_consumer := mbox_consumer e; mbox_producer := mbox_producer e;
     threads := threads e; buff_size := buff_size e; cb_calls := cb_calls e;
     n_msg_alloc := n_msg_alloc e; n_sem_create := n_sem_create e;
     stores := (p, v) :: stores e |}.
Definition set_cb_server v (e : esp_t) : esp_t :=
  {| ll_baudrate := ll_baudrate e; ll_initialized := ll_initialized e;
     cb_func := cb_func e; cb_server := v; sem_sync := sem_sync e;
     mbox_consumer := mbox_consumer e; mbox_producer := mbox_producer e;
     threads := threads e; buff_size := buff_size e; cb_calls := cb_calls e;
     n_msg_alloc := n_msg_alloc e; n_sem_create := n_sem_create e;
     stores := stores e |}.

(** The state before [esp_init]: nothing created yet. *)
Definition esp_zero : esp_t :=
  {| ll_baudrate := 0; ll_initialized := false;
     cb_func := def_callback; cb_server := def_callback; sem_sync := None;
     mbox_consumer := esp_sys_mbox_create 0;
     mbox_producer := esp_sys_mbox_create 0;
     threads := []; buff_size := 0; cb_calls := [];
     n_msg_alloc := 0; n_sem_create := 0; stores := [] |}.

(** What the environment decides during a run: whether the n-th message
    allocation and the n-th semaphore creation succeed, and, for a message
    handed to the pipeline, after how many ticks the producer thread
    releases its semaphore and which result it has then stored in
    [msg->res] ([None]: the semaphore is never released). *)
Record sys_env : Type := {
  msg_alloc_ok : nat -> bool;
  sem_create_ok : nat -> bool;
  pipeline : esp_msg_t -> option (Z * espr_t)
}.

Definition ESP_SYS_TIMEOUT : Z := 4294967295.

(** Modelled from the spec: [esp_sys_sem_wait] belongs to the system port
    (esp_sys), which is not among the sources.  It returns the time waited,
    or [ESP_SYS_TIMEOUT] when the semaphore is not released within
    [timeout]; the timeout 0 waits for ever, as the call site in
    [send_msg_to_producer_queue] says.  [released] is the tick at which the
    semaphore is released.  The outer [None] is a call that never returns. *)
Definition esp_sys_sem_wait (released : option Z) (timeout : Z) : option Z :=
  match released with
  | Some t =>
      if (timeout =? 0) || (t <=? timeout) then Some t
      else Some ESP_SYS_TIMEOUT
  | None => if timeout =? 0 then None else Some ESP_SYS_TIMEOUT
  end.

(** Modelled from the spec: [esp_sys_mbox_putnow] (system port) writes
    without waiting and fails on a full mailbox. *)
Definition esp_sys_mbox_putnow (mb : esp_sys_mbox_t) (m : esp_msg_t)
  : bool * esp_sys_mbox_t :=
  if (mbox_waiting mb <? mbox_size mb)%nat
  then (true, {| mbox_size := mbox_size mb; mbox_put := mbox_put mb ++ [m];
                 mbox_taken := mbox_taken mb |})
  else (false, mb).

(** Modelled from the spec: [esp_sys_mbox_put] (system port) waits until
    there is room; the reading thread makes that room, so on return the
    message is in the mailbox and at most [mbox_size] are waiting. *)
Definition esp_sys_mbox_put (mb : esp_sys_mbox_t) (m : esp_msg_t)
  : esp_sys_mbox_t :=
  {| mbox_size := mbox_size mb; mbox_put := mbox_put mb ++ [m];
     mbox_taken := Nat.max (mbox_taken mb)
                           (S (List.length (mbox_put mb)) - mbox_size mb) |}.

(** When a blocking call's semaphore has been released, the producer
    thread has taken that message and all before it. *)
Definition mbox_all_taken (mb : esp_sys_mbox_t) : esp_sys_mbox_t :=
  {| mbox_size := mbox_size mb; mbox_put := mbox_put mb;
     mbox_taken := List.length (mbox_put mb) |}.

(** The outcome of an API call: [Returns r e] or a call that blocks for
    ever, leaving the state [e] behind. *)
Inductive outcome : Type :=
| Returns (r : espr_t) (e : esp_t)
| Blocked (e : esp_t).

Definition out_state (o : outcome) : esp_t :=
  match o with Returns _ e => e | Blocked e => e end.

Section WithEnv.

Variable E : sys_env.

(** [send_msg_to_producer_queue], esp.c lines 50-85.  The ticks spent in
    the semaphore wait are returned next to the outcome. *)
Definition send_msg_to_producer_queue
    (m : esp_msg_t) (process_fn : process_fn_t) (block_time : Z) (e : esp_t)
  : outcome * option Z :=
  let m := set_res espOK m in
  let sem_ok :=
    if block_time =? 0 then true else sem_create_ok E (n_sem_create e) in
  let e := if block_time =? 0 then e
           else set_n_sem_create (S (n_sem_create e)) e in
  if negb sem_ok then (Returns espERR e, None)
  else
    let m := if block_time =? 0 then m else set_sem true m in
    let m := if cmd_is_idle (cmd m) then set_cmd (cmd_def m) m else m in
    let m := set_block_time block_time m in
    let m := set_fn process_fn m in
    if block_time =? 0 then
      let '(ok, mb) := esp_sys_mbox_putnow (mbox_producer e) m in
      (Returns (if ok then espOK else espERR) (set_mbox_producer mb e), None)
    else
      let e := set_mbox_producer (esp_sys_mbox_put (mbox_producer e) m) e in
      match esp_sys_sem_wait (option_map fst (pipeline E m)) 0 with
      | None => (Blocked e, None)
      | Some time =>
          let r := if time =? ESP_SYS_TIMEOUT then espERR
                   else match pipeline E m with
                        | Some (_, r) => r
                        | None => res m
                        end in
          let e := if time =? ESP_SYS_TIMEOUT then e
                   else set_mbox_producer (mbox_all_taken (mbox_producer e)) e in
          (Returns r e, Some time)
      end.

(** Modelled from the spec: the macro [ESP_MSG_VAR_ALLOC] (esp_int.h, not
    among the sources) allocates a cleared message and makes the API
    function return [espERR] when the allocation fails. *)
Definition ESP_MSG_VAR_ALLOC (e : esp_t) : option esp_msg_t * esp_t :=
  let e' := set_n_msg_alloc (S (n_msg_alloc e)) e in
  if msg_alloc_ok E (n_msg_alloc e) then (Some msg_zero, e') else (None, e').

(** The shape every API function of esp.c has: allocate, fill in the
    definitive command (and what else the function sets), enqueue. *)
Definition api_call (fill : esp_msg_t -> esp_msg_t) (blocking : Z) (e : esp_t)
  : outcome :=
  match ESP_MSG_VAR_ALLOC e with
  | (None, e') => Returns espERR e'
  | (Some m, e') =>
      fst (send_msg_to_producer_queue (fill m) espi_initiate_cmd blocking e')
  end.

Definition with_def (c : esp_cmd_t) (body : esp_msg_body) (m : esp_msg_t) :=
  set_msg body (set_cmd_def c m).

(** The NULL pointer. *)
Definition NULL : ptr := 0.

(** Modelled from the spec: the macro [ESP_ASSERT(msg, c)] is not among
    the sources.  When [c] does not hold it makes the function return at
    once, before anything else is done, with the error kind for wrong
    parameters ([PARAMERR] in the specification's list of error kinds);
    otherwise the function goes on with [rest]. *)
Definition ESP_ASSERT (c : bool) (rest : esp_t -> outcome) (e : esp_t)
  : outcome :=
  if c then rest e else Returns espPARAMERR e.

Definition espi_set_dinfo (info blocking : Z) :=
  api_call (with_def ESP_CMD_TCPIP_CIPDINFO (msg_tcpip_dinfo info)) blocking.

Definition esp_reset (blocking : Z) :=
  api_call (with_def ESP_CMD_RESET msg_none) blocking.

Definition esp_set_wifi_mode (mode : esp_mode_t) (blocking : Z) :=
  api_call (with_def ESP_CMD_WIFI_CWMODE (msg_wifi_mode mode)) blocking.

Definition esp_sta_quit (blocking : Z) :=
  api_call (with_def ESP_CMD_WIFI_CWQAP msg_none) blocking.

(** Where an [ESP_ASSERT] only asks for a string or an array not to be
    NULL, the type of the argument says so: [name] is a string here, [ip]
    and [mac] below are byte arrays. *)
Definition esp_sta_join (name : string) (pass : option string)
    (mac : option bytes) (def blocking : Z) :=
  api_call (with_def ESP_CMD_WIFI_CWJAP (msg_sta_join def name pass mac))
           blocking.

Definition esp_sta_getip (ip gw nm : ptr) (def blocking : Z) :=
  api_call (with_def ESP_CMD_WIFI_CIPSTA_GET (msg_sta_ap_getip ip gw nm def))
           blocking.

Definition esp_sta_setip (ip : bytes) (gw nm : option bytes) (def blocking : Z) :=
  api_call (with_def ESP_CMD_WIFI_CIPSTA_SET (msg_sta_ap_setip ip gw nm def))
           blocking.

Definition esp_sta_getmac (mac : ptr) (def blocking : Z) :=
  api_call (with_def ESP_CMD_WIFI_CIPSTAMAC_GET (msg_sta_ap_getmac mac def))
           blocking.

Definition esp_sta_setmac (mac : bytes) (def blocking : Z) :=
  api_call (with_def ESP_CMD_WIFI_CIPSTAMAC_SET (msg_sta_ap_setmac mac def))
           blocking.

Definition esp_ap_getip (ip gw nm : ptr) (def blocking : Z) :=
  api_call (with_def ESP_CMD_WIFI_CIPAP_GET (msg_sta_ap_getip ip gw nm def))
           blocking.

Definition esp_ap_setip (ip : bytes) (gw nm : option bytes) (def blocking : Z) :=
  api_call (with_def ESP_CMD_WIFI_CIPAP_SET (msg_sta_ap_setip ip gw nm def))
           blocking.

Definition esp_ap_getmac (mac : ptr) (def blocking : Z) :=
  api_call (with_def ESP_CMD_WIFI_CIPAPMAC_GET (msg_sta_ap_getmac mac def))
           blocking.

(** [esp_ap_setmac], esp.c lines 386-399: bit 0 of the first byte of the
    address must be 0. *)
Definition esp_ap_setmac (mac : bytes) (def blocking : Z) :=
  ESP_ASSERT (negb (Z.testbit (code (hd NUL mac)) 0))
    (api_call (with_def ESP_CMD_WIFI_CIPAPMAC_SET (msg_sta_ap_setmac mac def))
              blocking).

(** [esp_ap_list], esp.c lines 411-427: [*apf] is cleared when [apf] is
    given. *)
Definition esp_ap_list (ssid : option string) (aps : ptr) (apsl : Z)
    (apf : ptr) (blocking : Z) (e : esp_t) : outcome :=
  let e := if negb (apf =? NULL) then store apf 0 e else e in
  api_call (with_def ESP_CMD_WIFI_CWLAP (msg_ap_list ssid aps apsl apf))
           blocking e.

Definition esp_set_at_baudrate (baud blocking : Z) :=
  api_call (with_def ESP_CMD_UART (msg_uart baud)) blocking.

Definition esp_set_mux (mux blocking : Z) :=
  api_call (with_def ESP_CMD_TCPIP_CIPMUX (msg_tcpip_mux mux)) blocking.

Definition esp_set_server (port blocking : Z) :=
  api_call (with_def ESP_CMD_TCPIP_CIPSERVER (msg_tcpip_server port)) blocking.

Definition esp_set_default_server_callback
    (cb : option esp_cb_func_t) (e : esp_t) : outcome :=
  Returns espOK
    (set_cb_server (match cb with Some f => f | None => cb_func e end) e).

(** [esp_conn_start], esp.c lines 502-516: the one function that sets
    [cmd] itself, next to [cmd_def]. *)
Definition esp_conn_start (conn : ptr) (type : esp_conn_type_t)
    (host : string) (port : Z) (cb : option esp_cb_func_t) (blocking : Z) :=
  api_call (fun m =>
              set_msg (msg_conn_start conn type host port cb)
                (set_cmd ESP_CMD_TCPIP_CIPSTATUS
                   (set_cmd_def ESP_CMD_TCPIP_CIPSTART m)))
           blocking.

(** [esp_conn_close], esp.c lines 524-535. *)
Definition esp_conn_close (conn : ptr) (blocking : Z) :=
  ESP_ASSERT (negb (conn =? NULL))
    (api_call (with_def ESP_CMD_TCPIP_CIPCLOSE (msg_conn_close conn))
              blocking).

(** [esp_conn_send], esp.c lines 546-566.  [data] is the array of the
    [btw] bytes to send, so [data != NULL] is in its type and [btw] is its
    length; the three other guards are tested, and [*bw] is cleared before
    the message is allocated. *)
Definition esp_conn_send (conn : ptr) (data : bytes) (bw : ptr) (blocking : Z) :=
  ESP_ASSERT (negb (conn =? NULL))
    (ESP_ASSERT (zlen data >? 0)
       (ESP_ASSERT (negb (bw =? NULL))
          (fun e =>
             api_call (with_def ESP_CMD_TCPIP_CIPSEND
                         (msg_conn_send conn data (zlen data) bw))
                      blocking (store bw 0 e)))).

Definition esp_get_conns_status (blocking : Z) :=
  api_call (with_def ESP_CMD_TCPIP_CIPSTATUS msg_none) blocking.

(** [esp_init], esp.c lines 126-152.  The five commands are sent without
    blocking and their results are ignored. *)
Definition esp_init (cb : option esp_cb_func_t) (e : esp_t) : outcome :=
  let f := match cb with Some f => f | None => def_callback end in
  let e :=
    {| ll_baudrate := 115200; ll_initialized := true;
       cb_func := f; cb_server := f; sem_sync := Some 1;
       mbox_consumer := esp_sys_mbox_create 20;
       mbox_producer := esp_sys_mbox_create 20;
       threads := ["producer"; "consumer"];
       buff_size := 1024; cb_calls := cb_calls e;
       n_msg_alloc := n_msg_alloc e; n_sem_create := n_sem_create e;
     stores := stores e |} in
  let e := out_state (esp_reset 0 e) in
  let e := out_state (esp_set_wifi_mode ESP_MODE_STA 0 e) in
  let e := out_state (esp_set_mux 1 0 e) in
  let e := out_state (espi_set_dinfo 1 0 e) in
  let e := out_state (esp_get_conns_status 0 e) in
  Returns espOK
    {| ll_baudrate := ll_baudrate e; ll_initialized := ll_initialized e;
       cb_func := cb_func e; cb_server := cb_server e; sem_sync := sem_sync e;
       mbox_consumer := mbox_consumer e; mbox_producer := mbox_producer e;
       threads := threads e; buff_size := buff_size e;
       cb_calls := cb_calls e ++ [(cb_func e, ESP_CB_INIT_FINISH)];
       n_msg_alloc := n_msg_alloc e; n_sem_create := n_sem_create e;
     stores := stores e |}.

(** ** The command API as a whole *)

(** A call of one of the command functions of esp.c, with its arguments
    ([blocking] apart). *)
Inductive api_request : Type :=
| Api_set_dinfo (info : Z)
| Api_reset
| Api_set_wifi_mode (mode : esp_mode_t)
| Api_sta_quit
| Api_sta_join (name : string) (pass : option string) (mac : option bytes)
               (def : Z)
| Api_sta_getip (ip gw nm : ptr) (def : Z)
| Api_sta_setip (ip : bytes) (gw nm : option bytes) (def : Z)
| Api_sta_getmac (mac : ptr) (def : Z)
| Api_sta_setmac (mac : bytes) (def : Z)
| Api_ap_getip (ip gw nm : ptr) (def : Z)
| Api_ap_setip (ip : bytes) (gw nm : option bytes) (def : Z)
| Api_ap_getmac (mac : ptr) (def : Z)
| Api_ap_setmac (mac : bytes) (def : Z)
| Api_ap_list (ssid : option string) (aps : ptr) (apsl : Z) (apf : ptr)
| Api_set_at_baudrate (baud : Z)
| Api_set_mux (mux : Z)
| Api_set_server (port : Z)
| Api_conn_start (conn : ptr) (type : esp_conn_type_t) (host : string)
                 (port : Z) (cb : option esp_cb_func_t)
| Api_conn_close (conn : ptr)
| Api_conn_send (conn : ptr) (data : bytes) (bw : ptr)
| Api_get_conns_status.

Definition call_api (a : api_request) (blocking : Z) : esp_t -> outcome :=
  match a with
  | Api_set_dinfo info => espi_set_dinfo info blocking
  | Api_reset => esp_reset blocking
  | Api_set_wifi_mode mode => esp_set_wifi_mode mode blocking
  | Api_sta_quit => esp_sta_quit blocking
  | Api_sta_join name pass mac def => esp_sta_join name pass mac def blocking
  | Api_sta_getip ip gw nm def => esp_sta_getip ip gw nm def blocking
  | Api_sta_setip ip gw nm def => esp_sta_setip ip gw nm def blocking
  | Api_sta_getmac mac def => esp_sta_getmac mac def blocking
  | Api_sta_setmac mac def => esp_sta_setmac mac def blocking
  | Api_ap_getip ip gw nm def => esp_ap_getip ip gw nm def blocking
  | Api_ap_setip ip gw nm def => esp_ap_setip ip gw nm def blocking
  | Api_ap_getmac mac def => esp_ap_getmac mac def blocking
  | Api_ap_setmac mac def => esp_ap_setmac mac def blocking
  | Api_ap_list ssid aps apsl apf => esp_ap_list ssid aps apsl apf blocking
  | Api_set_at_baudrate baud => esp_set_at_baudrate baud blocking
  | Api_set_mux mux => esp_set_mux mux blocking
  | Api_set_server port => esp_set_server port blocking
  | Api_conn_start conn type host port cb =>
      esp_conn_start conn type host port cb blocking
  | Api_conn_close conn => esp_conn_close conn blocking
  | Api_conn_send conn data bw => esp_conn_send conn data bw blocking
  | Api_get_conns_status => esp_get_conns_status blocking
  end.

End WithEnv.

(** The command each function asks the modem for. *)
Definition api_command (a : api_request) : esp_cmd_t :=
  match a with
  | Api_set_dinfo _ => ESP_CMD_TCPIP_CIPDINFO
  | Api_reset => ESP_CMD_RESET
  | Api_set_wifi_mode _ => ESP_CMD_WIFI_CWMODE
  | Api_sta_quit => ESP_CMD_WIFI_CWQAP
  | Api_sta_join _ _ _ _ => ESP_CMD_WIFI_CWJAP
  | Api_sta_getip _ _ _ _ => ESP_CMD_WIFI_CIPSTA_GET
  | Api_sta_setip _ _ _ _ => ESP_CMD_WIFI_CIPSTA_SET
  | Api_sta_getmac _ _ => ESP_CMD_WIFI_CIPSTAMAC_GET
  | Api_sta_setmac _ _ => ESP_CMD_WIFI_CIPSTAMAC_SET
  | Api_ap_getip _ _ _ _ => ESP_CMD_WIFI_CIPAP_GET
  | Api_ap_setip _ _ _ _ => ESP_CMD_WIFI_CIPAP_SET
  | Api_ap_getmac _ _ => ESP_CMD_WIFI_CIPAPMAC_GET
  | Api_ap_setmac _ _ => ESP_CMD_WIFI_CIPAPMAC_SET
  | Api_ap_list _ _ _ _ => ESP_CMD_WIFI_CWLAP
  | Api_set_at_baudrate _ => ESP_CMD_UART
  | Api_set_mux _ => ESP_CMD_TCPIP_CIPMUX
  | Api_set_server _ => ESP_CMD_TCPIP_CIPSERVER
  | Api_conn_start _ _ _ _ _ => ESP_CMD_TCPIP_CIPSTART
  | Api_conn_close _ => ESP_CMD_TCPIP_CIPCLOSE
  | Api_conn_send _ _ _ => ESP_CMD_TCPIP_CIPSEND
  | Api_get_conns_status => ESP_CMD_TCPIP_CIPSTATUS
  end.

(** The arguments are such as the function asks for: they pass its
    [ESP_ASSERT] guards. *)
Definition api_accepts (a : api_request) : bool :=
  match a with
  | Api_ap_setmac mac _ => negb (Z.testbit (code (hd NUL mac)) 0)
  | Api_conn_close conn => negb (conn =? NULL)
  | Api_conn_send conn data bw =>
      negb (conn =? NULL) && (zlen data >? 0) && negb (bw =? NULL)
  | _ => true
  end.

(** ** Concrete environments *)

(** Every allocation succeeds and the pipeline answers [espOK] after
    [t] ticks. *)
Definition env_answering (t : Z) : sys_env :=
  {| msg_alloc_ok := fun _ => true;
     sem_create_ok := fun _ => true;
     pipeline := fun _ => Some (t, espOK) |}.

(** Every allocation succeeds and the pipeline never answers. *)
Definition env_silent : sys_env :=
  {| msg_alloc_ok := fun _ => true;
     sem_create_ok := fun _ => true;
     pipeline := fun _ => None |}.

(** The stack right after [esp_init]. *)
Definition esp_started (E : sys_env) : esp_t :=
  out_state (esp_init E None esp_zero).

Definition returned (o : outcome) : option espr_t :=
  match o with Returns r _ => Some r | Blocked _ => None end.

(** ** Reading the producer mailbox *)

(** The messages a call has added to the producer mailbox. *)
Definition enqueued (e e' : esp_t) (l : list esp_msg_t) : Prop :=
  mbox_put (mbox_producer e') = mbox_put (mbox_producer e) ++ l.

Definition has_room (e : esp_t) : bool :=
  (mbox_waiting (mbox_producer e) <? mbox_size (mbox_producer e))%nat.

(** The command, the first command and the arguments of a message. *)
Definition summary (m : esp_msg_t) : esp_cmd_t * esp_cmd_t * esp_msg_body :=
  (cmd_def m, cmd m, msg m).

Definition init_commands : list (esp_cmd_t * esp_cmd_t * esp_msg_body) :=
  [ (ESP_CMD_RESET, ESP_CMD_RESET, msg_none);
    (ESP_CMD_WIFI_CWMODE, ESP_CMD_WIFI_CWMODE, msg_wifi_mode ESP_MODE_STA);
    (ESP_CMD_TCPIP_CIPMUX, ESP_CMD_TCPIP_CIPMUX, msg_tcpip_mux 1);
    (ESP_CMD_TCPIP_CIPDINFO, ESP_CMD_TCPIP_CIPDINFO, msg_tcpip_dinfo 1);
    (ESP_CMD_TCPIP_CIPSTATUS, ESP_CMD_TCPIP_CIPSTATUS, msg_none) ].

Definition join_command : esp_cmd_t * esp_cmd_t * esp_msg_body :=
  (ESP_CMD_WIFI_CWJAP, ESP_CMD_WIFI_CWJAP,
   msg_sta_join 1 "ssid" (Some "pw") None).

(** ** The state of a connection *)

(** The two flags of a connection that esp.c reads, [conn->status.f.active]
    and [conn->status.f.client], as the integers C reads from them. *)
Record esp_conn_t : Type := { f_active : Z; f_client : Z }.

(** C's truth: an integer is true when it is not 0, and [&&] and [!] answer
    1 or 0. *)
Definition c_true (x : Z) : bool := negb (x =? 0).
Definition c_int (x : bool) : Z := if x then 1 else 0.

(** [esp_conn_is_client], esp.c lines 588-592, for a [conn] that is not
    NULL (as the three functions below); the result is a [uint8_t]. *)
Definition esp_conn_is_client (conn : esp_conn_t) : Z :=
  c_int (c_true (f_active conn) && c_true (f_client conn)).

(** [esp_conn_is_server], esp.c lines 599-603. *)
Definition esp_conn_is_server (conn : esp_conn_t) : Z :=
  c_int (c_true (f_active conn) && negb (c_true (f_client conn))).

(** [esp_conn_is_active], esp.c lines 610-614. *)
Definition esp_conn_is_active (conn : esp_conn_t) : Z :=
  f_active conn mod 256.

(** [esp_conn_is_closed], esp.c lines 621-625. *)
Definition esp_conn_is_closed (conn : esp_conn_t) : Z :=
  c_int (negb (c_true (f_active conn))).

(** The commands of [esp_init] whose message could be allocated: the
    [i]-th command asks for the allocation number [n + i]. *)
Definition init_commands_allocated (E : sys_env) (n : nat)
  : list (esp_cmd_t * esp_cmd_t * esp_msg_body) :=
  map snd (filter (fun c => msg_alloc_ok E (fst c + n)%nat)
                  (combine (seq 0 5) init_commands)).

End Esp.

(** * The producer thread, from the specification *)

Module Pipeline.

Import Esp.

Definition dec (z : Z) : string :=
  NilZero.string_of_uint (N.to_uint (Z.to_N z)).

Definition DQUOTE : string := String (ascii_of_nat 34) EmptyString.

Definition quoted (s : string) : string :=
  String.append DQUOTE (String.append s DQUOTE).

Definition esp_mode_num (m : esp_mode_t) : Z :=
  match m with ESP_MODE_STA => 1 | ESP_MODE_AP => 2 | ESP_MODE_STA_AP => 3 end.

(** Modelled from the spec: the encoder of AT commands ([espi_initiate_cmd],
    esp_int.c) is not among the sources.  Commands are [AT+<NAME>[=<args>]]
    followed by CRLF, numbers in decimal, strings double-quoted, fields
    separated by commas; the texts are those of the specification's
    init-and-join scenario.  A command whose text the specification does
    not give has none here. *)
Definition at_text (c : esp_cmd_t) (body : esp_msg_body) : option string :=
  match c, body with
  | ESP_CMD_RESET, _ => Some (String.append "AT+RST" CRLF_s)
  | ESP_CMD_WIFI_CWMODE, msg_wifi_mode m =>
      Some (String.append "AT+CWMODE_CUR="
              (String.append (dec (esp_mode_num m)) CRLF_s))
  | ESP_CMD_TCPIP_CIPMUX, msg_tcpip_mux v =>
      Some (String.append "AT+CIPMUX=" (String.append (dec v) CRLF_s))
  | ESP_CMD_TCPIP_CIPDINFO, msg_tcpip_dinfo v =>
      Some (String.append "AT+CIPDINFO=" (String.append (dec v) CRLF_s))
  | ESP_CMD_TCPIP_CIPSTATUS, _ => Some (String.append "AT+CIPSTATUS" CRLF_s)
  | ESP_CMD_WIFI_CWJAP, msg_sta_join _ name (Some pass) _ =>
      Some (String.append "AT+CWJAP_CUR="
              (String.append (quoted name)
                 (String.append "," (String.append (quoted pass) CRLF_s))))
  | _, _ => None
  end.

(** Terminal lines of the modem. *)
Inductive terminal : Type :=
| T_OK | T_ERROR | T_FAIL | T_SEND_OK | T_SEND_FAIL.

(** What passes on the serial link: a command unit sent to the modem, and
    the terminal line that resolves it. *)
Inductive wire_event : Type :=
| Tx (c : esp_cmd_t) (text : option string)
| Rx (t : terminal).

(** Modelled from the spec: the producer thread (esp_threads.c) is not
    among the sources.  As the specification has it (4.4), it takes the
    messages in the order they were put, emits the AT text of the message's
    command and waits for the terminal line before anything else is sent.
    The command a message is begun with is [cmd], which
    [send_msg_to_producer_queue] calls the start command.  What the
    producer does after the terminal line for a message whose definitive
    command [cmd_def] is another one is told neither by the sources nor by
    the specification, and is not modelled.  [modem] is the terminal line
    the modem answers a command with. *)
Definition message_units (modem : esp_cmd_t -> terminal) (m : esp_msg_t)
  : list wire_event :=
  [Tx (cmd m) (at_text (cmd m) (msg m)); Rx (modem (cmd m))].

Definition producer (modem : esp_cmd_t -> terminal) (q : list esp_msg_t)
  : list wire_event :=
  flat_map (message_units modem) q.

(** The exchange with the modem the specification gives for [esp_init]
    followed by [esp_sta_join]. *)
Definition init_join_wire : list wire_event :=
  [ Tx ESP_CMD_RESET (Some (String.append "AT+RST" CRLF_s));
    Rx T_OK;
    Tx ESP_CMD_WIFI_CWMODE
      (Some (String.append "AT+CWMODE_CUR=1" CRLF_s));
    Rx T_OK;
    Tx ESP_CMD_TCPIP_CIPMUX (Some (String.append "AT+CIPMUX=1" CRLF_s));
    Rx T_OK;
    Tx ESP_CMD_TCPIP_CIPDINFO
      (Some (String.append "AT+CIPDINFO=1" CRLF_s));
    Rx T_OK;
    Tx ESP_CMD_TCPIP_CIPSTATUS
      (Some (String.append "AT+CIPSTATUS" CRLF_s));
    Rx T_OK;
    Tx ESP_CMD_WIFI_CWJAP
      (Some (String.append "AT+CWJAP_CUR="
               (String.append (quoted "ssid")
                  (String.append ","
                     (String.append (quoted "pw") CRLF_s)))));
    Rx T_OK ].

End Pipeline.

(** * Packet buffer chains, from the specification *)

Module Pbuf.

(** Modelled from the spec: the packet buffer module (esp_pbuf.c) is not
    among the sources.  A chain is the list of its nodes' payloads; the
    NULL chain is [None] where a pointer may be NULL.  As the specification
    states them, [get_at] and [strfind] read the linearised chain. *)
Abbreviation esp_pbuf_p := (list bytes).

Definition linearise (c : esp_pbuf_p) : bytes := List.concat c.

(** Modelled from the spec: [length(chain, whole)] is the head node's
    length or the sum over the chain. *)
Definition esp_pbuf_length (c : esp_pbuf_p) (tot : bool) : Z :=
  if tot then zlen (linearise c)
  else match c with [] => 0 | n :: _ => zlen n end.

(** Modelled from the spec: [concat(a, b)] links [b] to the tail of [a]. *)
Definition esp_pbuf_cat (a c : esp_pbuf_p) : esp_pbuf_p := a ++ c.

(** Modelled from the spec: [get_at(chain, index)] returns the byte or
    fails. *)
Definition esp_pbuf_get_at (c : esp_pbuf_p) (pos : Z) : option ascii :=
  if pos <? 0 then None else nth_error (linearise c) (Z.to_nat pos).

Fixpoint starts_with (needle l : bytes) : bool :=
  match needle, l with
  | [], _ => true
  | x :: needle', y :: l' => Ascii.eqb x y && starts_with needle' l'
  | _ :: _, [] => false
  end.

(** First position, counted from [i], at which [needle] matches in [l]. *)
Fixpoint find_from (needle l : bytes) (i : Z) : option Z :=
  match l with
  | [] => None
  | _ :: l' =>
      if starts_with needle l then Some i else find_from needle l' (i + 1)
  end.

(** Modelled from the spec: [strfind(chain, needle, from)] is the first
    index not below [from] where [needle] matches across node boundaries;
    [None] stands for the not-found sentinel [ESP_SIZET_MAX]. *)
Definition esp_pbuf_strfind (c : esp_pbuf_p) (needle : bytes) (off : Z)
  : option Z :=
  find_from needle (skipn (Z.to_nat off) (linearise c)) off.

(** Modelled from the spec: [esp_pbuf_strcmp(chain, str, offset)], as the
    server uses it, is 0 exactly when the chain holds [str] at [offset]. *)
Definition esp_pbuf_strcmp (c : esp_pbuf_p) (s : bytes) (off : Z) : Z :=
  if starts_with s (skipn (Z.to_nat off) (linearise c)) then 0 else 1.

(** Modelled from the spec: [copy(chain, dst, n, from)] linearises [n]
    bytes starting at [from]. *)
Definition esp_pbuf_copy (c : esp_pbuf_p) (n off : Z) : bytes :=
  firstn (Z.to_nat n) (skipn (Z.to_nat off) (linearise c)).

(** Modelled from the spec: [skip(chain, n, &offset)] returns the node
    holding byte [n] and the offset within it.  The nodes passed over are
    returned too, so that a caller can put the chain together again. *)
Fixpoint esp_pbuf_skip (c : esp_pbuf_p) (off : Z)
  : option (esp_pbuf_p * esp_pbuf_p * Z) :=
  match c with
  | [] => None
  | n :: c' =>
      if off <? zlen n then Some ([], c, off)
      else match esp_pbuf_skip c' (off - zlen n) with
           | Some (pre, rest, o) => Some (n :: pre, rest, o)
           | None => None
           end
  end.

(** Modelled from the spec: [advance(chain, n)] shifts the head pointer
    forward by [n] within the first node. *)
Definition esp_pbuf_advance (c : esp_pbuf_p) (n : Z) : esp_pbuf_p :=
  match c with
  | [] => []
  | h :: c' => skipn (Z.to_nat n) h :: c'
  end.

End Pbuf.

(** * The HTTP server: esp_http_server.c *)

Module Http.

Import Pbuf.

Inductive http_req_method_t : Type :=
| HTTP_METHOD_GET | HTTP_METHOD_POST | HTTP_METHOD_NOTALLOWED.

Definition method_eqb (x y : http_req_method_t) : bool :=
  match x, y with
  | HTTP_METHOD_GET, HTTP_METHOD_GET | HTTP_METHOD_POST, HTTP_METHOD_POST
  | HTTP_METHOD_NOTALLOWED, HTTP_METHOD_NOTALLOWED => true
  | _, _ => false
  end.

Inductive http_ssi_state_t : Type :=
| HTTP_SSI_STATE_WAIT_BEGIN
| HTTP_SSI_STATE_BEGIN
| HTTP_SSI_STATE_TAG
| HTTP_SSI_STATE_END.

(** An opened file of the file provider: its content, whether it lives in
    read-only memory, and the read position. *)
Record http_fs_file_t : Type := {
  data : bytes;
  is_static : bool;
  fptr : Z
}.

(** [memset(&hs->resp_file, 0, ...)]. *)
Definition file_zero : http_fs_file_t :=
  {| data := []; is_static := false; fptr := 0 |}.

Record http_param_t : Type := {
  name : string;
  value : option string
}.

Record http_cgi_t : Type := {
  uri : string;
  fn : list http_param_t -> string
}.

(** The user's initialisation structure.  The POST callbacks only leave a
    mark in the trace, so all that matters is whether they are set.
    [ssi_fn] is given the tag name and answers with the data of its calls
    to [esp_http_server_write], in order. *)
Record http_init_t : Type := {
  cgi : option (list http_cgi_t);
  post_start_fn : bool;
  post_data_fn : bool;
  post_end_fn : bool;
  ssi_fn : option (bytes -> list bytes)
}.

(** Compile-time configuration (esp_config.h and the server's header, not
    among the sources). *)
Record http_cfg : Type := {
  HTTP_SUPPORT_POST : bool;
  HTTP_USE_METHOD_NOTALLOWED_RESP : bool;
  HTTP_MAX_URI_LEN : Z;
  HTTP_MAX_PARAMS : nat;
  HTTP_SSI_TAG_START : bytes;
  HTTP_SSI_TAG_END : bytes;
  HTTP_SSI_TAG_MAX_LEN : Z;
  ESP_CFG_CONN_MAX_DATA_LEN : Z
}.

(** What the server does to the outside, in order: calls into the
    connection manager (with the transmit credit [esp_conn_write] reports
    back) and calls of the user's callbacks. *)
Inductive event : Type :=
| EvConnWrite (by_user : bool) (d : bytes) (flush : bool) (credit : Z)
| EvConnSend (d : bytes) (r : Esp.espr_t)
| EvConnClose
| EvConnRecved
| EvPostStart (u : string) (len : Z)
| EvPostData (c : esp_pbuf_p)
| EvPostEnd
| EvSsi (tag : bytes) (len : Z).

(** The environment's answers. *)
Record http_env : Type := {
  fs : string -> option (bytes * bool);
  mem_alloc : Z -> bool;
  state_alloc : bool;
  conn_credit : list event -> Z;
  ch_indet : ascii
}.

(** The globals [http_uri] and [http_params], and the trace. *)
Record world : Type := {
  trace : list event;
  http_uri : bytes;
  http_params : list http_param_t
}.

Definition set_trace v (w : world) : world :=
  {| trace := v; http_uri := http_uri w; http_params := http_params w |}.
Definition set_http_uri v (w : world) : world :=
  {| trace := trace w; http_uri := v; http_params := http_params w |}.
Definition set_http_params v (w : world) : world :=
  {| trace := trace w; http_uri := http_uri w; http_params := v |}.

Definition emit (e : event) (w : world) : world :=
  set_trace (trace w ++ [e]) w.

Record http_state_t : Type := {
  conn : nat;
  p : option esp_pbuf_p;
  headers_received : bool;
  req_method : http_req_method_t;
  content_length : Z;
  content_received : Z;
  process_resp : bool;
  resp_file : http_fs_file_t;
  resp_file_opened : bool;
  buff : option bytes;
  buff_len : Z;
  buff_ptr : Z;
  conn_mem_available : Z;
  written_total : Z;
  sent_total : Z;
  is_ssi : bool;
  ssi_state : http_ssi_state_t;
  ssi_tag_buff : bytes;
  ssi_tag_buff_ptr : Z;
  ssi_tag_len : Z;
  ssi_tag_buff_written : Z
}.

Definition set_conn (v : nat) (hs : http_state_t) : http_state_t :=
  {| conn := v; p := p hs; headers_received := headers_received hs;
     req_method := req_method hs; content_length := content_length hs;
     content_received := content_received hs; process_resp := process_resp
     hs; resp_file := resp_file hs; resp_file_opened := resp_file_opened hs;
     buff := buff hs; buff_len := buff_len hs; buff_ptr := buff_ptr hs;
     conn_mem_available := conn_mem_available hs; written_total :=
     written_total hs; sent_total := sent_total hs; is_ssi := is_ssi hs;
     ssi_state := ssi_state hs; ssi_tag_buff := ssi_tag_buff hs;
     ssi_tag_buff_ptr := ssi_tag_buff_ptr hs; ssi_tag_len := ssi_tag_len hs;
     ssi_tag_buff_written := ssi_tag_buff_written hs |}.
Definition set_p (v : option esp_pbuf_p) (hs : http_state_t) : http_state_t :=
  {| conn := conn hs; p := v; headers_received := headers_received hs;
     req_method := req_method hs; content_length := content_length hs;
     content_received := content_received hs; process_resp := process_resp
     hs; resp_file := resp_file hs; resp_file_opened := resp_file_opened hs;
     buff := buff hs; buff_len := buff_len hs; buff_ptr := buff_ptr hs;
     conn_mem_available := conn_mem_available hs; written_total :=
     written_total hs; sent_total := sent_total hs; is_ssi := is_ssi hs;
     ssi_state := ssi_state hs; ssi_tag_buff := ssi_tag_buff hs;
     ssi_tag_buff_ptr := ssi_tag_buff_ptr hs; ssi_tag_len := ssi_tag_len hs;
     ssi_tag_buff_written := ssi_tag_buff_written hs |}.
Definition set_headers_received (v : bool) (hs : http_state_t) : http_state_t :=
  {| conn := conn hs; p := p hs; headers_received := v; req_method :=
     req_method hs; content_length := content_length hs; content_received :=
     content_received hs; process_resp := process_resp hs; resp_file :=
     resp_file hs; resp_file_opened := resp_file_opened hs; buff := buff hs;
     buff_len := buff_len hs; buff_ptr := buff_ptr hs; conn_mem_available :=
     conn_mem_available hs; written_total := written_total hs; sent_total :=
     sent_total hs; is_ssi := is_ssi hs; ssi_state := ssi_state hs;
     ssi_tag_buff := ssi_tag_buff hs; ssi_tag_buff_ptr := ssi_tag_buff_ptr
     hs; ssi_tag_len := ssi_tag_len hs; ssi_tag_buff_written :=
     ssi_tag_buff_written hs |}.
Definition set_req_method (v : http_req_method_t) (hs : http_state_t) : http_state_t :=
  {| conn := conn hs; p := p hs; headers_received := headers_received hs;
     req_method := v; content_length := content_length hs; content_received
     := content_received hs; process_resp := process_resp hs; resp_file :=
     resp_file hs; resp_file_opened := resp_file_opened hs; buff := buff hs;
     buff_len := buff_len hs; buff_ptr := buff_ptr hs; conn_mem_available :=
     conn_mem_available hs; written_total := written_total hs; sent_total :=
     sent_total hs; is_ssi := is_ssi hs; ssi_state := ssi_state hs;
     ssi_tag_buff := ssi_tag_buff hs; ssi_tag_buff_ptr := ssi_tag_buff_ptr
     hs; ssi_tag_len := ssi_tag_len hs; ssi_tag_buff_written :=
     ssi_tag_buff_written hs |}.
Definition set_content_length (v : Z) (hs : http_state_t) : http_state_t :=
  {| conn := conn hs; p := p hs; headers_received := headers_received hs;
     req_method := req_method hs; content_length := v; content_received :=
     content_received hs; process_resp := process_resp hs; resp_file :=
     resp_file hs; resp_file_opened := resp_file_opened hs; buff := buff hs;
     buff_len := buff_len hs; buff_ptr := buff_ptr hs; conn_mem_available :=
     conn_mem_available hs; written_total := written_total hs; sent_total :=
     sent_total hs; is_ssi := is_ssi hs; ssi_state := ssi_state hs;
     ssi_tag_buff := ssi_tag_buff hs; ssi_tag_buff_ptr := ssi_tag_buff_ptr
     hs; ssi_tag_len := ssi_tag_len hs; ssi_tag_buff_written :=
     ssi_tag_buff_written hs |}.
Definition set_content_received (v : Z) (hs : http_state_t) : http_state_t :=
  {| conn := conn hs; p := p hs; headers_received := headers_received hs;
     req_method := req_method hs; content_length := content_length hs;
     content_received := v; process_resp := process_resp hs; resp_file :=
     resp_file hs; resp_file_opened := resp_file_opened hs; buff := buff hs;
     buff_len := buff_len hs; buff_ptr := buff_ptr hs; conn_mem_available :=
     conn_mem_available hs; written_total := written_total hs; sent_total :=
     sent_total hs; is_ssi := is_ssi hs; ssi_state := ssi_state hs;
     ssi_tag_buff := ssi_tag_buff hs; ssi_tag_buff_ptr := ssi_tag_buff_ptr
     hs; ssi_tag_len := ssi_tag_len hs; ssi_tag_buff_written :=
     ssi_tag_buff_written hs |}.
Definition set_process_resp (v : bool) (hs : http_state_t) : http_state_t :=
  {| conn := conn hs; p := p hs; headers_received := headers_received hs;
     req_method := req_method hs; content_length := content_length hs;
     content_received := content_received hs; process_resp := v; resp_file :=
     resp_file hs; resp_file_opened := resp_file_opened hs; buff := buff hs;
     buff_len := buff_len hs; buff_ptr := buff_ptr hs; conn_mem_available :=
     conn_mem_available hs; written_total := written_total hs; sent_total :=
     sent_total hs; is_ssi := is_ssi hs; ssi_state := ssi_state hs;
     ssi_tag_buff := ssi_tag_buff hs; ssi_tag_buff_ptr := ssi_tag_buff_ptr
     hs; ssi_tag_len := ssi_tag_len hs; ssi_tag_buff_written :=
     ssi_tag_buff_written hs |}.
Definition set_resp_file (v : http_fs_file_t) (hs : http_state_t) : http_state_t :=
  {| conn := conn hs; p := p hs; headers_received := headers_received hs;
     req_method := req_method hs; content_length := content_length hs;
     content_received := content_received hs; process_resp := process_resp
     hs; resp_file := v; resp_file_opened := resp_file_opened hs; buff :=
     buff hs; buff_len := buff_len hs; buff_ptr := buff_ptr hs;
     conn_mem_available := conn_mem_available hs; written_total :=
     written_total hs; sent_total := sent_total hs; is_ssi := is_ssi hs;
     ssi_state := ssi_state hs; ssi_tag_buff := ssi_tag_buff hs;
     ssi_tag_buff_ptr := ssi_tag_buff_ptr hs; ssi_tag_len := ssi_tag_len hs;
     ssi_tag_buff_written := ssi_tag_buff_written hs |}.
Definition set_resp_file_opened (v : bool) (hs : http_state_t) : http_state_t :=
  {| conn := conn hs; p := p hs; headers_received := headers_received hs;
     req_method := req_method hs; content_length := content_length hs;
     content_received := content_received hs; process_resp := process_resp
     hs; resp_file := resp_file hs; resp_file_opened := v; buff := buff hs;
     buff_len := buff_len hs; buff_ptr := buff_ptr hs; conn_mem_available :=
     conn_mem_available hs; written_total := written_total hs; sent_total :=
     sent_total hs; is_ssi := is_ssi hs; ssi_state := ssi_state hs;
     ssi_tag_buff := ssi_tag_buff hs; ssi_tag_buff_ptr := ssi_tag_buff_ptr
     hs; ssi_tag_len := ssi_tag_len hs; ssi_tag_buff_written :=
     ssi_tag_buff_written hs |}.
Definition set_buff (v : option bytes) (hs : http_state_t) : http_state_t :=
  {| conn := conn hs; p := p hs; headers_received := headers_received hs;
     req_method := req_method hs; content_length := content_length hs;
     content_received := content_received hs; process_resp := process_resp
     hs; resp_file := resp_file hs; resp_file_opened := resp_file_opened hs;
     buff := v; buff_len := buff_len hs; buff_ptr := buff_ptr hs;
     conn_mem_available := conn_mem_available hs; written_total :=
     written_total hs; sent_total := sent_total hs; is_ssi := is_ssi hs;
     ssi_state := ssi_state hs; ssi_tag_buff := ssi_tag_buff hs;
     ssi_tag_buff_ptr := ssi_tag_buff_ptr hs; ssi_tag_len := ssi_tag_len hs;
     ssi_tag_buff_written := ssi_tag_buff_written hs |}.
Definition set_buff_len (v : Z) (hs : http_state_t) : http_state_t :=
  {| conn := conn hs; p := p hs; headers_received := headers_received hs;
     req_method := req_method hs; content_length := content_length hs;
     content_received := content_received hs; process_resp := process_resp
     hs; resp_file := resp_file hs; resp_file_opened := resp_file_opened hs;
     buff := buff hs; buff_len := v; buff_ptr := buff_ptr hs;
     conn_mem_available := conn_mem_available hs; written_total :=
     written_total hs; sent_total := sent_total hs; is_ssi := is_ssi hs;
     ssi_state := ssi_state hs; ssi_tag_buff := ssi_tag_buff hs;
     ssi_tag_buff_ptr := ssi_tag_buff_ptr hs; ssi_tag_len := ssi_tag_len hs;
     ssi_tag_buff_written := ssi_tag_buff_written hs |}.
Definition set_buff_ptr (v : Z) (hs : http_state_t) : http_state_t :=
  {| conn := conn hs; p := p hs; headers_received := headers_received hs;
     req_method := req_method hs; content_length := content_length hs;
     content_received := content_received hs; process_resp := process_resp
     hs; resp_file := resp_file hs; resp_file_opened := resp_file_opened hs;
     buff := buff hs; buff_len := buff_len hs; buff_ptr := v;
     conn_mem_available := conn_mem_available hs; written_total :=
     written_total hs; sent_total := sent_total hs; is_ssi := is_ssi hs;
     ssi_state := ssi_state hs; ssi_tag_buff := ssi_tag_buff hs;
     ssi_tag_buff_ptr := ssi_tag_buff_ptr hs; ssi_tag_len := ssi_tag_len hs;
     ssi_tag_buff_written := ssi_tag_buff_written hs |}.
Definition set_conn_mem_available (v : Z) (hs : http_state_t) : http_state_t :=
  {| conn := conn hs; p := p hs; headers_received := headers_received hs;
     req_method := req_method hs; content_length := content_length hs;
     content_received := content_received hs; process_resp := process_resp
     hs; resp_file := resp_file hs; resp_file_opened := resp_file_opened hs;
     buff := buff hs; buff_len := buff_len hs; buff_ptr := buff_ptr hs;
     conn_mem_available := v; written_total := written_total hs; sent_total
     := sent_total hs; is_ssi := is_ssi hs; ssi_state := ssi_state hs;
     ssi_tag_buff := ssi_tag_buff hs; ssi_tag_buff_ptr := ssi_tag_buff_ptr
     hs; ssi_tag_len := ssi_tag_len hs; ssi_tag_buff_written :=
     ssi_tag_buff_written hs |}.
Definition set_written_total (v : Z) (hs : http_state_t) : http_state_t :=
  {| conn := conn hs; p := p hs; headers_received := headers_received hs;
     req_method := req_method hs; content_length := content_length hs;
     content_received := content_received hs; process_resp := process_resp
     hs; resp_file := resp_file hs; resp_file_opened := resp_file_opened hs;
     buff := buff hs; buff_len := buff_len hs; buff_ptr := buff_ptr hs;
     conn_mem_available := conn_mem_available hs; written_total := v;
     sent_total := sent_total hs; is_ssi := is_ssi hs; ssi_state := ssi_state
     hs; ssi_tag_buff := ssi_tag_buff hs; ssi_tag_buff_ptr :=
     ssi_tag_buff_ptr hs; ssi_tag_len := ssi_tag_len hs; ssi_tag_buff_written
     := ssi_tag_buff_written hs |}.
Definition set_sent_total (v : Z) (hs : http_state_t) : http_state_t :=
  {| conn := conn hs; p := p hs; headers_received := headers_received hs;
     req_method := req_method hs; content_length := content_length hs;
     content_received := content_received hs; process_resp := process_resp
     hs; resp_file := resp_file hs; resp_file_opened := resp_file_opened hs;
     buff := buff hs; buff_len := buff_len hs; buff_ptr := buff_ptr hs;
     conn_mem_available := conn_mem_available hs; written_total :=
     written_total hs; sent_total := v; is_ssi := is_ssi hs; ssi_state :=
     ssi_state hs; ssi_tag_buff := ssi_tag_buff hs; ssi_tag_buff_ptr :=
     ssi_tag_buff_ptr hs; ssi_tag_len := ssi_tag_len hs; ssi_tag_buff_written
     := ssi_tag_buff_written hs |}.
Definition set_is_ssi (v : bool) (hs : http_state_t) : http_state_t :=
  {| conn := conn hs; p := p hs; headers_received := headers_received hs;
     req_method := req_method hs; content_length := content_length hs;
     content_received := content_received hs; process_resp := process_resp
     hs; resp_file := resp_file hs; resp_file_opened := resp_file_opened hs;
     buff := buff hs; buff_len := buff_len hs; buff_ptr := buff_ptr hs;
     conn_mem_available := conn_mem_available hs; written_total :=
     written_total hs; sent_total := sent_total hs; is_ssi := v; ssi_state :=
     ssi_state hs; ssi_tag_buff := ssi_tag_buff hs; ssi_tag_buff_ptr :=
     ssi_tag_buff_ptr hs; ssi_tag_len := ssi_tag_len hs; ssi_tag_buff_written
     := ssi_tag_buff_written hs |}.
Definition set_ssi_state (v : http_ssi_state_t) (hs : http_state_t) : http_state_t :=
  {| conn := conn hs; p := p hs; headers_received := headers_received hs;
     req_method := req_method hs; content_length := content_length hs;
     content_received := content_received hs; process_resp := process_resp
     hs; resp_file := resp_file hs; resp_file_opened := resp_file_opened hs;
     buff := buff hs; buff_len := buff_len hs; buff_ptr := buff_ptr hs;
     conn_mem_available := conn_mem_available hs; written_total :=
     written_total hs; sent_total := sent_total hs; is_ssi := is_ssi hs;
     ssi_state := v; ssi_tag_buff := ssi_tag_buff hs; ssi_tag_buff_ptr :=
     ssi_tag_buff_ptr hs; ssi_tag_len := ssi_tag_len hs; ssi_tag_buff_written
     := ssi_tag_buff_written hs |}.
Definition set_ssi_tag_buff (v : bytes) (hs : http_state_t) : http_state_t :=
  {| conn := conn hs; p := p hs; headers_received := headers_received hs;
     req_method := req_method hs; content_length := content_length hs;
     content_received := content_received hs; process_resp := process_resp
     hs; resp_file := resp_file hs; resp_file_opened := resp_file_opened hs;
     buff := buff hs; buff_len := buff_len hs; buff_ptr := buff_ptr hs;
     conn_mem_available := conn_mem_available hs; written_total :=
     written_total hs; sent_total := sent_total hs; is_ssi := is_ssi hs;
     ssi_state := ssi_state hs; ssi_tag_buff := v; ssi_tag_buff_ptr :=
     ssi_tag_buff_ptr hs; ssi_tag_len := ssi_tag_len hs; ssi_tag_buff_written
     := ssi_tag_buff_written hs |}.
Definition set_ssi_tag_buff_ptr (v : Z) (hs : http_state_t) : http_state_t :=
  {| conn := conn hs; p := p hs; headers_received := headers_received hs;
     req_method := req_method hs; content_length := content_length hs;
     content_received := content_received hs; process_resp := process_resp
     hs; resp_file := resp_file hs; resp_file_opened := resp_file_opened hs;
     buff := buff hs; buff_len := buff_len hs; buff_ptr := buff_ptr hs;
     conn_mem_available := conn_mem_available hs; written_total :=
     written_total hs; sent_total := sent_total hs; is_ssi := is_ssi hs;
     ssi_state := ssi_state hs; ssi_tag_buff := ssi_tag_buff hs;
     ssi_tag_buff_ptr := v; ssi_tag_len := ssi_tag_len hs;
     ssi_tag_buff_written := ssi_tag_buff_written hs |}.
Definition set_ssi_tag_len (v : Z) (hs : http_state_t) : http_state_t :=
  {| conn := conn hs; p := p hs; headers_received := headers_received hs;
     req_method := req_method hs; content_length := content_length hs;
     content_received := content_received hs; process_resp := process_resp
     hs; resp_file := resp_file hs; resp_file_opened := resp_file_opened hs;
     buff := buff hs; buff_len := buff_len hs; buff_ptr := buff_ptr hs;
     conn_mem_available := conn_mem_available hs; written_total :=
     written_total hs; sent_total := sent_total hs; is_ssi := is_ssi hs;
     ssi_state := ssi_state hs; ssi_tag_buff := ssi_tag_buff hs;
     ssi_tag_buff_ptr := ssi_tag_buff_ptr hs; ssi_tag_len := v;
     ssi_tag_buff_written := ssi_tag_buff_written hs |}.
Definition set_ssi_tag_buff_written (v : Z) (hs : http_state_t) : http_state_t :=
  {| conn := conn hs; p := p hs; headers_received := headers_received hs;
     req_method := req_method hs; content_length := content_length hs;
     content_received := content_received hs; process_resp := process_resp
     hs; resp_file := resp_file hs; resp_file_opened := resp_file_opened hs;
     buff := buff hs; buff_len := buff_len hs; buff_ptr := buff_ptr hs;
     conn_mem_available := conn_mem_available hs; written_total :=
     written_total hs; sent_total := sent_total hs; is_ssi := is_ssi hs;
     ssi_state := ssi_state hs; ssi_tag_buff := ssi_tag_buff hs;
     ssi_tag_buff_ptr := ssi_tag_buff_ptr hs; ssi_tag_len := ssi_tag_len hs;
     ssi_tag_buff_written := v |}.

Section WithServer.

Variable cfg : http_cfg.
Variable env : http_env.
(** The static [hi]: [None] before [esp_http_server_init] has set it. *)
Variable hi : option http_init_t.

Definition HTTP_SSI_TAG_START_LEN : Z := zlen (HTTP_SSI_TAG_START cfg).
Definition HTTP_SSI_TAG_END_LEN : Z := zlen (HTTP_SSI_TAG_END cfg).

(** The tag buffer holds a whole tag and the NUL that ends its name. *)
Definition ssi_tag_buff_size : nat :=
  Z.to_nat (HTTP_SSI_TAG_START_LEN + HTTP_SSI_TAG_MAX_LEN cfg
            + HTTP_SSI_TAG_END_LEN + 1).

(** The state [esp_mem_calloc] returns: every field zero. *)
Definition hs_zero : http_state_t :=
  {| conn := 0%nat; p := None; headers_received := false;
     req_method := HTTP_METHOD_GET; content_length := 0;
     content_received := 0; process_resp := false;
     resp_file := file_zero; resp_file_opened := false;
     buff := None; buff_len := 0; buff_ptr := 0;
     conn_mem_available := 0; written_total := 0; sent_total := 0;
     is_ssi := false; ssi_state := HTTP_SSI_STATE_WAIT_BEGIN;
     ssi_tag_buff := repeat NUL ssi_tag_buff_size;
     ssi_tag_buff_ptr := 0; ssi_tag_len := 0; ssi_tag_buff_written := 0 |}.

(** [http_data_method_not_allowed], lines 57-69. *)
Definition http_data_method_not_allowed : bytes :=
  b "HTTP/1.1 405 Method Not Allowed" ++ CRLF
  ++ b "Connection: close" ++ CRLF
  ++ b "Allow: GET"
  ++ (if HTTP_SUPPORT_POST cfg then b ", POST" else [])
  ++ CRLF ++ CRLF.

(** [http_index_filenames], lines 74-81.  The initialiser has no comma
    after its second string, so the C compiler joins it with the third:
    the array has four entries. *)
Definition http_index_filenames : list string :=
  [ "/index.shtml";
    String.append "/index.shtm" "/index.ssi";
    "/index.html";
    "/index.htm" ].

Definition http_ssi_suffixes : list string := [ ".shtml"; ".shtm"; ".ssi" ].

Definition http_404_uris : list string :=
  [ "/404.shtml"; "/404.shtm"; "/404.ssi"; "/404.html"; "/404.htm" ].

Definition tolower (c : ascii) : Z :=
  let n := code c in if (65 <=? n) && (n <=? 90) then n + 32 else n.

(** [strcmpi], lines 111-120; the end of a string reads as NUL. *)
Fixpoint strcmpi (x y : string) : Z :=
  match x, y with
  | EmptyString, EmptyString => 0
  | EmptyString, String d _ => 0 - tolower d
  | String c _, EmptyString => tolower c
  | String c x', String d y' =>
      let df := tolower c - tolower d in
      if df =? 0 then strcmpi x' y' else df
  end.

(** [http_parse_uri], lines 127-156. *)
Definition http_parse_uri (c : esp_pbuf_p) (w : world) : Esp.espr_t * world :=
  match esp_pbuf_strfind c (b " ") 0 with
  | None => (Esp.espERR, w)
  | Some pos_s =>
      if negb (pos_s =? 3) && negb (pos_s =? 4) then (Esp.espERR, w)
      else
        match esp_pbuf_strfind c CRLF 0 with
        | None => (Esp.espERR, w)
        | Some pos_crlf =>
            let pos_e :=
              match esp_pbuf_strfind c (b " ") (pos_s + 1) with
              | Some e => e
              | None => pos_crlf
              end in
            let uri_len := sz_sub (sz_sub pos_e pos_s) 1 in
            if uri_len >? HTTP_MAX_URI_LEN cfg then (Esp.espERR, w)
            else
              (Esp.espOK,
               set_http_uri (esp_pbuf_copy c uri_len (pos_s + 1) ++ [NUL]) w)
        end
  end.

(** [strchr(s, c)] followed by writing NUL over the character found: the
    string before it, and the string after it if there is one. *)
Fixpoint cut_at (c : ascii) (s : string) : string * option string :=
  match s with
  | EmptyString => (EmptyString, None)
  | String x s' =>
      if Ascii.eqb x c then (EmptyString, Some s')
      else let (a, r) := cut_at c s' in (String x a, r)
  end.

(** [http_get_params], lines 163-191: the loop runs while there are
    parameters left and fewer than [HTTP_MAX_PARAMS] were taken. *)
Fixpoint http_get_params_loop (n : nat) (params : option string)
  : list http_param_t :=
  match n, params with
  | S n', Some s =>
      let (seg, rest) := cut_at "&" s in
      let (nm, v) := cut_at "=" seg in
      {| name := nm; value := v |} :: http_get_params_loop n' rest
  | _, _ => []
  end.

Definition http_get_params (params : option string) : list http_param_t :=
  http_get_params_loop (HTTP_MAX_PARAMS cfg) params.

(** Modelled from the spec: the file provider (esp_http_server_fs.c) is not
    among the sources.  [open(init, &file, path)] says whether the file
    was opened; the files it knows are those of [fs env]. *)
Definition http_fs_data_open_file (path : string) : option http_fs_file_t :=
  match fs env path with
  | Some (d, st) => Some {| data := d; is_static := st; fptr := 0 |}
  | None => None
  end.

(** Modelled from the spec: [read] without a buffer answers how many bytes
    are left in the file. *)
Definition http_fs_data_read_file_left (f : http_fs_file_t) : Z :=
  sz (zlen (data f) - fptr f).

(** Modelled from the spec: [read] with a buffer hands over at most [btr]
    bytes from the read position (a pointer into the file when it is
    static, a copy otherwise), moves the position and returns their
    number. *)
Definition http_fs_data_read_file (f : http_fs_file_t) (btr : Z)
  : Z * bytes * http_fs_file_t :=
  let n := Z.min btr (http_fs_data_read_file_left f) in
  (n,
   firstn (Z.to_nat n) (skipn (Z.to_nat (fptr f)) (data f)),
   {| data := data f; is_static := is_static f; fptr := fptr f + n |}).

Fixpoint sdrop (n : nat) (s : string) : string :=
  match n, s with
  | S n', String _ s' => sdrop n' s'
  | _, _ => s
  end.

(** The loop over [http_index_filenames], lines 212-218. *)
Fixpoint index_loop (names : list string) (hs : http_state_t) (u : string)
  : http_state_t * string :=
  match names with
  | [] => (hs, u)
  | n :: rest =>
      match http_fs_data_open_file n with
      | Some f => (set_resp_file_opened true (set_resp_file f hs), n)
      | None => index_loop rest (set_resp_file_opened false hs) u
      end
  end.

(** The loop over the registered CGI handlers, lines 237-242. *)
Fixpoint cgi_loop (l : list http_cgi_t) (u : string)
    (params : list http_param_t) : string :=
  match l with
  | [] => u
  | c :: rest =>
      if String.eqb (uri c) u then fn c params else cgi_loop rest u params
  end.

(** The loop over [http_404_uris], lines 253-259. *)
Fixpoint loop_404 (names : list string) (hs : http_state_t) (u : string)
  : http_state_t * string :=
  match names with
  | [] => (hs, u)
  | n :: rest =>
      match http_fs_data_open_file n with
      | Some f => (set_resp_file_opened true (set_resp_file f hs), n)
      | None => loop_404 rest (set_resp_file_opened false hs) n
      end
  end.

(** The loop over [http_ssi_suffixes], lines 271-279. *)
Fixpoint suffix_loop (sufs : list string) (u : string) : bool :=
  match sufs with
  | [] => false
  | suffix :: rest =>
      let uri_len := String.length u in
      let suffix_len := String.length suffix in
      if (suffix_len <? uri_len)%nat
         && (strcmpi suffix (sdrop (uri_len - suffix_len) u) =? 0)
      then true
      else suffix_loop rest u
  end.

Definition is_index_uri (u : string) : bool :=
  match u with
  | String c EmptyString => Ascii.eqb c "/"
  | String c (String d _) => Ascii.eqb c "/" && Ascii.eqb d "?"
  | _ => false
  end.

(** [http_get_file_from_uri], lines 199-283.  [u] is the C string the
    caller passes, which is the global [http_uri]; cutting it at ['?']
    shortens that global too. *)
Definition http_get_file_from_uri (hs : http_state_t) (u : string) (w : world)
  : http_state_t * world :=
  let hs := set_resp_file file_zero hs in
  let '(hs, u) :=
    if is_index_uri u then index_loop http_index_filenames hs u
    else (hs, u) in
  let '(hs, u, w) :=
    if negb (resp_file_opened hs) then
      let (path, req_params) := cut_at "?" u in
      let w := match req_params with
               | Some _ => set_http_uri (b path ++ [NUL]) w
               | None => w
               end in
      let params := http_get_params req_params in
      let w := set_http_params
                 (params ++ skipn (List.length params) (http_params w)) w in
      let u :=
        match hi with
        | Some h =>
            match cgi h with
            | Some l => cgi_loop l path params
            | None => path
            end
        | None => path
        end in
      match http_fs_data_open_file u with
      | Some f => (set_resp_file_opened true (set_resp_file f hs), u, w)
      | None => (set_resp_file_opened false hs, u, w)
      end
    else (hs, u, w) in
  let '(hs, u) :=
    if negb (resp_file_opened hs) then loop_404 http_404_uris hs u
    else (hs, u) in
  let hs := set_is_ssi false hs in
  let hs :=
    if resp_file_opened hs then set_is_ssi (suffix_loop http_ssi_suffixes u) hs
    else hs in
  (hs, w).

(** [http_post_send_to_user], lines 292-306.  [esp_pbuf_advance] moves the
    payload pointer of a node of the chain it is given, so the chain the
    caller holds changes with it: the chain as it then is comes back next
    to the world. *)
Definition http_post_send_to_user (c : esp_pbuf_p) (offset : Z) (w : world)
  : esp_pbuf_p * world :=
  match hi with
  | None => (c, w)
  | Some h =>
      if negb (post_data_fn h) then (c, w)
      else
        match esp_pbuf_skip c offset with
        | Some (pre, new_pbuf, off) =>
            let new_pbuf := esp_pbuf_advance new_pbuf off in
            (pre ++ new_pbuf, emit (EvPostData new_pbuf) w)
        | None => (c, w)
        end
  end.

(** One round of the [do ... while] loop of [read_resp_file], lines
    352-365, once the allocation succeeded. *)
Definition read_into_buffer (hs : http_state_t) : http_state_t :=
  let '(n, d, f) := http_fs_data_read_file (resp_file hs) (buff_len hs) in
  let hs := set_resp_file f hs in
  if n =? 0 then set_buff None hs else set_buff (Some d) hs.

(** The [do ... while ((len >>= 1) > 64)] loop for a positive [len]:
    halving a positive number drops its last binary digit. *)
Fixpoint alloc_loop (len : positive) (hs : http_state_t) : http_state_t :=
  let hs := set_buff_len (Z.pos len) hs in
  if mem_alloc env (Z.pos len) then read_into_buffer hs
  else
    match len with
    | xH => hs
    | xO half | xI half =>
        if Z.pos half >? 64 then alloc_loop half hs else hs
    end.

(** [read_resp_file], lines 313-371. *)
Definition read_resp_file (hs : http_state_t) : http_state_t :=
  if negb (resp_file_opened hs) then hs
  else
    let hs := set_buff_ptr 0 hs in
    let hs := set_buff None hs in
    let len := http_fs_data_read_file_left (resp_file hs) in
    if len =? 0 then hs
    else if is_static (resp_file hs) then
      let '(n, d, f) := http_fs_data_read_file (resp_file hs) len in
      let hs := set_resp_file f hs in
      let hs := set_buff_len n hs in
      if n =? 0 then set_buff None hs else set_buff (Some d) hs
    else
      let len := if len >? ESP_CFG_CONN_MAX_DATA_LEN cfg
                 then ESP_CFG_CONN_MAX_DATA_LEN cfg else len in
      let hs := set_buff_ptr 0 hs in
      match len with
      | Z.pos l => alloc_loop l hs
      | _ =>
          let hs := set_buff_len len hs in
          if mem_alloc env len then read_into_buffer hs else hs
      end.

(** Modelled from the spec: [esp_conn_write] belongs to the connection
    manager (esp_conn.c), which is not among the sources.  It takes the
    data into the connection's staging buffer (sending it on when the
    buffer is full or [flush] is set) and reports through its last
    argument how much room is left; that number is the environment's. *)
Definition esp_conn_write (by_user : bool) (d : bytes) (flush : bool)
    (s : http_state_t * world) : http_state_t * world :=
  let '(hs, w) := s in
  let credit := sz (conn_credit env (trace w)) in
  (set_conn_mem_available credit hs, emit (EvConnWrite by_user d flush credit) w).

(** [esp_conn_send] as the server calls it, at lines 534 and 580: with
    NULL for [bw] and without blocking.  The function is in esp.c (lines
    546-566, [Esp.esp_conn_send]).  A call with NULL for [bw] does not pass
    its guards, whatever the connection and the data are: it is answered
    by [ESP_ASSERT] before a message is allocated, the stack is left as it
    is and nothing is queued (lemma [conn_send_without_bw] below).  The
    call is recorded with its data and its answer. *)
Definition esp_conn_send (d : bytes) (w : world) : Esp.espr_t * world :=
  let r := Esp.espPARAMERR in (r, emit (EvConnSend d r) w).

(** [esp_conn_close] (esp.c lines 524-535) as the server calls it, without
    blocking.  The server does not look at the answer; the call is
    recorded, and what becomes of the close command in the stack is not
    followed here. *)
Definition esp_conn_close (w : world) : world := emit EvConnClose w.

(** [esp_http_server_write], lines 908-913. *)
Definition esp_http_server_write (d : bytes) (s : http_state_t * world)
  : http_state_t * world :=
  let '(hs, w) := esp_conn_write true d false s in
  (set_written_total (sz_add (written_total hs) (zlen d)) hs, w).

(** The user's [ssi_fn] at work: one [esp_http_server_write] per piece. *)
Definition run_ssi_fn (f : bytes -> list bytes) (tag : bytes)
    (s : http_state_t * world) : http_state_t * world :=
  let '(hs, w) := s in
  fold_left (fun s d => esp_http_server_write d s) (f tag)
            (hs, emit (EvSsi tag (zlen tag)) w).

(** Array access: reading a C string at an index, writing one element. *)
Definition at_index (l : bytes) (i : Z) : ascii :=
  if i <? 0 then NUL else nth (Z.to_nat i) l NUL.

Fixpoint array_set_nat (l : bytes) (i : nat) (v : ascii) : bytes :=
  match l, i with
  | [], _ => []
  | _ :: l', O => v :: l'
  | x :: l', S i' => x :: array_set_nat l' i' v
  end.

Definition array_set (l : bytes) (i : Z) (v : ascii) : bytes :=
  if i <? 0 then l else array_set_nat l (Z.to_nat i) v.

Definition sub_array (l : bytes) (from len : Z) : bytes :=
  firstn (Z.to_nat len) (skipn (Z.to_nat from) l).

(** [hs->ssi_tag_buff[hs->ssi_tag_buff_ptr++] = ch]. *)
Definition tag_push (ch : ascii) (hs : http_state_t) : http_state_t :=
  let hs := set_ssi_tag_buff
              (array_set (ssi_tag_buff hs) (ssi_tag_buff_ptr hs) ch) hs in
  set_ssi_tag_buff_ptr (sz_add (ssi_tag_buff_ptr hs) 1) hs.

(** The [switch] of [send_response_ssi], lines 421-487: the new state and
    the local [reset]. *)
Definition ssi_switch (ch : ascii) (s : http_state_t * world)
  : http_state_t * world * bool :=
  let '(hs, w) := s in
  match ssi_state hs with
  | HTTP_SSI_STATE_WAIT_BEGIN =>
      if Ascii.eqb ch (at_index (HTTP_SSI_TAG_START cfg) 0) then
        let hs := set_ssi_tag_buff (array_set (ssi_tag_buff hs) 0 ch) hs in
        let hs := set_ssi_tag_buff_ptr 1 hs in
        (set_ssi_state HTTP_SSI_STATE_BEGIN hs, w, false)
      else (hs, w, true)
  | HTTP_SSI_STATE_BEGIN =>
      if (ssi_tag_buff_ptr hs <? HTTP_SSI_TAG_START_LEN)
         && Ascii.eqb ch (at_index (HTTP_SSI_TAG_START cfg)
                                   (ssi_tag_buff_ptr hs))
      then
        let hs := tag_push ch hs in
        if ssi_tag_buff_ptr hs =? HTTP_SSI_TAG_START_LEN then
          (set_ssi_tag_len 0 (set_ssi_state HTTP_SSI_STATE_TAG hs), w, false)
        else (hs, w, false)
      else (hs, w, true)
  | HTTP_SSI_STATE_TAG =>
      if Ascii.eqb ch (at_index (HTTP_SSI_TAG_END cfg) 0) then
        let hs := tag_push ch hs in
        (set_ssi_state HTTP_SSI_STATE_END hs, w, false)
      else if sz_sub (ssi_tag_buff_ptr hs) HTTP_SSI_TAG_START_LEN
              <? HTTP_SSI_TAG_MAX_LEN cfg
      then
        let hs := tag_push ch hs in
        (set_ssi_tag_len (sz_add (ssi_tag_len hs) 1) hs, w, false)
      else (hs, w, true)
  | HTTP_SSI_STATE_END =>
      let k := sz_sub (sz_sub (ssi_tag_buff_ptr hs) HTTP_SSI_TAG_START_LEN)
                      (ssi_tag_len hs) in
      if (k <? HTTP_SSI_TAG_END_LEN)
         && Ascii.eqb ch (at_index (HTTP_SSI_TAG_END cfg) k)
      then
        let hs := tag_push ch hs in
        if ssi_tag_buff_ptr hs
           =? sz_add (sz_add HTTP_SSI_TAG_START_LEN (ssi_tag_len hs))
                     HTTP_SSI_TAG_END_LEN
        then
          let hs := set_ssi_tag_buff
                      (array_set (ssi_tag_buff hs)
                         (sz_add HTTP_SSI_TAG_START_LEN (ssi_tag_len hs)) NUL)
                      hs in
          let '(hs, w) :=
            match hi with
            | Some h =>
                match ssi_fn h with
                | Some f =>
                    run_ssi_fn f
                      (sub_array (ssi_tag_buff hs) HTTP_SSI_TAG_START_LEN
                                 (ssi_tag_len hs))
                      (hs, w)
                | None => (hs, w)
                end
            | None => (hs, w)
            end in
          let hs := set_ssi_state HTTP_SSI_STATE_WAIT_BEGIN hs in
          let hs := set_ssi_tag_len 0 hs in
          (set_ssi_tag_buff_ptr 0 hs, w, false)
        else (hs, w, false)
      else (hs, w, true)
  end.

(** The [if (reset)] block, lines 489-507. *)
Definition ssi_reset (ch : ascii) (s : http_state_t * world)
  : http_state_t * world :=
  let '(hs, w) := s in
  let '(hs, w) :=
    if negb (ssi_tag_buff_ptr hs =? 0) then
      let len := Z.min (ssi_tag_buff_ptr hs) (conn_mem_available hs) in
      let '(hs, w) :=
        esp_conn_write false (sub_array (ssi_tag_buff hs) 0 len) false (hs, w) in
      let hs := set_written_total (sz_add (written_total hs) len) hs in
      let hs := set_ssi_tag_buff_written len hs in
      if len =? ssi_tag_buff_ptr hs then (set_ssi_tag_buff_ptr 0 hs, w)
      else (hs, w)
    else (hs, w) in
  let '(hs, w) :=
    if negb (conn_mem_available hs =? 0) then
      let '(hs, w) := esp_conn_write false [ch] false (hs, w) in
      let hs := set_written_total (sz_add (written_total hs) 1) hs in
      (set_buff_ptr (sz_add (buff_ptr hs) 1) hs, w)
    else (hs, w) in
  (set_ssi_state HTTP_SSI_STATE_WAIT_BEGIN hs, w).

(** One pass through the body of the [while] loop, lines 420-510. *)
Definition ssi_byte (ch : ascii) (s : http_state_t * world)
  : http_state_t * world :=
  let '(hs, w, reset) := ssi_switch ch s in
  if reset then ssi_reset ch (hs, w)
  else (set_buff_ptr (sz_add (buff_ptr hs) 1) hs, w).

(** The [while] loop, line 419.  Every pass either moves [buff_ptr] on or
    leaves no credit, so [fuel] passes are enough when [fuel] exceeds the
    bytes left in the buffer. *)
Fixpoint ssi_loop (fuel : nat) (s : http_state_t * world)
  : http_state_t * world :=
  match fuel with
  | O => s
  | S fuel' =>
      let '(hs, w) := s in
      match buff hs with
      | None => s
      | Some d =>
          if (buff_ptr hs <? buff_len hs)
             && negb (conn_mem_available hs =? 0)
          then ssi_loop fuel' (ssi_byte (at_index d (buff_ptr hs)) s)
          else s
      end
  end.

(** The block that sends what is left of a tag buffer, lines 393-405. *)
Definition ssi_resume (s : http_state_t * world) : http_state_t * world :=
  let '(hs, w) := s in
  if ssi_tag_buff_written hs <? ssi_tag_buff_ptr hs then
    let len := Z.min (sz_sub (ssi_tag_buff_ptr hs) (ssi_tag_buff_written hs))
                     (conn_mem_available hs) in
    if negb (len =? 0) then
      let '(hs, w) :=
        esp_conn_write false
          (sub_array (ssi_tag_buff hs) (ssi_tag_buff_written hs) len)
          false (hs, w) in
      let hs := set_written_total (sz_add (written_total hs) len) hs in
      let hs := set_ssi_tag_buff_written
                  (sz_add (ssi_tag_buff_written hs) len) hs in
      if ssi_tag_buff_written hs =? ssi_tag_buff_ptr hs
      then (set_ssi_tag_buff_ptr 0 hs, w)
      else (hs, w)
    else (hs, w)
  else (hs, w).

Definition ssi_fuel (hs : http_state_t) : nat :=
  S (Z.to_nat (buff_len hs - buff_ptr hs)).

(** [send_response_ssi], lines 377-514. *)
Definition send_response_ssi (s : http_state_t * world)
  : http_state_t * world :=
  let s := esp_conn_write false [] false s in
  let '(hs, w) := ssi_resume s in
  let hs :=
    if (match buff hs with None => true | Some _ => false end)
       || (buff_ptr hs =? buff_len hs)
    then read_resp_file hs else hs in
  let s := ssi_loop (ssi_fuel hs) (hs, w) in
  esp_conn_write false [] true s.

(** [send_response_no_ssi], lines 520-538. *)
Definition send_response_no_ssi (s : http_state_t * world)
  : http_state_t * world :=
  let '(hs, w) := s in
  let hs :=
    if (match buff hs with None => true | Some _ => false end)
       || (written_total hs =? sent_total hs)
    then read_resp_file hs else hs in
  match buff hs with
  | Some d =>
      let '(r, w) := esp_conn_send (sub_array d 0 (buff_len hs)) w in
      if Esp.espr_eqb r Esp.espOK
      then (set_written_total (sz_add (written_total hs) (buff_len hs)) hs, w)
      else (hs, w)
  | None => (hs, w)
  end.

(** [send_response], lines 545-590. *)
Definition send_response (s : http_state_t * world) (ft : bool)
  : http_state_t * world :=
  let '(hs, w) := s in
  if negb (process_resp hs)
     || (negb (written_total hs =? 0)
         && negb (written_total hs =? sent_total hs))
  then s
  else
    let '(hs, w, close) :=
      if resp_file_opened hs then
        let '(hs, w) :=
          if is_ssi hs then send_response_ssi (hs, w)
          else send_response_no_ssi (hs, w) in
        (hs, w, match buff hs with None => true | Some _ => false end)
      else
        let w :=
          if HTTP_USE_METHOD_NOTALLOWED_RESP cfg
             && method_eqb (req_method hs) HTTP_METHOD_NOTALLOWED
          then snd (esp_conn_send http_data_method_not_allowed w)
          else w in
        (hs, w, true) in
    if close then (hs, esp_conn_close w) else (hs, w).

Definition is_digit (c : ascii) : bool :=
  (48 <=? code c) && (code c <=? 57).

(** The [while (ch >= '0' && ch <= '9')] loop, lines 686-692: [ch] is the
    byte at the current position and [rest] the bytes behind it. *)
Fixpoint digits_loop (rest : bytes) (ch : ascii) (cl : Z) {struct rest} : Z :=
  if is_digit ch then
    let cl := sz (10 * cl + (code ch - 48)) in
    match rest with
    | [] => cl
    | c :: rest' => digits_loop rest' c cl
    end
  else cl.

(** The search for the content length, lines 676-693.  The local [ch] is
    not initialised: when no byte can be read it keeps the environment's
    [ch_indet]. *)
Definition parse_content_length (c : esp_pbuf_p) : Z :=
  let found :=
    match esp_pbuf_strfind c (b "Content-Length:") 0 with
    | Some pos => Some pos
    | None => esp_pbuf_strfind c (b "content-length:") 0
    end in
  match found with
  | None => 0
  | Some pos =>
      let pos := sz_add pos 15 in
      let '(pos, ch) :=
        match esp_pbuf_get_at c pos with
        | Some x => if Ascii.eqb x " " then (sz_add pos 1, x) else (pos, x)
        | None => (pos, ch_indet env)
        end in
      let ch := match esp_pbuf_get_at c pos with Some x => x | None => ch end in
      digits_loop (skipn (S (Z.to_nat pos)) (linearise c)) ch 0
  end.

Definition call_post_start (u : string) (len : Z) (w : world) : world :=
  match hi with
  | Some h => if post_start_fn h then emit (EvPostStart u len) w else w
  | None => w
  end.

Definition call_post_end (w : world) : world :=
  match hi with
  | Some h => if post_end_fn h then emit EvPostEnd w else w
  | None => w
  end.

(** Events the connection manager hands to the server's callback. *)
Inductive esp_cb_t : Type :=
| ESP_CB_CONN_ACTIVE
| ESP_CB_CONN_DATA_RECV (buff : esp_pbuf_p)
| ESP_CB_CONN_DATA_SENT (sent : Z)
| ESP_CB_CONN_DATA_SEND_ERR
| ESP_CB_CONN_CLOSED
| ESP_CB_CONN_POLL
| ESP_CB_OTHER.

(** The headers are complete, lines 647-752: [c] is the chain [hs->p] and
    [pos] the place of the empty line in it. *)
Definition headers_done (hs : http_state_t) (c : esp_pbuf_p) (pos : Z)
    (w : world) : http_state_t * world :=
  let hs := set_headers_received true hs in
  let '(r, w) := http_parse_uri c w in
  let http_uri_parsed := Esp.espr_eqb r Esp.espOK in
  let '(hs, w) :=
    if HTTP_SUPPORT_POST cfg && (esp_pbuf_strcmp c (b "POST ") 0 =? 0) then
      let hs := set_req_method HTTP_METHOD_POST hs in
      let data_pos := sz_add pos 4 in
      let hs := set_content_length (parse_content_length c) hs in
      if negb (content_length hs =? 0) then
        let w := call_post_start (cstr (http_uri w)) (content_length hs) w in
        let pbuf_total_len := esp_pbuf_length c true in
        if sz_sub pbuf_total_len data_pos >? 0 then
          let hs := set_content_received (sz_sub pbuf_total_len data_pos) hs in
          let '(c', w) := http_post_send_to_user c data_pos w in
          let hs := set_p (Some c') hs in
          if content_received hs >=? content_length hs
          then (set_process_resp true hs, call_post_end w)
          else (hs, w)
        else (hs, w)
      else (set_process_resp true hs, w)
    else if esp_pbuf_strcmp c (b "GET ") 0 =? 0 then
      (set_process_resp true (set_req_method HTTP_METHOD_GET hs), w)
    else
      (set_process_resp true (set_req_method HTTP_METHOD_NOTALLOWED hs), w) in
  if http_uri_parsed
     && negb (method_eqb (req_method hs) HTTP_METHOD_NOTALLOWED)
  then http_get_file_from_uri hs (cstr (http_uri w)) w
  else (hs, w).

(** Data after the headers, lines 755-791.  (With POST support compiled
    out the braces of this part of the source do not pair up; the packet
    is then taken to be dropped.) *)
Definition body_data (hs : http_state_t) (pk : esp_pbuf_p) (w : world)
  : http_state_t * world :=
  if HTTP_SUPPORT_POST cfg && method_eqb (req_method hs) HTTP_METHOD_POST then
    if content_received hs <? content_length hs then
      let tot_len := esp_pbuf_length pk true in
      let hs := set_content_received (sz_add (content_received hs) tot_len) hs in
      let w := snd (http_post_send_to_user pk 0 w) in
      if content_received hs >=? content_length hs
      then (set_process_resp true hs, call_post_end w)
      else (hs, w)
    else (hs, w)
  else (hs, w).

(** [http_evt_cb], lines 597-883, for one connection: [arg] is the state
    attached to the connection ([esp_conn_get_arg]), [None] for NULL. *)
Definition http_evt_cb (cb : esp_cb_t) (s : option http_state_t * world)
  : option http_state_t * world :=
  let '(arg, w) := s in
  let '(arg, w, close) :=
    match cb with
    | ESP_CB_CONN_ACTIVE =>
        if state_alloc env then (Some hs_zero, w, false) else (arg, w, true)
    | ESP_CB_CONN_DATA_RECV pk =>
        let '(arg, w, close) :=
          match arg with
          | Some hs =>
              let '(hs, w) :=
                if negb (headers_received hs) then
                  let c := match p hs with
                           | None => pk
                           | Some c0 => esp_pbuf_cat c0 pk
                           end in
                  let hs := set_p (Some c) hs in
                  match esp_pbuf_strfind c (CRLF ++ CRLF) 0 with
                  | Some pos => headers_done hs c pos w
                  | None => (hs, w)
                  end
                else body_data hs pk w in
              let '(hs, w) :=
                if process_resp hs then send_response (hs, w) true
                else (hs, w) in
              (Some hs, w, false)
          | None => (None, w, true)
          end in
        (arg, emit EvConnRecved w, close)
    | ESP_CB_CONN_DATA_SENT sent =>
        match arg with
        | Some hs =>
            let hs := set_sent_total (sz_add (sent_total hs) sent) hs in
            let '(hs, w) := send_response (hs, w) false in
            (Some hs, w, false)
        | None => (None, w, true)
        end
    | ESP_CB_CONN_DATA_SEND_ERR => (arg, w, true)
    | ESP_CB_CONN_CLOSED =>
        match arg with
        | Some hs =>
            let w :=
              if HTTP_SUPPORT_POST cfg
                 && method_eqb (req_method hs) HTTP_METHOD_POST
                 && (content_received hs <? content_length hs)
              then call_post_end w else w in
            (None, w, false)
        | None => (None, w, false)
        end
    | ESP_CB_CONN_POLL =>
        match arg with
        | Some hs =>
            let '(hs, w) := send_response (hs, w) false in
            (Some hs, w, false)
        | None => (None, w, true)
        end
    | ESP_CB_OTHER => (arg, w, false)
    end in
  (arg, if close then esp_conn_close w else w).

(** The callback run over a sequence of events. *)
Definition run_events (evs : list esp_cb_t) (s : option http_state_t * world)
  : option http_state_t * world :=
  fold_left (fun s e => http_evt_cb e s) evs s.

End WithServer.

(** ** Reading a trace *)

(** The bytes the connection has taken, in order: what was written with
    [esp_conn_write], and the data of the sends that were answered
    [espOK]. *)
Fixpoint conn_bytes (t : list event) : bytes :=
  match t with
  | [] => []
  | EvConnWrite _ d _ _ :: t' => d ++ conn_bytes t'
  | EvConnSend d r :: t' =>
      if Esp.espr_eqb r Esp.espOK then d ++ conn_bytes t' else conn_bytes t'
  | _ :: t' => conn_bytes t'
  end.

(** The body bytes handed to [post_data_fn], in order. *)
Fixpoint post_data_bytes (t : list event) : bytes :=
  match t with
  | [] => []
  | EvPostData c :: t' => linearise c ++ post_data_bytes t'
  | _ :: t' => post_data_bytes t'
  end.

Fixpoint count_post_end (t : list event) : nat :=
  match t with
  | [] => O
  | EvPostEnd :: t' => S (count_post_end t')
  | _ :: t' => count_post_end t'
  end.

(** Every write the pump itself makes fits the credit reported last.
    [credit] is the credit reported before the first event of [t]. *)
Fixpoint pump_writes_bounded (credit : Z) (t : list event) : bool :=
  match t with
  | [] => true
  | EvConnWrite by_user d _ c :: t' =>
      (by_user || (zlen d <=? credit)) && pump_writes_bounded c t'
  | _ :: t' => pump_writes_bounded credit t'
  end.

(** The same for every write, those of [ssi_fn] included. *)
Fixpoint all_writes_bounded (credit : Z) (t : list event) : bool :=
  match t with
  | [] => true
  | EvConnWrite _ d _ c :: t' =>
      (zlen d <=? credit) && all_writes_bounded c t'
  | _ :: t' => all_writes_bounded credit t'
  end.

(** The credit reported last, [credit] being the one reported before [t]. *)
Fixpoint credit_after (credit : Z) (t : list event) : Z :=
  match t with
  | [] => credit
  | EvConnWrite _ _ _ c :: t' => credit_after c t'
  | _ :: t' => credit_after credit t'
  end.

(** The connection never reports a credit of zero. *)
Definition credit_nonzero (env : http_env) : Prop :=
  forall t, sz (conn_credit env t) <> 0.

Definition world_zero : world :=
  {| trace := []; http_uri := []; http_params := [] |}.

(** The sizes the allocation loop of [read_resp_file] asks for, one after
    the other, when each request fails. *)
Fixpoint alloc_sizes (len : positive) : list Z :=
  Z.pos len ::
  match len with
  | xH => []
  | xO half | xI half => if Z.pos half >? 64 then alloc_sizes half else []
  end.

(** The state of a connection on which the packets [pks] have come in and
    the headers are not complete yet. *)
Definition waiting (cfg : http_cfg) (pks : list esp_pbuf_p) : http_state_t :=
  match pks with
  | [] => hs_zero cfg
  | _ => set_p (Some (List.concat pks)) (hs_zero cfg)
  end.

(** Each size after the first is half the one before it and above 64. *)
Fixpoint halving (l : list Z) : Prop :=
  match l with
  | x :: (y :: _) as t => y = Z.shiftr x 1 /\ 64 < y /\ halving t
  | _ => True
  end.

(** [s'] comes from [s] by events among which the pump's own writes stay
    within the credit, and the state holds the credit reported last. *)
Definition credit_kept (s s' : http_state_t * world) : Prop :=
  0 <= conn_mem_available (fst s) ->
  0 <= conn_mem_available (fst s')
  /\ exists new,
       trace (snd s') = trace (snd s) ++ new
       /\ pump_writes_bounded (conn_mem_available (fst s)) new = true
       /\ credit_after (conn_mem_available (fst s)) new
          = conn_mem_available (fst s').

(** [s'] has the buffer of [s], read up to the same place, and has credit
    when [s] has. *)
Definition same_buffer (s s' : http_state_t * world) : Prop :=
  buff (fst s') = buff (fst s)
  /\ buff_len (fst s') = buff_len (fst s)
  /\ buff_ptr (fst s') = buff_ptr (fst s)
  /\ (conn_mem_available (fst s) <> 0 -> conn_mem_available (fst s') <> 0).

(** ** States of the tag scanner *)

(** The scanner run over the bytes [l], one pass of the loop for each. *)
Definition scan (cfg : http_cfg) (env : http_env) (hi : option http_init_t)
    (l : bytes) (s : http_state_t * world) : http_state_t * world :=
  fold_left (fun s ch => ssi_byte cfg env hi ch s) l s.

(** The scanner between tags. *)
Definition idle (cfg : http_cfg) (hs : http_state_t) : Prop :=
  ssi_state hs = HTTP_SSI_STATE_WAIT_BEGIN
  /\ ssi_tag_buff_ptr hs = 0
  /\ List.length (ssi_tag_buff hs) = ssi_tag_buff_size cfg
  /\ conn_mem_available hs <> 0.

(** The scanner with [got], a proper beginning of the start marker, held
    in the tag buffer. *)
Definition in_begin (cfg : http_cfg) (got : bytes) (hs : http_state_t) : Prop :=
  ssi_state hs = HTTP_SSI_STATE_BEGIN
  /\ ssi_tag_buff_ptr hs = zlen got
  /\ firstn (List.length got) (ssi_tag_buff hs) = got
  /\ List.length (ssi_tag_buff hs) = ssi_tag_buff_size cfg
  /\ conn_mem_available hs <> 0.

(** The scanner with the start marker and the name [nm] so far. *)
Definition in_tag (cfg : http_cfg) (nm : bytes) (hs : http_state_t) : Prop :=
  ssi_state hs = HTTP_SSI_STATE_TAG
  /\ ssi_tag_buff_ptr hs = HTTP_SSI_TAG_START_LEN cfg + zlen nm
  /\ ssi_tag_len hs = zlen nm
  /\ firstn (List.length (HTTP_SSI_TAG_START cfg ++ nm)) (ssi_tag_buff hs) = HTTP_SSI_TAG_START cfg ++ nm
  /\ List.length (ssi_tag_buff hs) = ssi_tag_buff_size cfg
  /\ conn_mem_available hs <> 0.

(** The scanner with start marker, name and [got], a proper beginning of
    the end marker. *)
Definition in_end (cfg : http_cfg) (nm got : bytes) (hs : http_state_t) : Prop :=
  ssi_state hs = HTTP_SSI_STATE_END
  /\ ssi_tag_buff_ptr hs = HTTP_SSI_TAG_START_LEN cfg + zlen nm + zlen got
  /\ ssi_tag_len hs = zlen nm
  /\ firstn (List.length (HTTP_SSI_TAG_START cfg ++ nm ++ got)) (ssi_tag_buff hs)
     = HTTP_SSI_TAG_START cfg ++ nm ++ got
  /\ List.length (ssi_tag_buff hs) = ssi_tag_buff_size cfg
  /\ conn_mem_available hs <> 0.

(** What a stretch of the file adds to the connection. *)
Definition adds (cfg : http_cfg) (env : http_env) (h : http_init_t)
    (l : bytes) (s : http_state_t * world) (out : bytes) : Prop :=
  exists new,
    trace (snd (scan cfg env (Some h) l s)) = trace (snd s) ++ new
    /\ conn_bytes new = out.

(** A state that is about to send the static file [file] from its first
    byte, the tag scanner at rest. *)
Definition serving (cfg : http_cfg) (file : bytes) (hs : http_state_t) : Prop :=
  resp_file_opened hs = true
  /\ resp_file hs = {| data := file; is_static := true; fptr := 0 |}
  /\ buff hs = None
  /\ ssi_state hs = HTTP_SSI_STATE_WAIT_BEGIN
  /\ ssi_tag_buff_ptr hs = 0
  /\ ssi_tag_buff_written hs = 0
  /\ List.length (ssi_tag_buff hs) = ssi_tag_buff_size cfg.

(** A file written as literal stretches with a tag after each, and a last
    literal stretch: every part is the text before a tag and the tag's name. *)
Fixpoint with_tags (cfg : http_cfg) (parts : list (bytes * bytes))
    (post : bytes) : bytes :=
  match parts with
  | [] => post
  | (pre, nm) :: rest =>
      pre ++ HTTP_SSI_TAG_START cfg ++ nm ++ HTTP_SSI_TAG_END cfg
          ++ with_tags cfg rest post
  end.

(** The same file with every tag replaced by what [f] writes for its name. *)
Fixpoint with_replies (f : bytes -> esp_pbuf_p) (parts : list (bytes * bytes))
    (post : bytes) : bytes :=
  match parts with
  | [] => post
  | (pre, nm) :: rest => pre ++ List.concat (f nm) ++ with_replies f rest post
  end.

(** Literal text without the first byte of the start marker. *)
Definition plain_text (cfg : http_cfg) (l : bytes) : Prop :=
  Forall (fun c => c <> at_index (HTTP_SSI_TAG_START cfg) 0) l.

(** Parts whose literal text is plain and whose names fit the tag buffer
    and hold no first byte of the end marker. *)
Definition plain_parts (cfg : http_cfg) (parts : list (bytes * bytes)) : Prop :=
  Forall (fun p =>
            plain_text cfg (fst p)
            /\ Forall (fun c => c <> at_index (HTTP_SSI_TAG_END cfg) 0) (snd p)
            /\ zlen (snd p) <= HTTP_SSI_TAG_MAX_LEN cfg) parts.

(** ** The tag scanner in the words of the specification

    The scanner as the specification describes it: on a mismatch the bytes
    held in the tag buffer go out verbatim and the current byte is then
    processed again (it is not consumed), so it may begin a new tag. *)

Inductive ref_phase : Type := RefText | RefStart | RefName | RefEnd.

Record ref_state : Type := {
  ref_at : ref_phase;
  ref_held : bytes;
  ref_name : bytes
}.

Definition ref_idle : ref_state :=
  {| ref_at := RefText; ref_held := []; ref_name := [] |}.

(** One byte: the next state, the bytes put out, and whether the byte was
    consumed. *)
Definition ssi_reference_step (cfg : http_cfg) (f : bytes -> esp_pbuf_p)
    (ch : ascii) (st : ref_state) : ref_state * bytes * bool :=
  let START := HTTP_SSI_TAG_START cfg in
  let TEND := HTTP_SSI_TAG_END cfg in
  let hold := {| ref_at := ref_at st; ref_held := ref_held st ++ [ch]; ref_name := ref_name st |} in
  match ref_at st with
  | RefText =>
      if Ascii.eqb ch (at_index START 0)
      then ({| ref_at := RefStart; ref_held := [ch]; ref_name := [] |}, [], true)
      else (ref_idle, [ch], true)
  | RefStart =>
      if (zlen (ref_held st) <? zlen START)
         && Ascii.eqb ch (at_index START (zlen (ref_held st)))
      then (if zlen (ref_held st) + 1 =? zlen START
            then {| ref_at := RefName; ref_held := ref_held st ++ [ch]; ref_name := [] |}
            else hold, [], true)
      else (ref_idle, ref_held st, false)
  | RefName =>
      if Ascii.eqb ch (at_index TEND 0)
      then ({| ref_at := RefEnd; ref_held := ref_held st ++ [ch]; ref_name := ref_name st |},
            [], true)
      else if zlen (ref_name st) <? HTTP_SSI_TAG_MAX_LEN cfg
      then ({| ref_at := RefName; ref_held := ref_held st ++ [ch];
               ref_name := ref_name st ++ [ch] |}, [], true)
      else (ref_idle, ref_held st, false)
  | RefEnd =>
      let got := zlen (ref_held st) - zlen START - zlen (ref_name st) in
      if (got <? zlen TEND) && Ascii.eqb ch (at_index TEND got)
      then (if got + 1 =? zlen TEND
            then (ref_idle, List.concat (f (ref_name st)), true)
            else (hold, [], true))
      else (ref_idle, ref_held st, false)
  end.

Fixpoint ssi_reference_loop (cfg : http_cfg) (f : bytes -> esp_pbuf_p)
    (fuel : nat) (st : ref_state) (input : bytes) : bytes :=
  match fuel, input with
  | S fuel', ch :: rest =>
      let '(st', out, consumed) := ssi_reference_step cfg f ch st in
      out ++ ssi_reference_loop cfg f fuel' st'
               (if consumed then rest else input)
  | _, _ => []
  end.

(** A byte is looked at twice at most: after a mismatch the scanner is at
    rest, and there every byte is consumed. *)
Definition ssi_reference (cfg : http_cfg) (f : bytes -> esp_pbuf_p)
    (file : bytes) : bytes :=
  ssi_reference_loop cfg f (2 * List.length file + 1) ref_idle file.

(** ** The tag scanner with the mismatching byte consumed

    The scanner above with one change: on a mismatch the bytes held go out
    verbatim, the byte that did not match goes out after them, and that
    byte is consumed; the scanner is at rest for the byte that follows. *)
Definition ssi_amended_step (cfg : http_cfg) (f : bytes -> esp_pbuf_p)
    (ch : ascii) (st : ref_state) : ref_state * bytes :=
  let '(st', out, consumed) := ssi_reference_step cfg f ch st in
  (st', if consumed then out else out ++ [ch]).

(** The bytes of [input] one after the other: the state at the end, where
    [ref_held] are the bytes of a tag still open, and the bytes put out. *)
Fixpoint ssi_amended_run (cfg : http_cfg) (f : bytes -> esp_pbuf_p)
    (st : ref_state) (input : bytes) : ref_state * bytes :=
  match input with
  | [] => (st, [])
  | ch :: rest =>
      let '(st1, out1) := ssi_amended_step cfg f ch st in
      let '(st2, out2) := ssi_amended_run cfg f st1 rest in
      (st2, out1 ++ out2)
  end.

Definition ssi_amended (cfg : http_cfg) (f : bytes -> esp_pbuf_p)
    (file : bytes) : bytes :=
  snd (ssi_amended_run cfg f ref_idle file).

(** The state [hs] of a connection stands where the scanner state [st]
    stands: the tag buffer holds the bytes held, the name has the length
    counted, and the credit covers the tag buffer. *)
Definition tracks (cfg : http_cfg) (st : ref_state) (hs : http_state_t)
  : Prop :=
  ssi_tag_buff_ptr hs = zlen (ref_held st)
  /\ firstn (List.length (ref_held st)) (ssi_tag_buff hs) = ref_held st
  /\ List.length (ssi_tag_buff hs) = ssi_tag_buff_size cfg
  /\ Z.of_nat (ssi_tag_buff_size cfg) <= conn_mem_available hs
  /\ match ref_at st with
     | RefText =>
         ssi_state hs = HTTP_SSI_STATE_WAIT_BEGIN /\ ref_held st = []
     | RefStart =>
         ssi_state hs = HTTP_SSI_STATE_BEGIN
         /\ zlen (ref_held st) <= HTTP_SSI_TAG_START_LEN cfg + 1
     | RefName =>
         ssi_state hs = HTTP_SSI_STATE_TAG
         /\ ssi_tag_len hs = zlen (ref_name st)
         /\ zlen (ref_name st) <= HTTP_SSI_TAG_MAX_LEN cfg
         /\ exists pre,
              ref_held st = pre ++ ref_name st
              /\ zlen pre = HTTP_SSI_TAG_START_LEN cfg
     | RefEnd =>
         ssi_state hs = HTTP_SSI_STATE_END
         /\ ssi_tag_len hs = zlen (ref_name st)
         /\ zlen (ref_name st) <= HTTP_SSI_TAG_MAX_LEN cfg
         /\ exists pre got,
              ref_held st = pre ++ ref_name st ++ got
              /\ zlen pre = HTTP_SSI_TAG_START_LEN cfg
              /\ zlen got <= HTTP_SSI_TAG_END_LEN cfg + 1
     end.

(** What the POST side of a connection has come to: the request fields of
    the state, the body bytes handed to [post_data_fn] and the number of
    calls of [post_end_fn]. *)
Definition post_view (s : http_state_t * world)
  : bool * http_req_method_t * Z * Z * bytes * nat :=
  (headers_received (fst s), req_method (fst s), content_length (fst s),
   content_received (fst s), post_data_bytes (trace (snd s)),
   count_post_end (trace (snd s))).

(** The POST side of a connection that expects [cl] body bytes and has
    taken the bytes [got]; [d0] and [n0] are the body bytes and the calls
    of [post_end_fn] the trace held before. *)
Definition post_taken (cl : Z) (d0 : bytes) (n0 : nat) (got : bytes)
    (s : http_state_t * world) : Prop :=
  post_view s
  = (true, HTTP_METHOD_POST, cl, zlen got, d0 ++ got,
     Nat.add n0 (if cl <=? zlen got then 1%nat else 0%nat)).

(** ** Concrete configurations and environments *)

Definition cfg_default : http_cfg :=
  {| HTTP_SUPPORT_POST := true;
     HTTP_USE_METHOD_NOTALLOWED_RESP := true;
     HTTP_MAX_URI_LEN := 256;
     HTTP_MAX_PARAMS := 16;
     HTTP_SSI_TAG_START := b "<!--#";
     HTTP_SSI_TAG_END := b "-->";
     HTTP_SSI_TAG_MAX_LEN := 10;
     ESP_CFG_CONN_MAX_DATA_LEN := 1460 |}.

(** A file provider that knows the one file [path]. *)
Definition fs_only (path : string) (content : bytes) (static : bool)
  : string -> option (bytes * bool) :=
  fun s => if String.eqb s path then Some (content, static) else None.

(** Allocations succeed, the connection always reports [credit] bytes of
    room. *)
Definition env_with (files : string -> option (bytes * bool)) (credit : Z)
  : http_env :=
  {| fs := files; mem_alloc := fun _ => true; state_alloc := true;
     conn_credit := fun _ => credit;
     ch_indet := NUL |}.

(** As [env_with], but the connection reports the credits [credits], the
    one at the place that the number of events so far gives, and [credit]
    once the list is used up. *)
Definition env_credits (files : string -> option (bytes * bool))
    (credits : list Z) (credit : Z) : http_env :=
  {| fs := files; mem_alloc := fun _ => true; state_alloc := true;
     conn_credit := fun t => nth (List.length t) credits credit;
     ch_indet := NUL |}.

(** As [env_with], but only requests of at most [most] bytes are granted. *)
Definition env_low_memory (files : string -> option (bytes * bool)) (most : Z)
  : http_env :=
  {| fs := files; mem_alloc := fun n => n <=? most; state_alloc := true;
     conn_credit := fun _ => 1000;
     ch_indet := NUL |}.

(** All callbacks set; [ssi_fn] answers every tag with [REPLACED]. *)
Definition hi_all : option http_init_t :=
  Some {| cgi := None; post_start_fn := true; post_data_fn := true;
          post_end_fn := true; ssi_fn := Some (fun _ => [b "REPLACED"]) |}.

(** ** Words for the properties of the helper functions *)

(** A string every letter of which is taken to lower case, as [strcmpi]
    reads it. *)
Definition lower (s : string) : list Z :=
  map tolower (list_ascii_of_string s).

(** A C string holds no NUL before its end. *)
Definition c_string (s : string) : Prop :=
  Forall (fun c => c <> NUL) (list_ascii_of_string s).

(** The character [c] does not occur in [s]. *)
Fixpoint lacks (c : ascii) (s : string) : bool :=
  match s with
  | EmptyString => true
  | String x s' => negb (Ascii.eqb x c) && lacks c s'
  end.

(** A parameter as it stands in a query: [name] or [name=value]. *)
Definition param_text (p : http_param_t) : string :=
  match value p with
  | Some v => String.append (name p) (String "=" v)
  | None => name p
  end.

(** Parameters joined by [&]. *)
Fixpoint join_params (l : list http_param_t) : string :=
  match l with
  | [] => EmptyString
  | [p] => param_text p
  | p :: rest => String.append (param_text p) (String "&" (join_params rest))
  end.

(** A parameter whose name holds neither [&] nor [=] and whose value holds
    no [&]. *)
Definition plain_param (p : http_param_t) : bool :=
  lacks "&" (name p) && lacks "=" (name p)
  && match value p with Some v => lacks "&" v | None => true end.

(** Whether the file provider knows the path. *)
Definition known (env : http_env) (path : string) : bool :=
  match fs env path with Some _ => true | None => false end.

(** The file the provider hands out for a path it knows, just opened. *)
Definition opened_file (env : http_env) (path : string) : http_fs_file_t :=
  match fs env path with
  | Some (d, st) => {| data := d; is_static := st; fptr := 0 |}
  | None => file_zero
  end.

(** Everything of the state but the response file, whether it is open,
    and whether it is sent with SSI. *)
Definition frame_view (hs : http_state_t) :=
  (conn hs, p hs, headers_received hs, req_method hs, content_length hs,
   content_received hs, process_resp hs,
   (buff hs, buff_len hs, buff_ptr hs, conn_mem_available hs,
    written_total hs, sent_total hs),
   (ssi_state hs, ssi_tag_buff hs, ssi_tag_buff_ptr hs, ssi_tag_len hs,
    ssi_tag_buff_written hs)).

(** The handlers of the user, if any. *)
Definition cgi_of (hi : option http_init_t) : list http_cgi_t :=
  match hi with
  | Some h => match cgi h with Some l => l | None => [] end
  | None => []
  end.

(** The pieces in which the rest of a file goes out from [off] on when each
    read takes at most [size] bytes. *)
Fixpoint file_pieces (fuel : nat) (size : Z) (d : bytes) (off : Z)
  : list bytes :=
  match fuel with
  | O => []
  | S fuel' =>
      if zlen d - off =? 0 then []
      else
        let n := Z.min (zlen d - off) size in
        sub_array d off n :: file_pieces fuel' size d (off + n)
  end.

(** What the pump of a file without SSI goes by. *)
Definition transfer_view (hs : http_state_t) :=
  (process_resp hs, resp_file_opened hs, is_ssi hs, req_method hs,
   written_total hs, sent_total hs).

(** What an event leaves in the trace on a connection that has no state. *)
Definition stateless_answer (e : esp_cb_t) : list event :=
  match e with
  | ESP_CB_CONN_ACTIVE => [EvConnClose]
  | ESP_CB_CONN_DATA_RECV _ => [EvConnRecved; EvConnClose]
  | ESP_CB_CONN_DATA_SENT _ => [EvConnClose]
  | ESP_CB_CONN_DATA_SEND_ERR => [EvConnClose]
  | ESP_CB_CONN_POLL => [EvConnClose]
  | ESP_CB_CONN_CLOSED => []
  | ESP_CB_OTHER => []
  end.

(** The tag scanner within its bounds: the pointer into the tag buffer is
    never beyond start marker, longest name and end marker together, the
    length of the name is never beyond [HTTP_SSI_TAG_MAX_LEN], and in each
    state the pointer is where that state can have left it. *)
Definition ssi_ok (cfg : http_cfg) (hs : http_state_t) : Prop :=
  let SL := HTTP_SSI_TAG_START_LEN cfg in
  let EL := HTTP_SSI_TAG_END_LEN cfg in
  let MAXL := HTTP_SSI_TAG_MAX_LEN cfg in
  0 <= ssi_tag_buff_ptr hs <= SL + MAXL + EL
  /\ 0 <= ssi_tag_len hs <= MAXL
  /\ match ssi_state hs with
     | HTTP_SSI_STATE_WAIT_BEGIN => True
     | HTTP_SSI_STATE_BEGIN => ssi_tag_buff_ptr hs <= SL
     | HTTP_SSI_STATE_TAG =>
         ssi_tag_buff_ptr hs = SL + ssi_tag_len hs \/ ssi_tag_buff_ptr hs < SL
     | HTTP_SSI_STATE_END =>
         SL + ssi_tag_len hs <= ssi_tag_buff_ptr hs <= SL + ssi_tag_len hs + EL
         \/ ssi_tag_buff_ptr hs <= SL
     end.

(** The fields of the state the tag scanner goes by. *)
Definition ssi_view (hs : http_state_t) :=
  (ssi_state hs, ssi_tag_buff_ptr hs, ssi_tag_len hs).

(** The state a connection has, if it has one, is within the bounds. *)
Definition arg_ok (cfg : http_cfg) (arg : option http_state_t) : Prop :=
  match arg with Some hs => ssi_ok cfg hs | None => True end.

(** The number a row of decimal digits stands for. *)
Definition digits_value (ds : bytes) : Z :=
  fold_left (fun a d => 10 * a + (code d - 48)) ds 0.

End Http.

(** * The low-level driver (esp_ll.c) *)

Module Ll.

(** [uint16_t]: the type of [old_pos] and of the locals of the two
    interrupt handlers. *)
Definition U16_MOD : Z := 2 ^ 16.
Definition u16 (x : Z) : Z := x mod U16_MOD.

(** [sizeof(usart_mem)], line 114: the buffer the DMA stream fills,
    going round. *)
Definition USART_MEM_SIZE : Z := 1024.


(** What the driver does to its surroundings.  [EvConfigure] stands for
    the programming of the pins, the UART, the DMA stream and the interrupt
    controller in [configure_uart]; [EvInput start_pos to_read] is the call
    [esp_input(&usart_mem[start_pos], to_read)]. *)
Inductive ll_event : Type :=
| EvAssignMemory (size : Z)
| EvConfigure (baudrate : Z)
| EvResetPin (level : bool)
| EvDelay (ms : Z)
| EvInput (start_pos to_read : Z).



(** The file's variables [old_pos] and [initialized], and what has been
    done so far. *)
Record ll_t : Type := {
  old_pos : Z;
  initialized : bool;
  log : list ll_event
}.

Definition set_old_pos v (s : ll_t) : ll_t :=
  {| old_pos := v; initialized := initialized s; log := log s |}.
Definition did (e : ll_event) (s : ll_t) : ll_t :=
  {| old_pos := old_pos s; initialized := initialized s; log := log s ++ [e] |}.

(** The driver before the first call. *)
Definition ll_zero : ll_t :=
  {| old_pos := 0; initialized := false; log := [] |}.


(** [ESP_USART_IRQHANDLER], lines 238-262: [idle] is the IDLE flag of the
    UART and [ndtr_reg] what [LL_DMA_GetDataLength] answers. *)
Definition ESP_USART_IRQHANDLER (idle : bool) (ndtr_reg : Z) (s : ll_t)
  : ll_t :=
  if idle then
    let start_pos := old_pos s in
    let ndtr := u16 ndtr_reg in
    let curr_pos := u16 (USART_MEM_SIZE - ndtr) in
    let to_read := u16 (curr_pos - old_pos s) in
    let s := set_old_pos (u16 (old_pos s + to_read)) s in
    did (EvInput start_pos to_read) s
  else s.

(** [ESP_USART_DMA_RX_STREAM_IRQHANDLER], lines 265-286: [tc] and [ht]
    are the transfer-complete and half-transfer flags of the stream, which
    are taken not to change while the handler runs. *)
Definition ESP_USART_DMA_RX_STREAM_IRQHANDLER (tc ht : bool) (ndtr_reg : Z)
    (s : ll_t) : ll_t :=
  let start_pos := old_pos s in
  let ndtr := u16 ndtr_reg in
  let ndtr := if tc && (ndtr =? USART_MEM_SIZE) then 0 else ndtr in
  let curr_pos := u16 (USART_MEM_SIZE - ndtr) in
  let to_read := u16 (curr_pos - old_pos s) in
  let s := if tc then set_old_pos 0 s
           else if ht then set_old_pos curr_pos s
           else s in
  did (EvInput start_pos to_read) s.


(** ** Interrupts in a row *)

Inductive irq : Type :=
| UartIrq (idle : bool) (ndtr_reg : Z)
| DmaIrq (tc ht : bool) (ndtr_reg : Z).

Definition handle (i : irq) (s : ll_t) : ll_t :=
  match i with
  | UartIrq idle n => ESP_USART_IRQHANDLER idle n s
  | DmaIrq tc ht n => ESP_USART_DMA_RX_STREAM_IRQHANDLER tc ht n s
  end.

Definition handle_all (l : list irq) (s : ll_t) : ll_t :=
  fold_left (fun s i => handle i s) l s.

(** What the DMA position register reads in an interrupt. *)
Definition ndtr_of (i : irq) : Z :=
  match i with UartIrq _ n => n | DmaIrq _ _ n => n end.

(** The place in the buffer the handler works out from the register. *)
Definition position (i : irq) : Z :=
  match i with
  | UartIrq _ n => u16 (USART_MEM_SIZE - u16 n)
  | DmaIrq tc _ n =>
      u16 (USART_MEM_SIZE
           - (if tc && (u16 n =? USART_MEM_SIZE) then 0 else u16 n))
  end.

(** The interrupt raised when the DMA stream stands at [c]: the idle line
    of the UART or the half-transfer flag of the stream. *)
Definition irq_at (k : bool * Z) : irq :=
  if fst k then UartIrq true (USART_MEM_SIZE - snd k)
  else DmaIrq false true (USART_MEM_SIZE - snd k).

(** The pieces [from, c1), [c1, c2), ... as calls of [esp_input]. *)
Fixpoint pieces (from : Z) (cs : list Z) : list ll_event :=
  match cs with
  | [] => []
  | c :: cs' => EvInput from (c - from) :: pieces c cs'
  end.

(** The positions do not go back and stay within the buffer. *)
Fixpoint rising (from : Z) (cs : list Z) : Prop :=
  match cs with
  | [] => True
  | c :: cs' => from <= c <= USART_MEM_SIZE /\ rising c cs'
  end.

(** The calls of [esp_input] start inside the buffer. *)
Definition starts_inside (e : ll_event) : Prop :=
  match e with
  | EvInput start_pos _ => 0 <= start_pos <= USART_MEM_SIZE
  | _ => True
  end.


End Ll.

(** * Properties of the command API *)

Module EspFacts.

Import Esp.

Lemma putnow_room mb m :
  (mbox_waiting mb <? mbox_size mb)%nat = true ->
  esp_sys_mbox_putnow mb m =
  (true, {| mbox_size := mbox_size mb; mbox_put := mbox_put mb ++ [m];
            mbox_taken := mbox_taken mb |}).
Proof. intros H. unfold esp_sys_mbox_putnow. now rewrite H. Qed.

Lemma putnow_full mb m :
  (mbox_waiting mb <? mbox_size mb)%nat = false ->
  esp_sys_mbox_putnow mb m = (false, mb).
Proof. intros H. unfold esp_sys_mbox_putnow. now rewrite H. Qed.

Lemma app_one_neq {A} (l : list A) (x : A) : l <> l ++ [x].
Proof.
  intros H. apply (f_equal (@List.length A)) in H.
  rewrite List.length_app in H. simpl in H. lia.
Qed.

(** A send without a place for the count of bytes written is given back
    before anything is done: the stack is as it was. *)
Lemma conn_send_without_bw E conn data blocking e :
  esp_conn_send E conn data NULL blocking e = Returns espPARAMERR e.
Proof.
  unfold esp_conn_send, ESP_ASSERT.
  destruct (negb (conn =? NULL)); [|reflexivity].
  destruct (zlen data >? 0); reflexivity.
Qed.

Ltac enq_cases :=
  repeat split; intros; auto; try discriminate;
  try (exfalso; eapply app_one_neq; eassumption);
  try (exfalso; eapply app_one_neq; symmetry; eassumption);
  try (intuition discriminate).

(** What a call without blocking does, in full. *)
Lemma send_nonblocking E m f e :
  send_msg_to_producer_queue E m f 0 e =
  if has_room e
  then (Returns espOK
          (set_mbox_producer
             {| mbox_size := mbox_size (mbox_producer e);
                mbox_put := mbox_put (mbox_producer e) ++ [msg_as_queued m f 0];
                mbox_taken := mbox_taken (mbox_producer e) |} e), None)
  else (Returns espERR (set_mbox_producer (mbox_producer e) e), None).
Proof.
  unfold send_msg_to_producer_queue, has_room. simpl.
  fold (msg_as_queued m f 0).
  destruct (mbox_waiting (mbox_producer e) <? mbox_size (mbox_producer e))%nat
    eqn:R.
  - now rewrite (putnow_room _ _ R).
  - now rewrite (putnow_full _ _ R).
Qed.

(** What a blocking call does, in full. *)
Lemma send_blocking E m f bt e :
  bt <> 0 ->
  let e0 := set_n_sem_create (S (n_sem_create e)) e in
  let m' := msg_as_queued m f bt in
  let e1 := set_mbox_producer (esp_sys_mbox_put (mbox_producer e0) m') e0 in
  send_msg_to_producer_queue E m f bt e =
  if sem_create_ok E (n_sem_create e) then
    match pipeline E m' with
    | Some (t, r) =>
        if t =? ESP_SYS_TIMEOUT then (Returns espERR e1, Some t)
        else (Returns r
                (set_mbox_producer (mbox_all_taken (mbox_producer e1)) e1),
              Some t)
    | None => (Blocked e1, None)
    end
  else (Returns espERR e0, None).
Proof.
  intros Hbt e0 m' e1.
  unfold send_msg_to_producer_queue.
  assert (Hz : (bt =? 0) = false) by now apply Z.eqb_neq.
  rewrite Hz.
  destruct (sem_create_ok E (n_sem_create e)); simpl; [|reflexivity].
  replace (set_fn f (set_block_time bt _)) with m'.
  2:{ unfold m', msg_as_queued. now rewrite Hz. }
  fold e0. fold e1.
  destruct (pipeline E m') as [[t r]|]; simpl; [|reflexivity].
  now destruct (t =? ESP_SYS_TIMEOUT).
Qed.

Lemma api_call_alloc_failed E fill bt e :
  msg_alloc_ok E (n_msg_alloc e) = false ->
  api_call E fill bt e = Returns espERR (set_n_msg_alloc (S (n_msg_alloc e)) e).
Proof. intros H. unfold api_call, ESP_MSG_VAR_ALLOC. now rewrite H. Qed.

Lemma api_call_alloc_ok E fill bt e :
  msg_alloc_ok E (n_msg_alloc e) = true ->
  api_call E fill bt e =
  fst (send_msg_to_producer_queue E (fill msg_zero) espi_initiate_cmd bt
         (set_n_msg_alloc (S (n_msg_alloc e)) e)).
Proof. intros H. unfold api_call, ESP_MSG_VAR_ALLOC. now rewrite H. Qed.

(** What [api_call] does without blocking, whatever is filled in. *)
Lemma api_call_nonblocking (E : sys_env) (fill : esp_msg_t -> esp_msg_t)
    (e : esp_t) :
  exists r e',
    api_call E fill 0 e = Returns r e'
    /\ (r = espOK \/ r = espERR)
    /\ (r = espOK <->
        enqueued e e' [msg_as_queued (fill msg_zero) espi_initiate_cmd 0])
    /\ (r = espERR <-> enqueued e e' [])
    /\ (r = espERR <->
        msg_alloc_ok E (n_msg_alloc e) = false \/ has_room e = false).
Proof.
  destruct (msg_alloc_ok E (n_msg_alloc e)) eqn:A.
  - rewrite (api_call_alloc_ok _ _ _ _ A), send_nonblocking.
    replace (has_room (set_n_msg_alloc (S (n_msg_alloc e)) e))
      with (has_room e) by reflexivity.
    destruct (has_room e) eqn:R; simpl;
      (eexists _, _; split; [reflexivity|]);
      unfold enqueued; simpl; rewrite ?List.app_nil_r; enq_cases.
  - rewrite (api_call_alloc_failed _ _ _ _ A).
    eexists _, _. split; [reflexivity|].
    unfold enqueued; simpl; rewrite ?List.app_nil_r; enq_cases.
Qed.

(** What a blocking [api_call] does. *)
Lemma api_call_blocking (E : sys_env) (fill : esp_msg_t -> esp_msg_t)
    (bt : Z) (e : esp_t) :
  bt <> 0 ->
  let m := msg_as_queued (fill msg_zero) espi_initiate_cmd bt in
  (msg_alloc_ok E (n_msg_alloc e) = true ->
   sem_create_ok E (n_sem_create e) = true ->
   enqueued e (out_state (api_call E fill bt e)) [m]
   /\ forall t r,
        pipeline E m = Some (t, r) -> t <> ESP_SYS_TIMEOUT ->
        returned (api_call E fill bt e) = Some r)
  /\ (msg_alloc_ok E (n_msg_alloc e) = false
      \/ sem_create_ok E (n_sem_create e) = false ->
      exists e', api_call E fill bt e = Returns espERR e' /\ enqueued e e' []).
Proof.
  intros Hbt m. split.
  - intros A S.
    rewrite (api_call_alloc_ok _ _ _ _ A), (send_blocking _ _ _ _ _ Hbt).
    simpl. rewrite S. fold m. split.
    + destruct (pipeline E m) as [[t r]|]; simpl; [|reflexivity].
      now destruct (t =? ESP_SYS_TIMEOUT).
    + intros t r P T. rewrite P.
      assert (Ht : (t =? ESP_SYS_TIMEOUT) = false) by now apply Z.eqb_neq.
      now rewrite Ht.
  - intros [A|S].
    + rewrite (api_call_alloc_failed _ _ _ _ A). eexists. split; [reflexivity|].
      unfold enqueued; simpl. now rewrite List.app_nil_r.
    + destruct (msg_alloc_ok E (n_msg_alloc e)) eqn:A.
      * rewrite (api_call_alloc_ok _ _ _ _ A), (send_blocking _ _ _ _ _ Hbt).
        simpl. rewrite S. simpl. eexists. split; [reflexivity|].
        unfold enqueued; simpl. now rewrite List.app_nil_r.
      * rewrite (api_call_alloc_failed _ _ _ _ A). eexists.
        split; [reflexivity|].
        unfold enqueued; simpl. now rewrite List.app_nil_r.
Qed.

Lemma queued_fields m f bt :
  cmd_def (msg_as_queued m f bt) = cmd_def m
  /\ block_time (msg_as_queued m f bt) = bt
  /\ fn (msg_as_queued m f bt) = f.
Proof.
  unfold msg_as_queued. destruct (bt =? 0);
    destruct (cmd_is_idle _); repeat split.
Qed.

(** Every command function comes to [api_call] when its guards are passed,
    after it has cleared what it clears, and to the answer of
    [ESP_ASSERT], with nothing done, when they are not. *)
Lemma call_api_shape (E : sys_env) (a : api_request) (bt : Z) (e : esp_t) :
  if api_accepts a then
    exists fill e0,
      call_api E a bt e = api_call E fill bt e0
      /\ cmd_def (fill msg_zero) = api_command a
      /\ mbox_producer e0 = mbox_producer e
      /\ n_msg_alloc e0 = n_msg_alloc e
      /\ n_sem_create e0 = n_sem_create e
  else call_api E a bt e = Returns espPARAMERR e.
Proof.
  destruct a; cbn [api_accepts call_api];
    try (eexists _, e; repeat split; reflexivity).
  - unfold esp_ap_setmac, ESP_ASSERT.
    destruct (negb _); [eexists _, e; repeat split; reflexivity|reflexivity].
  - unfold esp_ap_list. eexists _, _. split; [reflexivity|].
    destruct (negb _); repeat split.
  - unfold esp_conn_close, ESP_ASSERT.
    destruct (negb _); [eexists _, e; repeat split; reflexivity|reflexivity].
  - unfold esp_conn_send, ESP_ASSERT.
    destruct (negb (conn =? NULL)); [|reflexivity].
    destruct (zlen data >? 0); [|reflexivity].
    destruct (negb (bw =? NULL)); [|reflexivity].
    eexists _, _. repeat split; reflexivity.
Qed.

Lemma enqueued_same e e0 e' l :
  mbox_producer e0 = mbox_producer e -> enqueued e0 e' l -> enqueued e e' l.
Proof. unfold enqueued. now intros ->. Qed.

Lemma enqueued_one_not_none e e' (m : esp_msg_t) :
  enqueued e e' [m] -> ~ enqueued e e' [].
Proof.
  unfold enqueued. intros A B. rewrite B, app_nil_r in A.
  eapply app_one_neq. exact A.
Qed.

(** C7.  For every command function of esp.c and all arguments: a call
    without blocking returns; it answers [espOK] exactly when a message was
    written to the producer mailbox, and that message is the one of the
    function (its command, the processing function, no blocking); with any
    other answer nothing was written.  When the arguments pass the guards
    of the function the answer is [espOK] or [espERR], and [espERR]
    exactly when the message could not be allocated or the mailbox was
    full; arguments that do not pass them are answered [espPARAMERR].  A
    blocking call whose message and semaphore could be created writes its
    message, waits for the pipeline and returns the result the pipeline
    stored in the message; when one of the two cannot be created it
    answers [espERR] and writes nothing. *)
Theorem api_call_result (E : sys_env) (a : api_request) (e : esp_t) :
  (exists r e',
      call_api E a 0 e = Returns r e'
      /\ (r = espOK <-> exists m, enqueued e e' [m])
      /\ (forall m, enqueued e e' [m] ->
           cmd_def m = api_command a /\ block_time m = 0
           /\ fn m = espi_initiate_cmd)
      /\ (r <> espOK -> enqueued e e' [])
      /\ (api_accepts a = true ->
          (r = espOK \/ r = espERR)
          /\ (r = espERR <->
              msg_alloc_ok E (n_msg_alloc e) = false \/ has_room e = false))
      /\ (api_accepts a = false -> r = espPARAMERR))
  /\ (forall bt,
        bt <> 0 ->
        api_accepts a = true ->
        msg_alloc_ok E (n_msg_alloc e) = true ->
        sem_create_ok E (n_sem_create e) = true ->
        exists m,
          enqueued e (out_state (call_api E a bt e)) [m]
          /\ cmd_def m = api_command a /\ block_time m = bt
          /\ forall t r,
               pipeline E m = Some (t, r) -> t <> ESP_SYS_TIMEOUT ->
               returned (call_api E a bt e) = Some r)
  /\ (forall bt,
        bt <> 0 ->
        api_accepts a = true ->
        msg_alloc_ok E (n_msg_alloc e) = false
        \/ sem_create_ok E (n_sem_create e) = false ->
        exists e', call_api E a bt e = Returns espERR e' /\ enqueued e e' []).
Proof.
  split; [|split].
  - pose proof (call_api_shape E a 0 e) as Sh.
    destruct (api_accepts a).
    + destruct Sh as (fill & e0 & C & D & M & N & _). rewrite C.
      destruct (api_call_nonblocking E fill e0)
        as (r & e' & R & V & Ok & Er & Why).
      exists r, e'. split; [exact R|].
      assert (Q : forall m, enqueued e e' [m] ->
                    m = msg_as_queued (fill msg_zero) espi_initiate_cmd 0).
      { intros m Hm. unfold enqueued in Hm. rewrite <- M in Hm.
        destruct V as [V|V].
        - apply Ok in V. unfold enqueued in V. rewrite V in Hm.
          apply app_inv_head in Hm. now injection Hm.
        - apply Er in V. unfold enqueued in V.
          rewrite V, app_nil_r in Hm. exfalso. eapply app_one_neq. exact Hm. }
      repeat split.
      * intros ->. eexists. apply (enqueued_same e e0); [exact M|].
        now apply Ok.
      * intros (m & Hm). rewrite (Q m Hm) in Hm.
        apply Ok. unfold enqueued in *. now rewrite M.
      * rewrite (Q m H). rewrite <- D. apply queued_fields.
      * rewrite (Q m H). apply queued_fields.
      * rewrite (Q m H). apply queued_fields.
      * intros Ne. apply (enqueued_same e e0); [exact M|].
        apply Er. destruct V; [contradiction|assumption].
      * exact V.
      * intros Hr. apply Why in Hr. rewrite N in Hr.
        unfold has_room in *. now rewrite M in Hr.
      * intros Hr. apply Why. rewrite N.
        unfold has_room in *. now rewrite M.
      * discriminate.
    + rewrite Sh. exists espPARAMERR, e. split; [reflexivity|].
      assert (No : forall m, ~ enqueued e e [m])
        by (intros m Hm; eapply app_one_neq; exact Hm).
      repeat split; try discriminate.
      * intros (m & Hm). now apply No in Hm.
      * now apply No in H.
      * now apply No in H.
      * now apply No in H.
      * intros _. unfold enqueued. now rewrite app_nil_r.
  - intros bt Hbt Acc A S.
    pose proof (call_api_shape E a bt e) as Sh. rewrite Acc in Sh.
    destruct Sh as (fill & e0 & C & D & M & N & N2). rewrite C.
    destruct (api_call_blocking E fill bt e0 Hbt) as (B & _).
    rewrite N, N2 in B. destruct (B A S) as (Q & R).
    eexists. split; [apply (enqueued_same e e0); [exact M|exact Q]|].
    destruct (queued_fields (fill msg_zero) espi_initiate_cmd bt)
      as (F1 & F2 & _).
    split; [now rewrite F1|]. split; [exact F2|exact R].
  - intros bt Hbt Acc Fail.
    pose proof (call_api_shape E a bt e) as Sh. rewrite Acc in Sh.
    destruct Sh as (fill & e0 & C & D & M & N & N2). rewrite C.
    destruct (api_call_blocking E fill bt e0 Hbt) as (_ & B).
    rewrite N, N2 in B. destruct (B Fail) as (e' & R & Q).
    exists e'. split; [exact R|]. now apply (enqueued_same e e0).
Qed.

Lemma api_call_result_witness :
  returned (call_api (env_answering 7) Api_sta_quit 1
              (esp_started (env_answering 7))) = Some espOK.
Proof.
  destruct (api_call_result (env_answering 7) Api_sta_quit
              (esp_started (env_answering 7))) as (_ & B & _).
  destruct (B 1) as (m & Q & _ & _ & R);
    [ lia | reflexivity | reflexivity | reflexivity | ].
  apply (R 7 espOK); [|discriminate].
  unfold enqueued in Q. cbn in Q. injection Q as Q. subst m. reflexivity.
Defined.

(** C2, as the specification has it, at a concrete call: [block_time] is
    10 ticks, the pipeline releases the semaphore after 1000 ticks.  The
    caller is not given [espERR] after 10 ticks: the call waits the 1000
    ticks and returns the pipeline's [espOK]; and when the pipeline never
    releases the semaphore the call does not return at all. *)
Lemma blocking_call_outlasts_block_time :
  let call E :=
    send_msg_to_producer_queue E (set_cmd_def ESP_CMD_RESET msg_zero)
      espi_initiate_cmd 10 (esp_started E) in
  returned (fst (call (env_answering 1000))) = Some espOK
  /\ snd (call (env_answering 1000)) = Some 1000
  /\ 10 < 1000
  /\ returned (fst (call env_silent)) = None.
Proof. vm_compute. repeat split; reflexivity. Qed.

(** C2, amended.  In a blocking call whose semaphore was created the
    message is written to the producer mailbox and the semaphore wait has
    no bound: whatever [block_time] is, the call returns once the semaphore
    is released, after [t] ticks, and does not return when it never is.
    What it returns then is the result the pipeline stored in the message,
    unless the wait itself answers [ESP_SYS_TIMEOUT], which gives
    [espERR]; so [espERR] comes back exactly when the wait answers
    [ESP_SYS_TIMEOUT] or the pipeline stored [espERR].  In each case the
    message stays in the mailbox: the call cancels nothing. *)
Theorem blocking_wait_has_no_bound
    (E : sys_env) (m : esp_msg_t) (f : process_fn_t) (bt : Z) (e : esp_t) :
  bt <> 0 ->
  sem_create_ok E (n_sem_create e) = true ->
  let m' := msg_as_queued m f bt in
  let call := send_msg_to_producer_queue E m f bt e in
  enqueued e (out_state (fst call)) [m']
  /\ (forall t r,
        pipeline E m' = Some (t, r) -> t <> ESP_SYS_TIMEOUT ->
        returned (fst call) = Some r /\ snd call = Some t)
  /\ (forall t r,
        pipeline E m' = Some (t, r) -> t = ESP_SYS_TIMEOUT ->
        returned (fst call) = Some espERR)
  /\ (pipeline E m' = None -> returned (fst call) = None)
  /\ (returned (fst call) = Some espERR <->
      exists t r, pipeline E m' = Some (t, r)
                  /\ (t = ESP_SYS_TIMEOUT \/ r = espERR)).
Proof.
  intros Hbt S m' call. unfold call.
  rewrite (send_blocking _ _ _ _ _ Hbt), S. fold m'.
  destruct (pipeline E m') as [[t r]|] eqn:P.
  - destruct (t =? ESP_SYS_TIMEOUT) eqn:T; simpl.
    + apply Z.eqb_eq in T.
      split; [reflexivity|]. split; [|split; [|split]]; try discriminate.
      * intros t1 r1 Q N. inversion Q; subst. contradiction.
      * reflexivity.
      * split; [intros _; exists t, r; split; [reflexivity|now left]
               |reflexivity].
    + apply Z.eqb_neq in T.
      split; [reflexivity|]. split; [|split; [|split]]; try discriminate.
      * intros t1 r1 Q _. now inversion Q.
      * intros t1 r1 Q N. inversion Q; subst. contradiction.
      * split.
        -- intros R. injection R as R. exists t, r.
           split; [reflexivity|now right].
        -- intros (t1 & r1 & Q & [N|N]); inversion Q; subst;
             [contradiction|reflexivity].
  - simpl. split; [reflexivity|]. split; [|split; [|split]];
      try discriminate; try reflexivity.
    split; [discriminate|]. intros (t & r & Q & _). discriminate.
Qed.

Lemma blocking_wait_has_no_bound_witness :
  returned (fst (send_msg_to_producer_queue (env_answering 1000)
                   (set_cmd_def ESP_CMD_RESET msg_zero) espi_initiate_cmd 10
                   (esp_started (env_answering 1000)))) = Some espOK.
Proof.
  destruct (blocking_wait_has_no_bound (env_answering 1000)
              (set_cmd_def ESP_CMD_RESET msg_zero) espi_initiate_cmd 10
              (esp_started (env_answering 1000)))
    as (_ & B & _); [ lia | reflexivity | ].
  destruct (B 1000 espOK) as [H _]; [ reflexivity | discriminate | ].
  exact H.
Defined.

(** C10.  Whenever [esp_conn_start] writes a message to the producer
    mailbox, that message has the definitive command [CIPSTART] and the
    start command [CIPSTATUS], with the arguments of the call.  The
    producer of the specification begins a message with its start command:
    whatever is queued before, what it sends for this message begins with
    the connection-status query [AT+CIPSTATUS], not with [CIPSTART]. *)
Theorem conn_start_queries_status_first
    (E : sys_env) (conn : ptr) (type : esp_conn_type_t) (host : string)
    (port : Z) (cb : option esp_cb_func_t) (blocking : Z)
    (e : esp_t) (m : esp_msg_t) :
  enqueued e (out_state (esp_conn_start E conn type host port cb blocking e))
           [m] ->
  cmd_def m = ESP_CMD_TCPIP_CIPSTART
  /\ cmd m = ESP_CMD_TCPIP_CIPSTATUS
  /\ msg m = msg_conn_start conn type host port cb
  /\ forall modem q,
       exists rest,
         Pipeline.producer modem (q ++ [m])
         = Pipeline.producer modem q
           ++ Pipeline.Tx ESP_CMD_TCPIP_CIPSTATUS
                (Some (String.append "AT+CIPSTATUS" CRLF_s)) :: rest.
Proof.
  unfold esp_conn_start, enqueued. intros H.
  set (fill := fun m0 => set_msg (msg_conn_start conn type host port cb)
                 (set_cmd ESP_CMD_TCPIP_CIPSTATUS
                    (set_cmd_def ESP_CMD_TCPIP_CIPSTART m0))) in *.
  assert (M : m = msg_as_queued (fill msg_zero) espi_initiate_cmd blocking).
  { destruct (msg_alloc_ok E (n_msg_alloc e)) eqn:A.
    - rewrite (api_call_alloc_ok _ _ _ _ A) in H.
      destruct (Z.eq_dec blocking 0) as [->|Hb].
      + rewrite send_nonblocking in H.
        destruct (has_room _); simpl in H.
        * apply List.app_inv_head in H. now inversion H.
        * exfalso. eapply app_one_neq. exact H.
      + rewrite (send_blocking _ _ _ _ _ Hb) in H. simpl in H.
        destruct (sem_create_ok E (n_sem_create e)); simpl in H.
        * destruct (pipeline E _) as [[t r]|]; simpl in H.
          -- destruct (t =? ESP_SYS_TIMEOUT); simpl in H;
               apply List.app_inv_head in H; now inversion H.
          -- apply List.app_inv_head in H; now inversion H.
        * exfalso. eapply app_one_neq. exact H.
    - rewrite (api_call_alloc_failed _ _ _ _ A) in H. simpl in H.
      exfalso. eapply app_one_neq. exact H. }
  assert (C : cmd m = ESP_CMD_TCPIP_CIPSTATUS)
    by (subst m; unfold msg_as_queued; now destruct (blocking =? 0)).
  repeat split.
  - subst m. unfold msg_as_queued. now destruct (blocking =? 0).
  - exact C.
  - subst m. unfold msg_as_queued. now destruct (blocking =? 0).
  - intros modem q. unfold Pipeline.producer.
    rewrite flat_map_app. cbn [flat_map]. unfold Pipeline.message_units.
    rewrite C. eexists. rewrite app_nil_r. reflexivity.
Qed.

Lemma conn_start_queries_status_first_witness :
  cmd (msg_as_queued
         (set_msg (msg_conn_start 0 ESP_CONN_TYPE_TCP "example.com" 80 None)
            (set_cmd ESP_CMD_TCPIP_CIPSTATUS
               (set_cmd_def ESP_CMD_TCPIP_CIPSTART msg_zero)))
         espi_initiate_cmd 0) = ESP_CMD_TCPIP_CIPSTATUS.
Proof.
  refine (proj1 (proj2 (conn_start_queries_status_first (env_answering 1) 0
            ESP_CONN_TYPE_TCP "example.com" 80 None 0
            (esp_started (env_answering 1)) _ _))).
  reflexivity.
Defined.

Lemma nonblocking_call_put E fill e n l t :
  msg_alloc_ok E (n_msg_alloc e) = true ->
  mbox_producer e = {| mbox_size := n; mbox_put := l; mbox_taken := t |} ->
  (List.length l - t < n)%nat ->
  mbox_producer (out_state (api_call E fill 0 e)) =
  {| mbox_size := n;
     mbox_put := l ++ [msg_as_queued (fill msg_zero) espi_initiate_cmd 0];
     mbox_taken := t |}.
Proof.
  intros A M R. rewrite (api_call_alloc_ok _ _ _ _ A), send_nonblocking.
  replace (has_room (set_n_msg_alloc (S (n_msg_alloc e)) e))
    with (has_room e) by reflexivity.
  unfold has_room, mbox_waiting. rewrite M. simpl.
  apply Nat.ltb_lt in R. rewrite R. simpl. now rewrite M.
Qed.

Lemma blocking_call_put E fill bt e :
  bt <> 0 ->
  msg_alloc_ok E (n_msg_alloc e) = true ->
  sem_create_ok E (n_sem_create e) = true ->
  mbox_put (mbox_producer (out_state (api_call E fill bt e))) =
  mbox_put (mbox_producer e)
  ++ [msg_as_queued (fill msg_zero) espi_initiate_cmd bt].
Proof.
  intros Hb A S. rewrite (api_call_alloc_ok _ _ _ _ A).
  rewrite (send_blocking _ _ _ _ _ Hb). simpl. rewrite S.
  destruct (pipeline E _) as [[t r]|]; simpl; [|reflexivity].
  now destruct (t =? ESP_SYS_TIMEOUT).
Qed.

(** C9.  When the message allocations succeed, [esp_init] leaves in the
    producer mailbox, in this order, the commands RESET, WIFI_CWMODE (station
    mode), CIPMUX (1), CIPDINFO (1) and CIPSTATUS, each starting with its
    definitive command, and [esp_sta_join("ssid", "pw", NULL, 1, 1)] adds
    WIFI_CWJAP behind them; the producer of the specification then sends
    AT+RST, AT+CWMODE_CUR=1, AT+CIPMUX=1, AT+CIPDINFO=1, AT+CIPSTATUS and
    AT+CWJAP_CUR="ssid","pw", each answered [OK] before the next one. *)
Theorem init_then_join_command_order
    (E : sys_env) (cb : option esp_cb_func_t) (e : esp_t) :
  (forall n, msg_alloc_ok E n = true) ->
  (forall n, sem_create_ok E n = true) ->
  let e1 := out_state (esp_init E cb e) in
  let e2 := out_state (esp_sta_join E "ssid" (Some "pw") None 1 1 e1) in
  map summary (mbox_put (mbox_producer e1)) = init_commands
  /\ map summary (mbox_put (mbox_producer e2)) = init_commands ++ [join_command]
  /\ Pipeline.producer (fun _ => Pipeline.T_OK) (mbox_put (mbox_producer e2))
     = Pipeline.init_join_wire.
Proof.
  intros A S e1 e2.
  assert (P1 : mbox_put (mbox_producer e1) =
               map (fun f => msg_as_queued (f msg_zero) espi_initiate_cmd 0)
                 [ with_def ESP_CMD_RESET msg_none;
                   with_def ESP_CMD_WIFI_CWMODE (msg_wifi_mode ESP_MODE_STA);
                   with_def ESP_CMD_TCPIP_CIPMUX (msg_tcpip_mux 1);
                   with_def ESP_CMD_TCPIP_CIPDINFO (msg_tcpip_dinfo 1);
                   with_def ESP_CMD_TCPIP_CIPSTATUS msg_none ]).
  { unfold e1, esp_init. cbv zeta.
    unfold out_state at 1. cbv beta iota. cbn [mbox_producer].
    unfold esp_get_conns_status, espi_set_dinfo, esp_set_mux,
      esp_set_wifi_mode, esp_reset.
    match goal with
    | |- context [api_call E (with_def ESP_CMD_RESET msg_none) 0 ?s] =>
        set (s0 := s)
    end.
    assert (M0 : mbox_producer s0 = esp_sys_mbox_create 20) by reflexivity.
    pose proof (nonblocking_call_put E (with_def ESP_CMD_RESET msg_none)
                  s0 _ _ _ (A _) M0 ltac:(simpl; lia)) as M1.
    pose proof (nonblocking_call_put E
                  (with_def ESP_CMD_WIFI_CWMODE (msg_wifi_mode ESP_MODE_STA))
                  _ _ _ _ (A _) M1 ltac:(simpl; lia)) as M2.
    pose proof (nonblocking_call_put E
                  (with_def ESP_CMD_TCPIP_CIPMUX (msg_tcpip_mux 1))
                  _ _ _ _ (A _) M2 ltac:(simpl; lia)) as M3.
    pose proof (nonblocking_call_put E
                  (with_def ESP_CMD_TCPIP_CIPDINFO (msg_tcpip_dinfo 1))
                  _ _ _ _ (A _) M3 ltac:(simpl; lia)) as M4.
    pose proof (nonblocking_call_put E
                  (with_def ESP_CMD_TCPIP_CIPSTATUS msg_none)
                  _ _ _ _ (A _) M4 ltac:(simpl; lia)) as M5.
    rewrite M5. reflexivity. }
  assert (P2 : mbox_put (mbox_producer e2) =
               mbox_put (mbox_producer e1)
               ++ [msg_as_queued
                     (with_def ESP_CMD_WIFI_CWJAP
                        (msg_sta_join 1 "ssid" (Some "pw") None) msg_zero)
                     espi_initiate_cmd 1]).
  { unfold e2, esp_sta_join. apply blocking_call_put; [lia | apply A | apply S]. }
  rewrite P2, P1. repeat split; reflexivity.
Qed.

Lemma init_then_join_command_order_witness :
  map summary
    (mbox_put (mbox_producer (out_state (esp_init (env_answering 1) None esp_zero))))
  = init_commands.
Proof.
  exact (proj1 (init_then_join_command_order (env_answering 1) None esp_zero
                  (fun _ => eq_refl) (fun _ => eq_refl))).
Defined.

End EspFacts.

(** * Properties of the HTTP server *)

Module HttpFacts.

Import Pbuf Http.

(** Boolean comparisons in hypotheses, as propositions for [lia]. *)
Ltac fields :=
  cbn [fst snd tag_push emit trace set_trace
       conn p headers_received req_method content_length content_received process_resp resp_file resp_file_opened buff buff_len buff_ptr conn_mem_available written_total sent_total is_ssi ssi_state ssi_tag_buff ssi_tag_buff_ptr ssi_tag_len ssi_tag_buff_written set_conn set_p set_headers_received set_req_method set_content_length set_content_received set_process_resp set_resp_file set_resp_file_opened set_buff set_buff_len set_buff_ptr set_conn_mem_available set_written_total set_sent_total set_is_ssi set_ssi_state set_ssi_tag_buff set_ssi_tag_buff_ptr set_ssi_tag_len set_ssi_tag_buff_written].

Ltac fields_in H :=
  cbn [fst snd tag_push emit trace set_trace
       conn p headers_received req_method content_length content_received process_resp resp_file resp_file_opened buff buff_len buff_ptr conn_mem_available written_total sent_total is_ssi ssi_state ssi_tag_buff ssi_tag_buff_ptr ssi_tag_len ssi_tag_buff_written set_conn set_p set_headers_received set_req_method set_content_length set_content_received set_process_resp set_resp_file set_resp_file_opened set_buff set_buff_len set_buff_ptr set_conn_mem_available set_written_total set_sent_total set_is_ssi set_ssi_state set_ssi_tag_buff set_ssi_tag_buff_ptr set_ssi_tag_len set_ssi_tag_buff_written] in H.

Ltac zbool :=
  repeat match goal with
  | H : (_ >? _) = true |- _ => apply Z.gtb_lt in H
  | H : (_ >? _) = false |- _ => rewrite Z.gtb_ltb in H; apply Z.ltb_ge in H
  | H : (_ >=? _) = true |- _ => rewrite Z.geb_leb in H; apply Z.leb_le in H
  | H : (_ >=? _) = false |- _ => rewrite Z.geb_leb in H; apply Z.leb_gt in H
  | H : (_ <? _) = true |- _ => apply Z.ltb_lt in H
  | H : (_ <? _) = false |- _ => apply Z.ltb_ge in H
  | H : (_ <=? _) = true |- _ => apply Z.leb_le in H
  | H : (_ <=? _) = false |- _ => apply Z.leb_gt in H
  | H : (_ =? _) = true |- _ => apply Z.eqb_eq in H
  | H : (_ =? _) = false |- _ => apply Z.eqb_neq in H
  end.

(** ** Searching in byte strings *)

Lemma starts_with_app needle l y :
  starts_with needle l = true -> starts_with needle (l ++ y) = true.
Proof.
  revert l. induction needle as [|x needle IH]; intros [|c l] H; simpl in *;
    try reflexivity; try discriminate.
  apply andb_true_iff in H as [H1 H2]. rewrite H1. simpl. now apply IH.
Qed.

Lemma starts_with_length needle l :
  starts_with needle l = true -> (List.length needle <= List.length l)%nat.
Proof.
  revert l. induction needle as [|x needle IH]; intros [|c l] H; simpl in *;
    try lia; try discriminate.
  apply andb_true_iff in H as [_ H2]. apply IH in H2. lia.
Qed.

Lemma starts_with_app_long needle l y :
  (List.length needle <= List.length l)%nat ->
  starts_with needle (l ++ y) = starts_with needle l.
Proof.
  revert l. induction needle as [|x needle IH]; intros [|c l] H; simpl in *;
    try reflexivity; try lia.
  rewrite IH by lia. reflexivity.
Qed.

Lemma starts_with_exact needle y : starts_with needle (needle ++ y) = true.
Proof.
  induction needle as [|x needle IH]; simpl; [reflexivity|].
  now rewrite Ascii.eqb_refl.
Qed.

Lemma starts_with_split needle l :
  starts_with needle l = true -> exists y, l = needle ++ y.
Proof.
  revert l. induction needle as [|x needle IH]; intros l H; simpl in *.
  - now exists l.
  - destruct l as [|c l]; [discriminate|].
    apply andb_true_iff in H as [H1 H2].
    apply Ascii.eqb_eq in H1. subst c.
    destruct (IH _ H2) as [y ->]. now exists y.
Qed.

Lemma find_from_bound needle l i p :
  find_from needle l i = Some p ->
  i <= p /\ p - i + zlen needle <= zlen l.
Proof.
  revert i. induction l as [|c l IH]; intros i H; simpl in H; [discriminate|].
  destruct (starts_with needle (c :: l)) eqn:S.
  - inversion H; subst. apply starts_with_length in S.
    unfold zlen. lia.
  - apply IH in H. unfold zlen in *. simpl. lia.
Qed.

Lemma find_from_app needle l y i p :
  find_from needle l i = Some p -> find_from needle (l ++ y) i = Some p.
Proof.
  revert i. induction l as [|c l IH]; intros i H; simpl in H; [discriminate|].
  simpl. destruct (starts_with needle (c :: l)) eqn:S.
  - change (c :: l ++ y) with ((c :: l) ++ y).
    now rewrite (starts_with_app _ _ _ S).
  - pose proof (find_from_bound _ _ _ _ H) as [B1 B2].
    change (c :: l ++ y) with ((c :: l) ++ y).
    rewrite starts_with_app_long, S; [now apply IH|].
    unfold zlen in B2. simpl. lia.
Qed.

Lemma find_from_app_none needle l y i :
  find_from needle (l ++ y) i = None -> find_from needle l i = None.
Proof.
  intros H. destruct (find_from needle l i) eqn:F; [|reflexivity].
  apply (find_from_app _ _ y) in F. congruence.
Qed.

Lemma strfind_lin c needle :
  esp_pbuf_strfind c needle 0 = find_from needle (linearise c) 0.
Proof. reflexivity. Qed.

Lemma strcmp_lin c s :
  esp_pbuf_strcmp c s 0 = if starts_with s (linearise c) then 0 else 1.
Proof. reflexivity. Qed.

Lemma linearise_app (x y : esp_pbuf_p) :
  linearise (x ++ y) = linearise x ++ linearise y.
Proof. apply List.concat_app. Qed.

Lemma zlen_app {A} (x y : list A) : zlen (x ++ y) = zlen x + zlen y.
Proof. unfold zlen. rewrite List.length_app. lia. Qed.

Lemma zlen_cons {A} (a : A) (x : list A) : zlen (a :: x) = 1 + zlen x.
Proof. unfold zlen. cbn [List.length]. lia. Qed.

Lemma zlen_nonneg {A} (x : list A) : 0 <= zlen x.
Proof. unfold zlen. lia. Qed.

Lemma sz_small x : 0 <= x < SIZE_MOD -> sz x = x.
Proof. intros H. unfold sz. now apply Z.mod_small. Qed.

Lemma sz_range x : 0 <= sz x < SIZE_MOD.
Proof. unfold sz. apply Z.mod_pos_bound. reflexivity. Qed.

(** ** Packets that come in before the headers are complete *)

Section Receiving.

Variable cfg : http_cfg.
Variable env : http_env.
Variable hi : option http_init_t.

Lemma concat_snoc (pks : list esp_pbuf_p) (pk : esp_pbuf_p) :
  List.concat (pks ++ [pk]) = List.concat pks ++ pk.
Proof. rewrite List.concat_app. simpl. now rewrite List.app_nil_r. Qed.

Lemma waiting_chain (pks : list esp_pbuf_p) (pk : esp_pbuf_p) :
  match p (waiting cfg pks) with
  | None => pk
  | Some c0 => esp_pbuf_cat c0 pk
  end = List.concat (pks ++ [pk]).
Proof.
  destruct pks as [|q pks]; simpl.
  - now rewrite List.app_nil_r.
  - unfold esp_pbuf_cat. rewrite concat_snoc. now rewrite List.app_assoc.
Qed.

Lemma waiting_snoc (pks : list esp_pbuf_p) (pk : esp_pbuf_p) :
  set_p (Some (List.concat (pks ++ [pk]))) (waiting cfg pks)
  = waiting cfg (pks ++ [pk]).
Proof.
  unfold waiting. destruct pks as [|q pks]; simpl; reflexivity.
Qed.

Lemma waiting_headers pks : headers_received (waiting cfg pks) = false.
Proof. now destruct pks. Qed.

Lemma waiting_process pks : process_resp (waiting cfg pks) = false.
Proof. now destruct pks. Qed.

(** A packet that does not complete the headers is only stored. *)
Lemma recv_incomplete pks pk w :
  esp_pbuf_strfind (List.concat (pks ++ [pk])) (CRLF ++ CRLF) 0 = None ->
  http_evt_cb cfg env hi (ESP_CB_CONN_DATA_RECV pk) (Some (waiting cfg pks), w)
  = (Some (waiting cfg (pks ++ [pk])), emit EvConnRecved w).
Proof.
  intros F. unfold http_evt_cb. cbv zeta.
  rewrite waiting_headers. cbn [negb].
  rewrite waiting_chain, F, waiting_snoc, waiting_process.
  reflexivity.
Qed.

(** The packet that completes the headers. *)
Lemma recv_complete pks pk w pos :
  esp_pbuf_strfind (List.concat (pks ++ [pk])) (CRLF ++ CRLF) 0 = Some pos ->
  http_evt_cb cfg env hi (ESP_CB_CONN_DATA_RECV pk) (Some (waiting cfg pks), w)
  = let '(hs, w) :=
      headers_done cfg env hi (waiting cfg (pks ++ [pk]))
        (List.concat (pks ++ [pk])) pos w in
    let '(hs, w) :=
      if process_resp hs then send_response cfg env hi (hs, w) true
      else (hs, w) in
    (Some hs, emit EvConnRecved w).
Proof.
  intros F. unfold http_evt_cb. cbv zeta.
  rewrite waiting_headers. cbn [negb].
  rewrite waiting_chain, F, waiting_snoc.
  destruct (headers_done _ _ _ _ _ _ _) as [hs1 w1].
  destruct (if process_resp hs1 then _ else _) as [hs2 w2].
  reflexivity.
Qed.

(** A run of packets none of which completes the headers. *)
Lemma recv_many_incomplete pks more w :
  esp_pbuf_strfind (List.concat (pks ++ more)) (CRLF ++ CRLF) 0 = None ->
  run_events cfg env hi (map ESP_CB_CONN_DATA_RECV more)
             (Some (waiting cfg pks), w)
  = (Some (waiting cfg (pks ++ more)),
     set_trace (trace w ++ repeat EvConnRecved (List.length more)) w).
Proof.
  revert pks w. induction more as [|pk more IH]; intros pks w F.
  - simpl. rewrite !List.app_nil_r. now destruct w.
  - unfold run_events in *. cbn [fold_left map List.length repeat].
    rewrite recv_incomplete.
    + replace (pks ++ pk :: more) with ((pks ++ [pk]) ++ more) in *
        by now rewrite <- List.app_assoc.
      rewrite IH by exact F. f_equal. unfold emit, set_trace. simpl.
      now rewrite <- List.app_assoc.
    + rewrite strfind_lin in *.
      replace (pks ++ pk :: more) with ((pks ++ [pk]) ++ more) in F
        by now rewrite <- List.app_assoc.
      unfold linearise in *.
      rewrite (List.concat_app (pks ++ [pk]) more) in F.
      rewrite (List.concat_app (List.concat (pks ++ [pk]))) in F.
      now apply find_from_app_none in F.
Qed.

Lemma active_starts arg w :
  state_alloc env = true ->
  http_evt_cb cfg env hi ESP_CB_CONN_ACTIVE (arg, w) = (Some (waiting cfg []), w).
Proof. intros A. unfold http_evt_cb. now rewrite A. Qed.

End Receiving.

(** ** The index page *)

(** C1.  The index table has four entries, the second and third of the
    five names having been joined into "/index.shtm/index.ssi".  With a
    file provider that knows one file only, a request for "/" opens
    /index.shtml, /index.html and /index.htm, and opens neither
    /index.shtm nor /index.ssi. *)
Theorem index_probe_misses_shtm_and_ssi :
  let opened path :=
    resp_file_opened
      (fst (http_get_file_from_uri cfg_default
              (env_with (fs_only path (b "<html/>") true) 1000) hi_all
              (hs_zero cfg_default) "/" world_zero)) in
  http_index_filenames =
    [ "/index.shtml"; "/index.shtm/index.ssi"; "/index.html"; "/index.htm" ]
  /\ opened "/index.shtml" = true
  /\ opened "/index.shtm" = false
  /\ opened "/index.ssi" = false
  /\ opened "/index.html" = true
  /\ opened "/index.htm" = true.
Proof. vm_compute. repeat split; reflexivity. Qed.

(** ** Methods that are not allowed *)

Section NotAllowed.

Variable cfg : http_cfg.
Variable env : http_env.
Variable hi : option http_init_t.

Lemma parse_uri_trace c w :
  trace (snd (http_parse_uri cfg c w)) = trace w.
Proof.
  unfold http_parse_uri.
  destruct (esp_pbuf_strfind c (b " ") 0); [|reflexivity].
  destruct (negb _ && negb _); [reflexivity|].
  destruct (esp_pbuf_strfind c CRLF 0); [|reflexivity].
  destruct (_ >? _); reflexivity.
Qed.

Lemma conn_bytes_app t1 t2 :
  conn_bytes (t1 ++ t2) = conn_bytes t1 ++ conn_bytes t2.
Proof.
  induction t1 as [|e t1 IH]; simpl; [reflexivity|].
  destruct e; auto; try destruct (Esp.espr_eqb _ _); auto;
    now rewrite IH, List.app_assoc.
Qed.

Lemma conn_bytes_recved n tl :
  conn_bytes (repeat EvConnRecved n ++ tl) = conn_bytes tl.
Proof. induction n as [|n IH]; [reflexivity|exact IH]. Qed.

(** C6.  When the headers of a request become complete and the request
    starts neither with "GET " nor (where POST is compiled in) with
    "POST ", the server records the method NOTALLOWED, calls
    [esp_conn_send] with the fixed 405 response, whose Allow header names
    GET, and POST as well when POST is compiled in, and closes the
    connection.  The response does not leave: the server hands NULL to
    [esp_conn_send] for [bw], and [esp_conn_send] gives such a call back
    with [espPARAMERR] before a message is made, whatever the connection
    and the stack are.  The connection is closed without having taken a
    byte.  The 405 response is compiled in with
    HTTP_USE_METHOD_NOTALLOWED_RESP. *)
Theorem method_not_allowed_405_is_refused
    (pre : list esp_pbuf_p) (pk : esp_pbuf_p) (w0 : world) (pos : Z) :
  HTTP_USE_METHOD_NOTALLOWED_RESP cfg = true ->
  state_alloc env = true ->
  esp_pbuf_strfind (List.concat pre) (CRLF ++ CRLF) 0 = None ->
  esp_pbuf_strfind (List.concat (pre ++ [pk])) (CRLF ++ CRLF) 0 = Some pos ->
  esp_pbuf_strcmp (List.concat (pre ++ [pk])) (b "GET ") 0 <> 0 ->
  (HTTP_SUPPORT_POST cfg = true ->
   esp_pbuf_strcmp (List.concat (pre ++ [pk])) (b "POST ") 0 <> 0) ->
  exists hs w,
    run_events cfg env hi
      (ESP_CB_CONN_ACTIVE :: map ESP_CB_CONN_DATA_RECV (pre ++ [pk]))
      (None, w0) = (Some hs, w)
    /\ req_method hs = HTTP_METHOD_NOTALLOWED
    /\ trace w = trace w0 ++ repeat EvConnRecved (List.length pre)
                 ++ [ EvConnSend (http_data_method_not_allowed cfg)
                        Esp.espPARAMERR;
                      EvConnClose; EvConnRecved ]
    /\ (forall E conn blocking e,
          Esp.esp_conn_send E conn (http_data_method_not_allowed cfg)
            Esp.NULL blocking e
          = Esp.Returns Esp.espPARAMERR e)
    /\ conn_bytes (trace w) = conn_bytes (trace w0)
    /\ http_data_method_not_allowed cfg =
       b "HTTP/1.1 405 Method Not Allowed" ++ CRLF
       ++ b "Connection: close" ++ CRLF
       ++ b (if HTTP_SUPPORT_POST cfg then "Allow: GET, POST" else "Allow: GET")
       ++ CRLF ++ CRLF.
Proof.
  intros N A F0 F G P.
  unfold run_events. cbn [fold_left].
  rewrite (active_starts cfg env hi None w0 A).
  rewrite List.map_app, List.fold_left_app.
  pose proof (recv_many_incomplete cfg env hi [] pre w0) as R.
  unfold run_events in R. cbn [List.app] in R. rewrite (R F0). clear R.
  cbn [map fold_left].
  rewrite (recv_complete cfg env hi pre pk _ pos F).
  unfold headers_done.
  pose proof (parse_uri_trace (List.concat (pre ++ [pk]))
                (set_trace (trace w0 ++ repeat EvConnRecved (List.length pre)) w0))
    as T.
  destruct (http_parse_uri cfg _ _) as [r1 w1]. cbn [snd] in T.
  assert (NP : HTTP_SUPPORT_POST cfg
               && (esp_pbuf_strcmp (List.concat (pre ++ [pk])) (b "POST ") 0 =? 0)
               = false).
  { destruct (HTTP_SUPPORT_POST cfg); [|reflexivity]. simpl.
    apply Z.eqb_neq. now apply P. }
  rewrite NP. apply Z.eqb_neq in G. rewrite G.
  cbn [req_method set_process_resp set_req_method method_eqb negb].
  rewrite Bool.andb_false_r.
  cbn [process_resp set_process_resp].
  unfold send_response.
  cbn [process_resp set_process_resp set_req_method set_headers_received negb
       written_total orb].
  replace (written_total (waiting cfg (pre ++ [pk]))) with 0
    by (now destruct (pre ++ [pk])).
  cbn [Z.eqb negb andb orb].
  replace (resp_file_opened
             (set_process_resp true
                (set_req_method HTTP_METHOD_NOTALLOWED
                   (set_headers_received true (waiting cfg (pre ++ [pk]))))))
    with false by (now destruct (pre ++ [pk])).
  rewrite N. cbn [req_method set_process_resp set_req_method method_eqb andb].
  unfold esp_conn_send, esp_conn_close, emit. cbn [snd trace set_trace].
  eexists _, _. split; [reflexivity|].
  split; [reflexivity|].
  assert (Tr : trace w1 ++ [EvConnSend (http_data_method_not_allowed cfg)
                              Esp.espPARAMERR] ++ [EvConnClose]
               ++ [EvConnRecved]
               = trace w0 ++ repeat EvConnRecved (List.length pre)
                 ++ [ EvConnSend (http_data_method_not_allowed cfg)
                        Esp.espPARAMERR;
                      EvConnClose; EvConnRecved ]).
  { rewrite T. cbn [trace set_trace]. rewrite <- !List.app_assoc.
    reflexivity. }
  cbn [trace set_trace]. rewrite <- !List.app_assoc.
  split; [exact Tr|]. split.
  - intros E conn blocking e. apply EspFacts.conn_send_without_bw.
  - split.
    + rewrite Tr, conn_bytes_app, conn_bytes_recved. cbn [conn_bytes].
      cbn [Esp.espr_eqb]. apply List.app_nil_r.
    + unfold http_data_method_not_allowed.
      destruct (HTTP_SUPPORT_POST cfg); reflexivity.
Qed.

End NotAllowed.

Lemma method_not_allowed_405_is_refused_witness :
  exists hs w,
    run_events cfg_default (env_with (fun _ => None) 1000) hi_all
      [ESP_CB_CONN_ACTIVE;
       ESP_CB_CONN_DATA_RECV [b "PUT / HTTP/1.1" ++ CRLF ++ CRLF]]
      (None, world_zero) = (Some hs, w)
    /\ req_method hs = HTTP_METHOD_NOTALLOWED
    /\ trace w = [ EvConnSend (http_data_method_not_allowed cfg_default)
                     Esp.espPARAMERR;
                   EvConnClose; EvConnRecved ]
    /\ conn_bytes (trace w) = [].
Proof.
  destruct (method_not_allowed_405_is_refused cfg_default
              (env_with (fun _ => None) 1000) hi_all
              [] [b "PUT / HTTP/1.1" ++ CRLF ++ CRLF] world_zero 14)
    as (hs & w & H1 & H2 & H3 & _ & H5 & _);
    [ reflexivity | reflexivity | reflexivity | reflexivity
    | vm_compute; discriminate | intros _; vm_compute; discriminate | ].
  exists hs, w. repeat split; assumption.
Defined.

(** ** The read buffer *)

Lemma alloc_sizes_head l : List.hd 0 (alloc_sizes l) = Z.pos l.
Proof. destruct l; reflexivity. Qed.

Lemma alloc_sizes_halving l : halving (alloc_sizes l).
Proof.
  induction l as [h IH|h IH|]; simpl; auto;
    (destruct (Z.pos h >? 64) eqn:G; [|exact I]);
    apply Z.gtb_lt in G;
    pose proof (alloc_sizes_head h) as Hd;
    (destruct (alloc_sizes h) as [|y t]; [exact I|]);
    simpl in Hd; subst y;
    (split; [reflexivity | split; [lia | exact IH]]).
Qed.

Lemma alloc_sizes_last l : Z.shiftr (List.last (alloc_sizes l) 0) 1 <= 64.
Proof.
  induction l as [h IH|h IH|].
  - cbn [alloc_sizes]. destruct (Z.pos h >? 64) eqn:G.
    + pose proof (alloc_sizes_head h) as Hd.
      destruct (alloc_sizes h) as [|y t] eqn:E; [discriminate|].
      exact IH.
    + cbn [List.last]. change (Z.shiftr (Z.pos h~1) 1) with (Z.pos h).
      zbool. lia.
  - cbn [alloc_sizes]. destruct (Z.pos h >? 64) eqn:G.
    + pose proof (alloc_sizes_head h) as Hd.
      destruct (alloc_sizes h) as [|y t] eqn:E; [discriminate|].
      exact IH.
    + cbn [List.last]. change (Z.shiftr (Z.pos h~0) 1) with (Z.pos h).
      zbool. lia.
  - cbv. discriminate.
Qed.

Lemma alloc_sizes_le l : Forall (fun n => 0 < n <= Z.pos l) (alloc_sizes l).
Proof.
  induction l as [h IH|h IH|]; cbn [alloc_sizes].
  - constructor; [lia|]. destruct (Z.pos h >? 64); [|constructor].
    eapply Forall_impl; [|exact IH]. simpl. intros. lia.
  - constructor; [lia|]. destruct (Z.pos h >? 64); [|constructor].
    eapply Forall_impl; [|exact IH]. simpl. intros. lia.
  - constructor; [lia|constructor].
Qed.

Section ReadBuffer.

Variable cfg : http_cfg.
Variable env : http_env.
Variable hi : option http_init_t.

(** The allocation loop takes the first size that is granted. *)
Lemma alloc_loop_first l hs :
  alloc_loop env l hs =
  match List.find (mem_alloc env) (alloc_sizes l) with
  | Some n => read_into_buffer (set_buff_len n hs)
  | None => set_buff_len (List.last (alloc_sizes l) 0) hs
  end.
Proof.
  revert hs. induction l as [h IH|h IH|]; intros hs; cbn [alloc_loop alloc_sizes List.find].
  - destruct (mem_alloc env (Z.pos h~1)); [reflexivity|].
    destruct (Z.pos h >? 64) eqn:G; [|reflexivity].
    rewrite IH.
    pose proof (alloc_sizes_head h) as Hd.
    destruct (alloc_sizes h) as [|y t] eqn:E; [discriminate|].
    destruct (List.find _ _); reflexivity.
  - destruct (mem_alloc env (Z.pos h~0)); [reflexivity|].
    destruct (Z.pos h >? 64) eqn:G; [|reflexivity].
    rewrite IH.
    pose proof (alloc_sizes_head h) as Hd.
    destruct (alloc_sizes h) as [|y t] eqn:E; [discriminate|].
    destruct (List.find _ _); reflexivity.
  - destruct (mem_alloc env 1); reflexivity.
Qed.

Lemma read_into_buffer_full hs n :
  0 < n <= http_fs_data_read_file_left (resp_file hs) ->
  buff (read_into_buffer (set_buff_len n hs)) =
    Some (sub_array (data (resp_file hs)) (fptr (resp_file hs)) n)
  /\ buff_len (read_into_buffer (set_buff_len n hs)) = n.
Proof.
  intros H. unfold read_into_buffer, http_fs_data_read_file.
  cbn [resp_file set_buff_len buff_len].
  rewrite Z.min_l by lia.
  destruct (n =? 0) eqn:E; [zbool; lia|].
  split; reflexivity.
Qed.

(** What [read_resp_file] leaves in the state for a file that is not
    static and has bytes left. *)
Lemma read_resp_file_dynamic hs l :
  resp_file_opened hs = true ->
  is_static (resp_file hs) = false ->
  Z.min (http_fs_data_read_file_left (resp_file hs))
        (ESP_CFG_CONN_MAX_DATA_LEN cfg) = Z.pos l ->
  read_resp_file cfg env hs =
  alloc_loop env l (set_buff_ptr 0 (set_buff None (set_buff_ptr 0 hs))).
Proof.
  intros O S M. unfold read_resp_file. rewrite O. cbn [negb].
  cbn [resp_file set_buff set_buff_ptr].
  destruct (http_fs_data_read_file_left (resp_file hs) =? 0) eqn:Z0.
  { zbool. rewrite Z0 in M. lia. }
  rewrite S.
  replace (if http_fs_data_read_file_left (resp_file hs)
              >? ESP_CFG_CONN_MAX_DATA_LEN cfg
           then ESP_CFG_CONN_MAX_DATA_LEN cfg
           else http_fs_data_read_file_left (resp_file hs))
    with (Z.pos l).
  - reflexivity.
  - rewrite <- M. destruct (_ >? _) eqn:G; zbool; lia.
Qed.

Lemma close_when_no_buffer hs w ft :
  process_resp hs = true ->
  written_total hs = 0 \/ written_total hs = sent_total hs ->
  resp_file_opened hs = true ->
  buff (fst (send_response cfg env hi (hs, w) ft)) = None ->
  exists t, trace (snd (send_response cfg env hi (hs, w) ft)) = t ++ [EvConnClose].
Proof.
  intros P W O. unfold send_response. rewrite P, O. cbn [negb orb].
  replace (negb (written_total hs =? 0)
           && negb (written_total hs =? sent_total hs)) with false.
  2:{ destruct W as [W|W]; rewrite W.
      - reflexivity.
      - rewrite Z.eqb_refl. now rewrite Bool.andb_false_r. }
  destruct (if is_ssi hs then _ else _) as [hs1 w1].
  destruct (buff hs1) eqn:B; cbn [fst snd]; intros H.
  - congruence.
  - eexists. reflexivity.
Qed.

Lemma read_resp_file_buffer hs l :
  resp_file_opened hs = true ->
  is_static (resp_file hs) = false ->
  Z.min (http_fs_data_read_file_left (resp_file hs))
        (ESP_CFG_CONN_MAX_DATA_LEN cfg) = Z.pos l ->
  match List.find (mem_alloc env) (alloc_sizes l) with
  | Some n =>
      buff (read_resp_file cfg env hs) =
        Some (sub_array (data (resp_file hs)) (fptr (resp_file hs)) n)
      /\ buff_len (read_resp_file cfg env hs) = n
  | None => buff (read_resp_file cfg env hs) = None
  end.
Proof.
  intros O S M. rewrite (read_resp_file_dynamic hs l O S M), alloc_loop_first.
  destruct (List.find (mem_alloc env) (alloc_sizes l)) as [n|] eqn:F.
  - apply List.find_some in F as [I _].
    pose proof (alloc_sizes_le l) as L.
    rewrite List.Forall_forall in L. specialize (L _ I).
    apply (read_into_buffer_full
             (set_buff_ptr 0 (set_buff None (set_buff_ptr 0 hs))) n).
    cbn [resp_file set_buff_ptr set_buff]. lia.
  - reflexivity.
Qed.

(** C8.  For an opened file that is not static and has bytes left,
    [read_resp_file] asks for a buffer of min(bytes left,
    ESP_CFG_CONN_MAX_DATA_LEN) bytes first; every further request is half
    the one before and above 64 bytes, and the requests end when the next
    half would be 64 bytes or less.  The first request that is granted
    becomes the buffer, filled from the file; when none is granted there
    is no buffer.  Whenever the pump ends without a buffer,
    [send_response] closes the connection. *)
Theorem read_buffer_halves_down_to_64 (hs : http_state_t) (l : positive) :
  resp_file_opened hs = true ->
  is_static (resp_file hs) = false ->
  Z.min (http_fs_data_read_file_left (resp_file hs))
        (ESP_CFG_CONN_MAX_DATA_LEN cfg) = Z.pos l ->
  let sizes := alloc_sizes l in
  List.hd 0 sizes = Z.min (http_fs_data_read_file_left (resp_file hs))
                          (ESP_CFG_CONN_MAX_DATA_LEN cfg)
  /\ halving sizes
  /\ Z.shiftr (List.last sizes 0) 1 <= 64
  /\ match List.find (mem_alloc env) sizes with
     | Some n =>
         buff (read_resp_file cfg env hs) =
           Some (sub_array (data (resp_file hs)) (fptr (resp_file hs)) n)
         /\ buff_len (read_resp_file cfg env hs) = n
     | None => buff (read_resp_file cfg env hs) = None
     end
  /\ (forall w ft,
        process_resp hs = true ->
        written_total hs = 0 \/ written_total hs = sent_total hs ->
        buff (fst (send_response cfg env hi (hs, w) ft)) = None ->
        exists t,
          trace (snd (send_response cfg env hi (hs, w) ft)) = t ++ [EvConnClose])
  /\ (forall w ft,
        process_resp hs = true ->
        written_total hs = 0 \/ written_total hs = sent_total hs ->
        is_ssi hs = false ->
        buff hs = None ->
        List.find (mem_alloc env) sizes = None ->
        trace (snd (send_response cfg env hi (hs, w) ft))
        = trace w ++ [EvConnClose]).
Proof.
  intros O S M sizes. unfold sizes.
  split; [rewrite alloc_sizes_head; now rewrite M|].
  split; [apply alloc_sizes_halving|].
  split; [apply alloc_sizes_last|].
  split; [now apply read_resp_file_buffer|].
  split.
  - intros w ft P W B. now apply close_when_no_buffer.
  - intros w ft P W I B F.
    pose proof (read_resp_file_buffer hs l O S M) as R. rewrite F in R.
    unfold send_response. rewrite P, O, I. cbn [negb orb].
    replace (negb (written_total hs =? 0)
             && negb (written_total hs =? sent_total hs)) with false.
    2:{ destruct W as [W|W]; rewrite W.
        - reflexivity.
        - rewrite Z.eqb_refl. now rewrite Bool.andb_false_r. }
    unfold send_response_no_ssi. rewrite B. cbn [orb]. rewrite !R.
    reflexivity.
Qed.

End ReadBuffer.

Lemma read_buffer_halves_down_to_64_witness :
  let hs := set_resp_file_opened true
              (set_resp_file {| data := repeat NUL 2000; is_static := false;
                                fptr := 0 |} (hs_zero cfg_default)) in
  buff_len (read_resp_file cfg_default
              (env_low_memory (fun _ => None) 100) hs) = 91.
Proof.
  set (hs := set_resp_file_opened true
              (set_resp_file {| data := repeat NUL 2000; is_static := false;
                                fptr := 0 |} (hs_zero cfg_default))).
  destruct (read_buffer_halves_down_to_64 cfg_default
              (env_low_memory (fun _ => None) 100) None hs 1460%positive)
    as (_ & _ & _ & R & _); [ reflexivity | reflexivity | reflexivity | ].
  exact (proj2 R).
Defined.

(** ** Writes of the pump and the transmit credit *)

Lemma pump_writes_bounded_app c t1 t2 :
  pump_writes_bounded c (t1 ++ t2) =
  pump_writes_bounded c t1 && pump_writes_bounded (credit_after c t1) t2.
Proof.
  revert c. induction t1 as [|e t1 IH]; intros c; simpl; [reflexivity|].
  destruct e; auto. rewrite IH. now rewrite Bool.andb_assoc.
Qed.

Lemma credit_after_app c t1 t2 :
  credit_after c (t1 ++ t2) = credit_after (credit_after c t1) t2.
Proof.
  revert c. induction t1 as [|e t1 IH]; intros c; simpl; [reflexivity|].
  destruct e; auto.
Qed.

Lemma credit_kept_same s s' :
  conn_mem_available (fst s') = conn_mem_available (fst s) ->
  trace (snd s') = trace (snd s) ->
  credit_kept s s'.
Proof.
  intros C T H. split; [now rewrite C|].
  exists []. rewrite List.app_nil_r. repeat split; auto.
Qed.

Lemma credit_kept_refl s : credit_kept s s.
Proof. now apply credit_kept_same. Qed.

Lemma credit_kept_trans s1 s2 s3 :
  credit_kept s1 s2 -> credit_kept s2 s3 -> credit_kept s1 s3.
Proof.
  intros A B H. destruct (A H) as (H2 & n1 & T1 & P1 & C1).
  destruct (B H2) as (H3 & n2 & T2 & P2 & C2).
  split; [assumption|]. exists (n1 ++ n2).
  rewrite T2, T1, <- List.app_assoc. split; [reflexivity|].
  rewrite pump_writes_bounded_app, credit_after_app, P1, C1. now split.
Qed.

Section Credit.

Variable cfg : http_cfg.
Variable env : http_env.
Variable hi : option http_init_t.

Lemma credit_kept_pump_write d flush hs w :
  (0 <= conn_mem_available hs -> zlen d <= conn_mem_available hs) ->
  credit_kept (hs, w) (esp_conn_write env false d flush (hs, w)).
Proof.
  intros L H. specialize (L H). unfold esp_conn_write. cbn [fst snd conn_mem_available
    set_conn_mem_available trace emit set_trace].
  split; [apply sz_range|].
  eexists. split; [reflexivity|]. simpl.
  apply Z.leb_le in L. rewrite L. now split.
Qed.

Lemma credit_kept_user_write d s :
  credit_kept s (esp_http_server_write env d s).
Proof.
  destruct s as [hs w]. intros H. unfold esp_http_server_write, esp_conn_write.
  cbn [fst snd conn_mem_available set_conn_mem_available set_written_total
       trace emit set_trace].
  split; [apply sz_range|].
  eexists. split; [reflexivity|]. simpl. now split.
Qed.

Lemma credit_kept_user_writes l s :
  credit_kept s (fold_left (fun s d => esp_http_server_write env d s) l s).
Proof.
  revert s. induction l as [|d l IH]; intros s; simpl.
  - apply credit_kept_refl.
  - eapply credit_kept_trans; [apply credit_kept_user_write|apply IH].
Qed.

Lemma credit_kept_ssi_fn f tag s :
  credit_kept s (run_ssi_fn env f tag s).
Proof.
  destruct s as [hs w]. unfold run_ssi_fn.
  eapply credit_kept_trans; [|apply credit_kept_user_writes].
  intros H. split; [exact H|]. cbn [fst snd trace emit set_trace].
  eexists. split; [reflexivity|]. simpl. now split.
Qed.

Lemma credit_kept_switch ch s :
  credit_kept s (fst (ssi_switch cfg env hi ch s)).
Proof.
  destruct s as [hs w]. unfold ssi_switch.
  destruct (ssi_state hs).
  - destruct (Ascii.eqb _ _); now apply credit_kept_same.
  - destruct (_ && _); [|now apply credit_kept_same].
    destruct (_ =? _); now apply credit_kept_same.
  - destruct (Ascii.eqb _ _); [now apply credit_kept_same|].
    destruct (_ <? _); now apply credit_kept_same.
  - destruct (_ && _); [|now apply credit_kept_same].
    destruct (_ =? _); [|now apply credit_kept_same].
    destruct hi as [h|]; [|now apply credit_kept_same].
    destruct (ssi_fn h) as [f|]; [|now apply credit_kept_same].
    match goal with
    | |- context [run_ssi_fn env f ?t ?s0] =>
        pose proof (credit_kept_ssi_fn f t s0) as K;
        destruct (run_ssi_fn env f t s0) as [hs1 w1]
    end.
    eapply credit_kept_trans; [|eapply credit_kept_trans; [exact K|]];
      now apply credit_kept_same.
Qed.

Lemma sub_array_within l from x c :
  0 <= c -> zlen (sub_array l from (Z.min x c)) <= c.
Proof.
  intros H. unfold sub_array, zlen. rewrite List.length_firstn. lia.
Qed.

Lemma credit_kept_reset ch s :
  credit_kept s (ssi_reset env ch s).
Proof.
  destruct s as [hs w]. unfold ssi_reset.
  assert (A : credit_kept (hs, w)
                (if negb (ssi_tag_buff_ptr hs =? 0)
                 then
                   let len := Z.min (ssi_tag_buff_ptr hs)
                                    (conn_mem_available hs) in
                   let '(hs0, w0) :=
                     esp_conn_write env false
                       (sub_array (ssi_tag_buff hs) 0 len) false (hs, w) in
                   let hs1 := set_written_total
                                (sz_add (written_total hs0) len) hs0 in
                   let hs2 := set_ssi_tag_buff_written len hs1 in
                   if len =? ssi_tag_buff_ptr hs2
                   then (set_ssi_tag_buff_ptr 0 hs2, w0)
                   else (hs2, w0)
                 else (hs, w))).
  { destruct (negb _); [|apply credit_kept_refl].
    cbv zeta.
    pose proof (credit_kept_pump_write
                  (sub_array (ssi_tag_buff hs) 0
                     (Z.min (ssi_tag_buff_ptr hs) (conn_mem_available hs)))
                  false hs w (sub_array_within _ _ _ _)) as K.
    destruct (esp_conn_write env false _ false (hs, w)) as [hs0 w0].
    eapply credit_kept_trans; [exact K|].
    match goal with |- context [if ?c then _ else _] => destruct c end;
      now apply credit_kept_same. }
  destruct (if negb (ssi_tag_buff_ptr hs =? 0) then _ else _) as [hs1 w1].
  eapply credit_kept_trans; [exact A|]. clear A.
  destruct (negb (conn_mem_available hs1 =? 0)) eqn:N.
  - assert (L : 0 <= conn_mem_available hs1 ->
                zlen [ch] <= conn_mem_available hs1).
    { intros H. apply Bool.negb_true_iff in N. zbool.
      unfold zlen. simpl. lia. }
    pose proof (credit_kept_pump_write [ch] false hs1 w1 L) as K.
    destruct (esp_conn_write env false [ch] false (hs1, w1)) as [hs2 w2].
    eapply credit_kept_trans; [exact K|].
    now apply credit_kept_same.
  - now apply credit_kept_same.
Qed.

Lemma credit_kept_byte ch s :
  credit_kept s (ssi_byte cfg env hi ch s).
Proof.
  unfold ssi_byte. pose proof (credit_kept_switch ch s) as K.
  destruct (ssi_switch cfg env hi ch s) as [[hs1 w1] r]. cbn [fst] in K.
  eapply credit_kept_trans; [exact K|].
  destruct r; [apply credit_kept_reset|now apply credit_kept_same].
Qed.

Lemma credit_kept_loop fuel s :
  credit_kept s (ssi_loop cfg env hi fuel s).
Proof.
  revert s. induction fuel as [|fuel IH]; intros s; simpl.
  - apply credit_kept_refl.
  - destruct s as [hs w]. destruct (buff hs); [|apply credit_kept_refl].
    destruct (_ && _); [|apply credit_kept_refl].
    eapply credit_kept_trans; [apply credit_kept_byte|apply IH].
Qed.

Lemma credit_kept_resume s :
  credit_kept s (ssi_resume env s).
Proof.
  destruct s as [hs w]. unfold ssi_resume.
  destruct (_ <? _) eqn:G; [|apply credit_kept_refl].
  cbv zeta. destruct (negb _) eqn:N; [|apply credit_kept_refl].
  pose proof (credit_kept_pump_write
                (sub_array (ssi_tag_buff hs) (ssi_tag_buff_written hs)
                   (Z.min (sz_sub (ssi_tag_buff_ptr hs)
                                  (ssi_tag_buff_written hs))
                          (conn_mem_available hs)))
                false hs w (sub_array_within _ _ _ _)) as K.
  destruct (esp_conn_write env false _ false (hs, w)) as [hs0 w0].
  eapply credit_kept_trans; [exact K|].
  match goal with |- context [if ?c then _ else _] => destruct c end;
    now apply credit_kept_same.
Qed.

Lemma read_into_buffer_credit hs :
  conn_mem_available (read_into_buffer hs) = conn_mem_available hs.
Proof.
  unfold read_into_buffer.
  destruct (http_fs_data_read_file _ _) as [[n d] f].
  now destruct (n =? 0).
Qed.

Lemma alloc_loop_credit l hs :
  conn_mem_available (alloc_loop env l hs) = conn_mem_available hs.
Proof.
  revert hs. induction l as [h IH|h IH|]; intros hs; cbn [alloc_loop];
    (destruct (mem_alloc env _); [now rewrite read_into_buffer_credit|]);
    try (destruct (_ >? _); [now rewrite IH|]); reflexivity.
Qed.

Lemma read_resp_file_credit hs :
  conn_mem_available (read_resp_file cfg env hs) = conn_mem_available hs.
Proof.
  unfold read_resp_file. destruct (negb _); [reflexivity|].
  cbv zeta. destruct (_ =? 0); [reflexivity|].
  destruct (is_static _).
  - destruct (http_fs_data_read_file _ _) as [[n d] f].
    now destruct (n =? 0).
  - match goal with |- context [match ?x with Z.pos _ => _ | _ => _ end] =>
      destruct x end.
    + destruct (mem_alloc env _); [now rewrite read_into_buffer_credit|reflexivity].
    + now rewrite alloc_loop_credit.
    + destruct (mem_alloc env _); [now rewrite read_into_buffer_credit|reflexivity].
Qed.

(** [ssi_reset] when the tag buffer holds more than the credit allows. *)
Lemma ssi_reset_partial ch hs w :
  0 <= conn_mem_available hs < ssi_tag_buff_ptr hs ->
  ssi_reset env ch (hs, w) =
  let c := sz (conn_credit env (trace w)) in
  let hs1 :=
    set_ssi_tag_buff_written (conn_mem_available hs)
      (set_written_total (sz_add (written_total hs) (conn_mem_available hs))
         (set_conn_mem_available c hs)) in
  let w1 :=
    emit (EvConnWrite false
            (sub_array (ssi_tag_buff hs) 0 (conn_mem_available hs)) false c) w in
  if c =? 0 then (set_ssi_state HTTP_SSI_STATE_WAIT_BEGIN hs1, w1)
  else
    let c2 := sz (conn_credit env (trace w1)) in
    (set_ssi_state HTTP_SSI_STATE_WAIT_BEGIN
       (set_buff_ptr (sz_add (buff_ptr hs) 1)
          (set_written_total
             (sz_add (sz_add (written_total hs) (conn_mem_available hs)) 1)
             (set_conn_mem_available c2 hs1))),
     emit (EvConnWrite false [ch] false c2) w1).
Proof.
  intros R. unfold ssi_reset.
  assert (N : negb (ssi_tag_buff_ptr hs =? 0) = true).
  { apply Bool.negb_true_iff, Z.eqb_neq. lia. }
  rewrite N. cbv zeta. rewrite Z.min_r by lia.
  unfold esp_conn_write.
  cbn [ssi_tag_buff_ptr set_ssi_tag_buff_written set_written_total
       set_conn_mem_available conn_mem_available written_total buff_ptr].
  assert (E : (conn_mem_available hs =? ssi_tag_buff_ptr hs) = false).
  { apply Z.eqb_neq. lia. }
  rewrite E.
  cbn [ssi_tag_buff_ptr set_ssi_tag_buff_written set_written_total
       set_conn_mem_available conn_mem_available written_total buff_ptr].
  destruct (sz (conn_credit env (trace w)) =? 0); reflexivity.
Qed.

(** [ssi_resume] when part of a tag buffer is still to be written. *)
Lemma ssi_resume_flush hs w :
  0 <= ssi_tag_buff_written hs < ssi_tag_buff_ptr hs ->
  ssi_tag_buff_ptr hs < SIZE_MOD ->
  0 < conn_mem_available hs ->
  ssi_resume env (hs, w) =
  let len := Z.min (ssi_tag_buff_ptr hs - ssi_tag_buff_written hs)
                   (conn_mem_available hs) in
  let c := sz (conn_credit env (trace w)) in
  let hs1 :=
    set_ssi_tag_buff_written (sz_add (ssi_tag_buff_written hs) len)
      (set_written_total (sz_add (written_total hs) len)
         (set_conn_mem_available c hs)) in
  (if sz_add (ssi_tag_buff_written hs) len =? ssi_tag_buff_ptr hs
   then set_ssi_tag_buff_ptr 0 hs1 else hs1,
   emit (EvConnWrite false
           (sub_array (ssi_tag_buff hs) (ssi_tag_buff_written hs) len)
           false c) w).
Proof.
  intros R M C. unfold ssi_resume.
  assert (G : (ssi_tag_buff_written hs <? ssi_tag_buff_ptr hs) = true)
    by (apply Z.ltb_lt; lia).
  rewrite G. cbv zeta.
  assert (S : sz_sub (ssi_tag_buff_ptr hs) (ssi_tag_buff_written hs)
              = ssi_tag_buff_ptr hs - ssi_tag_buff_written hs).
  { unfold sz_sub. apply sz_small. lia. }
  rewrite S.
  assert (N : negb (Z.min (ssi_tag_buff_ptr hs - ssi_tag_buff_written hs)
                          (conn_mem_available hs) =? 0) = true).
  { apply Bool.negb_true_iff, Z.eqb_neq. lia. }
  rewrite N. unfold esp_conn_write.
  cbn [ssi_tag_buff_ptr ssi_tag_buff_written set_ssi_tag_buff_written
       set_written_total set_conn_mem_available written_total].
  match goal with |- context [if ?x then _ else _] => destruct x end;
    reflexivity.
Qed.

(** The pump after its opening query for the credit. *)
Lemma credit_kept_after_query s :
  credit_kept s
    (let '(hs, w) := ssi_resume env s in
     let hs :=
       if (match buff hs with None => true | Some _ => false end)
          || (buff_ptr hs =? buff_len hs)
       then read_resp_file cfg env hs else hs in
     let s := ssi_loop cfg env hi (ssi_fuel hs) (hs, w) in
     esp_conn_write env false [] true s).
Proof.
  pose proof (credit_kept_resume s) as K1.
  destruct (ssi_resume env s) as [hs1 w1].
  eapply credit_kept_trans; [exact K1|]. cbv zeta.
  match goal with
  | |- context [if ?c then read_resp_file cfg env hs1 else hs1] =>
      set (hs2 := if c then read_resp_file cfg env hs1 else hs1)
  end.
  assert (K2 : credit_kept (hs1, w1) (hs2, w1)).
  { apply credit_kept_same; [|reflexivity]. unfold hs2. cbn [fst].
    destruct (_ || _); [apply read_resp_file_credit|reflexivity]. }
  eapply credit_kept_trans; [exact K2|].
  pose proof (credit_kept_loop (ssi_fuel hs2) (hs2, w1)) as K3.
  destruct (ssi_loop cfg env hi (ssi_fuel hs2) (hs2, w1)) as [hs3 w3].
  eapply credit_kept_trans; [exact K3|].
  apply credit_kept_pump_write. intros H. exact H.
Qed.

(** A byte that the scanner turns down leaves the state as it is. *)
Lemma switch_turns_down ch hs w :
  snd (ssi_switch cfg env hi ch (hs, w)) = true ->
  ssi_switch cfg env hi ch (hs, w) = (hs, w, true).
Proof.
  unfold ssi_switch.
  destruct (ssi_state hs).
  - destruct (Ascii.eqb _ _); [discriminate|reflexivity].
  - destruct (_ && _); [|reflexivity].
    destruct (_ =? _); discriminate.
  - destruct (Ascii.eqb _ _); [discriminate|].
    destruct (_ <? _); [discriminate|reflexivity].
  - destruct (_ && _); [|reflexivity].
    destruct (_ =? _); [|discriminate].
    destruct hi as [h|]; [destruct (ssi_fn h)|]; cbv zeta;
      try destruct (run_ssi_fn _ _ _ _); discriminate.
Qed.

(** The loop does not go on without credit. *)
Lemma ssi_loop_no_credit fuel hs w :
  conn_mem_available hs = 0 -> ssi_loop cfg env hi fuel (hs, w) = (hs, w).
Proof.
  intros C. destruct fuel; [reflexivity|]. cbn [ssi_loop].
  destruct (buff hs); [|reflexivity].
  rewrite C. cbn [Z.eqb negb]. now rewrite Bool.andb_false_r.
Qed.

(** The loop at a byte that ends the tag begun, with a tag buffer longer
    than the credit, on a connection that has no credit left after the
    write. *)
Lemma loop_stops_after_partial_flush hs w d fuel :
  buff hs = Some d ->
  buff_ptr hs < buff_len hs ->
  snd (ssi_switch cfg env hi (at_index d (buff_ptr hs)) (hs, w)) = true ->
  0 < conn_mem_available hs < ssi_tag_buff_ptr hs ->
  sz (conn_credit env (trace w)) = 0 ->
  ssi_loop cfg env hi (S fuel) (hs, w)
  = (set_ssi_state HTTP_SSI_STATE_WAIT_BEGIN
       (set_ssi_tag_buff_written (conn_mem_available hs)
          (set_written_total
             (sz_add (written_total hs) (conn_mem_available hs))
             (set_conn_mem_available 0 hs))),
     emit (EvConnWrite false
             (sub_array (ssi_tag_buff hs) 0 (conn_mem_available hs))
             false 0) w).
Proof.
  intros B P T C Z0.
  cbn [ssi_loop]. rewrite B.
  assert (Q1 : (buff_ptr hs <? buff_len hs) = true) by (apply Z.ltb_lt; lia).
  assert (Q2 : (conn_mem_available hs =? 0) = false)
    by (apply Z.eqb_neq; lia).
  rewrite Q1, Q2. cbn [negb andb].
  unfold ssi_byte. rewrite (switch_turns_down _ hs w T).
  rewrite ssi_reset_partial by lia.
  cbv zeta. rewrite Z0. cbn [Z.eqb].
  now rewrite ssi_loop_no_credit by reflexivity.
Qed.

(** A pump invocation that finds part of a tag buffer still to be written
    and a connection with credit. *)
Lemma pump_resumes_tag_buffer hs w :
  0 <= ssi_tag_buff_written hs < ssi_tag_buff_ptr hs ->
  ssi_tag_buff_ptr hs < SIZE_MOD ->
  sz (conn_credit env (trace w)) <> 0 ->
  exists c rest,
    trace (snd (send_response_ssi cfg env hi (hs, w))) =
    trace w
    ++ [ EvConnWrite false [] false (sz (conn_credit env (trace w)));
         EvConnWrite false
           (sub_array (ssi_tag_buff hs) (ssi_tag_buff_written hs)
              (Z.min (ssi_tag_buff_ptr hs - ssi_tag_buff_written hs)
                     (sz (conn_credit env (trace w)))))
           false c ]
    ++ rest.
Proof.
  intros R M C. unfold send_response_ssi.
  set (c := sz (conn_credit env (trace w))) in *.
  pose proof (sz_range (conn_credit env (trace w))) as CR. fold c in CR.
  cbv zeta.
  change (esp_conn_write env false [] false (hs, w))
    with (set_conn_mem_available c hs, emit (EvConnWrite false [] false c) w).
  rewrite ssi_resume_flush
    by (cbn [ssi_tag_buff_written ssi_tag_buff_ptr conn_mem_available
             set_conn_mem_available]; lia).
  cbv zeta.
  cbn [ssi_tag_buff_written ssi_tag_buff_ptr conn_mem_available
       set_conn_mem_available ssi_tag_buff trace emit set_trace].
  match goal with
  | |- context [ssi_loop cfg env hi (ssi_fuel ?h) (?h, ?ww)] =>
      pose proof (credit_kept_loop (ssi_fuel h) (h, ww)) as K;
      assert (P : 0 <= conn_mem_available (fst (h, ww)));
      [ | destruct (K P) as (_ & new & T & _);
          destruct (ssi_loop cfg env hi (ssi_fuel h) (h, ww)) as [hs3 w3] ]
  end.
  { cbn [fst].
    match goal with |- context [if ?x then read_resp_file _ _ ?a else _] =>
      destruct x; [rewrite read_resp_file_credit|] end;
      match goal with |- context [if ?x then _ else _] => destruct x end;
      cbn; apply sz_range. }
  cbn [snd trace emit set_trace] in T.
  unfold esp_conn_write. cbn [snd trace emit set_trace].
  eexists _, _. rewrite T. rewrite <- !List.app_assoc. reflexivity.
Qed.

(** C5, amended.  Every write [send_response_ssi] itself makes (the
    opening query, a flushed tag buffer, a literal byte, the closing flush)
    carries no more bytes than the credit [esp_conn_write] reported last;
    the writes [ssi_fn] makes through [esp_http_server_write] are not
    counted, for they are passed on with the length the user gives.
    When the loop of the pump comes, in any of its passes, to a byte that
    ends the tag begun while the tag buffer is longer than the credit
    [c0], and the connection has no credit left after the write, then the
    first [c0] bytes of the tag buffer are written, the loop stops and the
    invocation ends with its closing flush: [ssi_tag_buff_written] is
    [c0], and the tag buffer, its length and the place in the read buffer
    are as they were.  The next pump invocation, from the state this one
    left, whatever has been acknowledged and whatever else has happened on
    the connection in between, queries the credit and, when there is some,
    first writes the tag buffer from position [c0] on, as far as the credit
    allows. *)
Theorem pump_writes_fit_credit (hs : http_state_t) (w : world) :
  (exists new,
      trace (snd (send_response_ssi cfg env hi (hs, w))) = trace w ++ new
      /\ pump_writes_bounded 0 new = true)
  /\ (forall (hm : http_state_t) (wm : world) (d : bytes) (fuel : nat),
        let c0 := conn_mem_available hm in
        let last := esp_conn_write env false [] true
                      (ssi_loop cfg env hi (S fuel) (hm, wm)) in
        buff hm = Some d ->
        buff_ptr hm < buff_len hm ->
        snd (ssi_switch cfg env hi (at_index d (buff_ptr hm)) (hm, wm))
        = true ->
        0 < c0 < ssi_tag_buff_ptr hm ->
        ssi_tag_buff_ptr hm < SIZE_MOD ->
        sz (conn_credit env (trace wm)) = 0 ->
        (exists c3,
            trace (snd last)
            = trace wm
              ++ [ EvConnWrite false (sub_array (ssi_tag_buff hm) 0 c0)
                     false 0;
                   EvConnWrite false [] true c3 ])
        /\ ssi_tag_buff_written (fst last) = c0
        /\ ssi_tag_buff_ptr (fst last) = ssi_tag_buff_ptr hm
        /\ ssi_tag_buff (fst last) = ssi_tag_buff hm
        /\ buff (fst last) = Some d
        /\ buff_ptr (fst last) = buff_ptr hm
        /\ (forall (k : Z) (w' : world),
              let c1 := sz (conn_credit env (trace w')) in
              c1 <> 0 ->
              exists c rest,
                trace (snd (send_response_ssi cfg env hi
                              (set_sent_total k (fst last), w')))
                = trace w'
                  ++ [ EvConnWrite false [] false c1;
                       EvConnWrite false
                         (sub_array (ssi_tag_buff hm) c0
                            (Z.min (ssi_tag_buff_ptr hm - c0) c1))
                         false c ]
                  ++ rest)).
Proof.
  split.
  - unfold send_response_ssi.
    set (s1 := esp_conn_write env false [] false (hs, w)).
    pose proof (credit_kept_after_query s1) as K.
    assert (C1 : 0 <= conn_mem_available (fst s1)) by apply sz_range.
    destruct (K C1) as (_ & new & T & B & _).
    cbv zeta in T. rewrite T.
    exists (EvConnWrite false [] false (sz (conn_credit env (trace w))) :: new).
    split.
    + unfold s1, esp_conn_write. cbn [snd trace emit set_trace].
      now rewrite <- List.app_assoc.
    + simpl. exact B.
  - intros hm wm d fuel c0 last B P T C M Z0.
    pose proof (loop_stops_after_partial_flush hm wm d fuel B P T C Z0) as E.
    fold c0 in E.
    assert (F : last = esp_conn_write env false [] true
                         (ssi_loop cfg env hi (S fuel) (hm, wm)))
      by reflexivity.
    rewrite E in F. unfold esp_conn_write in F. fields_in F.
    clearbody last. subst last. fields.
    split; [|do 5 (split; [try reflexivity; try assumption|])].
    + eexists. rewrite <- !List.app_assoc. reflexivity.
    + intros k w' C1.
      match goal with
      | |- context [send_response_ssi cfg env hi (?h, ?ww)] =>
          destruct (pump_resumes_tag_buffer h ww) as (c & rest & R)
      end.
      * fields. lia.
      * fields. exact M.
      * exact C1.
      * fields_in R. exists c, rest. exact R.
Qed.

End Credit.

(** ** The tag scanner *)

Lemma same_buffer_refl s : same_buffer s s.
Proof. repeat split; auto. Qed.

Lemma same_buffer_trans s1 s2 s3 :
  same_buffer s1 s2 -> same_buffer s2 s3 -> same_buffer s1 s3.
Proof.
  intros (A1 & A2 & A3 & A4) (B1 & B2 & B3 & B4).
  repeat split; try congruence. auto.
Qed.

Lemma same_buffer_fields s s' :
  buff (fst s') = buff (fst s) ->
  buff_len (fst s') = buff_len (fst s) ->
  buff_ptr (fst s') = buff_ptr (fst s) ->
  conn_mem_available (fst s') = conn_mem_available (fst s) ->
  same_buffer s s'.
Proof. intros A B C D. repeat split; auto. now rewrite D. Qed.

Section Scanner.

Variable cfg : http_cfg.
Variable env : http_env.
Variable hi : option http_init_t.

Hypothesis credit : credit_nonzero env.

Lemma same_buffer_write u d flush s :
  same_buffer s (esp_conn_write env u d flush s).
Proof.
  destruct s as [hs w]. unfold esp_conn_write.
  repeat split; auto. intros _. apply credit.
Qed.

Lemma same_buffer_user_write d s :
  same_buffer s (esp_http_server_write env d s).
Proof.
  destruct s as [hs w]. unfold esp_http_server_write, esp_conn_write.
  repeat split; auto. intros _. apply credit.
Qed.

Lemma same_buffer_user_writes l s :
  same_buffer s (fold_left (fun s d => esp_http_server_write env d s) l s).
Proof.
  revert s. induction l as [|d l IH]; intros s; simpl.
  - apply same_buffer_refl.
  - eapply same_buffer_trans; [apply same_buffer_user_write|apply IH].
Qed.

Lemma same_buffer_ssi_fn f tag s :
  same_buffer s (run_ssi_fn env f tag s).
Proof.
  destruct s as [hs w]. unfold run_ssi_fn.
  eapply same_buffer_trans; [|apply same_buffer_user_writes].
  now apply same_buffer_fields.
Qed.

Lemma same_buffer_switch ch s :
  same_buffer s (fst (ssi_switch cfg env hi ch s)).
Proof.
  destruct s as [hs w]. unfold ssi_switch.
  destruct (ssi_state hs).
  - destruct (Ascii.eqb _ _); now apply same_buffer_fields.
  - destruct (_ && _); [|now apply same_buffer_fields].
    destruct (_ =? _); now apply same_buffer_fields.
  - destruct (Ascii.eqb _ _); [now apply same_buffer_fields|].
    destruct (_ <? _); now apply same_buffer_fields.
  - destruct (_ && _); [|now apply same_buffer_fields].
    destruct (_ =? _); [|now apply same_buffer_fields].
    destruct hi as [h|]; [|now apply same_buffer_fields].
    destruct (ssi_fn h) as [f|]; [|now apply same_buffer_fields].
    match goal with
    | |- context [run_ssi_fn env f ?t ?s0] =>
        pose proof (same_buffer_ssi_fn f t s0) as K;
        destruct (run_ssi_fn env f t s0) as [hs1 w1]
    end.
    eapply same_buffer_trans; [|eapply same_buffer_trans; [exact K|]];
      now apply same_buffer_fields.
Qed.

(** With credit at hand every pass of the loop moves on by one byte. *)
Lemma ssi_byte_advances ch hs w :
  conn_mem_available hs <> 0 ->
  let s' := ssi_byte cfg env hi ch (hs, w) in
  buff (fst s') = buff hs
  /\ buff_len (fst s') = buff_len hs
  /\ buff_ptr (fst s') = sz_add (buff_ptr hs) 1
  /\ conn_mem_available (fst s') <> 0.
Proof.
  intros C. unfold ssi_byte.
  pose proof (same_buffer_switch ch (hs, w)) as K.
  destruct (ssi_switch cfg env hi ch (hs, w)) as [[hs1 w1] r].
  destruct K as (K1 & K2 & K3 & K4). cbn [fst] in *.
  specialize (K4 C).
  destruct r.
  - unfold ssi_reset.
    match goal with
    | |- context [if negb (ssi_tag_buff_ptr hs1 =? 0) then ?a else ?bb] =>
        assert (A : same_buffer (hs1, w1)
                      (if negb (ssi_tag_buff_ptr hs1 =? 0) then a else bb));
        [ | destruct (if negb (ssi_tag_buff_ptr hs1 =? 0) then a else bb)
              as [hs2 w2] ]
    end.
    { destruct (negb _); [|apply same_buffer_refl].
      cbv zeta.
      match goal with
      | |- context [esp_conn_write env false ?d false (hs1, w1)] =>
          pose proof (same_buffer_write false d false (hs1, w1)) as W;
          destruct (esp_conn_write env false d false (hs1, w1)) as [hs0 w0]
      end.
      eapply same_buffer_trans; [exact W|].
      match goal with |- context [if ?c then _ else _] => destruct c end;
        now apply same_buffer_fields. }
    destruct A as (A1 & A2 & A3 & A4). cbn [fst] in *.
    specialize (A4 K4).
    assert (N : negb (conn_mem_available hs2 =? 0) = true).
    { apply Bool.negb_true_iff, Z.eqb_neq. exact A4. }
    rewrite N. unfold esp_conn_write.
    cbn [fst buff buff_len buff_ptr conn_mem_available set_ssi_state
         set_buff_ptr set_written_total set_conn_mem_available].
    repeat split; try congruence; apply credit.
  - cbn [fst buff buff_len buff_ptr conn_mem_available set_buff_ptr].
    repeat split; congruence.
Qed.

Abbreviation scan := (Http.scan cfg env hi).

Lemma skipn_cons_nth (d : bytes) n ch l :
  skipn n d = ch :: l -> nth n d NUL = ch /\ skipn (S n) d = l.
Proof.
  revert n. induction d as [|x d IH]; intros [|n] H; simpl in *;
    try discriminate.
  - now inversion H.
  - now apply IH.
Qed.

(** The loop is the scan of the bytes that are left in the buffer. *)
Lemma ssi_loop_scan l :
  forall fuel hs w d,
    buff hs = Some d ->
    buff_len hs = zlen d ->
    zlen d < SIZE_MOD ->
    0 <= buff_ptr hs ->
    skipn (Z.to_nat (buff_ptr hs)) d = l ->
    conn_mem_available hs <> 0 ->
    (List.length l < fuel)%nat ->
    ssi_loop cfg env hi fuel (hs, w) = scan l (hs, w).
Proof.
  induction l as [|ch l IH]; intros fuel hs w d B L M P Sk C F.
  - destruct fuel as [|fuel]; [simpl in F; lia|]. simpl. rewrite B.
    assert (G : (buff_ptr hs <? buff_len hs) = false).
    { apply Z.ltb_ge. rewrite L.
      assert (List.length d <= Z.to_nat (buff_ptr hs))%nat.
      { destruct (Nat.le_gt_cases (List.length d) (Z.to_nat (buff_ptr hs)))
          as [H|H]; [exact H|].
        apply (f_equal (@List.length ascii)) in Sk.
        rewrite List.length_skipn in Sk. simpl in Sk. lia. }
      unfold zlen. lia. }
    now rewrite G.
  - destruct fuel as [|fuel]; [simpl in F; lia|].
    cbn [ssi_loop scan fold_left]. rewrite B.
    pose proof (skipn_cons_nth _ _ _ _ Sk) as [N1 N2].
    assert (Lt : buff_ptr hs < zlen d).
    { assert (Z.to_nat (buff_ptr hs) < List.length d)%nat.
      { apply (f_equal (@List.length ascii)) in Sk.
        rewrite List.length_skipn in Sk. simpl in Sk. lia. }
      unfold zlen. lia. }
    assert (G : (buff_ptr hs <? buff_len hs) = true)
      by (apply Z.ltb_lt; lia).
    rewrite G.
    assert (N : negb (conn_mem_available hs =? 0) = true)
      by (now apply Bool.negb_true_iff, Z.eqb_neq).
    rewrite N. cbn [andb].
    assert (A : at_index d (buff_ptr hs) = ch).
    { unfold at_index.
      destruct (buff_ptr hs <? 0) eqn:Q; [zbool; lia|exact N1]. }
    rewrite A.
    pose proof (ssi_byte_advances ch hs w C) as (X1 & X2 & X3 & X4).
    destruct (ssi_byte cfg env hi ch (hs, w)) as [hs1 w1] eqn:E1.
    cbn [fst] in *.
    assert (X3' : buff_ptr hs1 = buff_ptr hs + 1).
    { rewrite X3. unfold sz_add. apply sz_small. lia. }
    apply (IH fuel hs1 w1 d); try congruence; try lia.
    + rewrite X3'. replace (Z.to_nat (buff_ptr hs + 1))
        with (S (Z.to_nat (buff_ptr hs))) by lia. exact N2.
    + simpl in F. lia.
Qed.

End Scanner.

(** Projections of updated states. *)
Lemma sz_add_small x y : 0 <= x + y < SIZE_MOD -> sz_add x y = x + y.
Proof. intros H. unfold sz_add. now apply sz_small. Qed.

Lemma sz_sub_small x y : 0 <= x - y < SIZE_MOD -> sz_sub x y = x - y.
Proof. intros H. unfold sz_sub. now apply sz_small. Qed.

Lemma array_set_nat_length l i v :
  List.length (array_set_nat l i v) = List.length l.
Proof.
  revert i. induction l as [|x l IH]; intros [|i]; simpl; auto.
Qed.

Lemma array_set_length l i v :
  List.length (array_set l i v) = List.length l.
Proof.
  unfold array_set. destruct (i <? 0); [reflexivity|].
  apply array_set_nat_length.
Qed.

Lemma array_set_nat_firstn_below l i v n :
  (n <= i)%nat -> firstn n (array_set_nat l i v) = firstn n l.
Proof.
  revert i n. induction l as [|x l IH]; intros [|i] [|n] H; simpl; auto;
    try lia.
  rewrite IH by lia. reflexivity.
Qed.

Lemma array_set_nat_firstn_at l i v :
  (i < List.length l)%nat ->
  firstn (S i) (array_set_nat l i v) = firstn i l ++ [v].
Proof.
  revert i. induction l as [|x l IH]; intros [|i] H; simpl in *; try lia.
  - reflexivity.
  - rewrite IH by lia. reflexivity.
Qed.

Lemma array_set_firstn_below l i v n :
  0 <= i -> (n <= Z.to_nat i)%nat ->
  firstn n (array_set l i v) = firstn n l.
Proof.
  intros P H. unfold array_set.
  destruct (i <? 0) eqn:Q; [zbool; lia|].
  now apply array_set_nat_firstn_below.
Qed.

Lemma array_set_firstn_at l i v :
  0 <= i < zlen l ->
  firstn (S (Z.to_nat i)) (array_set l i v) = firstn (Z.to_nat i) l ++ [v].
Proof.
  intros H. unfold array_set.
  destruct (i <? 0) eqn:Q; [zbool; lia|].
  apply array_set_nat_firstn_at. unfold zlen in H. lia.
Qed.

Lemma at_index_app_here (done rest : bytes) ch :
  at_index (done ++ ch :: rest) (zlen done) = ch.
Proof.
  unfold at_index, zlen.
  destruct (Z.of_nat (List.length done) <? 0) eqn:Q; [zbool; lia|].
  rewrite Nat2Z.id. now rewrite List.nth_middle.
Qed.

(** ** A well-formed tag *)

Section Tags.

Variable cfg : http_cfg.
Variable env : http_env.
Variable h : http_init_t.
Variable f : bytes -> list bytes.

Hypothesis credit : credit_nonzero env.
Hypothesis has_ssi_fn : ssi_fn h = Some f.
Hypothesis start_two : 2 <= HTTP_SSI_TAG_START_LEN cfg.
Hypothesis end_two : 2 <= HTTP_SSI_TAG_END_LEN cfg.
Hypothesis max_nonneg : 0 <= HTTP_SSI_TAG_MAX_LEN cfg.
Hypothesis fits :
  HTTP_SSI_TAG_START_LEN cfg + HTTP_SSI_TAG_MAX_LEN cfg
  + HTTP_SSI_TAG_END_LEN cfg + 1 < SIZE_MOD.

Abbreviation START := (HTTP_SSI_TAG_START cfg).
Abbreviation TEND := (HTTP_SSI_TAG_END cfg).
Abbreviation SL := (HTTP_SSI_TAG_START_LEN cfg).
Abbreviation EL := (HTTP_SSI_TAG_END_LEN cfg).
Abbreviation step := (ssi_byte cfg env (Some h)).

Abbreviation idle := (Http.idle cfg).
Abbreviation in_begin := (Http.in_begin cfg).
Abbreviation in_tag := (Http.in_tag cfg).
Abbreviation in_end := (Http.in_end cfg).

Lemma buff_size_eq :
  Z.of_nat (ssi_tag_buff_size cfg) = SL + HTTP_SSI_TAG_MAX_LEN cfg + EL + 1.
Proof. unfold ssi_tag_buff_size. lia. Qed.

(** A byte that does not open a tag is written as it is. *)
Lemma step_literal ch hs w :
  idle hs -> ch <> at_index START 0 ->
  idle (fst (step ch (hs, w)))
  /\ exists c, trace (snd (step ch (hs, w)))
               = trace w ++ [EvConnWrite false [ch] false c].
Proof.
  intros (St & Pt & Ln & Cr) Ne.
  unfold ssi_byte, ssi_switch. rewrite St.
  apply Ascii.eqb_neq in Ne. rewrite Ne.
  unfold ssi_reset. rewrite Pt. cbn [Z.eqb negb].
  apply Z.eqb_neq in Cr. rewrite Cr. cbn [negb].
  unfold esp_conn_write. fields.
  split.
  - unfold idle. fields. repeat split; auto; apply credit.
  - eexists. reflexivity.
Qed.

(** The first byte of the start marker opens the tag buffer. *)
Lemma step_open ch hs w :
  idle hs -> ch = at_index START 0 ->
  in_begin [ch] (fst (step ch (hs, w)))
  /\ trace (snd (step ch (hs, w))) = trace w.
Proof.
  intros (St & Pt & Ln & Cr) ->.
  unfold ssi_byte, ssi_switch. rewrite St, Ascii.eqb_refl. fields.
  split; [|reflexivity].
  unfold in_begin. fields.
  assert (0 < zlen (ssi_tag_buff hs)).
  { unfold zlen. rewrite Ln, buff_size_eq. lia. }
  repeat split; auto.
  - change (List.length [at_index START 0]) with (S (Z.to_nat 0)).
    now rewrite array_set_firstn_at by lia.
  - now rewrite array_set_length.
Qed.

Lemma firstn_snoc (l : bytes) (n : nat) (got : bytes) ch :
  List.length got = n ->
  firstn n l = got ->
  (n < List.length l)%nat ->
  firstn (List.length (got ++ [ch])) (array_set l (Z.of_nat n) ch)
  = got ++ [ch].
Proof.
  intros Hn Hf Hl. rewrite List.length_app, Hn. simpl.
  replace (n + 1)%nat with (S (Z.to_nat (Z.of_nat n))) by lia.
  rewrite array_set_firstn_at by (unfold zlen; lia).
  now rewrite Nat2Z.id, Hf.
Qed.

(** A further byte of the start marker. *)
Lemma step_begin got ch rest hs w :
  in_begin got hs ->
  START = got ++ ch :: rest ->
  trace (snd (step ch (hs, w))) = trace w
  /\ match rest with
     | [] => in_tag [] (fst (step ch (hs, w)))
     | _ => in_begin (got ++ [ch]) (fst (step ch (hs, w)))
     end.
Proof.
  intros (St & Pt & Fn & Ln & Cr) Hs.
  assert (HSL : SL = zlen got + 1 + zlen rest).
  { unfold HTTP_SSI_TAG_START_LEN. rewrite Hs, zlen_app.
    unfold zlen. simpl. lia. }
  pose proof (zlen_nonneg got) as G0. pose proof (zlen_nonneg rest) as R0.
  pose proof buff_size_eq as BS.
  unfold ssi_byte, ssi_switch. rewrite St, Pt.
  assert (C1 : (zlen got <? SL) = true) by (apply Z.ltb_lt; lia).
  rewrite C1.
  assert (C2 : Ascii.eqb ch (at_index START (zlen got)) = true).
  { rewrite Hs, at_index_app_here. apply Ascii.eqb_refl. }
  rewrite C2. cbn [andb]. unfold tag_push. fields. rewrite Pt.
  rewrite sz_add_small by lia.
  assert (Fs : firstn (List.length (got ++ [ch]))
                 (array_set (ssi_tag_buff hs) (zlen got) ch) = got ++ [ch]).
  { apply firstn_snoc; auto. apply Nat2Z.inj_lt. rewrite Ln, BS.
    unfold zlen in *. lia. }
  destruct rest as [|r rest].
  - assert (C3 : (zlen got + 1 =? SL) = true).
    { apply Z.eqb_eq. rewrite HSL. unfold zlen. simpl. lia. }
    rewrite C3. fields. split; [reflexivity|].
    unfold in_tag. fields. rewrite List.app_nil_r.
    repeat split; auto.
    + rewrite HSL. unfold zlen. simpl. lia.
    + rewrite Hs. exact Fs.
    + now rewrite array_set_length.
  - assert (C3 : (zlen got + 1 =? SL) = false).
    { apply Z.eqb_neq. rewrite HSL. unfold zlen. simpl. lia. }
    rewrite C3. fields. split; [reflexivity|].
    unfold in_begin. fields.
    repeat split; auto.
    + rewrite zlen_app. unfold zlen. simpl. lia.
    + now rewrite array_set_length.
Qed.

(** A byte of the tag name. *)
Lemma step_name nm ch hs w :
  in_tag nm hs ->
  ch <> at_index TEND 0 ->
  zlen nm < HTTP_SSI_TAG_MAX_LEN cfg ->
  trace (snd (step ch (hs, w))) = trace w
  /\ in_tag (nm ++ [ch]) (fst (step ch (hs, w))).
Proof.
  intros (St & Pt & Tl & Fn & Ln & Cr) Ne Lt.
  pose proof (zlen_nonneg nm) as N0.
  pose proof (zlen_nonneg TEND) as E0.
  pose proof buff_size_eq as BS.
  unfold HTTP_SSI_TAG_END_LEN in *.
  unfold ssi_byte, ssi_switch. rewrite St, Pt.
  apply Ascii.eqb_neq in Ne. rewrite Ne.
  rewrite sz_sub_small by lia.
  assert (C1 : (SL + zlen nm - SL <? HTTP_SSI_TAG_MAX_LEN cfg) = true)
    by (apply Z.ltb_lt; lia).
  rewrite C1. unfold tag_push. fields. rewrite Pt, Tl.
  rewrite (sz_add_small (zlen nm) 1), (sz_add_small (SL + zlen nm) 1) by lia.
  split; [reflexivity|].
  unfold in_tag. fields.
  repeat split; auto.
  - rewrite zlen_app. unfold zlen. simpl. lia.
  - rewrite zlen_app. unfold zlen. simpl. lia.
  - rewrite List.app_assoc.
    replace (SL + zlen nm) with (Z.of_nat (List.length (START ++ nm))).
    + apply firstn_snoc; auto. apply Nat2Z.inj_lt. rewrite Ln, BS.
      rewrite List.length_app. unfold HTTP_SSI_TAG_START_LEN, zlen in *. lia.
    + rewrite List.length_app. unfold HTTP_SSI_TAG_START_LEN, zlen. lia.
  - now rewrite array_set_length.
Qed.

(** The first byte of the end marker. *)
Lemma step_end_first nm ch hs w :
  in_tag nm hs ->
  ch = at_index TEND 0 ->
  zlen nm <= HTTP_SSI_TAG_MAX_LEN cfg ->
  trace (snd (step ch (hs, w))) = trace w
  /\ in_end nm [ch] (fst (step ch (hs, w))).
Proof.
  intros (St & Pt & Tl & Fn & Ln & Cr) -> Lt.
  pose proof (zlen_nonneg nm) as N0.
  pose proof buff_size_eq as BS.
  unfold ssi_byte, ssi_switch. rewrite St, Ascii.eqb_refl.
  unfold tag_push. fields. rewrite Pt.
  rewrite (sz_add_small (SL + zlen nm) 1) by lia.
  split; [reflexivity|].
  unfold in_end. fields.
  repeat split; auto.
  - rewrite List.app_assoc.
    replace (SL + zlen nm) with (Z.of_nat (List.length (START ++ nm))).
    + apply firstn_snoc; auto. apply Nat2Z.inj_lt. rewrite Ln, BS.
      rewrite List.length_app. unfold HTTP_SSI_TAG_START_LEN, zlen in *. lia.
    + rewrite List.length_app. unfold HTTP_SSI_TAG_START_LEN, zlen. lia.
  - now rewrite array_set_length.
Qed.

Lemma user_writes_bytes l hs w :
  ssi_tag_buff
    (fst (fold_left (fun s d => esp_http_server_write env d s) l (hs, w)))
  = ssi_tag_buff hs
  /\ exists new,
       trace (snd (fold_left (fun s d => esp_http_server_write env d s) l
                     (hs, w)))
       = trace w ++ new
       /\ conn_bytes new = List.concat l.
Proof.
  revert hs w. induction l as [|d l IH]; intros hs w; cbn [fold_left].
  - split; [reflexivity|]. exists []. now rewrite List.app_nil_r.
  - unfold esp_http_server_write at 2 4. unfold esp_conn_write.
    match goal with
    | |- context [fold_left _ l (?a, ?ww)] =>
        destruct (IH a ww) as (B & new & T & C)
    end.
    split; [rewrite B; reflexivity|].
    eexists. rewrite T. cbn [trace emit set_trace].
    rewrite <- List.app_assoc. split; [reflexivity|].
    simpl. now rewrite C.
Qed.

Lemma ssi_fn_bytes tag hs w :
  ssi_tag_buff (fst (run_ssi_fn env f tag (hs, w))) = ssi_tag_buff hs
  /\ (conn_mem_available hs <> 0 ->
      conn_mem_available (fst (run_ssi_fn env f tag (hs, w))) <> 0)
  /\ exists new,
       trace (snd (run_ssi_fn env f tag (hs, w))) = trace w ++ new
       /\ conn_bytes new = List.concat (f tag).
Proof.
  pose proof (same_buffer_ssi_fn env credit f tag (hs, w)) as (_ & _ & _ & K).
  cbn [fst] in K.
  unfold run_ssi_fn in *.
  destruct (user_writes_bytes (f tag) hs (emit (EvSsi tag (zlen tag)) w))
    as (B & new & T & C).
  split; [exact B|]. split; [exact K|].
  eexists. rewrite T. cbn [trace emit set_trace].
  rewrite <- List.app_assoc. split; [reflexivity|]. simpl. exact C.
Qed.

Lemma firstn_skipn_middle (x y l : bytes) :
  firstn (List.length (x ++ y)) l = x ++ y ->
  firstn (List.length y) (skipn (List.length x) l) = y.
Proof.
  intros H.
  assert (E : exists tl, l = (x ++ y) ++ tl).
  { exists (skipn (List.length (x ++ y)) l).
    rewrite <- H at 1. symmetry. apply List.firstn_skipn. }
  destruct E as [tl ->]. rewrite <- List.app_assoc.
  rewrite List.skipn_app, List.skipn_all, Nat.sub_diag. simpl.
  rewrite List.firstn_app, Nat.sub_diag, List.firstn_all. simpl.
  now rewrite List.app_nil_r.
Qed.

Lemma firstn_shorter (x y l : bytes) :
  firstn (List.length (x ++ y)) l = x ++ y ->
  firstn (List.length x) l = x.
Proof.
  intros H.
  assert (E : exists tl, l = (x ++ y) ++ tl).
  { exists (skipn (List.length (x ++ y)) l).
    rewrite <- H at 1. symmetry. apply List.firstn_skipn. }
  destruct E as [tl ->]. rewrite <- List.app_assoc.
  rewrite List.firstn_app, Nat.sub_diag, List.firstn_all. simpl.
  now rewrite List.app_nil_r.
Qed.

(** A further byte of the end marker; with the last one the tag is
    complete and [ssi_fn] is called with its name. *)
Lemma step_end nm got ch rest hs w :
  in_end nm got hs ->
  TEND = got ++ ch :: rest ->
  1 <= zlen got ->
  zlen nm <= HTTP_SSI_TAG_MAX_LEN cfg ->
  match rest with
  | [] =>
      idle (fst (step ch (hs, w)))
      /\ exists new,
           trace (snd (step ch (hs, w))) = trace w ++ new
           /\ conn_bytes new = List.concat (f nm)
  | _ =>
      trace (snd (step ch (hs, w))) = trace w
      /\ in_end nm (got ++ [ch]) (fst (step ch (hs, w)))
  end.
Proof.
  intros (St & Pt & Tl & Fn & Ln & Cr) He G1 Lt.
  assert (HEL : EL = zlen got + 1 + zlen rest).
  { unfold HTTP_SSI_TAG_END_LEN. rewrite He, zlen_app.
    unfold zlen. simpl. lia. }
  pose proof (zlen_nonneg nm) as N0. pose proof (zlen_nonneg rest) as R0.
  pose proof buff_size_eq as BS.
  unfold ssi_byte, ssi_switch. rewrite St, Pt, Tl.
  rewrite (sz_sub_small (SL + zlen nm + zlen got) SL) by lia.
  rewrite (sz_sub_small (SL + zlen nm + zlen got - SL) (zlen nm)) by lia.
  replace (SL + zlen nm + zlen got - SL - zlen nm) with (zlen got) by lia.
  assert (C1 : (zlen got <? EL) = true) by (apply Z.ltb_lt; lia).
  rewrite C1.
  assert (C2 : Ascii.eqb ch (at_index TEND (zlen got)) = true).
  { rewrite He, at_index_app_here. apply Ascii.eqb_refl. }
  rewrite C2. cbn [andb]. unfold tag_push. fields. rewrite Pt, Tl.
  rewrite (sz_add_small (SL + zlen nm + zlen got) 1) by lia.
  rewrite (sz_add_small SL (zlen nm)) by lia.
  rewrite (sz_add_small (SL + zlen nm) EL) by lia.
  assert (Fs : firstn (List.length ((START ++ nm ++ got) ++ [ch]))
                 (array_set (ssi_tag_buff hs) (SL + zlen nm + zlen got) ch)
               = (START ++ nm ++ got) ++ [ch]).
  { replace (SL + zlen nm + zlen got)
      with (Z.of_nat (List.length (START ++ nm ++ got))).
    - apply firstn_snoc; auto. apply Nat2Z.inj_lt. rewrite Ln, BS.
      rewrite !List.length_app. unfold HTTP_SSI_TAG_START_LEN, zlen in *. lia.
    - rewrite !List.length_app. unfold HTTP_SSI_TAG_START_LEN, zlen. lia. }
  destruct rest as [|r rest].
  - assert (C3 : (SL + zlen nm + zlen got + 1 =? SL + zlen nm + EL) = true).
    { apply Z.eqb_eq. rewrite HEL. unfold zlen. simpl. lia. }
    rewrite C3. rewrite has_ssi_fn.
    match goal with
    | |- context [run_ssi_fn env f ?t (?a, w)] =>
        assert (Tg : t = nm);
        [ | rewrite Tg; destruct (ssi_fn_bytes nm a w) as (B & K & new & T & C);
            destruct (run_ssi_fn env f nm (a, w)) as [hs1 w1] ]
    end.
    { fields. unfold sub_array.
      replace (Z.to_nat SL) with (List.length START)
        by (unfold HTTP_SSI_TAG_START_LEN, zlen; lia).
      replace (Z.to_nat (zlen nm)) with (List.length nm)
        by (unfold zlen; lia).
      apply firstn_skipn_middle.
      rewrite array_set_firstn_below.
      - rewrite array_set_firstn_below.
        + apply (firstn_shorter (START ++ nm) got).
          rewrite <- List.app_assoc. exact Fn.
        + lia.
        + rewrite List.length_app.
          unfold HTTP_SSI_TAG_START_LEN, zlen in *. lia.
      - lia.
      - rewrite List.length_app.
        unfold HTTP_SSI_TAG_START_LEN, zlen in *. lia. }
    cbn [fst snd] in *. fields_in B. fields.
    split.
    + unfold idle. fields. repeat split; auto;
        try (rewrite B; now rewrite !array_set_length);
        try (apply K; fields; exact Cr).
    + exists new. split; [exact T|exact C].
  - assert (C3 : (SL + zlen nm + zlen got + 1 =? SL + zlen nm + EL) = false).
    { apply Z.eqb_neq. rewrite HEL. unfold zlen. simpl. lia. }
    rewrite C3. fields. split; [reflexivity|].
    unfold in_end. fields.
    repeat split; auto.
    + rewrite zlen_app. unfold zlen. simpl. lia.
    + rewrite <- !List.app_assoc in Fs.
      rewrite <- ?List.app_assoc. exact Fs.
    + now rewrite array_set_length.
Qed.

Abbreviation scanned := (scan cfg env (Some h)).

Lemma scan_app l1 l2 s : scanned (l1 ++ l2) s = scanned l2 (scanned l1 s).
Proof. unfold scan. apply List.fold_left_app. Qed.

Lemma scan_cons ch l s : scanned (ch :: l) s = scanned l (step ch s).
Proof. reflexivity. Qed.

Abbreviation adds := (Http.adds cfg env h).

Lemma adds_app l1 l2 s o1 o2 :
  adds l1 s o1 -> adds l2 (scanned l1 s) o2 -> adds (l1 ++ l2) s (o1 ++ o2).
Proof.
  intros (n1 & T1 & C1) (n2 & T2 & C2). exists (n1 ++ n2).
  rewrite scan_app, T2, T1, <- List.app_assoc, conn_bytes_app, C1, C2.
  now split.
Qed.

Lemma adds_nothing l s :
  trace (snd (scanned l s)) = trace (snd s) -> adds l s [].
Proof. intros T. exists []. rewrite T, List.app_nil_r. now split. Qed.

Lemma literal_run l :
  forall hs w,
    idle hs ->
    Forall (fun c => c <> at_index START 0) l ->
    idle (fst (scanned l (hs, w))) /\ adds l (hs, w) l.
Proof.
  induction l as [|ch l IH]; intros hs w I F.
  - split; [exact I|]. now apply adds_nothing.
  - inversion F as [|? ? Hc Hl]; subst.
    destruct (step_literal ch hs w I Hc) as (I1 & c & T1).
    rewrite scan_cons.
    destruct (step ch (hs, w)) as [hs1 w1] eqn:E1. cbn [fst snd] in *.
    destruct (IH hs1 w1 I1 Hl) as (I2 & n2 & T2 & C2). cbn [snd] in T2.
    split; [exact I2|].
    exists (EvConnWrite false [ch] false c :: n2).
    rewrite scan_cons, E1, T2, T1, <- List.app_assoc. cbn [snd].
    split; [reflexivity|]. simpl. now rewrite C2.
Qed.

Lemma begin_run rest :
  forall got hs w,
    in_begin got hs ->
    START = got ++ rest ->
    rest <> [] ->
    in_tag [] (fst (scanned rest (hs, w)))
    /\ trace (snd (scanned rest (hs, w))) = trace w.
Proof.
  induction rest as [|ch rest IH]; intros got hs w B Hs Ne; [congruence|].
  destruct (step_begin got ch rest hs w B Hs) as (T1 & N1).
  rewrite scan_cons.
  destruct (step ch (hs, w)) as [hs1 w1] eqn:E1. cbn [fst snd] in *.
  destruct rest as [|r rest].
  - split; [exact N1|exact T1].
  - destruct (IH (got ++ [ch]) hs1 w1 N1) as (I2 & T2).
    + rewrite <- List.app_assoc. exact Hs.
    + discriminate.
    + split; [exact I2|]. now rewrite T2.
Qed.

Lemma start_nonempty :
  exists c r rest, START = c :: r :: rest.
Proof.
  pose proof start_two as S2. unfold HTTP_SSI_TAG_START_LEN, zlen in S2.
  destruct START as [|c [|r rest]]; simpl in S2; try lia.
  now exists c, r, rest.
Qed.

Lemma end_nonempty :
  exists c r rest, TEND = c :: r :: rest.
Proof.
  pose proof end_two as S2. unfold HTTP_SSI_TAG_END_LEN, zlen in S2.
  destruct TEND as [|c [|r rest]]; simpl in S2; try lia.
  now exists c, r, rest.
Qed.

Lemma start_run hs w :
  idle hs ->
  in_tag [] (fst (scanned START (hs, w)))
  /\ trace (snd (scanned START (hs, w))) = trace w.
Proof.
  intros I. destruct start_nonempty as (c & r & rest & Hs).
  assert (C0 : c = at_index START 0) by now rewrite Hs.
  assert (Sc : scanned START (hs, w) = scanned (r :: rest) (step c (hs, w)))
    by (rewrite Hs at 1; reflexivity).
  rewrite Sc.
  destruct (step_open c hs w I C0) as (B & T1).
  destruct (step c (hs, w)) as [hs1 w1] eqn:E1. cbn [fst snd] in *.
  destruct (begin_run (r :: rest) [c] hs1 w1 B Hs) as (N & T2);
    [discriminate|].
  split; [exact N|]. now rewrite T2.
Qed.

Lemma name_run l :
  forall nm hs w,
    in_tag nm hs ->
    Forall (fun c => c <> at_index TEND 0) l ->
    zlen nm + zlen l <= HTTP_SSI_TAG_MAX_LEN cfg ->
    in_tag (nm ++ l) (fst (scanned l (hs, w)))
    /\ trace (snd (scanned l (hs, w))) = trace w.
Proof.
  induction l as [|ch l IH]; intros nm hs w N F L.
  - rewrite List.app_nil_r. split; [exact N|reflexivity].
  - inversion F as [|? ? Hc Hl]; subst.
    pose proof (zlen_cons ch l) as Z1.
    pose proof (zlen_nonneg l) as L0.
    destruct (step_name nm ch hs w N Hc) as (T1 & N1); [lia|].
    rewrite scan_cons.
    destruct (step ch (hs, w)) as [hs1 w1] eqn:E1. cbn [fst snd] in *.
    destruct (IH (nm ++ [ch]) hs1 w1 N1 Hl) as (N2 & T2).
    + rewrite zlen_app, (zlen_cons ch []). change (zlen (@nil ascii)) with 0.
      lia.
    + rewrite <- List.app_assoc in N2. split; [exact N2|]. now rewrite T2.
Qed.

Lemma end_rest_run rest :
  forall nm got hs w,
    in_end nm got hs ->
    TEND = got ++ rest ->
    rest <> [] ->
    1 <= zlen got ->
    zlen nm <= HTTP_SSI_TAG_MAX_LEN cfg ->
    idle (fst (scanned rest (hs, w)))
    /\ adds rest (hs, w) (List.concat (f nm)).
Proof.
  induction rest as [|ch rest IH]; intros nm got hs w B He Ne G L;
    [congruence|].
  pose proof (step_end nm got ch rest hs w B He G L) as K.
  unfold adds. rewrite !scan_cons.
  destruct (step ch (hs, w)) as [hs1 w1] eqn:E1. cbn [fst snd] in *.
  destruct rest as [|r rest].
  - destruct K as (I & new & T & C). split; [exact I|].
    exists new. now split.
  - destruct K as (T1 & N1).
    destruct (IH nm (got ++ [ch]) hs1 w1 N1) as (I2 & new & T2 & C2).
    + rewrite <- List.app_assoc. exact He.
    + discriminate.
    + rewrite zlen_app, (zlen_cons ch []). change (zlen (@nil ascii)) with 0.
      lia.
    + exact L.
    + split; [exact I2|]. exists new. cbn [snd] in T2.
      rewrite T2, T1. now split.
Qed.

Lemma end_run nm hs w :
  in_tag nm hs ->
  zlen nm <= HTTP_SSI_TAG_MAX_LEN cfg ->
  idle (fst (scanned TEND (hs, w)))
  /\ adds TEND (hs, w) (List.concat (f nm)).
Proof.
  intros N L. destruct end_nonempty as (c & r & rest & He).
  assert (C0 : c = at_index TEND 0) by now rewrite He.
  destruct (step_end_first nm c hs w N C0 L) as (T1 & B).
  assert (Sc : scanned TEND (hs, w) = scanned (r :: rest) (step c (hs, w)))
    by (rewrite He at 1; reflexivity).
  unfold adds. rewrite Sc.
  destruct (step c (hs, w)) as [hs1 w1] eqn:E1. cbn [fst snd] in *.
  destruct (end_rest_run (r :: rest) nm [c] hs1 w1 B He) as (I & new & T & C);
    try discriminate; try exact L;
    try (rewrite (zlen_cons c []); change (zlen (@nil ascii)) with 0; lia).
  split; [exact I|]. exists new. cbn [snd] in T. rewrite T, T1. now split.
Qed.

(** A file with one tag, scanned from the idle state. *)
Lemma tag_run pre nm hs w :
  idle hs ->
  plain_text cfg pre ->
  Forall (fun c => c <> at_index TEND 0) nm ->
  zlen nm <= HTTP_SSI_TAG_MAX_LEN cfg ->
  idle (fst (scanned (pre ++ START ++ nm ++ TEND) (hs, w)))
  /\ adds (pre ++ START ++ nm ++ TEND) (hs, w) (pre ++ List.concat (f nm)).
Proof.
  intros I Fpre Fnm L.
  destruct (literal_run pre hs w I Fpre) as (I1 & A1).
  rewrite !scan_app.
  destruct (scanned pre (hs, w)) as [hs1 w1] eqn:E1. cbn [fst] in I1.
  destruct (start_run hs1 w1 I1) as (N2 & T2).
  destruct (scanned START (hs1, w1)) as [hs2 w2] eqn:E2. cbn [fst snd] in *.
  destruct (name_run nm [] hs2 w2 N2 Fnm) as (N3 & T3).
  { change (zlen (@nil ascii)) with 0. lia. }
  destruct (scanned nm (hs2, w2)) as [hs3 w3] eqn:E3.
  cbn [fst snd List.app] in *.
  destruct (end_run nm hs3 w3 N3 L) as (I4 & A4).
  split; [exact I4|].
  apply adds_app; [exact A1|]. rewrite E1.
  change (List.concat (f nm)) with ([] ++ List.concat (f nm)).
  apply adds_app; [apply adds_nothing; now rewrite E2|]. rewrite E2.
  change (List.concat (f nm)) with ([] ++ List.concat (f nm)).
  apply adds_app; [apply adds_nothing; now rewrite E3|]. rewrite E3.
  exact A4.
Qed.

Lemma tags_in_file parts post :
  forall hs w,
    idle hs ->
    plain_parts cfg parts ->
    plain_text cfg post ->
    adds (with_tags cfg parts post) (hs, w) (with_replies f parts post).
Proof.
  induction parts as [|[pre nm] parts IH]; intros hs w I P Fpost.
  - now apply literal_run.
  - inversion P as [|? ? (Fpre & Fnm & L) P']; subst. cbn [fst snd] in *.
    destruct (tag_run pre nm hs w I Fpre Fnm L) as (I1 & A1).
    cbn [with_tags with_replies].
    replace (pre ++ START ++ nm ++ TEND ++ with_tags cfg parts post)
      with ((pre ++ START ++ nm ++ TEND) ++ with_tags cfg parts post)
      by now rewrite <- !List.app_assoc.
    replace (pre ++ List.concat (f nm) ++ with_replies f parts post)
      with ((pre ++ List.concat (f nm)) ++ with_replies f parts post)
      by now rewrite <- List.app_assoc.
    apply adds_app; [exact A1|].
    destruct (scanned _ (hs, w)) as [hs1 w1]. cbn [fst] in I1.
    now apply IH.
Qed.

Lemma switch_reset_unchanged ch hs w hs' w' :
  ssi_switch cfg env (Some h) ch (hs, w) = (hs', w', true) ->
  hs' = hs /\ w' = w.
Proof.
  unfold ssi_switch. destruct (ssi_state hs).
  - destruct (Ascii.eqb _ _); intros E; inversion E; now split.
  - destruct (_ && _); [|intros E; inversion E; now split].
    destruct (_ =? _); intros E; inversion E.
  - destruct (Ascii.eqb _ _); [intros E; inversion E|].
    destruct (_ <? _); intros E; inversion E; now split.
  - destruct (_ && _); [|intros E; inversion E; now split].
    destruct (_ =? _); [|intros E; inversion E].
    rewrite has_ssi_fn.
    destruct (run_ssi_fn _ _ _ _). intros E; inversion E.
Qed.

(** [ssi_reset] when the credit covers the whole tag buffer. *)
Lemma ssi_reset_full ch hs w :
  ssi_tag_buff_ptr hs <> 0 ->
  0 <= ssi_tag_buff_ptr hs <= conn_mem_available hs ->
  ssi_reset env ch (hs, w) =
  let c := sz (conn_credit env (trace w)) in
  let hs1 :=
    set_ssi_tag_buff_ptr 0
      (set_ssi_tag_buff_written (ssi_tag_buff_ptr hs)
         (set_written_total (sz_add (written_total hs) (ssi_tag_buff_ptr hs))
            (set_conn_mem_available c hs))) in
  let w1 :=
    emit (EvConnWrite false
            (sub_array (ssi_tag_buff hs) 0 (ssi_tag_buff_ptr hs)) false c) w in
  if c =? 0 then (set_ssi_state HTTP_SSI_STATE_WAIT_BEGIN hs1, w1)
  else
    let c2 := sz (conn_credit env (trace w1)) in
    (set_ssi_state HTTP_SSI_STATE_WAIT_BEGIN
       (set_buff_ptr (sz_add (buff_ptr hs) 1)
          (set_written_total
             (sz_add (sz_add (written_total hs) (ssi_tag_buff_ptr hs)) 1)
             (set_conn_mem_available c2 hs1))),
     emit (EvConnWrite false [ch] false c2) w1).
Proof.
  intros N R. unfold ssi_reset.
  apply Z.eqb_neq in N. rewrite N. cbn [negb]. cbv zeta.
  rewrite Z.min_l by lia.
  unfold esp_conn_write.
  cbn [ssi_tag_buff_ptr set_ssi_tag_buff_written set_written_total
       set_conn_mem_available conn_mem_available written_total buff_ptr].
  rewrite Z.eqb_refl.
  cbn [ssi_tag_buff_ptr set_ssi_tag_buff_written set_written_total
       set_conn_mem_available conn_mem_available written_total buff_ptr
       set_ssi_tag_buff_ptr].
  destruct (sz (conn_credit env (trace w)) =? 0); reflexivity.
Qed.

(** [ssi_reset] when the tag buffer is empty. *)
Lemma ssi_reset_empty ch hs w :
  ssi_tag_buff_ptr hs = 0 ->
  conn_mem_available hs <> 0 ->
  ssi_reset env ch (hs, w) =
  let c := sz (conn_credit env (trace w)) in
  (set_ssi_state HTTP_SSI_STATE_WAIT_BEGIN
     (set_buff_ptr (sz_add (buff_ptr hs) 1)
        (set_written_total (sz_add (written_total hs) 1)
           (set_conn_mem_available c hs))),
   emit (EvConnWrite false [ch] false c) w).
Proof.
  intros Z0 C. unfold ssi_reset. rewrite Z0. cbn [Z.eqb negb].
  apply Z.eqb_neq in C. rewrite C. reflexivity.
Qed.

(** A byte that does not continue the tag: the tag buffer and then the
    byte itself are written as they are, the byte is passed, and the
    scanner waits for a new tag from the next byte on. *)
Lemma step_mismatch ch hs w :
  snd (ssi_switch cfg env (Some h) ch (hs, w)) = true ->
  0 <= ssi_tag_buff_ptr hs <= conn_mem_available hs ->
  conn_mem_available hs <> 0 ->
  ssi_state (fst (step ch (hs, w))) = HTTP_SSI_STATE_WAIT_BEGIN
  /\ ssi_tag_buff_ptr (fst (step ch (hs, w))) = 0
  /\ buff_ptr (fst (step ch (hs, w))) = sz_add (buff_ptr hs) 1
  /\ exists new,
       trace (snd (step ch (hs, w))) = trace w ++ new
       /\ conn_bytes new =
          sub_array (ssi_tag_buff hs) 0 (ssi_tag_buff_ptr hs) ++ [ch].
Proof.
  intros R P C. unfold ssi_byte.
  destruct (ssi_switch cfg env (Some h) ch (hs, w)) as [[hs1 w1] r] eqn:E.
  cbn [snd] in R. subst r.
  destruct (switch_reset_unchanged _ _ _ _ _ E) as [-> ->].
  destruct (Z.eq_dec (ssi_tag_buff_ptr hs) 0) as [Z0|Z0].
  - rewrite (ssi_reset_empty ch hs w Z0 C). cbv zeta. fields. rewrite Z0.
    repeat split; auto. eexists. split; reflexivity.
  - rewrite (ssi_reset_full ch hs w Z0 P). cbv zeta.
    pose proof (credit (trace w)) as C1. apply Z.eqb_neq in C1.
    rewrite C1. fields.
    repeat split; auto. eexists. rewrite <- List.app_assoc.
    split; [reflexivity|]. simpl. rewrite ?List.app_nil_r. reflexivity.
Qed.

Lemma read_static file hs :
  resp_file_opened hs = true ->
  resp_file hs = {| data := file; is_static := true; fptr := 0 |} ->
  0 < zlen file < SIZE_MOD ->
  read_resp_file cfg env hs =
  set_buff (Some file)
    (set_buff_len (zlen file)
       (set_resp_file {| data := file; is_static := true;
                         fptr := 0 + zlen file |}
          (set_buff None (set_buff_ptr 0 hs)))).
Proof.
  intros O F R. unfold read_resp_file. rewrite O. cbn [negb]. cbv zeta.
  fields. rewrite F. unfold http_fs_data_read_file_left. cbn [data fptr].
  rewrite Z.sub_0_r, sz_small by lia.
  destruct (zlen file =? 0) eqn:Z0; [zbool; lia|].
  cbn [is_static]. unfold http_fs_data_read_file, http_fs_data_read_file_left.
  cbn [data fptr is_static]. rewrite Z.sub_0_r, sz_small by lia.
  rewrite Z.min_id, Z0.
  change (Z.to_nat 0) with 0%nat. cbn [skipn].
  unfold zlen. rewrite Nat2Z.id, List.firstn_all. reflexivity.
Qed.

(** The pump over a static file with tags. *)
Lemma pump_replaces_tags parts post hs w :
  serving cfg (with_tags cfg parts post) hs ->
  0 < zlen (with_tags cfg parts post) < SIZE_MOD ->
  plain_parts cfg parts ->
  plain_text cfg post ->
  exists new,
    trace (snd (send_response_ssi cfg env (Some h) (hs, w))) = trace w ++ new
    /\ conn_bytes new = with_replies f parts post.
Proof.
  intros (O & F & B & St & Pt & Wr & Ln) M P Fpost.
  set (file := with_tags cfg parts post) in *.
  unfold send_response_ssi. cbv zeta.
  set (c := sz (conn_credit env (trace w))).
  change (esp_conn_write env false [] false (hs, w))
    with (set_conn_mem_available c hs, emit (EvConnWrite false [] false c) w).
  unfold ssi_resume. fields. rewrite Wr, Pt. cbn [Z.ltb Z.compare].
  fields. rewrite B. cbn [orb].
  rewrite (read_static file) by (fields; auto; lia).
  match goal with
  | |- context [ssi_fuel ?x] => set (hs2 := x)
  end.
  set (w1 := emit (EvConnWrite false [] false c) w).
  assert (I : idle hs2).
  { unfold idle, hs2. fields. repeat split; auto. apply credit. }
  rewrite (ssi_loop_scan cfg env (Some h) credit file (ssi_fuel hs2) hs2 w1 file).
  - destruct (tags_in_file parts post hs2 w1 I P Fpost) as (new & T & C).
    fold file in T.
    destruct (scanned file (hs2, w1)) as [hs3 w3]. cbn [snd] in T.
    unfold esp_conn_write. cbn [snd trace emit set_trace].
    rewrite T. unfold w1. cbn [trace emit set_trace].
    eexists. rewrite <- !List.app_assoc. split; [reflexivity|].
    simpl. rewrite conn_bytes_app, C. simpl. now rewrite List.app_nil_r.
  - reflexivity.
  - reflexivity.
  - lia.
  - unfold hs2. fields. lia.
  - reflexivity.
  - unfold hs2. fields. apply credit.
  - unfold ssi_fuel, hs2. fields. unfold zlen. lia.
Qed.

End Tags.

(** ** The tag scanner on any file *)

Section Refines.

Variable cfg : http_cfg.
Variable env : http_env.
Variable h : http_init_t.
Variable f : bytes -> list bytes.

Hypothesis has_ssi_fn : ssi_fn h = Some f.
Hypothesis max_nonneg : 0 <= HTTP_SSI_TAG_MAX_LEN cfg.
Hypothesis fits :
  HTTP_SSI_TAG_START_LEN cfg + HTTP_SSI_TAG_MAX_LEN cfg
  + HTTP_SSI_TAG_END_LEN cfg + 1 < SIZE_MOD.
Hypothesis ample :
  forall t, Z.of_nat (ssi_tag_buff_size cfg) <= sz (conn_credit env t).

Abbreviation START := (HTTP_SSI_TAG_START cfg).
Abbreviation TEND := (HTTP_SSI_TAG_END cfg).
Abbreviation SL := (HTTP_SSI_TAG_START_LEN cfg).
Abbreviation EL := (HTTP_SSI_TAG_END_LEN cfg).
Abbreviation MAXL := (HTTP_SSI_TAG_MAX_LEN cfg).
Abbreviation step := (ssi_byte cfg env (Some h)).
Abbreviation scanned := (scan cfg env (Some h)).

Ltac rfields := fields; cbn [ref_at ref_held ref_name].

Lemma size_eq : Z.of_nat (ssi_tag_buff_size cfg) = SL + MAXL + EL + 1.
Proof.
  pose proof (zlen_nonneg START). pose proof (zlen_nonneg TEND).
  unfold ssi_tag_buff_size, HTTP_SSI_TAG_START_LEN, HTTP_SSI_TAG_END_LEN.
  lia.
Qed.

Lemma sizes_nonneg : 0 <= SL /\ 0 <= EL.
Proof.
  unfold HTTP_SSI_TAG_START_LEN, HTTP_SSI_TAG_END_LEN.
  split; apply zlen_nonneg.
Qed.

Lemma ample_nonzero : credit_nonzero env.
Proof.
  intros t. pose proof (ample t). pose proof size_eq.
  pose proof sizes_nonneg. lia.
Qed.

Lemma tracks_bound st hs :
  tracks cfg st hs -> zlen (ref_held st) <= SL + MAXL + EL + 1.
Proof.
  intros (_ & _ & _ & _ & Ph). pose proof sizes_nonneg as (S0 & E0).
  destruct (ref_at st).
  - destruct Ph as (_ & ->). change (zlen (@nil ascii)) with 0. lia.
  - lia.
  - destruct Ph as (_ & _ & N & pre & -> & P). rewrite zlen_app. lia.
  - destruct Ph as (_ & _ & N & pre & got & -> & P & G).
    rewrite !zlen_app. lia.
Qed.

Lemma held_sub_array (held l : bytes) :
  firstn (List.length held) l = held -> sub_array l 0 (zlen held) = held.
Proof.
  intros H. unfold sub_array, zlen. now rewrite Nat2Z.id.
Qed.

(** The [if (reset)] block where the scanner stands at [st]: what is held
    goes out, then the byte, and the scanner is at rest. *)
Lemma reset_tracks ch st hs w :
  tracks cfg st hs ->
  tracks cfg ref_idle (fst (ssi_reset env ch (hs, w)))
  /\ exists new,
       trace (snd (ssi_reset env ch (hs, w))) = trace w ++ new
       /\ conn_bytes new = ref_held st ++ [ch].
Proof.
  intros T. pose proof (tracks_bound st hs T) as B.
  destruct T as (Pt & Fn & Ln & Cr & _).
  pose proof size_eq as SE. pose proof sizes_nonneg as (S0 & E0).
  pose proof (zlen_nonneg (ref_held st)) as H0.
  assert (C0 : conn_mem_available hs <> 0) by lia.
  destruct (Z.eq_dec (ssi_tag_buff_ptr hs) 0) as [Z0|Z0].
  - rewrite (ssi_reset_empty env ch hs w Z0 C0). cbv zeta. rfields.
    split.
    + unfold tracks. rfields. repeat split; auto; apply ample.
    + eexists. split; [reflexivity|]. cbn [conn_bytes].
      rewrite Pt in Z0. destruct (ref_held st) as [|c0 tl]; [reflexivity|].
      rewrite zlen_cons in Z0. pose proof (zlen_nonneg tl). lia.
  - rewrite (ssi_reset_full env ch hs w Z0) by lia. cbv zeta.
    pose proof (ample_nonzero (trace w)) as C1. apply Z.eqb_neq in C1.
    rewrite C1. rfields.
    split.
    + unfold tracks. rfields. repeat split; auto; apply ample.
    + eexists. rewrite <- List.app_assoc. split; [reflexivity|].
      cbn [List.app conn_bytes]. rewrite ?List.app_nil_r, Pt.
      now rewrite (held_sub_array _ _ Fn).
Qed.

(** [tag_push] where the scanner stands at [st]. *)
Lemma push_tracks ch st hs :
  tracks cfg st hs ->
  zlen (ref_held st) < SL + MAXL + EL + 1 ->
  ssi_tag_buff_ptr (tag_push ch hs) = zlen (ref_held st ++ [ch])
  /\ firstn (List.length (ref_held st ++ [ch])) (ssi_tag_buff (tag_push ch hs))
     = ref_held st ++ [ch]
  /\ List.length (ssi_tag_buff (tag_push ch hs)) = ssi_tag_buff_size cfg.
Proof.
  intros (Pt & Fn & Ln & Cr & _) B.
  pose proof size_eq as SE. pose proof (zlen_nonneg (ref_held st)) as H0.
  unfold tag_push. fields. rewrite Pt.
  rewrite sz_add_small by lia.
  repeat split.
  - rewrite zlen_app, (zlen_cons ch []). change (zlen (@nil ascii)) with 0.
    lia.
  - apply firstn_snoc; auto. apply Nat2Z.inj_lt. rewrite Ln, SE.
    unfold zlen in B. lia.
  - now rewrite array_set_length.
Qed.

Lemma user_writes_ample l hs w :
  Z.of_nat (ssi_tag_buff_size cfg) <= conn_mem_available hs ->
  Z.of_nat (ssi_tag_buff_size cfg)
  <= conn_mem_available
       (fst (fold_left (fun s d => esp_http_server_write env d s) l (hs, w))).
Proof.
  revert hs w. induction l as [|d l IH]; intros hs w C; cbn [fold_left].
  - exact C.
  - unfold esp_http_server_write at 2. unfold esp_conn_write.
    apply IH. fields. apply ample.
Qed.

Lemma ssi_fn_ample tag hs w :
  Z.of_nat (ssi_tag_buff_size cfg) <= conn_mem_available hs ->
  ssi_tag_buff (fst (run_ssi_fn env f tag (hs, w))) = ssi_tag_buff hs
  /\ Z.of_nat (ssi_tag_buff_size cfg)
     <= conn_mem_available (fst (run_ssi_fn env f tag (hs, w)))
  /\ exists new,
       trace (snd (run_ssi_fn env f tag (hs, w))) = trace w ++ new
       /\ conn_bytes new = List.concat (f tag).
Proof.
  intros C. unfold run_ssi_fn.
  destruct (user_writes_bytes env (f tag) hs (emit (EvSsi tag (zlen tag)) w))
    as (B & new & T & Cb).
  split; [exact B|]. split; [now apply user_writes_ample|].
  eexists. rewrite T. cbn [trace emit set_trace].
  rewrite <- List.app_assoc. split; [reflexivity|]. exact Cb.
Qed.

Lemma zlen_snoc (l : bytes) (c : ascii) : zlen (l ++ [c]) = zlen l + 1.
Proof. rewrite zlen_app. reflexivity. Qed.

Lemma zlen_one (c : ascii) : zlen [c] = 1.
Proof. reflexivity. Qed.

Ltac lens :=
  unfold HTTP_SSI_TAG_START_LEN, HTTP_SSI_TAG_END_LEN in *;
  rewrite ?zlen_snoc, ?zlen_app, ?zlen_one in *.

(** One pass of the loop does what one step of the scanner does. *)
Lemma step_refines ch st hs w :
  tracks cfg st hs ->
  tracks cfg (fst (ssi_amended_step cfg f ch st)) (fst (step ch (hs, w)))
  /\ exists new,
       trace (snd (step ch (hs, w))) = trace w ++ new
       /\ conn_bytes new = snd (ssi_amended_step cfg f ch st).
Proof.
  intros T. pose proof (tracks_bound st hs T) as B.
  pose proof (reset_tracks ch st hs w T) as R.
  pose proof size_eq as SE. pose proof sizes_nonneg as (S0 & E0).
  pose proof (zlen_nonneg (ref_held st)) as H0.
  pose proof (zlen_nonneg (ref_name st)) as N0.
  pose proof T as (Pt & Fn & Ln & Cr & Ph).
  unfold ssi_amended_step, ssi_reference_step, ssi_byte, ssi_switch.
  cbv zeta.
  destruct (ref_at st) eqn:Ra.
  - destruct Ph as (St & Hd). rewrite St.
    destruct (Ascii.eqb ch (at_index START 0)) eqn:C.
    + rfields. split.
      * unfold tracks. rfields.
        assert (0 < zlen (ssi_tag_buff hs)) by (unfold zlen; lia).
        repeat split; auto.
        -- change (List.length [ch]) with (S (Z.to_nat 0)).
           now rewrite array_set_firstn_at by lia.
        -- now rewrite array_set_length.
        -- lens. lia.
      * exists []. now rewrite List.app_nil_r.
    + rfields. rewrite Hd in R. exact R.
  - destruct Ph as (St & Hb). rewrite St, Pt.
    pose proof (push_tracks ch st hs T) as PT.
    lens.
    destruct ((zlen (ref_held st) <? zlen START)
              && Ascii.eqb ch (at_index START (zlen (ref_held st)))) eqn:C.
    + apply Bool.andb_true_iff in C. destruct C as (C1 & _). zbool.
      destruct (PT ltac:(lia)) as (P1 & P2 & P3).
      rewrite P1. lens.
      destruct (zlen (ref_held st) + 1 =? zlen START) eqn:C2;
        rfields; (split; [|exists []; now rewrite List.app_nil_r]);
        unfold tracks; rfields; zbool; lens.
      * repeat split; auto; try lia.
        exists (ref_held st ++ [ch]). rewrite List.app_nil_r.
        split; [reflexivity|]. lens. lia.
      * repeat split; auto; try lia.
    + rfields. exact R.
  - destruct Ph as (St & Tl & Nm & pre & Hh & Hp). rewrite St, Pt.
    pose proof (push_tracks ch st hs T) as PT.
    assert (Hl : zlen (ref_held st) = SL + zlen (ref_name st))
      by (rewrite Hh at 1; rewrite zlen_app; lia).
    unfold HTTP_SSI_TAG_START_LEN, HTTP_SSI_TAG_END_LEN in *.
    rewrite (sz_sub_small (zlen (ref_held st)) (zlen START)) by lia.
    replace (zlen (ref_held st) - zlen START) with (zlen (ref_name st))
      by lia.
    destruct (PT ltac:(lia)) as (P1 & P2 & P3).
    destruct (Ascii.eqb ch (at_index TEND 0)) eqn:C.
    + rfields. split; [|exists []; now rewrite List.app_nil_r].
      unfold tracks. rfields. lens. repeat split; auto; try lia.
      exists pre, [ch]. rewrite Hh at 1. rewrite <- List.app_assoc.
      split; [reflexivity|]. split; [exact Hp|]. lens. lia.
    + destruct (zlen (ref_name st) <? MAXL) eqn:C1.
      * rfields. split; [|exists []; now rewrite List.app_nil_r].
        zbool. unfold tracks. rfields. rewrite Tl.
        rewrite (sz_add_small (zlen (ref_name st)) 1) by lia.
        lens. repeat split; auto; try lia.
        exists pre. rewrite Hh at 1. rewrite <- List.app_assoc.
        split; [reflexivity|exact Hp].
      * rfields. exact R.
  - destruct Ph as (St & Tl & Nm & pre & got & Hh & Hp & Hg).
    rewrite St, Pt, Tl.
    pose proof (push_tracks ch st hs T) as PT.
    pose proof (zlen_nonneg got) as G0.
    assert (Hl : zlen (ref_held st) = SL + zlen (ref_name st) + zlen got)
      by (rewrite Hh at 1; rewrite !zlen_app; lia).
    unfold HTTP_SSI_TAG_START_LEN, HTTP_SSI_TAG_END_LEN in *.
    rewrite (sz_sub_small (zlen (ref_held st)) (zlen START)) by lia.
    rewrite (sz_sub_small (zlen (ref_held st) - zlen START)
               (zlen (ref_name st))) by lia.
    replace (zlen (ref_held st) - zlen START - zlen (ref_name st))
      with (zlen got) by lia.
    destruct ((zlen got <? zlen TEND)
              && Ascii.eqb ch (at_index TEND (zlen got))) eqn:C.
    + apply Bool.andb_true_iff in C. destruct C as (C1 & _). zbool.
      destruct (PT ltac:(lia)) as (P1 & P2 & P3).
      rewrite P1, zlen_snoc.
      unfold tag_push at 1 2. fields.
      rewrite Tl.
      rewrite (sz_add_small (zlen START) (zlen (ref_name st))) by lia.
      rewrite (sz_add_small (zlen START + zlen (ref_name st)) (zlen TEND))
        by lia.
      replace (zlen (ref_held st) + 1
               =? zlen START + zlen (ref_name st) + zlen TEND)
        with (zlen got + 1 =? zlen TEND)
        by (apply Bool.eq_true_iff_eq; rewrite !Z.eqb_eq; lia).
      destruct (zlen got + 1 =? zlen TEND) eqn:C2.
      * rewrite has_ssi_fn.
        match goal with
        | |- context [run_ssi_fn env f ?t (?a, w)] =>
            assert (Tg : t = ref_name st);
            [ | rewrite Tg;
                destruct (ssi_fn_ample (ref_name st) a w)
                  as (Bf & Ca & new & Tr & Cb);
                [ | destruct (run_ssi_fn env f (ref_name st) (a, w))
                      as [hs1 w1] ] ]
        end.
        { fields. unfold sub_array.
          replace (Z.to_nat (zlen START)) with (List.length pre)
            by (unfold zlen in *; lia).
          replace (Z.to_nat (zlen (ref_name st)))
            with (List.length (ref_name st)) by (unfold zlen; lia).
          apply firstn_skipn_middle.
          assert (Lp : Z.of_nat (List.length (pre ++ ref_name st))
                       = zlen START + zlen (ref_name st))
            by (rewrite List.length_app; unfold zlen in *; lia).
          rewrite array_set_firstn_below by lia.
          unfold tag_push. fields.
          rewrite array_set_firstn_below by lia.
          apply (firstn_shorter (pre ++ ref_name st) got).
          rewrite <- List.app_assoc, <- Hh. exact Fn. }
        { unfold tag_push. fields. exact Cr. }
        cbn [fst snd] in *. rfields.
        split; [|exists new; split; [exact Tr|exact Cb]].
        unfold tracks. rfields. repeat split; auto.
        rewrite Bf. unfold tag_push. fields.
        now rewrite !array_set_length.
      * rfields. split; [|exists []; now rewrite List.app_nil_r].
        zbool. unfold tracks. rfields. lens.
        repeat split; auto; try lia.
        exists pre, (got ++ [ch]). rewrite Hh at 1.
        rewrite <- !List.app_assoc.
        split; [reflexivity|]. split; [exact Hp|]. lens. lia.
    + rfields. exact R.
Qed.


(** The loop over a stretch of bytes does what the scanner does. *)
Lemma scan_refines l :
  forall st hs w,
    tracks cfg st hs ->
    tracks cfg (fst (ssi_amended_run cfg f st l)) (fst (scanned l (hs, w)))
    /\ exists new,
         trace (snd (scanned l (hs, w))) = trace w ++ new
         /\ conn_bytes new = snd (ssi_amended_run cfg f st l).
Proof.
  induction l as [|ch l IH]; intros st hs w T.
  - cbn. split; [exact T|]. exists []. now rewrite List.app_nil_r.
  - destruct (step_refines ch st hs w T) as (T1 & n1 & R1 & C1).
    unfold scan in *. cbn [fold_left ssi_amended_run].
    destruct (ssi_amended_step cfg f ch st) as [st1 o1].
    destruct (step ch (hs, w)) as [hs1 w1]. cbn [fst snd] in *.
    destruct (IH st1 hs1 w1 T1) as (T2 & n2 & R2 & C2).
    destruct (ssi_amended_run cfg f st1 l) as [st2 o2]. cbn [fst snd] in *.
    split; [exact T2|].
    exists (n1 ++ n2). rewrite R2, R1, <- List.app_assoc.
    split; [reflexivity|]. now rewrite conn_bytes_app, C1, C2.
Qed.

(** The pump over a static file. *)
Lemma pump_refines file hs w :
  serving cfg file hs ->
  0 < zlen file < SIZE_MOD ->
  let last := send_response_ssi cfg env (Some h) (hs, w) in
  (exists new,
      trace (snd last) = trace w ++ new
      /\ conn_bytes new = ssi_amended cfg f file)
  /\ sub_array (ssi_tag_buff (fst last)) 0 (ssi_tag_buff_ptr (fst last))
     = ref_held (fst (ssi_amended_run cfg f ref_idle file)).
Proof.
  intros (O & F & B & St & Pt & Wr & Ln) M last. subst last.
  unfold send_response_ssi. cbv zeta.
  set (c := sz (conn_credit env (trace w))).
  change (esp_conn_write env false [] false (hs, w))
    with (set_conn_mem_available c hs, emit (EvConnWrite false [] false c) w).
  unfold ssi_resume. fields. rewrite Wr, Pt. cbn [Z.ltb Z.compare].
  fields. rewrite B. cbn [orb].
  rewrite (read_static cfg env file) by (fields; auto; lia).
  match goal with
  | |- context [ssi_fuel ?x] => set (hs2 := x)
  end.
  set (w1 := emit (EvConnWrite false [] false c) w).
  assert (I : tracks cfg ref_idle hs2).
  { unfold tracks, hs2. rfields. repeat split; auto. apply ample. }
  rewrite (ssi_loop_scan cfg env (Some h) ample_nonzero file
             (ssi_fuel hs2) hs2 w1 file).
  - destruct (scan_refines file ref_idle hs2 w1 I) as (T & new & Tr & C).
    unfold ssi_amended.
    destruct (ssi_amended_run cfg f ref_idle file) as [st2 o2].
    destruct (scanned file (hs2, w1)) as [hs3 w3]. cbn [fst snd] in *.
    unfold esp_conn_write. fields. split.
    + rewrite Tr. unfold w1. cbn [trace emit set_trace].
      eexists. rewrite <- !List.app_assoc. split; [reflexivity|].
      cbn [List.app conn_bytes]. rewrite conn_bytes_app, C.
      cbn [conn_bytes]. now rewrite List.app_nil_r.
    + destruct T as (Pt3 & Fn3 & _). rewrite Pt3.
      now apply held_sub_array.
  - reflexivity.
  - reflexivity.
  - lia.
  - unfold hs2. fields. lia.
  - reflexivity.
  - unfold hs2. fields. apply ample_nonzero.
  - unfold ssi_fuel, hs2. fields. unfold zlen. lia.
Qed.

(** C4, amended.  A static file, read in one piece, goes through the tag
    scanner of [send_response_ssi] on a connection that reports, whenever
    it is written to, credit for a whole tag buffer; [ssi_fn] is set.
    Whatever the bytes of the file are, the bytes handed to the connection
    in that invocation are those the scanner [ssi_amended] puts out: every
    well-formed tag (start marker, a name of at most
    [HTTP_SSI_TAG_MAX_LEN] bytes, end marker) is replaced by what [ssi_fn]
    writes for its name; on a mismatch (while the start marker is matched,
    a name too long, or while the end marker is matched) the bytes of the
    tag buffer go out verbatim, followed by the byte that did not match,
    and that byte is consumed: it is not looked at again and cannot begin
    a new tag.  The bytes of a tag still open where the file ends are in
    the tag buffer at the end of the invocation; they are not among the
    bytes handed over.  For a file written as stretches of text with a
    well-formed tag after each, where the text holds no first byte of the
    start marker and the names no first byte of the end marker (markers of
    two bytes at least), that output is the file with every tag replaced.
    And in any pass of the loop in which the switch asks for a reset, with
    credit for the bytes in the tag buffer, these bytes and the byte
    looked at are written, the scanner is at rest and the read position
    has moved on by one. *)
Theorem tags_replaced_mismatch_byte_consumed file hs w :
  serving cfg file hs ->
  0 < zlen file < SIZE_MOD ->
  let last := send_response_ssi cfg env (Some h) (hs, w) in
  (exists new,
      trace (snd last) = trace w ++ new
      /\ conn_bytes new = ssi_amended cfg f file)
  /\ sub_array (ssi_tag_buff (fst last)) 0 (ssi_tag_buff_ptr (fst last))
     = ref_held (fst (ssi_amended_run cfg f ref_idle file))
  /\ (forall parts post,
        file = with_tags cfg parts post ->
        2 <= SL -> 2 <= EL ->
        plain_parts cfg parts ->
        plain_text cfg post ->
        ssi_amended cfg f file = with_replies f parts post)
  /\ (forall ch hs' w',
        snd (ssi_switch cfg env (Some h) ch (hs', w')) = true ->
        0 <= ssi_tag_buff_ptr hs' <= conn_mem_available hs' ->
        conn_mem_available hs' <> 0 ->
        ssi_state (fst (ssi_byte cfg env (Some h) ch (hs', w')))
        = HTTP_SSI_STATE_WAIT_BEGIN
        /\ ssi_tag_buff_ptr (fst (ssi_byte cfg env (Some h) ch (hs', w'))) = 0
        /\ buff_ptr (fst (ssi_byte cfg env (Some h) ch (hs', w')))
           = sz_add (buff_ptr hs') 1
        /\ exists new,
             trace (snd (ssi_byte cfg env (Some h) ch (hs', w')))
             = trace w' ++ new
             /\ conn_bytes new
                = sub_array (ssi_tag_buff hs') 0 (ssi_tag_buff_ptr hs') ++ [ch]).
Proof.
  intros Sv M last.
  destruct (pump_refines file hs w Sv M) as ((new & Tr & C) & Hd).
  fold last in Tr, Hd.
  split; [exists new; split; [exact Tr|exact C]|].
  split; [exact Hd|]. split.
  - intros parts post -> S2 E2 P Fpost.
    destruct (pump_replaces_tags cfg env h f ample_nonzero has_ssi_fn
                S2 E2 max_nonneg fits parts post hs w Sv M P Fpost)
      as (new' & Tr' & C').
    fold last in Tr'. rewrite Tr in Tr'.
    apply List.app_inv_head in Tr'. subst new'. congruence.
  - intros ch hs' w' R B C'.
    now apply (step_mismatch cfg env h f ample_nonzero has_ssi_fn).
Qed.

End Refines.

Lemma tags_replaced_mismatch_byte_consumed_witness :
  let file := b "<<!--#x-->a<!--#y-->b<!-" in
  let hs := set_resp_file_opened true
              (set_resp_file {| data := file; is_static := true; fptr := 0 |}
                 (hs_zero cfg_default)) in
  let last := send_response_ssi cfg_default (env_with (fun _ => None) 1000)
                hi_all (hs, world_zero) in
  (exists new,
      trace (snd last) = new
      /\ conn_bytes new = b "<<!--#x-->aREPLACEDb")
  /\ sub_array (ssi_tag_buff (fst last)) 0 (ssi_tag_buff_ptr (fst last))
     = b "<!-".
Proof.
  intros file hs last.
  destruct (tags_replaced_mismatch_byte_consumed cfg_default
              (env_with (fun _ => None) 1000)
              {| cgi := None; post_start_fn := true; post_data_fn := true;
                 post_end_fn := true;
                 ssi_fn := Some (fun _ => [b "REPLACED"]) |}
              (fun _ => [b "REPLACED"])
              eq_refl
              ltac:(vm_compute; discriminate)
              eq_refl
              ltac:(intros t; vm_compute; discriminate)
              file hs world_zero)
    as ((new & T & C) & Hd & _).
  - repeat split.
  - split; reflexivity.
  - split; [exists new; split; [exact T|exact C]|exact Hd].
Defined.


(** C4, as stated, does not hold.  The file [<<!--#x-->]: the second [<]
    does not match the second byte of the start marker; the first [<] goes
    out and the second goes out after it, without being looked at again, so
    the tag that begins with it is not recognised and the file is sent
    unchanged.  The scanner of the specification, which processes the
    mismatching byte again, replaces the tag.  (On [a<!--#x-->b] both
    agree.) *)
Lemma mismatching_byte_is_not_rescanned :
  let reply := fun _ : bytes => [b "REPLACED"] in
  let get := [ESP_CB_CONN_ACTIVE;
              ESP_CB_CONN_DATA_RECV
                [b "GET /t.shtml HTTP/1.0" ++ CRLF ++ CRLF]] in
  let sent file :=
    conn_bytes
      (trace (snd (run_events cfg_default
                     (env_with (fs_only "/t.shtml" file true) 1000)
                     hi_all get (None, world_zero)))) in
  sent (b "<<!--#x-->") = b "<<!--#x-->"
  /\ ssi_reference cfg_default reply (b "<<!--#x-->") = b "<REPLACED"
  /\ sent (b "<<!--#x-->") <> ssi_reference cfg_default reply (b "<<!--#x-->")
  /\ sent (b "a<!--#x-->b") = b "aREPLACEDb"
  /\ ssi_reference cfg_default reply (b "a<!--#x-->b") = b "aREPLACEDb".
Proof.
  vm_compute. repeat split. discriminate.
Qed.

(** C5, as stated, does not hold for the writes made for [ssi_fn].  The
    connection reports a credit of 3 bytes, the file is the one tag
    [<!--#x-->] and [ssi_fn] answers with the 8 bytes [REPLACED]:
    [esp_http_server_write] hands all 8 to [esp_conn_write] right after a
    report of 3.  The writes of the pump itself stay within the credit. *)
Lemma ssi_fn_write_exceeds_credit :
  let get := [ESP_CB_CONN_ACTIVE;
              ESP_CB_CONN_DATA_RECV
                [b "GET /t.shtml HTTP/1.0" ++ CRLF ++ CRLF]] in
  let t := trace (snd (run_events cfg_default
                         (env_with (fs_only "/t.shtml" (b "<!--#x-->") true) 3)
                         hi_all get (None, world_zero))) in
  t = [ EvConnWrite false [] false 3;
        EvSsi (b "x") 1;
        EvConnWrite true (b "REPLACED") false 3;
        EvConnWrite false [] true 3;
        EvConnRecved ]
  /\ all_writes_bounded 0 t = false
  /\ pump_writes_bounded 0 t = true.
Proof.
  vm_compute. repeat split.
Qed.

Lemma pump_writes_fit_credit_witness :
  let env := env_credits (fs_only "/t.shtml" (b "<!-x") true) [2; 0; 0; 5] 5 in
  let hm := set_buff (Some (b "<!-x"))
              (set_buff_len 4
                 (set_buff_ptr 3
                    (set_ssi_state HTTP_SSI_STATE_BEGIN
                       (set_ssi_tag_buff_ptr 3
                          (set_ssi_tag_buff
                             (b "<!-" ++ repeat NUL (ssi_tag_buff_size cfg_default - 3))
                             (set_conn_mem_available 2
                                (hs_zero cfg_default))))))) in
  let wm := emit (EvConnWrite false [] false 2) world_zero in
  let last := esp_conn_write env false [] true
                (ssi_loop cfg_default env hi_all 2 (hm, wm)) in
  trace (snd (run_events cfg_default env hi_all
                [ESP_CB_CONN_ACTIVE;
                 ESP_CB_CONN_DATA_RECV
                   [b "GET /t.shtml HTTP/1.0" ++ CRLF ++ CRLF];
                 ESP_CB_CONN_DATA_SENT 2]
                (None, world_zero)))
  = [ EvConnWrite false [] false 2;
      EvConnWrite false (b "<!") false 0;
      EvConnWrite false [] true 0;
      EvConnRecved;
      EvConnWrite false [] false 5;
      EvConnWrite false (b "-") false 5;
      EvConnWrite false (b "x") false 5;
      EvConnWrite false [] true 5 ]
  /\ ssi_tag_buff_written (fst last) = 2
  /\ exists c rest,
       trace (snd (send_response_ssi cfg_default env hi_all
                     (set_sent_total 2 (fst last), emit EvConnRecved (snd last))))
       = trace (snd last)
         ++ [ EvConnRecved;
              EvConnWrite false [] false 5;
              EvConnWrite false (b "-") false c ]
         ++ rest.
Proof.
  intros env hm wm last.
  split; [vm_compute; reflexivity|].
  destruct (proj2 (pump_writes_fit_credit cfg_default env hi_all
                     (hs_zero cfg_default) world_zero)
              hm wm (b "<!-x") 1%nat)
    as (_ & W & _ & _ & _ & _ & N);
    [ reflexivity | reflexivity | reflexivity | split; reflexivity
    | reflexivity | reflexivity | ].
  split; [exact W|].
  destruct (N 2 (emit EvConnRecved (snd last))) as (c & rest & R);
    [vm_compute; discriminate|].
  exists c, rest. fold last in R.
  etransitivity; [exact R|]. cbn [trace emit set_trace].
  now rewrite <- !List.app_assoc.
Defined.

(** ** POST requests *)

Lemma post_data_bytes_app t1 t2 :
  post_data_bytes (t1 ++ t2) = post_data_bytes t1 ++ post_data_bytes t2.
Proof.
  induction t1 as [|e t1 IH]; simpl; [reflexivity|].
  destruct e; auto. now rewrite IH, List.app_assoc.
Qed.

Lemma count_post_end_app t1 t2 :
  count_post_end (t1 ++ t2) = (count_post_end t1 + count_post_end t2)%nat.
Proof.
  induction t1 as [|e t1 IH]; simpl; [reflexivity|].
  destruct e; auto. now rewrite IH.
Qed.

Ltac pv :=
  unfold post_view; fields;
  rewrite ?post_data_bytes_app, ?count_post_end_app;
  cbn [post_data_bytes count_post_end];
  rewrite ?List.app_nil_r, ?Nat.add_0_r;
  try reflexivity.

Section PostKept.

Variable cfg : http_cfg.
Variable env : http_env.
Variable hi : option http_init_t.

Lemma pv_write u d fl s : post_view (esp_conn_write env u d fl s) = post_view s.
Proof. destruct s as [hs w]. unfold esp_conn_write. pv. Qed.

Lemma pv_user_write d s :
  post_view (esp_http_server_write env d s) = post_view s.
Proof.
  destruct s as [hs w]. unfold esp_http_server_write, esp_conn_write. pv.
Qed.

Lemma pv_user_writes l s :
  post_view (fold_left (fun s d => esp_http_server_write env d s) l s)
  = post_view s.
Proof.
  revert s. induction l as [|d l IH]; intros s; simpl; [reflexivity|].
  now rewrite IH, pv_user_write.
Qed.

Lemma pv_ssi_fn f tag s : post_view (run_ssi_fn env f tag s) = post_view s.
Proof.
  destruct s as [hs w]. unfold run_ssi_fn. rewrite pv_user_writes. pv.
Qed.

Lemma pv_switch ch s :
  post_view (fst (ssi_switch cfg env hi ch s)) = post_view s.
Proof.
  destruct s as [hs w]. unfold ssi_switch.
  destruct (ssi_state hs).
  - destruct (Ascii.eqb _ _); pv.
  - destruct (_ && _); [|pv]. destruct (_ =? _); pv.
  - destruct (Ascii.eqb _ _); [pv|]. destruct (_ <? _); pv.
  - destruct (_ && _); [|pv]. destruct (_ =? _); [|pv].
    destruct hi as [h|]; [|pv]. destruct (ssi_fn h) as [f|]; [|pv].
    match goal with
    | |- context [run_ssi_fn env f ?t ?s0] =>
        pose proof (pv_ssi_fn f t s0) as K;
        destruct (run_ssi_fn env f t s0) as [hs1 w1]
    end.
    cbn [fst]. transitivity (post_view (hs1, w1)); [pv|].
    rewrite K. pv.
Qed.

Lemma pv_reset ch s : post_view (ssi_reset env ch s) = post_view s.
Proof.
  destruct s as [hs w]. unfold ssi_reset.
  assert (A : post_view
                (if negb (ssi_tag_buff_ptr hs =? 0)
                 then
                   let len := Z.min (ssi_tag_buff_ptr hs)
                                    (conn_mem_available hs) in
                   let '(hs0, w0) :=
                     esp_conn_write env false
                       (sub_array (ssi_tag_buff hs) 0 len) false (hs, w) in
                   let hs1 := set_written_total
                                (sz_add (written_total hs0) len) hs0 in
                   let hs2 := set_ssi_tag_buff_written len hs1 in
                   if len =? ssi_tag_buff_ptr hs2
                   then (set_ssi_tag_buff_ptr 0 hs2, w0)
                   else (hs2, w0)
                 else (hs, w)) = post_view (hs, w)).
  { destruct (negb _); [|reflexivity]. cbv zeta. unfold esp_conn_write.
    match goal with |- context [if ?c then _ else _] => destruct c end; pv. }
  destruct (if negb (ssi_tag_buff_ptr hs =? 0) then _ else _) as [hs1 w1].
  rewrite <- A. clear A.
  destruct (negb (conn_mem_available hs1 =? 0)); [|pv].
  unfold esp_conn_write. pv.
Qed.

Lemma pv_byte ch s : post_view (ssi_byte cfg env hi ch s) = post_view s.
Proof.
  unfold ssi_byte. pose proof (pv_switch ch s) as K.
  destruct (ssi_switch cfg env hi ch s) as [[hs1 w1] r]. cbn [fst] in K.
  rewrite <- K. destruct r; [apply pv_reset|pv].
Qed.

Lemma pv_loop fuel s : post_view (ssi_loop cfg env hi fuel s) = post_view s.
Proof.
  revert s. induction fuel as [|fuel IH]; intros s; simpl; [reflexivity|].
  destruct s as [hs w]. destruct (buff hs); [|reflexivity].
  destruct (_ && _); [|reflexivity].
  now rewrite IH, pv_byte.
Qed.

Lemma pv_resume s : post_view (ssi_resume env s) = post_view s.
Proof.
  destruct s as [hs w]. unfold ssi_resume.
  destruct (_ <? _); [|reflexivity]. cbv zeta.
  destruct (negb _); [|reflexivity]. unfold esp_conn_write.
  match goal with |- context [if ?c then _ else _] => destruct c end; pv.
Qed.

Lemma pv_read_into_buffer hs w :
  post_view (read_into_buffer hs, w) = post_view (hs, w).
Proof.
  unfold read_into_buffer.
  destruct (http_fs_data_read_file _ _) as [[n d] f].
  destruct (n =? 0); pv.
Qed.

Lemma pv_alloc_loop l hs w :
  post_view (alloc_loop env l hs, w) = post_view (hs, w).
Proof.
  revert hs. induction l as [x IH|x IH|]; intros hs; cbn [alloc_loop];
    (destruct (mem_alloc env _); [rewrite pv_read_into_buffer; pv|]);
    try (destruct (_ >? _); [rewrite IH; pv|]); pv.
Qed.

Lemma pv_read_resp_file hs w :
  post_view (read_resp_file cfg env hs, w) = post_view (hs, w).
Proof.
  unfold read_resp_file. destruct (negb _); [reflexivity|].
  cbv zeta. destruct (_ =? 0); [pv|].
  destruct (is_static _).
  - destruct (http_fs_data_read_file _ _) as [[n d] f].
    destruct (n =? 0); pv.
  - match goal with |- context [match ?x with Z.pos _ => _ | _ => _ end] =>
      destruct x end.
    + destruct (mem_alloc env _); [rewrite pv_read_into_buffer|]; pv.
    + rewrite pv_alloc_loop. pv.
    + destruct (mem_alloc env _); [rewrite pv_read_into_buffer|]; pv.
Qed.

Lemma pv_send_response_ssi s :
  post_view (send_response_ssi cfg env hi s) = post_view s.
Proof.
  unfold send_response_ssi. cbv zeta.
  rewrite <- (pv_write false [] false s).
  rewrite <- (pv_resume (esp_conn_write env false [] false s)).
  destruct (ssi_resume env _) as [hs1 w1].
  rewrite pv_write, pv_loop.
  destruct (_ || _); [apply pv_read_resp_file|reflexivity].
Qed.

Lemma pv_send_response_no_ssi s :
  post_view (send_response_no_ssi cfg env s) = post_view s.
Proof.
  destruct s as [hs w]. unfold send_response_no_ssi. cbv zeta.
  match goal with
  | |- context [if ?c then read_resp_file cfg env hs else hs] =>
      assert (K : post_view (if c then read_resp_file cfg env hs else hs, w)
                  = post_view (hs, w))
        by (destruct c; [apply pv_read_resp_file|reflexivity]);
      destruct (if c then read_resp_file cfg env hs else hs) as [] eqn:E
  end.
  rewrite <- K. clear K E.
  match goal with |- context [match buff ?x with _ => _ end] =>
    destruct (buff x) end; [|reflexivity].
  unfold esp_conn_send. cbv zeta.
  destruct (Esp.espr_eqb _ _); pv.
Qed.

Lemma pv_send_response s ft :
  post_view (send_response cfg env hi s ft) = post_view s.
Proof.
  destruct s as [hs w]. unfold send_response.
  destruct (_ || _); [reflexivity|].
  destruct (resp_file_opened hs).
  - assert (K : post_view (if is_ssi hs then send_response_ssi cfg env hi (hs, w)
                           else send_response_no_ssi cfg env (hs, w))
                = post_view (hs, w))
      by (destruct (is_ssi hs);
          [apply pv_send_response_ssi|apply pv_send_response_no_ssi]).
    destruct (if is_ssi hs then _ else _) as [hs1 w1].
    rewrite <- K. destruct (buff hs1); unfold esp_conn_close; pv.
  - destruct (_ && _); unfold esp_conn_close, esp_conn_send; pv.
Qed.

Lemma pv_index_loop names hs u w :
  post_view (fst (index_loop env names hs u), w) = post_view (hs, w).
Proof.
  revert hs. induction names as [|n names IH]; intros hs; cbn [index_loop];
    [reflexivity|].
  destruct (http_fs_data_open_file env n); [pv|]. rewrite IH. pv.
Qed.

Lemma pv_loop_404 names hs u w :
  post_view (fst (loop_404 env names hs u), w) = post_view (hs, w).
Proof.
  revert hs u. induction names as [|n names IH]; intros hs u; cbn [loop_404];
    [reflexivity|].
  destruct (http_fs_data_open_file env n); [pv|]. rewrite IH. pv.
Qed.

Lemma pv_get_file hs u w :
  post_view (http_get_file_from_uri cfg env hi hs u w) = post_view (hs, w).
Proof.
  unfold http_get_file_from_uri. cbv zeta.
  set (hs0 := set_resp_file file_zero hs).
  assert (K1 : post_view
                 (fst (if is_index_uri u
                       then index_loop env http_index_filenames hs0 u
                       else (hs0, u)), w) = post_view (hs, w)).
  { destruct (is_index_uri u); [rewrite pv_index_loop|]; unfold hs0; pv. }
  destruct (if is_index_uri u then _ else _) as [hs1 u1]. cbn [fst] in K1.
  rewrite <- K1. clear K1.
  match goal with
  | |- context [let '(a, c) := ?x in _] =>
      assert (K2 : post_view (fst (fst x), snd x) = post_view (hs1, w));
      [|destruct x as [[hs2 u2] w2]]
  end.
  { destruct (negb (resp_file_opened hs1)); [|reflexivity].
    destruct (cut_at "?" u1) as [path req_params].
    match goal with |- context [http_fs_data_open_file env ?x] =>
      destruct (http_fs_data_open_file env x) end;
      destruct req_params; pv. }
  cbn [fst snd] in K2. rewrite <- K2. clear K2.
  assert (K3 : post_view
                 (fst (if negb (resp_file_opened hs2)
                       then loop_404 env http_404_uris hs2 u2
                       else (hs2, u2)), w2) = post_view (hs2, w2)).
  { destruct (negb _); [apply pv_loop_404|reflexivity]. }
  destruct (if negb (resp_file_opened hs2) then _ else _) as [hs3 u3].
  cbn [fst] in K3. rewrite <- K3.
  match goal with |- context [if ?c then _ else _] => destruct c end; pv.
Qed.

End PostKept.

Lemma skip_linearise c :
  forall off,
    0 <= off ->
    match esp_pbuf_skip c off with
    | Some (_, rest, o) =>
        linearise (esp_pbuf_advance rest o)
        = skipn (Z.to_nat off) (linearise c)
    | None => skipn (Z.to_nat off) (linearise c) = []
    end.
Proof.
  induction c as [|n c IH]; intros off H; cbn [esp_pbuf_skip].
  - apply List.skipn_nil.
  - unfold linearise in *. cbn [List.concat]. rewrite List.skipn_app.
    destruct (off <? zlen n) eqn:L; zbool.
    + cbn [esp_pbuf_advance List.concat].
      replace (Z.to_nat off - List.length n)%nat with 0%nat
        by (unfold zlen in L; lia).
      reflexivity.
    + specialize (IH (off - zlen n)).
      replace (Z.to_nat (off - zlen n))
        with (Z.to_nat off - List.length n)%nat in IH
        by (unfold zlen; lia).
      rewrite (List.skipn_all2 n) by (unfold zlen in L; lia).
      destruct (esp_pbuf_skip c (off - zlen n)) as [[[pre rest] o]|];
        apply IH; lia.
Qed.

Section Post.

Variable cfg : http_cfg.
Variable env : http_env.
Variable h : http_init_t.

Hypothesis post_on : HTTP_SUPPORT_POST cfg = true.
Hypothesis data_fn : post_data_fn h = true.
Hypothesis end_fn : post_end_fn h = true.

(** [post_data_fn] is given the chain from [off] on. *)
Lemma post_send c off w :
  0 <= off ->
  post_data_bytes (trace (snd (http_post_send_to_user (Some h) c off w)))
  = post_data_bytes (trace w) ++ skipn (Z.to_nat off) (linearise c)
  /\ count_post_end (trace (snd (http_post_send_to_user (Some h) c off w)))
     = count_post_end (trace w).
Proof.
  intros H. unfold http_post_send_to_user. rewrite data_fn. cbn [negb].
  pose proof (skip_linearise c off H) as K.
  destruct (esp_pbuf_skip c off) as [[[pre rest] o]|].
  - cbv zeta. fields.
    rewrite post_data_bytes_app, count_post_end_app.
    cbn [post_data_bytes count_post_end]. rewrite K, List.app_nil_r.
    split; [reflexivity|lia].
  - cbn [snd]. rewrite K, List.app_nil_r. now split.
Qed.

Lemma post_end_counts w :
  post_data_bytes (trace (call_post_end (Some h) w)) = post_data_bytes (trace w)
  /\ count_post_end (trace (call_post_end (Some h) w))
     = S (count_post_end (trace w)).
Proof.
  unfold call_post_end. rewrite end_fn. fields.
  rewrite post_data_bytes_app, count_post_end_app.
  cbn [post_data_bytes count_post_end]. rewrite List.app_nil_r.
  split; [reflexivity|lia].
Qed.

Lemma post_start_counts u len w :
  post_data_bytes (trace (call_post_start (Some h) u len w))
  = post_data_bytes (trace w)
  /\ count_post_end (trace (call_post_start (Some h) u len w))
     = count_post_end (trace w).
Proof.
  unfold call_post_start. destruct (post_start_fn h); [|now split].
  fields. rewrite post_data_bytes_app, count_post_end_app.
  cbn [post_data_bytes count_post_end]. rewrite List.app_nil_r.
  split; [reflexivity|lia].
Qed.

Variable cl : Z.
Variable d0 : bytes.
Variable n0 : nat.

Hypothesis cl_range : 0 < cl < SIZE_MOD.

(** The POST side of a connection that has taken the body bytes [got]. *)
Abbreviation taken s got := (post_taken cl d0 n0 got s).

Lemma body_data_view hs pk w got :
  taken (hs, w) got ->
  zlen got + zlen (linearise pk) <= cl ->
  taken (body_data cfg (Some h) hs pk w) (got ++ linearise pk).
Proof.
  intros T L. unfold post_taken in *. unfold post_view in T.
  cbn [fst snd] in T.
  injection T as Hh Hm Hl Hr Hd Hn.
  pose proof (zlen_nonneg got) as G0.
  pose proof (zlen_nonneg (linearise pk)) as P0.
  unfold body_data. rewrite post_on, Hm. cbn [andb method_eqb].
  cbv zeta. fields. rewrite ?Hr, ?Hl.
  unfold esp_pbuf_length.
  destruct (zlen got <? cl) eqn:C; zbool.
  - rewrite (sz_add_small (zlen got)) by lia.
    destruct (post_send pk 0 w (Z.le_refl 0)) as (D & N).
    change (Z.to_nat 0) with 0%nat in D. cbn [skipn] in D.
    rewrite zlen_app.
    destruct (zlen got + zlen (linearise pk) >=? cl) eqn:E; zbool.
    + destruct (post_end_counts (snd (http_post_send_to_user (Some h) pk 0 w)))
        as (D2 & N2).
      unfold post_view. fields. rewrite D2, N2, D, N, Hh, Hm, Hl, Hd, Hn.
      destruct (cl <=? zlen got) eqn:E1; zbool; [lia|].
      destruct (cl <=? zlen got + zlen (linearise pk)) eqn:E2; zbool; [|lia].
      rewrite <- List.app_assoc. repeat f_equal. lia.
    + unfold post_view. fields. rewrite D, N, Hh, Hm, Hl, Hd, Hn.
      destruct (cl <=? zlen got) eqn:E1; zbool; [lia|].
      destruct (cl <=? zlen got + zlen (linearise pk)) eqn:E2; zbool; [lia|].
      rewrite <- List.app_assoc. reflexivity.
  - assert (Z0 : linearise pk = []).
    { destruct (linearise pk) as [|x rest]; [reflexivity|].
      rewrite zlen_cons in *. pose proof (zlen_nonneg rest). lia. }
    rewrite Z0, List.app_nil_r. unfold post_view. cbn [fst snd].
    now rewrite Hh, Hm, Hl, Hr, Hd, Hn.
Qed.

Lemma zlen_skipn {A} (l : list A) k :
  0 <= k <= zlen l -> zlen (skipn (Z.to_nat k) l) = zlen l - k.
Proof. intros H. unfold zlen in *. rewrite List.length_skipn. lia. Qed.

Lemma zlen_zero {A} (l : list A) : zlen l = 0 -> l = [].
Proof. destruct l; [reflexivity|]. unfold zlen. simpl. lia. Qed.

(** The packet that completes the headers of a POST request. *)
Lemma headers_done_view hs c pos w :
  esp_pbuf_strfind c (CRLF ++ CRLF) 0 = Some pos ->
  esp_pbuf_strcmp c (b "POST ") 0 = 0 ->
  parse_content_length env c = cl ->
  zlen (linearise c) < SIZE_MOD ->
  content_received hs = 0 ->
  post_data_bytes (trace w) = d0 ->
  count_post_end (trace w) = n0 ->
  zlen (skipn (Z.to_nat (pos + 4)) (linearise c)) <= cl ->
  taken (headers_done cfg env (Some h) hs c pos w)
        (skipn (Z.to_nat (pos + 4)) (linearise c)).
Proof.
  intros F P C M R D N L.
  rewrite strfind_lin in F. apply find_from_bound in F as (B1 & B2).
  change (zlen (CRLF ++ CRLF)) with 4 in B2.
  pose proof (zlen_skipn (linearise c) (pos + 4) ltac:(lia)) as Zs.
  set (first := skipn (Z.to_nat (pos + 4)) (linearise c)) in *.
  unfold headers_done. cbv zeta.
  pose proof (parse_uri_trace cfg c w) as U.
  destruct (http_parse_uri cfg c w) as [r w1]. cbn [snd] in U.
  rewrite post_on, P. cbn [andb Z.eqb]. fields. rewrite C.
  assert (Nz : negb (cl =? 0) = true)
    by (apply Bool.negb_true_iff, Z.eqb_neq; lia).
  rewrite Nz.
  destruct (post_start_counts (cstr (http_uri w1)) cl w1) as (D1 & N1).
  rewrite U, D in D1. rewrite U, N in N1.
  set (w2 := call_post_start (Some h) (cstr (http_uri w1)) cl w1) in *.
  unfold esp_pbuf_length.
  rewrite (sz_add_small pos 4) by lia.
  rewrite (sz_sub_small (zlen (linearise c)) (pos + 4)) by lia.
  rewrite <- Zs.
  match goal with
  | |- context [let '(a, c0) := ?x in _] => assert (K : taken x first)
  end.
  { destruct (zlen first >? 0) eqn:G; zbool.
    - destruct (post_send c (pos + 4) w2 ltac:(lia)) as (D2 & N2).
      fold first in D2.
      destruct (http_post_send_to_user (Some h) c (pos + 4) w2) as [c' w3].
      cbn [snd] in D2, N2. fields.
      destruct (zlen first >=? cl) eqn:E; zbool.
      + destruct (post_end_counts w3) as (D3 & N3).
        unfold post_taken, post_view. fields.
        rewrite D3, N3, D2, N2, D1, N1.
        destruct (cl <=? zlen first) eqn:E1; zbool; [|lia].
        repeat f_equal. lia.
      + unfold post_taken, post_view. fields. rewrite D2, N2, D1, N1.
        destruct (cl <=? zlen first) eqn:E1; zbool; [lia|].
        repeat f_equal. lia.
    - assert (Z0 : first = []).
      { apply zlen_zero. pose proof (zlen_nonneg first). lia. }
      unfold post_taken, post_view. fields.
      rewrite D1, N1, R, Z0, List.app_nil_r.
      change (zlen (@nil ascii)) with 0.
      destruct (cl <=? 0) eqn:E1; zbool; [lia|].
      repeat f_equal. lia. }
  match goal with
  | |- context [let '(a, c0) := ?x in _] => destruct x as [hs2 w4]
  end.
  destruct (_ && _); [|exact K].
  unfold post_taken. rewrite pv_get_file. exact K.
Qed.

(** A packet that comes in after the headers. *)
Lemma recv_body_view hs pk w got :
  taken (hs, w) got ->
  zlen got + zlen (linearise pk) <= cl ->
  exists hs' w',
    http_evt_cb cfg env (Some h) (ESP_CB_CONN_DATA_RECV pk) (Some hs, w)
    = (Some hs', w')
    /\ taken (hs', w') (got ++ linearise pk).
Proof.
  intros T L. pose proof (body_data_view hs pk w got T L) as K.
  unfold post_taken in T. unfold post_view in T. cbn [fst snd] in T.
  injection T as Hh _ _ _ _ _.
  unfold http_evt_cb. cbv zeta. rewrite Hh. cbn [negb].
  destruct (body_data cfg (Some h) hs pk w) as [hs1 w1].
  assert (K2 : taken (if process_resp hs1
                      then send_response cfg env (Some h) (hs1, w1) true
                      else (hs1, w1)) (got ++ linearise pk)).
  { destruct (process_resp hs1); [|exact K].
    unfold post_taken. rewrite pv_send_response. exact K. }
  destruct (if process_resp hs1 then _ else _) as [hs2 w2].
  exists hs2, (emit EvConnRecved w2). split; [reflexivity|].
  unfold post_taken in *. rewrite <- K2. pv.
Qed.

Lemma recv_bodies_view more :
  forall hs w got,
    taken (hs, w) got ->
    zlen got + zlen (linearise (List.concat more)) <= cl ->
    exists hs' w',
      run_events cfg env (Some h) (map ESP_CB_CONN_DATA_RECV more) (Some hs, w)
      = (Some hs', w')
      /\ taken (hs', w') (got ++ linearise (List.concat more)).
Proof.
  induction more as [|pk more IH]; intros hs w got T L.
  - exists hs, w. split; [reflexivity|].
    cbn [List.concat]. change (linearise []) with (@nil ascii).
    now rewrite List.app_nil_r.
  - cbn [List.concat] in *. rewrite linearise_app, zlen_app in L.
    pose proof (zlen_nonneg (linearise (List.concat more))).
    pose proof (zlen_nonneg (linearise pk)).
    destruct (recv_body_view hs pk w got T ltac:(lia)) as (hs1 & w1 & E1 & T1).
    destruct (IH hs1 w1 (got ++ linearise pk) T1) as (hs2 & w2 & E2 & T2).
    { rewrite zlen_app. lia. }
    exists hs2, w2. unfold run_events in *. cbn [map fold_left].
    rewrite E1, E2. split; [reflexivity|].
    rewrite linearise_app, List.app_assoc. exact T2.
Qed.

(** The connection is closed. *)
Lemma closed_view hs w got :
  taken (hs, w) got ->
  zlen got <= cl ->
  exists w',
    http_evt_cb cfg env (Some h) ESP_CB_CONN_CLOSED (Some hs, w) = (None, w')
    /\ post_data_bytes (trace w') = d0 ++ got
    /\ count_post_end (trace w') = S n0.
Proof.
  intros T L. unfold post_taken, post_view in T. cbn [fst snd] in T.
  injection T as Hh Hm Hl Hr Hd Hn.
  unfold http_evt_cb. rewrite post_on, Hm, Hr, Hl. cbn [andb method_eqb].
  eexists. split; [reflexivity|].
  destruct (zlen got <? cl) eqn:C; zbool.
  - destruct (post_end_counts w) as (D & N). rewrite D, N, Hd, Hn.
    destruct (cl <=? zlen got) eqn:E; zbool; [lia|]. split; [reflexivity|lia].
  - rewrite Hd, Hn.
    destruct (cl <=? zlen got) eqn:E; zbool; [|lia]. split; [reflexivity|lia].
Qed.

Lemma received_marks_no_post n :
  post_data_bytes (repeat EvConnRecved n) = []
  /\ count_post_end (repeat EvConnRecved n) = 0%nat.
Proof. induction n as [|n IH]; simpl; [now split|exact IH]. Qed.

(** A POST request from the first packet to the last. *)
Lemma post_run pre pk more pos w0 :
  state_alloc env = true ->
  post_data_bytes (trace w0) = d0 ->
  count_post_end (trace w0) = n0 ->
  esp_pbuf_strfind (List.concat pre) (CRLF ++ CRLF) 0 = None ->
  esp_pbuf_strfind (List.concat (pre ++ [pk])) (CRLF ++ CRLF) 0 = Some pos ->
  esp_pbuf_strcmp (List.concat (pre ++ [pk])) (b "POST ") 0 = 0 ->
  parse_content_length env (List.concat (pre ++ [pk])) = cl ->
  zlen (linearise (List.concat (pre ++ [pk]))) < SIZE_MOD ->
  zlen (skipn (Z.to_nat (pos + 4)) (linearise (List.concat (pre ++ [pk])))
        ++ linearise (List.concat more)) <= cl ->
  exists hs w,
    run_events cfg env (Some h)
      (ESP_CB_CONN_ACTIVE :: map ESP_CB_CONN_DATA_RECV (pre ++ [pk] ++ more))
      (None, w0) = (Some hs, w)
    /\ taken (hs, w)
         (skipn (Z.to_nat (pos + 4)) (linearise (List.concat (pre ++ [pk])))
          ++ linearise (List.concat more)).
Proof.
  intros A D N F0 F P C M L.
  set (first := skipn (Z.to_nat (pos + 4))
                  (linearise (List.concat (pre ++ [pk])))) in *.
  rewrite zlen_app in L.
  pose proof (zlen_nonneg first). pose proof (zlen_nonneg (linearise (List.concat more))).
  unfold run_events. cbn [fold_left].
  rewrite (active_starts cfg env (Some h) None w0 A).
  rewrite !List.map_app, !List.fold_left_app.
  pose proof (recv_many_incomplete cfg env (Some h) [] pre w0) as R.
  unfold run_events in R. cbn [List.app] in R. rewrite (R F0). clear R.
  cbn [map fold_left].
  rewrite (recv_complete cfg env (Some h) pre pk _ pos F).
  set (w1 := set_trace (trace w0 ++ repeat EvConnRecved (List.length pre)) w0).
  destruct (received_marks_no_post (List.length pre)) as (Rd & Rn).
  assert (K : taken (headers_done cfg env (Some h) (waiting cfg (pre ++ [pk]))
                       (List.concat (pre ++ [pk])) pos w1) first).
  { apply headers_done_view; auto.
    - destruct (pre ++ [pk]); reflexivity.
    - unfold w1. fields. rewrite post_data_bytes_app, Rd, List.app_nil_r.
      exact D.
    - unfold w1. fields. rewrite count_post_end_app, Rn. lia.
    - fold first. lia. }
  destruct (headers_done _ _ _ _ _ _ _) as [hs1 w2].
  assert (K2 : taken (if process_resp hs1
                      then send_response cfg env (Some h) (hs1, w2) true
                      else (hs1, w2)) first).
  { destruct (process_resp hs1); [|exact K].
    unfold post_taken. rewrite pv_send_response. exact K. }
  destruct (if process_resp hs1 then _ else _) as [hs2 w3].
  assert (K3 : taken (hs2, emit EvConnRecved w3) first).
  { unfold post_taken in *. rewrite <- K2. pv. }
  destruct (recv_bodies_view more hs2 (emit EvConnRecved w3) first K3
              ltac:(lia)) as (hs3 & w4 & E & T).
  unfold run_events in E. exists hs3, w4. split; [exact E|exact T].
Qed.

End Post.

(** C3.  A POST request whose headers are complete with the packet [pk]
    (the packets [pre] before it hold no empty line), with a content length
    [cl] above zero as the server reads it, followed by the packets [more]:
    however the bytes after the empty line are split over [pk] and [more],
    as long as they are no more than [cl], the chunks handed to
    [post_data_fn] put together are those bytes.  [post_end_fn] has been
    called once when they are [cl] bytes and has not been called when they
    are fewer; when the connection is then closed, it has been called
    exactly once in either case. *)
Theorem post_body_delivered_end_called_once
    (cfg : http_cfg) (env : http_env) (h : http_init_t)
    (pre : list esp_pbuf_p) (pk : esp_pbuf_p) (more : list esp_pbuf_p)
    (pos : Z) (w0 : world) :
  HTTP_SUPPORT_POST cfg = true ->
  post_data_fn h = true ->
  post_end_fn h = true ->
  state_alloc env = true ->
  esp_pbuf_strfind (List.concat pre) (CRLF ++ CRLF) 0 = None ->
  esp_pbuf_strfind (List.concat (pre ++ [pk])) (CRLF ++ CRLF) 0 = Some pos ->
  esp_pbuf_strcmp (List.concat (pre ++ [pk])) (b "POST ") 0 = 0 ->
  0 < parse_content_length env (List.concat (pre ++ [pk])) < SIZE_MOD ->
  zlen (linearise (List.concat (pre ++ [pk]))) < SIZE_MOD ->
  let cl := parse_content_length env (List.concat (pre ++ [pk])) in
  let body :=
    skipn (Z.to_nat (pos + 4)) (linearise (List.concat (pre ++ [pk])))
    ++ linearise (List.concat more) in
  let after evs :=
    trace (snd (run_events cfg env (Some h)
                  ((ESP_CB_CONN_ACTIVE
                    :: map ESP_CB_CONN_DATA_RECV (pre ++ [pk] ++ more)) ++ evs)
                  (None, w0))) in
  zlen body <= cl ->
  post_data_bytes (after []) = post_data_bytes (trace w0) ++ body
  /\ count_post_end (after [])
     = Nat.add (count_post_end (trace w0))
               (if zlen body =? cl then 1%nat else 0%nat)
  /\ post_data_bytes (after [ESP_CB_CONN_CLOSED])
     = post_data_bytes (trace w0) ++ body
  /\ count_post_end (after [ESP_CB_CONN_CLOSED])
     = S (count_post_end (trace w0)).
Proof.
  intros On Df Ef A F0 F P R M cl body after L.
  destruct (post_run cfg env h On Df Ef cl (post_data_bytes (trace w0))
              (count_post_end (trace w0)) R pre pk more pos w0
              A eq_refl eq_refl F0 F P eq_refl M L) as (hs & w & E & T).
  fold body in T.
  destruct (closed_view cfg env h On Ef cl (post_data_bytes (trace w0))
              (count_post_end (trace w0)) hs w body T L) as (w' & E' & D' & N').
  unfold after, run_events in *. rewrite !List.fold_left_app, E.
  cbn [fold_left snd]. rewrite E'. cbn [snd].
  unfold post_taken, post_view in T. cbn [fst snd] in T.
  injection T as _ _ _ _ Hd Hn.
  rewrite Hd, Hn, D', N'. repeat split.
  destruct (cl <=? zlen body) eqn:C1, (zlen body =? cl) eqn:C2; zbool;
    try reflexivity; lia.
Qed.

Lemma post_body_delivered_end_called_once_witness :
  let pre := [[b "POST /x HTTP/1.1" ++ CRLF ++ b "Content-Le"]] in
  let pk := [b "ngth: 5" ++ CRLF ++ CRLF ++ b "he"] in
  let more := [[b "l"]; [b "l"; b "o"]] in
  let after evs :=
    trace (snd (run_events cfg_default (env_with (fun _ => None) 1000) hi_all
                  ((ESP_CB_CONN_ACTIVE
                    :: map ESP_CB_CONN_DATA_RECV (pre ++ [pk] ++ more)) ++ evs)
                  (None, world_zero))) in
  post_data_bytes (after []) = b "hello"
  /\ count_post_end (after []) = 1%nat
  /\ post_data_bytes (after [ESP_CB_CONN_CLOSED]) = b "hello"
  /\ count_post_end (after [ESP_CB_CONN_CLOSED]) = 1%nat.
Proof.
  intros pre pk more after.
  exact (post_body_delivered_end_called_once cfg_default
           (env_with (fun _ => None) 1000)
           {| cgi := None; post_start_fn := true; post_data_fn := true;
              post_end_fn := true;
              ssi_fn := Some (fun _ => [b "REPLACED"]) |}
           pre pk more 35 world_zero
           eq_refl eq_refl eq_refl eq_refl eq_refl eq_refl eq_refl
           (conj eq_refl eq_refl) eq_refl
           ltac:(vm_compute; discriminate)).
Defined.

End HttpFacts.

(** * Further properties of the HTTP server *)

Module HttpExtra.

Import Pbuf Http HttpFacts.

(** ** Comparing without case *)

Lemma code_zero c : code c = 0 -> c = NUL.
Proof.
  unfold code. intros H.
  assert (N : N_of_ascii c = 0%N) by lia.
  rewrite <- (ascii_N_embedding c), N. reflexivity.
Qed.

Lemma code_range c : 0 <= code c < 256.
Proof.
  unfold code. pose proof (N_ascii_bounded c). lia.
Qed.

Lemma tolower_zero c : tolower c = 0 -> c = NUL.
Proof.
  unfold tolower. cbv zeta. pose proof (code_range c).
  destruct (_ && _) eqn:E; intros H0.
  - apply andb_true_iff in E as [E1 E2]. zbool. lia.
  - now apply code_zero.
Qed.

Lemma strcmpi_flip (x : string) : forall y, strcmpi y x = - strcmpi x y.
Proof.
  induction x as [|c x IH]; intros [|d y]; cbn [strcmpi]; try lia.
  cbv zeta.
  destruct (tolower c - tolower d =? 0) eqn:E; zbool.
  - replace (tolower d - tolower c =? 0) with true
      by (symmetry; apply Z.eqb_eq; lia).
    apply IH.
  - replace (tolower d - tolower c =? 0) with false
      by (symmetry; apply Z.eqb_neq; lia).
    lia.
Qed.

Lemma strcmpi_zero (x : string) :
  forall y, c_string x -> c_string y ->
            (strcmpi x y = 0 <-> lower x = lower y).
Proof.
  induction x as [|c x IH]; intros [|d y] Cx Cy.
  - split; reflexivity.
  - inversion Cy as [|? ? Hd Hy]; subst.
    cbn. split; [|discriminate]. intros H.
    exfalso. apply Hd, tolower_zero. lia.
  - inversion Cx as [|? ? Hc Hx]; subst.
    cbn. split; [|discriminate]. intros H.
    exfalso. now apply Hc, tolower_zero.
  - inversion Cx as [|? ? Hc Hx]; subst.
    inversion Cy as [|? ? Hd Hy]; subst.
    pose proof (IH y Hx Hy) as I1.
    cbn [strcmpi]. cbv zeta. unfold lower in *. cbn [list_ascii_of_string map].
    destruct (tolower c - tolower d =? 0) eqn:E; zbool.
    + rewrite I1. split.
      * intros H. f_equal; [lia|exact H].
      * intros H. now inversion H.
    + split; [lia|]. intros H. inversion H. lia.
Qed.

(** X1.  [strcmpi] answers 0 exactly when the two C strings are the same
    once every capital letter A-Z is replaced by its small letter, and
    exchanging the arguments changes the sign of the answer only. *)
Theorem strcmpi_zero_iff_same_lower (x y : string) :
  c_string x -> c_string y ->
  (strcmpi x y = 0 <-> lower x = lower y)
  /\ strcmpi y x = - strcmpi x y.
Proof.
  intros Cx Cy. split; [now apply strcmpi_zero|apply strcmpi_flip].
Qed.

Lemma strcmpi_zero_iff_same_lower_witness :
  strcmpi "/Page.SHTML" "/page.shtml" = 0
  /\ strcmpi "/page.shtml" "/Page.SHTML" = - strcmpi "/Page.SHTML" "/page.shtml".
Proof.
  destruct (strcmpi_zero_iff_same_lower "/Page.SHTML" "/page.shtml")
    as ((_ & E) & A).
  - repeat constructor; discriminate.
  - repeat constructor; discriminate.
  - split; [apply E; reflexivity|exact A].
Defined.

(** ** Request parameters *)

Lemma lacks_app c s1 s2 :
  lacks c (String.append s1 s2) = lacks c s1 && lacks c s2.
Proof.
  induction s1 as [|x s1 IH]; simpl; [reflexivity|].
  now rewrite IH, Bool.andb_assoc.
Qed.

Lemma cut_at_none c s : lacks c s = true -> cut_at c s = (s, None).
Proof.
  induction s as [|x s IH]; simpl; [reflexivity|]. intros H.
  apply andb_true_iff in H as [N L]. apply Bool.negb_true_iff in N.
  now rewrite N, (IH L).
Qed.

Lemma cut_at_some c s1 s2 :
  lacks c s1 = true ->
  cut_at c (String.append s1 (String c s2)) = (s1, Some s2).
Proof.
  induction s1 as [|x s1 IH]; simpl.
  - now rewrite Ascii.eqb_refl.
  - intros H. apply andb_true_iff in H as [N L].
    apply Bool.negb_true_iff in N. now rewrite N, (IH L).
Qed.

Lemma plain_param_amp p : plain_param p = true -> lacks "&" (param_text p) = true.
Proof.
  unfold plain_param, param_text. intros H.
  apply andb_true_iff in H as [H V]. apply andb_true_iff in H as [A _].
  destruct (value p) as [v|]; [|exact A].
  rewrite lacks_app, A. simpl. exact V.
Qed.

Lemma cut_param p :
  plain_param p = true -> cut_at "=" (param_text p) = (name p, value p).
Proof.
  unfold plain_param, param_text. intros H.
  apply andb_true_iff in H as [H _]. apply andb_true_iff in H as [_ E].
  destruct (value p) as [v|].
  - now apply cut_at_some.
  - now apply cut_at_none.
Qed.

Lemma params_loop_join n :
  forall l,
    l <> [] ->
    Forall (fun p => plain_param p = true) l ->
    http_get_params_loop n (Some (join_params l)) = firstn n l.
Proof.
  induction n as [|n IH]; intros l Ne F; [reflexivity|].
  destruct l as [|p rest]; [congruence|].
  inversion F as [|? ? Pp Fr]; subst.
  cbn [http_get_params_loop firstn].
  destruct rest as [|q rest].
  - cbn [join_params]. rewrite (cut_at_none _ _ (plain_param_amp p Pp)).
    rewrite (cut_param p Pp). destruct p; simpl. now destruct n.
  - change (join_params (p :: q :: rest))
      with (String.append (param_text p)
              (String "&" (join_params (q :: rest)))).
    rewrite (cut_at_some _ _ _ (plain_param_amp p Pp)).
    rewrite (cut_param p Pp), (IH (q :: rest)) by (auto; discriminate).
    now destruct p.
Qed.

(** X2.  A query made of parameters [name] or [name=value] joined by [&]
    (names without [&] and [=], values without [&]) is taken apart by
    [http_get_params] into those parameters, in order: all of them when
    they are at most [HTTP_MAX_PARAMS], the first [HTTP_MAX_PARAMS]
    otherwise.  Without a query there are no parameters. *)
Theorem get_params_takes_query_apart (cfg : http_cfg) (l : list http_param_t) :
  l <> [] ->
  Forall (fun p => plain_param p = true) l ->
  http_get_params cfg (Some (join_params l)) = firstn (HTTP_MAX_PARAMS cfg) l
  /\ (List.length l <= HTTP_MAX_PARAMS cfg ->
      http_get_params cfg (Some (join_params l)) = l)%nat
  /\ http_get_params cfg None = [].
Proof.
  intros Ne F. unfold http_get_params.
  rewrite (params_loop_join _ l Ne F). split; [reflexivity|]. split.
  - intros L. now apply List.firstn_all2.
  - now destruct (HTTP_MAX_PARAMS cfg).
Qed.

Lemma get_params_takes_query_apart_witness :
  http_get_params cfg_default (Some "led=on&x&name=a=b")
  = [ {| name := "led"; value := Some "on" |};
      {| name := "x"; value := None |};
      {| name := "name"; value := Some "a=b" |} ].
Proof.
  refine (proj1 (proj2 (get_params_takes_query_apart cfg_default
            [ {| name := "led"; value := Some "on" |};
              {| name := "x"; value := None |};
              {| name := "name"; value := Some "a=b" |} ] _ _)) _).
  - discriminate.
  - repeat constructor.
  - vm_compute. lia.
Defined.

(** ** The request line *)

Lemma find_char c pre rest :
  forall i,
    Forall (fun x => x <> c) pre ->
    find_from [c] (pre ++ c :: rest) i = Some (i + zlen pre).
Proof.
  induction pre as [|x pre IH]; intros i F.
  - cbn. rewrite Ascii.eqb_refl. cbn. f_equal. unfold zlen. simpl. lia.
  - inversion F as [|? ? Hx Hp]; subst.
    cbn [List.app find_from starts_with].
    assert (E : Ascii.eqb c x = false)
      by (apply Ascii.eqb_neq; congruence).
    rewrite E. cbn [andb]. rewrite (IH (i + 1) Hp), zlen_cons.
    f_equal. lia.
Qed.

Lemma find_char_none c l :
  forall i, Forall (fun x => x <> c) l -> find_from [c] l i = None.
Proof.
  induction l as [|x l IH]; intros i F; [reflexivity|].
  inversion F as [|? ? Hx Hl]; subst. cbn [find_from starts_with].
  assert (E : Ascii.eqb c x = false) by (apply Ascii.eqb_neq; congruence).
  rewrite E. cbn [andb]. now apply IH.
Qed.

Lemma skipn_past {A} (pre : list A) x rest :
  skipn (Z.to_nat (zlen pre + 1)) (pre ++ x :: rest) = rest.
Proof.
  replace (Z.to_nat (zlen pre + 1)) with (List.length pre + 1)%nat
    by (unfold zlen; lia).
  rewrite List.skipn_app, List.skipn_all2 by lia.
  replace (List.length pre + 1 - List.length pre)%nat with 1%nat by lia.
  reflexivity.
Qed.

Lemma firstn_exact {A} (u rest : list A) :
  firstn (Z.to_nat (zlen u)) (u ++ rest) = u.
Proof.
  unfold zlen. rewrite Nat2Z.id, List.firstn_app, Nat.sub_diag.
  rewrite List.firstn_all. cbn. apply List.app_nil_r.
Qed.

Section RequestLine.

Variable cfg : http_cfg.

Lemma parse_uri_shapes (c : esp_pbuf_p) (w : world)
    (m u rest : bytes) (pc : Z) :
  zlen m = 3 \/ zlen m = 4 ->
  Forall (fun x => x <> " "%char) m ->
  Forall (fun x => x <> " "%char) u ->
  esp_pbuf_strfind c CRLF 0 = Some pc ->
  zlen u <= HTTP_MAX_URI_LEN cfg ->
  zlen (linearise c) < SIZE_MOD ->
  (linearise c = m ++ " "%char :: u ++ " "%char :: rest
   \/ (linearise c = m ++ " "%char :: u ++ CRLF ++ rest
       /\ pc = zlen m + 1 + zlen u
       /\ Forall (fun x => x <> " "%char) rest)) ->
  http_parse_uri cfg c w = (Esp.espOK, set_http_uri (u ++ [NUL]) w).
Proof.
  intros Lm Fm Fu Pc Lu M Shape.
  pose proof (zlen_nonneg m). pose proof (zlen_nonneg u).
  assert (Ps : esp_pbuf_strfind c (b " ") 0 = Some (zlen m)).
  { rewrite strfind_lin.
    destruct Shape as [E|(E & _)]; rewrite E;
      change (b " ") with [" "%char]; now rewrite find_char. }
  assert (Lt : zlen m + 1 + zlen u <= zlen (linearise c)).
  { destruct Shape as [E|(E & _)]; rewrite E;
      rewrite zlen_app, zlen_cons, zlen_app;
      match goal with |- context [zlen ?x] =>
        lazymatch x with
        | _ :: _ => pose proof (zlen_nonneg x)
        | CRLF ++ _ => pose proof (zlen_nonneg x)
        end end; lia. }
  assert (Pe : match esp_pbuf_strfind c (b " ") (zlen m + 1) with
               | Some e => e
               | None => pc
               end = zlen m + 1 + zlen u).
  { unfold esp_pbuf_strfind. change (b " ") with [" "%char].
    destruct Shape as [E|(E & P & Fr)]; rewrite E, skipn_past.
    - now rewrite find_char.
    - rewrite find_char_none; [exact P|].
      apply List.Forall_app. split; [exact Fu|].
      apply List.Forall_app. split; [|exact Fr].
      repeat constructor; discriminate. }
  unfold http_parse_uri. rewrite Ps.
  assert (G : negb (zlen m =? 3) && negb (zlen m =? 4) = false).
  { destruct Lm as [L|L]; rewrite L; reflexivity. }
  rewrite G, Pc. cbv zeta. rewrite Pe.
  rewrite (sz_sub_small (zlen m + 1 + zlen u)) by lia.
  rewrite sz_sub_small by lia.
  replace (zlen m + 1 + zlen u - zlen m - 1) with (zlen u) by lia.
  assert (T : (zlen u >? HTTP_MAX_URI_LEN cfg) = false)
    by (rewrite Z.gtb_ltb; apply Z.ltb_ge; lia).
  rewrite T. unfold esp_pbuf_copy.
  destruct Shape as [E|(E & _)]; rewrite E, skipn_past, firstn_exact;
    reflexivity.
Qed.

(** X3.  A request that begins with a method of three or four bytes, a
    space, and a URI that ends at the next space (or, when there is no
    further space at all, at the first CRLF), and that holds a CRLF: when
    the URI is no longer than [HTTP_MAX_URI_LEN], [http_parse_uri] answers
    [espOK] and leaves the URI, closed by NUL, in [http_uri]; nothing else
    of the world changes. *)
Theorem parse_uri_takes_uri (c : esp_pbuf_p) (w : world)
    (m u rest : bytes) (pc : Z) :
  zlen m = 3 \/ zlen m = 4 ->
  Forall (fun x => x <> " "%char) m ->
  Forall (fun x => x <> " "%char) u ->
  esp_pbuf_strfind c CRLF 0 = Some pc ->
  zlen u <= HTTP_MAX_URI_LEN cfg ->
  zlen (linearise c) < SIZE_MOD ->
  (linearise c = m ++ " "%char :: u ++ " "%char :: rest
   \/ (linearise c = m ++ " "%char :: u ++ CRLF ++ rest
       /\ pc = zlen m + 1 + zlen u
       /\ Forall (fun x => x <> " "%char) rest)) ->
  http_parse_uri cfg c w = (Esp.espOK, set_http_uri (u ++ [NUL]) w).
Proof.
  intros Lm Fm Fu Pc Lu M Shape.
  exact (parse_uri_shapes c w m u rest pc Lm Fm Fu Pc Lu M Shape).
Qed.

(** X4.  [http_parse_uri] answers [espOK] or [espERR], and when it answers
    [espERR] the world, [http_uri] with it, is as it was.  It answers
    [espERR] when the first space of the request is not at offset 3 or 4
    (or there is none), when the request holds no CRLF, and when the URI
    between the first two spaces is longer than [HTTP_MAX_URI_LEN]. *)
Theorem parse_uri_rejects (c : esp_pbuf_p) (w : world) :
  (fst (http_parse_uri cfg c w) = Esp.espOK
   \/ http_parse_uri cfg c w = (Esp.espERR, w))
  /\ ((forall p, esp_pbuf_strfind c (b " ") 0 = Some p -> p <> 3 /\ p <> 4) ->
      http_parse_uri cfg c w = (Esp.espERR, w))
  /\ (esp_pbuf_strfind c CRLF 0 = None ->
      http_parse_uri cfg c w = (Esp.espERR, w))
  /\ (forall m u rest,
        linearise c = m ++ " "%char :: u ++ " "%char :: rest ->
        Forall (fun x => x <> " "%char) m ->
        Forall (fun x => x <> " "%char) u ->
        zlen (linearise c) < SIZE_MOD ->
        HTTP_MAX_URI_LEN cfg < zlen u ->
        http_parse_uri cfg c w = (Esp.espERR, w)).
Proof.
  split; [|split; [|split]].
  - unfold http_parse_uri.
    destruct (esp_pbuf_strfind c (b " ") 0); [|now right].
    destruct (_ && _); [now right|].
    destruct (esp_pbuf_strfind c CRLF 0); [|now right].
    cbv zeta. destruct (_ >? _); [now right|now left].
  - intros H. unfold http_parse_uri.
    destruct (esp_pbuf_strfind c (b " ") 0) as [p|]; [|reflexivity].
    destruct (H p eq_refl) as (N3 & N4).
    apply Z.eqb_neq in N3, N4. now rewrite N3, N4.
  - intros H. unfold http_parse_uri.
    destruct (esp_pbuf_strfind c (b " ") 0); [|reflexivity].
    destruct (_ && _); [reflexivity|]. now rewrite H.
  - intros m u rest E Fm Fu M L.
    pose proof (zlen_nonneg m). pose proof (zlen_nonneg u).
    pose proof (zlen_nonneg rest).
    assert (Lt : zlen m + 1 + zlen u < zlen (linearise c)).
    { rewrite E, zlen_app, zlen_cons, zlen_app, zlen_cons. lia. }
    unfold http_parse_uri. rewrite strfind_lin, E.
    change (b " ") with [" "%char]. rewrite (find_char _ _ _ 0 Fm).
    cbn [Z.add]. destruct (_ && _); [reflexivity|].
    destruct (esp_pbuf_strfind c CRLF 0); [|reflexivity].
    cbv zeta. unfold esp_pbuf_strfind at 1. rewrite E, skipn_past.
    rewrite (find_char _ _ _ _ Fu).
    rewrite (sz_sub_small (zlen m + 1 + zlen u)) by lia.
    rewrite sz_sub_small by lia.
    replace (zlen m + 1 + zlen u - zlen m - 1) with (zlen u) by lia.
    assert (T : (zlen u >? HTTP_MAX_URI_LEN cfg) = true)
      by (apply Z.gtb_lt; lia).
    now rewrite T.
Qed.

End RequestLine.

Lemma parse_uri_takes_uri_witness :
  http_parse_uri cfg_default
    [b "GET /a.html HT"; b "TP/1.1" ++ CRLF ++ CRLF] world_zero
  = (Esp.espOK, set_http_uri (b "/a.html" ++ [NUL]) world_zero)
  /\ http_parse_uri cfg_default [b "GET /" ++ CRLF] world_zero
     = (Esp.espOK, set_http_uri (b "/" ++ [NUL]) world_zero).
Proof.
  split.
  - apply (parse_uri_takes_uri cfg_default _ world_zero (b "GET") (b "/a.html")
             (b "HTTP/1.1" ++ CRLF ++ CRLF) 20).
    + left; reflexivity.
    + repeat constructor; discriminate.
    + repeat constructor; discriminate.
    + reflexivity.
    + vm_compute; discriminate.
    + reflexivity.
    + left; reflexivity.
  - apply (parse_uri_takes_uri cfg_default _ world_zero (b "GET") (b "/")
             [] 5).
    + left; reflexivity.
    + repeat constructor; discriminate.
    + repeat constructor; discriminate.
    + reflexivity.
    + vm_compute; discriminate.
    + reflexivity.
    + right. split; [reflexivity|]. split; [reflexivity|constructor].
Defined.

(** ** Looking up the response file *)

Ltac wfields :=
  fields;
  cbn [fst snd trace http_uri http_params set_trace set_http_uri
       set_http_params emit].

Section FileLookup.

Variable cfg : http_cfg.
Variable env : http_env.
Variable hi : option http_init_t.

Lemma open_known path :
  known env path = true ->
  http_fs_data_open_file env path = Some (opened_file env path).
Proof.
  unfold known, opened_file, http_fs_data_open_file.
  destruct (fs env path) as [[d st]|]; [reflexivity|discriminate].
Qed.

Lemma open_unknown path :
  known env path = false -> http_fs_data_open_file env path = None.
Proof.
  unfold known, http_fs_data_open_file.
  destruct (fs env path) as [[d st]|]; [discriminate|reflexivity].
Qed.

Lemma loop_404_find names :
  forall hs u,
    frame_view (fst (loop_404 env names hs u)) = frame_view hs
    /\ is_ssi (fst (loop_404 env names hs u)) = is_ssi hs
    /\ match List.find (known env) names with
       | Some n =>
           snd (loop_404 env names hs u) = n
           /\ resp_file_opened (fst (loop_404 env names hs u)) = true
           /\ resp_file (fst (loop_404 env names hs u)) = opened_file env n
       | None =>
           resp_file_opened (fst (loop_404 env names hs u))
           = match names with [] => resp_file_opened hs | _ => false end
       end.
Proof.
  induction names as [|n names IH]; intros hs u; cbn [loop_404 List.find].
  - repeat split.
  - destruct (known env n) eqn:K.
    + rewrite (open_known n K). wfields. repeat split.
    + rewrite (open_unknown n K).
      destruct (IH (set_resp_file_opened false hs) n) as (F & S & R).
      rewrite F, S. split; [reflexivity|]. split; [reflexivity|].
      destruct (List.find (known env) names); [exact R|].
      rewrite R. now destruct names.
Qed.

Lemma index_loop_find names :
  forall hs u,
    frame_view (fst (index_loop env names hs u)) = frame_view hs
    /\ is_ssi (fst (index_loop env names hs u)) = is_ssi hs
    /\ match List.find (known env) names with
       | Some n =>
           snd (index_loop env names hs u) = n
           /\ resp_file_opened (fst (index_loop env names hs u)) = true
           /\ resp_file (fst (index_loop env names hs u)) = opened_file env n
       | None =>
           snd (index_loop env names hs u) = u
           /\ resp_file_opened (fst (index_loop env names hs u))
              = match names with [] => resp_file_opened hs | _ => false end
       end.
Proof.
  induction names as [|n names IH]; intros hs u; cbn [index_loop List.find].
  - repeat split.
  - destruct (known env n) eqn:K.
    + rewrite (open_known n K). wfields. repeat split.
    + rewrite (open_unknown n K).
      destruct (IH (set_resp_file_opened false hs) u) as (F & S & R).
      rewrite F, S. split; [reflexivity|]. split; [reflexivity|].
      destruct (List.find (known env) names); [exact R|].
      destruct R as (R1 & R2). rewrite R1, R2. now destruct names.
Qed.

Lemma cgi_of_loop path params :
  match hi with
  | Some h => match cgi h with
              | Some l => cgi_loop l path params
              | None => path
              end
  | None => path
  end = cgi_loop (cgi_of hi) path params.
Proof. unfold cgi_of. destruct hi as [h|]; [destruct (cgi h)|]; reflexivity. Qed.

(** The lookup of a URI that does not ask for the index page. *)
Lemma get_file_plain hs u w :
  is_index_uri u = false ->
  resp_file_opened hs = false ->
  let path := fst (cut_at "?" u) in
  let q := snd (cut_at "?" u) in
  let params := http_get_params cfg q in
  let target := cgi_loop (cgi_of hi) path params in
  let r := http_get_file_from_uri cfg env hi hs u w in
  frame_view (fst r) = frame_view hs
  /\ trace (snd r) = trace w
  /\ http_params (snd r)
     = params ++ skipn (List.length params) (http_params w)
  /\ http_uri (snd r)
     = match q with Some _ => b path ++ [NUL] | None => http_uri w end
  /\ (if known env target
      then resp_file_opened (fst r) = true
           /\ resp_file (fst r) = opened_file env target
           /\ is_ssi (fst r) = suffix_loop http_ssi_suffixes target
      else match List.find (known env) http_404_uris with
           | Some n =>
               resp_file_opened (fst r) = true
               /\ resp_file (fst r) = opened_file env n
               /\ is_ssi (fst r) = suffix_loop http_ssi_suffixes n
           | None =>
               resp_file_opened (fst r) = false /\ is_ssi (fst r) = false
           end).
Proof.
  intros I O. cbv zeta.
  unfold http_get_file_from_uri. cbv zeta. rewrite I. wfields. rewrite O.
  cbn [negb].
  destruct (cut_at "?" u) as [path0 q0]. cbn [fst snd].
  rewrite cgi_of_loop.
  set (params := http_get_params cfg q0).
  set (target := cgi_loop (cgi_of hi) path0 params).
  destruct (known env target) eqn:K.
  - rewrite (open_known target K). wfields.
    repeat split; destruct q0; reflexivity.
  - rewrite (open_unknown target K). wfields.
    destruct (loop_404_find http_404_uris (set_resp_file_opened false
                 (set_resp_file file_zero hs)) target) as (F & S & R).
    destruct (loop_404 env http_404_uris _ target) as [hs3 u3].
    cbn [fst snd] in F, S, R. wfields. cbn [negb]. wfields.
    assert (Fr : frame_view
                   (if resp_file_opened hs3
                    then set_is_ssi (suffix_loop http_ssi_suffixes u3)
                           (set_is_ssi false hs3)
                    else set_is_ssi false hs3) = frame_view hs).
    { transitivity (frame_view hs3);
        [destruct (resp_file_opened hs3); reflexivity|].
      rewrite F. reflexivity. }
    split; [exact Fr|]. split; [now destruct q0|].
    split; [now destruct q0|]. split; [now destruct q0|].
    destruct (List.find (known env) http_404_uris) as [n|].
    + destruct R as (R1 & R2 & R3). rewrite R2. wfields.
      subst u3. repeat split; assumption.
    + rewrite R. cbn. now split.
Qed.

Lemma no_query u :
  lacks "?" u = true ->
  cgi_of hi = [] ->
  cut_at "?" u = (u, None)
  /\ cgi_loop (cgi_of hi) u (http_get_params cfg None) = u.
Proof.
  intros L C. rewrite C. split; [now apply cut_at_none|reflexivity].
Qed.

Lemma sdrop_app stem tail :
  sdrop (String.length stem) (String.append stem tail) = tail.
Proof. induction stem as [|c stem IH]; simpl; [now destruct tail|exact IH]. Qed.

Lemma sdrop_split n :
  forall u, (n <= String.length u)%nat ->
            exists stem, u = String.append stem (sdrop n u)
                         /\ String.length stem = n.
Proof.
  induction n as [|n IH]; intros u L.
  - exists EmptyString. split; [now destruct u|reflexivity].
  - destruct u as [|c u]; [simpl in L; lia|].
    destruct (IH u) as (stem & E & Ls); [simpl in L; lia|].
    exists (String c stem). simpl. split; [now rewrite <- E|now rewrite Ls].
Qed.

Lemma lower_length a : List.length (lower a) = String.length a.
Proof.
  unfold lower. rewrite List.length_map.
  induction a as [|c a IH]; simpl; [reflexivity|now rewrite IH].
Qed.

Lemma c_string_tail stem tail :
  c_string (String.append stem tail) -> c_string tail.
Proof.
  unfold c_string. induction stem as [|c stem IH]; simpl; [auto|].
  intros H. inversion H; auto.
Qed.

Lemma length_append a c : String.length (String.append a c)
                          = (String.length a + String.length c)%nat.
Proof. induction a as [|x a IH]; simpl; [reflexivity|now rewrite IH]. Qed.

Lemma suffix_loop_true sufs u :
  suffix_loop sufs u = true <->
  exists s, In s sufs /\ (String.length s < String.length u)%nat
            /\ strcmpi s (sdrop (String.length u - String.length s) u) = 0.
Proof.
  induction sufs as [|x sufs IH]; cbn [suffix_loop].
  - split; [discriminate|]. now intros (s & [] & _).
  - cbv zeta.
    destruct ((String.length x <? String.length u)%nat
              && (strcmpi x (sdrop (String.length u - String.length x) u) =? 0))
      eqn:E.
    + split; [|reflexivity]. intros _.
      apply andb_true_iff in E as [E1 E2].
      apply Nat.ltb_lt in E1. apply Z.eqb_eq in E2.
      exists x. split; [now left|]. now split.
    + rewrite IH. split.
      * intros (s & I & R). exists s. split; [now right|exact R].
      * intros (s & [I|I] & L & C).
        -- subst s. apply Nat.ltb_lt in L. apply Z.eqb_eq in C.
           rewrite L, C in E. discriminate.
        -- exists s. now split.
Qed.

(** X5.  A URI without query that is not the index page, with no CGI
    handlers set, and that the file provider knows: that file is the
    response file, and it is sent with SSI exactly when the URI is a
    non-empty stem followed by [.shtml], [.shtm] or [.ssi] in any mix of
    capital and small letters. *)
Theorem ssi_chosen_by_suffix (hs : http_state_t) (u : string) (w : world) :
  is_index_uri u = false ->
  resp_file_opened hs = false ->
  lacks "?" u = true ->
  cgi_of hi = [] ->
  known env u = true ->
  c_string u ->
  let hs' := fst (http_get_file_from_uri cfg env hi hs u w) in
  resp_file_opened hs' = true
  /\ resp_file hs' = opened_file env u
  /\ (is_ssi hs' = true <->
      exists stem tail s,
        u = String.append stem tail /\ stem <> EmptyString
        /\ In s [".shtml"; ".shtm"; ".ssi"] /\ lower tail = lower s).
Proof.
  intros I O L C K Cu hs'. subst hs'.
  destruct (no_query u L C) as (Q1 & Q2).
  destruct (get_file_plain hs u w I O) as (_ & _ & _ & _ & R).
  rewrite Q1 in R. cbn [fst snd] in R. rewrite Q2, K in R.
  destruct R as (R1 & R2 & R3).
  split; [exact R1|]. split; [exact R2|]. rewrite R3, suffix_loop_true.
  change http_ssi_suffixes with [".shtml"; ".shtm"; ".ssi"].
  assert (Cs : forall s, In s [".shtml"; ".shtm"; ".ssi"] -> c_string s).
  { intros s [<-|[<-|[<-|[]]]]; repeat constructor; discriminate. }
  split.
  - intros (s & Is & Ls & Z).
    destruct (sdrop_split (String.length u - String.length s) u) as (stem & E & Lst);
      [lia|].
    exists stem, (sdrop (String.length u - String.length s) u), s.
    split; [exact E|]. split; [intros ->; simpl in Lst; lia|].
    split; [exact Is|]. symmetry. apply strcmpi_zero; auto.
    rewrite E in Cu. now apply c_string_tail in Cu.
  - intros (stem & tail & s & E & Ne & Is & Lo).
    exists s. split; [exact Is|].
    pose proof (f_equal (@List.length Z) Lo) as Ll.
    rewrite !lower_length in Ll.
    assert (Lu : String.length u = (String.length stem + String.length s)%nat)
      by (rewrite E, length_append; lia).
    split.
    + destruct stem; [congruence|]. simpl in Lu. lia.
    + replace (String.length u - String.length s)%nat
        with (String.length stem) by lia.
      rewrite E, sdrop_app. apply strcmpi_zero; auto.
      rewrite E in Cu. now apply c_string_tail in Cu.
Qed.

(** X6.  A URI without query that is not the index page, with no CGI
    handlers set, and that the file provider does not know: the response
    file is the first of the 404 pages the provider knows, sent with SSI
    unless it is [/404.html] or [/404.htm]; when it knows none, no file is
    open and the response to an allowed method is to close the connection
    without sending anything. *)
Theorem missing_file_gets_404_page (hs : http_state_t) (u : string) (w : world) :
  is_index_uri u = false ->
  resp_file_opened hs = false ->
  lacks "?" u = true ->
  cgi_of hi = [] ->
  known env u = false ->
  let r := http_get_file_from_uri cfg env hi hs u w in
  match List.find (known env) http_404_uris with
  | Some n =>
      resp_file_opened (fst r) = true
      /\ resp_file (fst r) = opened_file env n
      /\ is_ssi (fst r)
         = negb (String.eqb n "/404.html" || String.eqb n "/404.htm")
  | None =>
      resp_file_opened (fst r) = false
      /\ is_ssi (fst r) = false
      /\ forall ft,
           process_resp hs = true ->
           written_total hs = 0 ->
           req_method hs <> HTTP_METHOD_NOTALLOWED ->
           trace (snd (send_response cfg env hi r ft)) = trace w ++ [EvConnClose]
  end.
Proof.
  intros I O L C K r. subst r.
  destruct (no_query u L C) as (Q1 & Q2).
  destruct (get_file_plain hs u w I O) as (F & T & _ & _ & R).
  rewrite Q1 in R. cbn [fst snd] in R. rewrite Q2, K in R.
  destruct (List.find (known env) http_404_uris) as [n|] eqn:Fd.
  - destruct R as (R1 & R2 & R3). split; [exact R1|]. split; [exact R2|].
    rewrite R3. apply List.find_some in Fd as [In404 _].
    destruct In404 as [<-|[<-|[<-|[<-|[<-|[]]]]]]; reflexivity.
  - destruct R as (R1 & R2). split; [exact R1|]. split; [exact R2|].
    intros ft P W M.
    destruct (http_get_file_from_uri cfg env hi hs u w) as [hs' w'].
    cbn [fst snd] in *. unfold frame_view in F.
    injection F as _ _ _ Fm _ _ Fp _ _ _ _ Fw _ _ _ _ _ _.
    unfold send_response. rewrite Fp, P, Fw, W, R1, Fm. cbn [negb orb andb Z.eqb].
    assert (Nm : method_eqb (req_method hs) HTTP_METHOD_NOTALLOWED = false)
      by (destruct (req_method hs) eqn:Q; try reflexivity; congruence).
    rewrite Nm, Bool.andb_false_r. unfold esp_conn_close. wfields.
    now rewrite T.
Qed.

Lemma cgi_loop_find l path params :
  cgi_loop l path params
  = match List.find (fun c => String.eqb (uri c) path) l with
    | Some c => fn c params
    | None => path
    end.
Proof.
  induction l as [|c l IH]; cbn [cgi_loop List.find]; [reflexivity|].
  destruct (String.eqb (uri c) path); [reflexivity|exact IH].
Qed.

(** X7.  A URI [path?query] that is not the index page, the query made of
    at most [HTTP_MAX_PARAMS] well-formed parameters: the parameters are
    left in [http_params], [http_uri] is cut down to the path, the first
    CGI handler registered for exactly that path is called with the
    parameters and the file it names is the response file; without such a
    handler the path itself names the file. *)
Theorem query_feeds_cgi (hs : http_state_t) (w : world) (path : string)
    (l : list http_param_t) :
  resp_file_opened hs = false ->
  lacks "?" path = true ->
  is_index_uri (String.append path (String "?" (join_params l))) = false ->
  l <> [] ->
  Forall (fun p => plain_param p = true) l ->
  (List.length l <= HTTP_MAX_PARAMS cfg)%nat ->
  let target :=
    match List.find (fun c => String.eqb (uri c) path) (cgi_of hi) with
    | Some c => fn c l
    | None => path
    end in
  known env target = true ->
  let r := http_get_file_from_uri cfg env hi hs
             (String.append path (String "?" (join_params l))) w in
  resp_file_opened (fst r) = true
  /\ resp_file (fst r) = opened_file env target
  /\ firstn (List.length l) (http_params (snd r)) = l
  /\ http_uri (snd r) = b path ++ [NUL].
Proof.
  intros O L I Ne F Le target K r. subst r.
  destruct (get_file_plain hs _ w I O) as (_ & _ & P & U & R).
  rewrite (cut_at_some _ _ _ L) in *. cbn [fst snd] in *.
  assert (Pl : http_get_params cfg (Some (join_params l)) = l).
  { unfold http_get_params. rewrite (params_loop_join _ l Ne F).
    now apply List.firstn_all2. }
  rewrite Pl in *. rewrite cgi_loop_find in R. fold target in R.
  rewrite K in R. destruct R as (R1 & R2 & _).
  split; [exact R1|]. split; [exact R2|]. split; [|exact U].
  rewrite P, List.firstn_app, Nat.sub_diag, List.firstn_all. cbn.
  apply List.app_nil_r.
Qed.

(** X8.  A request for the index page ([/] or [/?...]) when the file
    provider knows one of the index names: the first such name is the
    response file, and the world is left as it is, so a query behind [/]
    is not taken apart and no CGI handler is called. *)
Theorem index_page_ignores_query (hs : http_state_t) (u : string) (w : world)
    (n : string) :
  is_index_uri u = true ->
  List.find (known env) http_index_filenames = Some n ->
  let r := http_get_file_from_uri cfg env hi hs u w in
  resp_file_opened (fst r) = true
  /\ resp_file (fst r) = opened_file env n
  /\ is_ssi (fst r) = suffix_loop http_ssi_suffixes n
  /\ snd r = w.
Proof.
  intros I Fd r. subst r. unfold http_get_file_from_uri. cbv zeta.
  rewrite I.
  destruct (index_loop_find http_index_filenames
              (set_resp_file file_zero hs) u) as (_ & _ & R).
  rewrite Fd in R.
  destruct (index_loop env http_index_filenames _ u) as [hs1 u1].
  cbn [fst snd] in R. destruct R as (-> & R2 & R3).
  repeat (rewrite ?R2; change (negb true) with false; cbv beta iota).
  wfields. rewrite R2. wfields. repeat split; assumption.
Qed.

Lemma get_file_frame (hs : http_state_t) (u : string) (w : world) :
  frame_view (fst (http_get_file_from_uri cfg env hi hs u w)) = frame_view hs
  /\ trace (snd (http_get_file_from_uri cfg env hi hs u w)) = trace w.
Proof.
  unfold http_get_file_from_uri. cbv zeta.
  set (hs0 := set_resp_file file_zero hs).
  assert (K1 : frame_view
                 (fst (if is_index_uri u
                       then index_loop env http_index_filenames hs0 u
                       else (hs0, u))) = frame_view hs).
  { destruct (is_index_uri u);
      [rewrite (proj1 (index_loop_find _ hs0 u))|]; reflexivity. }
  destruct (if is_index_uri u then _ else _) as [hs1 u1]. cbn [fst] in K1.
  rewrite <- K1. clear K1.
  match goal with
  | |- context [let '(a, c) := ?x in _] =>
      assert (K2 : frame_view (fst (fst x)) = frame_view hs1
                   /\ trace (snd x) = trace w);
      [|destruct x as [[hs2 u2] w2]]
  end.
  { destruct (negb (resp_file_opened hs1)); [|now split].
    destruct (cut_at "?" u1) as [path req_params].
    match goal with |- context [http_fs_data_open_file env ?x] =>
      destruct (http_fs_data_open_file env x) end;
      destruct req_params; now split. }
  cbn [fst snd] in K2. destruct K2 as (K2 & T2). rewrite <- K2, <- T2.
  assert (K3 : frame_view
                 (fst (if negb (resp_file_opened hs2)
                       then loop_404 env http_404_uris hs2 u2
                       else (hs2, u2))) = frame_view hs2).
  { destruct (negb _); [apply loop_404_find|reflexivity]. }
  destruct (if negb (resp_file_opened hs2) then _ else _) as [hs3 u3].
  cbn [fst] in K3. rewrite <- K3. cbn [fst snd].
  split; [|reflexivity].
  destruct (resp_file_opened _); reflexivity.
Qed.

(** X9.  Whatever the URI and the files, [http_get_file_from_uri] changes
    nothing of the connection state but the response file, whether it is
    open and whether it is sent with SSI, and it hands nothing to the
    connection: the trace is as it was. *)
Theorem get_file_keeps_connection (hs : http_state_t) (u : string) (w : world) :
  frame_view (fst (http_get_file_from_uri cfg env hi hs u w)) = frame_view hs
  /\ trace (snd (http_get_file_from_uri cfg env hi hs u w)) = trace w.
Proof. exact (get_file_frame hs u w). Qed.

End FileLookup.

Lemma ssi_chosen_by_suffix_witness :
  let env := env_with (fs_only "/Status.SHTML" (b "up") true) 1000 in
  is_ssi (fst (http_get_file_from_uri cfg_default env None
                 (hs_zero cfg_default) "/Status.SHTML" world_zero)) = true.
Proof.
  intros env.
  refine (proj2 (proj2 (proj2
            (ssi_chosen_by_suffix cfg_default env None (hs_zero cfg_default)
               "/Status.SHTML" world_zero
               eq_refl eq_refl eq_refl eq_refl eq_refl _))) _).
  - repeat constructor; discriminate.
  - exists "/Status", ".SHTML", ".shtml".
    split; [reflexivity|]. split; [discriminate|].
    split; [now left|reflexivity].
Defined.

Lemma missing_file_gets_404_page_witness :
  let r := http_get_file_from_uri cfg_default
             (env_with (fs_only "/404.html" (b "gone") true) 1000) None
             (hs_zero cfg_default) "/nothing.html" world_zero in
  resp_file (fst r) = {| data := b "gone"; is_static := true; fptr := 0 |}
  /\ is_ssi (fst r) = false.
Proof.
  intros r.
  pose proof (missing_file_gets_404_page cfg_default
                (env_with (fs_only "/404.html" (b "gone") true) 1000) None
                (hs_zero cfg_default) "/nothing.html" world_zero
                eq_refl eq_refl eq_refl eq_refl eq_refl) as K.
  cbv zeta in K.
  change (List.find _ http_404_uris) with (Some "/404.html") in K.
  destruct K as (_ & F & S). split; [exact F|exact S].
Defined.

Lemma query_feeds_cgi_witness :
  let led := {| uri := "/led.cgi"; fn := fun _ => "/done.html" |} in
  let h := {| cgi := Some [led]; post_start_fn := false;
              post_data_fn := false; post_end_fn := false; ssi_fn := None |} in
  let r := http_get_file_from_uri cfg_default
             (env_with (fs_only "/done.html" (b "ok") true) 1000) (Some h)
             (hs_zero cfg_default) "/led.cgi?led=on" world_zero in
  resp_file (fst r) = {| data := b "ok"; is_static := true; fptr := 0 |}
  /\ firstn 1 (http_params (snd r)) = [{| name := "led"; value := Some "on" |}].
Proof.
  intros led h r.
  refine (let K := query_feeds_cgi cfg_default
              (env_with (fs_only "/done.html" (b "ok") true) 1000) (Some h)
              (hs_zero cfg_default) world_zero "/led.cgi"
              [{| name := "led"; value := Some "on" |}]
              eq_refl eq_refl eq_refl _ _ _ eq_refl in
          conj (proj1 (proj2 K)) (proj1 (proj2 (proj2 K)))).
  - discriminate.
  - repeat constructor.
  - vm_compute. lia.
Defined.

Lemma index_page_ignores_query_witness :
  snd (http_get_file_from_uri cfg_default
         (env_with (fs_only "/index.html" (b "hello") true) 1000) None
         (hs_zero cfg_default) "/?led=on" world_zero) = world_zero.
Proof.
  exact (proj2 (proj2 (proj2
    (index_page_ignores_query cfg_default
       (env_with (fs_only "/index.html" (b "hello") true) 1000) None
       (hs_zero cfg_default) "/?led=on" world_zero "/index.html"
       eq_refl eq_refl)))).
Defined.

(** ** Sending a file without SSI *)

Lemma zlen_sub_array (d : bytes) off n :
  0 <= off -> 0 <= n -> off + n <= zlen d -> zlen (sub_array d off n) = n.
Proof.
  intros O N L. unfold sub_array, zlen in *.
  rewrite List.length_firstn, List.length_skipn. lia.
Qed.

Lemma sub_array_whole (c : bytes) : sub_array c 0 (zlen c) = c.
Proof.
  unfold sub_array, zlen. rewrite Nat2Z.id. cbn [Z.to_nat skipn].
  apply List.firstn_all.
Qed.

Lemma sub_array_skipn (d : bytes) off n :
  0 <= off -> 0 <= n ->
  sub_array d off n ++ skipn (Z.to_nat (off + n)) d = skipn (Z.to_nat off) d.
Proof.
  intros O N. unfold sub_array.
  replace (Z.to_nat (off + n)) with (Z.to_nat n + Z.to_nat off)%nat by lia.
  rewrite <- List.skipn_skipn. apply List.firstn_skipn.
Qed.

Lemma evt_poll cfg env hi hs w :
  http_evt_cb cfg env hi ESP_CB_CONN_POLL (Some hs, w)
  = (Some (fst (send_response cfg env hi (hs, w) false)),
     snd (send_response cfg env hi (hs, w) false)).
Proof.
  unfold http_evt_cb. cbv zeta.
  now destruct (send_response cfg env hi _ false).
Qed.

Lemma evt_data_sent cfg env hi k hs w :
  http_evt_cb cfg env hi (ESP_CB_CONN_DATA_SENT k) (Some hs, w)
  = (Some (fst (send_response cfg env hi
                  (set_sent_total (sz_add (sent_total hs) k) hs, w) false)),
     snd (send_response cfg env hi
            (set_sent_total (sz_add (sent_total hs) k) hs, w) false)).
Proof.
  unfold http_evt_cb. cbv zeta.
  now destruct (send_response cfg env hi _ false).
Qed.

(** Sends that were refused, and a close, hand no byte to the connection. *)
Lemma conn_bytes_refused (ps : list bytes) (tl : list event) :
  conn_bytes (map (fun c => EvConnSend c Esp.espPARAMERR) ps ++ tl)
  = conn_bytes tl.
Proof. induction ps as [|c ps IH]; [reflexivity|exact IH]. Qed.

Section PlainFile.

Variable cfg : http_cfg.
Variable env : http_env.
Variable hi : option http_init_t.

Hypothesis alloc_ok : forall n, mem_alloc env n = true.
Hypothesis max_pos : 0 < ESP_CFG_CONN_MAX_DATA_LEN cfg.

Lemma alloc_loop_granted l hs :
  alloc_loop env l hs = read_into_buffer (set_buff_len (Z.pos l) hs).
Proof. destruct l; cbn [alloc_loop]; now rewrite alloc_ok. Qed.

(** [read_resp_file] on an open file with [off] bytes read. *)
Lemma read_next hs d st off :
  resp_file_opened hs = true ->
  resp_file hs = {| data := d; is_static := st; fptr := off |} ->
  0 <= off <= zlen d ->
  zlen d < SIZE_MOD ->
  let left := zlen d - off in
  let n := Z.min left (if st then zlen d else ESP_CFG_CONN_MAX_DATA_LEN cfg) in
  transfer_view (read_resp_file cfg env hs) = transfer_view hs
  /\ if left =? 0
     then buff (read_resp_file cfg env hs) = None
     else buff (read_resp_file cfg env hs) = Some (sub_array d off n)
          /\ buff_len (read_resp_file cfg env hs) = n
          /\ resp_file (read_resp_file cfg env hs)
             = {| data := d; is_static := st; fptr := off + n |}.
Proof.
  intros O F R M left n. unfold read_resp_file. rewrite O. cbn [negb].
  cbv zeta. fields. rewrite F. unfold http_fs_data_read_file_left.
  cbn [data fptr is_static]. fold left. rewrite (sz_small left) by (unfold left; lia).
  destruct (left =? 0) eqn:Z0; [now split|]. zbool.
  destruct st.
  - unfold http_fs_data_read_file, http_fs_data_read_file_left.
    cbn [data fptr is_static]. fold left.
    rewrite (sz_small left) by (unfold left; lia). rewrite Z.min_id.
    assert (N : n = left) by (unfold n, left; lia).
    destruct (left =? 0) eqn:Z1; [zbool; lia|]. fields.
    rewrite N. now repeat split.
  - assert (N : (if left >? ESP_CFG_CONN_MAX_DATA_LEN cfg
                 then ESP_CFG_CONN_MAX_DATA_LEN cfg else left) = n).
    { unfold n. destruct (_ >? _) eqn:G; zbool; lia. }
    rewrite N.
    assert (Np : 0 < n) by (unfold n, left in *; lia).
    destruct n as [|l|l] eqn:En; try lia.
    rewrite alloc_loop_granted. unfold read_into_buffer.
    unfold http_fs_data_read_file, http_fs_data_read_file_left. fields.
    rewrite F. cbn [data fptr is_static]. fold left.
    rewrite (sz_small left) by (unfold left; lia).
    assert (Ml : Z.min (Z.pos l) left = Z.pos l) by (unfold left in *; lia).
    rewrite Ml. cbn [Z.eqb]. fields. now repeat split.
Qed.

(** One round of the pump while nothing was ever written: the next piece
    is read and offered to [esp_conn_send], which gives it back. *)
Lemma pump_round hs w ft d st off :
  transfer_view hs = (true, true, false, req_method hs, 0, 0) ->
  resp_file hs = {| data := d; is_static := st; fptr := off |} ->
  0 <= off <= zlen d ->
  zlen d < SIZE_MOD ->
  let left := zlen d - off in
  let n := Z.min left (if st then zlen d else ESP_CFG_CONN_MAX_DATA_LEN cfg) in
  let r := send_response cfg env hi (hs, w) ft in
  if left =? 0
  then trace (snd r) = trace w ++ [EvConnClose]
  else trace (snd r)
       = trace w ++ [EvConnSend (sub_array d off n) Esp.espPARAMERR]
       /\ transfer_view (fst r) = (true, true, false, req_method hs, 0, 0)
       /\ resp_file (fst r)
          = {| data := d; is_static := st; fptr := off + n |}.
Proof.
  intros V F R M left n r. subst r.
  unfold transfer_view in V. injection V as P O I W S.
  destruct (read_next hs d st off O F R M) as (T & B). fold left n in B.
  unfold transfer_view in T. rewrite P, O, I, W, S in T.
  injection T as P1 O1 I1 Q1 W1 S1.
  unfold send_response. rewrite P, O, I, W, S.
  cbn [negb orb andb Z.eqb].
  unfold send_response_no_ssi. rewrite W, S. cbn [Z.eqb].
  rewrite Bool.orb_true_r.
  destruct (left =? 0) eqn:Z0.
  - rewrite B. unfold esp_conn_close. wfields. rewrite B. reflexivity.
  - destruct B as (B1 & B2 & B3). rewrite B1, B2.
    unfold esp_conn_send. cbv zeta.
    cbn [Esp.espr_eqb]. fields. rewrite B1. wfields.
    zbool.
    assert (Ln : 0 < n <= left) by (unfold n, left in *; destruct st; lia).
    rewrite <- (zlen_sub_array d off n) at 2 by (unfold left in *; lia).
    rewrite sub_array_whole. split; [reflexivity|].
    split; [|exact B3].
    unfold transfer_view. now rewrite P1, O1, I1, Q1, W1, S1.
Qed.

Lemma pieces_concat (d : bytes) size fuel :
  forall off,
    0 <= off <= zlen d ->
    0 < size \/ zlen d = 0 ->
    (Z.to_nat (zlen d - off) < fuel)%nat ->
    List.concat (file_pieces fuel size d off) = skipn (Z.to_nat off) d
    /\ Forall (fun c => 0 < zlen c <= size) (file_pieces fuel size d off).
Proof.
  induction fuel as [|fuel IH]; intros off R S F; [lia|].
  cbn [file_pieces]. destruct (zlen d - off =? 0) eqn:Z0; zbool.
  - split; [|constructor]. cbn. symmetry. apply List.skipn_all2.
    unfold zlen in *. lia.
  - cbv zeta. set (n := Z.min (zlen d - off) size).
    assert (Ln : 0 < n <= zlen d - off) by (unfold n; lia).
    destruct (IH (off + n)) as (C & A); [lia|exact S|lia|].
    cbn [List.concat]. rewrite C. split.
    + apply sub_array_skipn; lia.
    + constructor; [|exact A]. rewrite zlen_sub_array by lia. unfold n. lia.
Qed.

Lemma pieces_run (d : bytes) (st : bool) fuel :
  forall off hs w ft,
    transfer_view hs = (true, true, false, req_method hs, 0, 0) ->
    resp_file hs = {| data := d; is_static := st; fptr := off |} ->
    0 <= off <= zlen d ->
    zlen d < SIZE_MOD ->
    (Z.to_nat (zlen d - off) < fuel)%nat ->
    let ps := file_pieces fuel
                (if st then zlen d else ESP_CFG_CONN_MAX_DATA_LEN cfg) d off in
    let r := send_response cfg env hi (hs, w) ft in
    trace (snd (run_events cfg env hi
                  (map (fun _ => ESP_CB_CONN_POLL) ps)
                  (Some (fst r), snd r)))
    = trace w ++ map (fun c => EvConnSend c Esp.espPARAMERR) ps
      ++ [EvConnClose].
Proof.
  induction fuel as [|fuel IH]; intros off hs w ft V F R M Fu; [lia|].
  cbv zeta. cbn [file_pieces].
  pose proof (pump_round hs w ft d st off V F R M) as K. cbv zeta in K.
  destruct (zlen d - off =? 0) eqn:Z0; [exact K|]. zbool.
  destruct K as (T & V1 & F1).
  set (n := Z.min (zlen d - off)
                  (if st then zlen d else ESP_CFG_CONN_MAX_DATA_LEN cfg)) in *.
  assert (Ln : 0 < n <= zlen d - off) by (unfold n; destruct st; lia).
  destruct (send_response cfg env hi (hs, w) ft) as [hs1 w1].
  cbn [fst snd] in *.
  unfold run_events. cbn [map fold_left]. rewrite evt_poll.
  pose proof (IH (off + n) hs1 w1 false) as J. cbv zeta in J.
  unfold run_events in J.
  rewrite J.
  - rewrite T, <- List.app_assoc. reflexivity.
  - rewrite V1. unfold transfer_view in V1. injection V1 as _ _ _ Q _ _.
    now rewrite Q.
  - exact F1.
  - lia.
  - exact M.
  - lia.
Qed.

(** X10.  A response file that is not sent with SSI, no byte of it read
    yet, when allocations succeed: the pump reads the file piece by piece
    (a static file in one piece, a file read into a buffer in pieces of
    [ESP_CFG_CONN_MAX_DATA_LEN] bytes, the last one what is left) and
    offers each piece to [esp_conn_send], the first at its first call and
    the next at each poll.  Every piece is given back, for the call hands
    NULL for [bw]; it is not offered again, and the poll after the last
    piece closes the connection.  The pieces put together are the file,
    and not one byte of it goes to the connection. *)
Theorem plain_file_is_offered_not_sent (hs : http_state_t) (w : world)
    (d : bytes) (st : bool) :
  process_resp hs = true ->
  resp_file_opened hs = true ->
  is_ssi hs = false ->
  resp_file hs = {| data := d; is_static := st; fptr := 0 |} ->
  written_total hs = 0 ->
  sent_total hs = 0 ->
  zlen d < SIZE_MOD ->
  let size := if st then zlen d else ESP_CFG_CONN_MAX_DATA_LEN cfg in
  let ps := file_pieces (S (List.length d)) size d 0 in
  let first := send_response cfg env hi (hs, w) true in
  let last := run_events cfg env hi (map (fun _ => ESP_CB_CONN_POLL) ps)
                (Some (fst first), snd first) in
  List.concat ps = d
  /\ Forall (fun c => 0 < zlen c <= size) ps
  /\ trace (snd last)
     = trace w ++ map (fun c => EvConnSend c Esp.espPARAMERR) ps
       ++ [EvConnClose]
  /\ conn_bytes (trace (snd last)) = conn_bytes (trace w).
Proof.
  intros P O I F W St M size ps first last.
  pose proof (zlen_nonneg d) as D0.
  destruct (pieces_concat d size (S (List.length d)) 0) as (C & A).
  - lia.
  - unfold size. destruct st; lia.
  - unfold zlen. lia.
  - split; [exact C|]. split; [exact A|].
    assert (T : trace (snd last)
                = trace w ++ map (fun c => EvConnSend c Esp.espPARAMERR) ps
                  ++ [EvConnClose]).
    { apply (pieces_run d st (S (List.length d)) 0 hs w true); auto.
      - unfold transfer_view. now rewrite P, O, I, W, St.
      - lia.
      - unfold zlen. lia. }
    split; [exact T|].
    rewrite T, conn_bytes_app, conn_bytes_refused. cbn [conn_bytes].
    apply List.app_nil_r.
Qed.

End PlainFile.

Lemma plain_file_is_offered_not_sent_witness :
  let cfg := {| HTTP_SUPPORT_POST := true;
                HTTP_USE_METHOD_NOTALLOWED_RESP := true;
                HTTP_MAX_URI_LEN := 256; HTTP_MAX_PARAMS := 16;
                HTTP_SSI_TAG_START := b "<!--#"; HTTP_SSI_TAG_END := b "-->";
                HTTP_SSI_TAG_MAX_LEN := 10;
                ESP_CFG_CONN_MAX_DATA_LEN := 4 |} in
  let env := env_with (fun _ => None) 1000 in
  let hs := set_process_resp true
              (set_resp_file_opened true
                 (set_resp_file {| data := b "0123456789"; is_static := false;
                                   fptr := 0 |} (hs_zero cfg))) in
  let first := send_response cfg env None (hs, world_zero) true in
  trace (snd (run_events cfg env None
                [ESP_CB_CONN_POLL; ESP_CB_CONN_POLL; ESP_CB_CONN_POLL]
                (Some (fst first), snd first)))
  = [ EvConnSend (b "0123") Esp.espPARAMERR;
      EvConnSend (b "4567") Esp.espPARAMERR;
      EvConnSend (b "89") Esp.espPARAMERR; EvConnClose ].
Proof.
  intros cfg env hs first.
  exact (proj1 (proj2 (proj2
           (plain_file_is_offered_not_sent cfg env None
              (fun _ => eq_refl) eq_refl
              hs world_zero (b "0123456789") false
              eq_refl eq_refl eq_refl eq_refl eq_refl eq_refl eq_refl)))).
Defined.

(** ** A connection without state *)

(** X11.  When the state of a connection cannot be allocated, the
    connection never gets one: whatever events follow, the server only
    asks for the connection to be closed (at every event but CLOSED and
    the ones it does not know), announces received packets to the stack,
    and neither sends data nor calls a callback of the user. *)
Theorem connection_without_state_only_closes
    (cfg : http_cfg) (env : http_env) (hi : option http_init_t)
    (evs : list esp_cb_t) (w : world) :
  state_alloc env = false ->
  fst (run_events cfg env hi evs (None, w)) = None
  /\ trace (snd (run_events cfg env hi evs (None, w)))
     = trace w ++ flat_map stateless_answer evs.
Proof.
  intros A. revert w. induction evs as [|e evs IH]; intros w.
  - cbn. now rewrite List.app_nil_r.
  - unfold run_events in *. cbn [fold_left flat_map].
    assert (E : http_evt_cb cfg env hi e (None, w)
                = (None, set_trace (trace w ++ stateless_answer e) w)).
    { unfold http_evt_cb. destruct e; rewrite ?A; cbn;
        unfold esp_conn_close, emit, set_trace; cbn;
        rewrite <- ?List.app_assoc, ?List.app_nil_r; try reflexivity.
      all: now destruct w. }
    rewrite E. destruct (IH (set_trace (trace w ++ stateless_answer e) w))
      as (I1 & I2).
    split; [exact I1|]. rewrite I2. cbn [trace set_trace].
    now rewrite <- List.app_assoc.
Qed.

Lemma connection_without_state_only_closes_witness :
  trace (snd (run_events cfg_default
                {| fs := fun _ => None; mem_alloc := fun _ => true;
                   state_alloc := false; conn_credit := fun _ => 1000;
                   ch_indet := NUL |}
                hi_all
                [ESP_CB_CONN_ACTIVE;
                 ESP_CB_CONN_DATA_RECV [b "GET / HTTP/1.1" ++ CRLF ++ CRLF];
                 ESP_CB_CONN_POLL; ESP_CB_CONN_CLOSED]
                (None, world_zero)))
  = [EvConnClose; EvConnRecved; EvConnClose; EvConnClose].
Proof.
  exact (proj2 (connection_without_state_only_closes cfg_default
                  {| fs := fun _ => None; mem_alloc := fun _ => true;
                     state_alloc := false; conn_credit := fun _ => 1000;
                     ch_indet := NUL |}
                  hi_all _ world_zero eq_refl)).
Defined.

(** ** A GET request from the first event to the last *)

Lemma starts_with_prefix a c :
  forall l, starts_with (a ++ c) l = true -> starts_with a l = true.
Proof.
  induction a as [|x a IH]; intros l H; [reflexivity|].
  destruct l as [|y l]; [discriminate|]. cbn in *.
  apply andb_true_iff in H as [H1 H2]. rewrite H1. now apply IH.
Qed.

Lemma find_prefix_needle a c l :
  forall i q, find_from (a ++ c) l i = Some q ->
              exists q', find_from a l i = Some q'.
Proof.
  induction l as [|x l IH]; intros i q H; [discriminate|].
  cbn [find_from] in *.
  destruct (starts_with a (x :: l)) eqn:Sa; [now eexists|].
  destruct (starts_with (a ++ c) (x :: l)) eqn:Sc.
  - apply starts_with_prefix in Sc. congruence.
  - now apply IH in H.
Qed.

Lemma lacks_forall c s :
  lacks c s = true -> Forall (fun x => x <> c) (b s).
Proof.
  induction s as [|x s IH]; cbn; [constructor|]. intros H.
  apply andb_true_iff in H as [N L]. apply Bool.negb_true_iff in N.
  apply Ascii.eqb_neq in N. constructor; [exact N|now apply IH].
Qed.

Lemma cstr_b s : c_string s -> cstr (b s ++ [NUL]) = s.
Proof.
  unfold c_string, b. induction s as [|x s IH]; intros H;
    cbn [list_ascii_of_string List.app cstr].
  - reflexivity.
  - cbn [list_ascii_of_string] in H.
    inversion H as [|? ? Hx Hs]; subst. apply Ascii.eqb_neq in Hx.
    rewrite Hx. now rewrite IH.
Qed.

Section GetRequest.

Variable cfg : http_cfg.
Variable env : http_env.
Variable hi : option http_init_t.

Hypothesis state_ok : state_alloc env = true.
Hypothesis alloc_ok : forall n, mem_alloc env n = true.
Hypothesis max_pos : 0 < ESP_CFG_CONN_MAX_DATA_LEN cfg.
Hypothesis no_cgi : cgi_of hi = [].

(** The headers of a GET request for a file that is there and is not
    sent with SSI. *)
Lemma headers_done_get hs c pos w u rest d st :
  linearise c = b "GET " ++ b u ++ " "%char :: rest ->
  esp_pbuf_strfind c (CRLF ++ CRLF) 0 = Some pos ->
  zlen (linearise c) < SIZE_MOD ->
  lacks " " u = true ->
  c_string u ->
  zlen (b u) <= HTTP_MAX_URI_LEN cfg ->
  is_index_uri u = false ->
  lacks "?" u = true ->
  fs env u = Some (d, st) ->
  suffix_loop http_ssi_suffixes u = false ->
  resp_file_opened hs = false ->
  written_total hs = 0 ->
  sent_total hs = 0 ->
  let r := headers_done cfg env hi hs c pos w in
  transfer_view (fst r) = (true, true, false, HTTP_METHOD_GET, 0, 0)
  /\ resp_file (fst r) = {| data := d; is_static := st; fptr := 0 |}
  /\ trace (snd r) = trace w.
Proof.
  intros Sh F M Ls Cu Lu I Lq Fs Sx O W St r. subst r.
  rewrite strfind_lin in F.
  change (CRLF ++ CRLF) with (CRLF ++ CRLF)%list in F.
  destruct (find_prefix_needle CRLF CRLF _ _ _ F) as (pc & Pc).
  assert (P : http_parse_uri cfg c w
              = (Esp.espOK, set_http_uri (b u ++ [NUL]) w)).
  { apply (parse_uri_shapes cfg c w (b "GET") (b u) rest pc).
    - left; reflexivity.
    - repeat constructor; discriminate.
    - now apply lacks_forall.
    - exact Pc.
    - exact Lu.
    - exact M.
    - left. rewrite Sh. reflexivity. }
  unfold headers_done. cbv zeta. rewrite P.
  rewrite !strcmp_lin, Sh.
  change (starts_with (b "POST ") (b "GET " ++ b u ++ " "%char :: rest))
    with false.
  change (starts_with (b "GET ") (b "GET " ++ b u ++ " "%char :: rest))
    with true.
  cbn [Z.eqb]. rewrite Bool.andb_false_r. cbn [Esp.espr_eqb andb].
  wfields. cbn [method_eqb negb]. rewrite (cstr_b u Cu).
  set (hs1 := set_process_resp true _).
  set (w1 := set_http_uri _ w).
  destruct (get_file_plain cfg env hi hs1 u w1 I) as (Fr & T & _ & _ & R).
  { unfold hs1. fields. exact O. }
  destruct (no_query cfg hi u Lq no_cgi) as (Q1 & Q2).
  rewrite Q1 in R. cbn [fst snd] in R. rewrite Q2 in R.
  assert (K : known env u = true) by (unfold known; now rewrite Fs).
  rewrite K in R. destruct R as (R1 & R2 & R3).
  unfold frame_view in Fr.
  injection Fr as _ _ _ Fm _ _ Fp _ _ _ _ Fw Fs' _ _ _ _ _.
  split; [|split].
  - unfold transfer_view. rewrite Fp, R1, R3, Sx, Fm, Fw, Fs'.
    unfold hs1. fields. now rewrite W, St.
  - rewrite R2. unfold opened_file. now rewrite Fs.
  - rewrite T. reflexivity.
Qed.

(** X12.  A connection becomes active and one packet brings a request
    [GET uri ...] with its empty line, for a URI (no query, not the index
    page, no SSI suffix) that the file provider knows; no CGI handlers are
    set and allocations succeed.  Then the server offers the first piece
    of that file to [esp_conn_send] and tells the stack that the packet was
    taken; at each poll it offers the next piece, and the poll after the
    last piece closes the connection.  Every piece is given back by
    [esp_conn_send], for the call hands NULL for [bw]: the pieces put
    together are the file, and not one byte of it goes to the
    connection. *)
Theorem get_file_is_offered_not_sent (pk : esp_pbuf_p) (pos : Z) (w0 : world)
    (u : string) (rest d : bytes) (st : bool) :
  linearise pk = b "GET " ++ b u ++ " "%char :: rest ->
  esp_pbuf_strfind pk (CRLF ++ CRLF) 0 = Some pos ->
  zlen (linearise pk) < SIZE_MOD ->
  lacks " " u = true ->
  c_string u ->
  zlen (b u) <= HTTP_MAX_URI_LEN cfg ->
  is_index_uri u = false ->
  lacks "?" u = true ->
  fs env u = Some (d, st) ->
  suffix_loop http_ssi_suffixes u = false ->
  zlen d < SIZE_MOD ->
  let size := if st then zlen d else ESP_CFG_CONN_MAX_DATA_LEN cfg in
  let ps := file_pieces (S (List.length d)) size d 0 in
  let last := run_events cfg env hi
                (ESP_CB_CONN_ACTIVE :: ESP_CB_CONN_DATA_RECV pk
                 :: map (fun _ => ESP_CB_CONN_POLL) ps)
                (None, w0) in
  List.concat ps = d
  /\ trace (snd last)
     = trace w0
       ++ match ps with
          | [] => [EvConnClose; EvConnRecved]
          | c :: more =>
              EvConnSend c Esp.espPARAMERR :: EvConnRecved
              :: map (fun c => EvConnSend c Esp.espPARAMERR) more
              ++ [EvConnClose]
          end
  /\ conn_bytes (trace (snd last)) = conn_bytes (trace w0).
Proof.
  intros Sh F M Ls Cu Lu I Lq Fs Sx Md size ps last.
  pose proof (zlen_nonneg d) as D0.
  destruct (pieces_concat d size (S (List.length d)) 0) as (C & _);
    [lia|unfold size; destruct st; lia|unfold zlen; lia|].
  split; [exact C|].
  assert (T : trace (snd last)
              = trace w0
                ++ match ps with
                   | [] => [EvConnClose; EvConnRecved]
                   | c :: more =>
                       EvConnSend c Esp.espPARAMERR :: EvConnRecved
                       :: map (fun c => EvConnSend c Esp.espPARAMERR) more
                       ++ [EvConnClose]
                   end).
  { subst last.
    unfold run_events. cbn [fold_left].
    rewrite (active_starts cfg env hi None w0 state_ok).
    assert (F1 : esp_pbuf_strfind (List.concat ([] ++ [pk])) (CRLF ++ CRLF) 0
                 = Some pos).
    { cbn [List.app List.concat]. now rewrite List.app_nil_r. }
    rewrite (recv_complete cfg env hi [] pk w0 pos F1).
    cbn [List.app List.concat]. rewrite List.app_nil_r.
    destruct (headers_done_get (waiting cfg [pk]) pk pos w0 u rest d st
                Sh F M Ls Cu Lu I Lq Fs Sx eq_refl eq_refl eq_refl)
      as (V & Rf & T).
    destruct (headers_done cfg env hi (waiting cfg [pk]) pk pos w0)
      as [hs1 w1].
    cbn [fst snd] in V, Rf, T.
    assert (P1 : process_resp hs1 = true)
      by (unfold transfer_view in V; now injection V).
    rewrite P1.
    assert (V' : transfer_view hs1
                 = (true, true, false, req_method hs1, 0, 0)).
    { rewrite V. unfold transfer_view in V. injection V as _ _ _ Q _ _.
      now rewrite Q. }
    pose proof (pump_round cfg env hi alloc_ok max_pos hs1 w1 true
                  d st 0 V' Rf ltac:(lia) Md) as K.
    cbv zeta in K. subst ps. cbn [file_pieces].
    rewrite Z.sub_0_r in *. fold size in K.
    destruct (zlen d =? 0) eqn:Z0.
    - destruct (send_response cfg env hi (hs1, w1) true) as [hs2 w2].
      cbn [fst snd map fold_left] in *. wfields.
      now rewrite K, T, <- List.app_assoc.
    - destruct K as (K1 & K2 & K3). zbool.
      set (n := Z.min (zlen d) size) in *.
      assert (Ln : 0 < n <= zlen d) by (unfold n, size; destruct st; lia).
      destruct (send_response cfg env hi (hs1, w1) true) as [hs2 w2].
      cbn [fst snd] in K1, K2, K3. cbn [map fold_left].
      rewrite (evt_poll cfg env hi).
      pose proof (pieces_run cfg env hi alloc_ok max_pos d st
                    (List.length d) (0 + n) hs2 (emit EvConnRecved w2) false)
        as J.
      cbv zeta in J. unfold run_events in J. fold size in J. rewrite J.
      + wfields. rewrite K1, T, <- !List.app_assoc. reflexivity.
      + rewrite K2. unfold transfer_view in K2.
        injection K2 as _ _ _ Q _ _. now rewrite Q.
      + exact K3.
      + lia.
      + exact Md.
      + unfold zlen in *. lia. }
  split; [exact T|].
  rewrite T, conn_bytes_app. destruct ps as [|c more]; cbn [conn_bytes].
  - apply List.app_nil_r.
  - cbn [Esp.espr_eqb]. rewrite conn_bytes_refused. cbn [conn_bytes].
    apply List.app_nil_r.
Qed.

End GetRequest.

Lemma get_file_is_offered_not_sent_witness :
  trace (snd (run_events cfg_default
                (env_with (fs_only "/a.html" (b "<p>hi</p>") true) 1000) None
                [ESP_CB_CONN_ACTIVE;
                 ESP_CB_CONN_DATA_RECV
                   [b "GET /a.html HTTP/1.1" ++ CRLF ++ CRLF];
                 ESP_CB_CONN_POLL]
                (None, world_zero)))
  = [EvConnSend (b "<p>hi</p>") Esp.espPARAMERR; EvConnRecved; EvConnClose].
Proof.
  refine (proj1 (proj2 (get_file_is_offered_not_sent cfg_default
            (env_with (fs_only "/a.html" (b "<p>hi</p>") true) 1000) None
            eq_refl (fun _ => eq_refl) eq_refl eq_refl
            [b "GET /a.html HTTP/1.1" ++ CRLF ++ CRLF] 20 world_zero
            "/a.html" (b "HTTP/1.1" ++ CRLF ++ CRLF) (b "<p>hi</p>") true
            eq_refl eq_refl eq_refl eq_refl _ _ eq_refl eq_refl eq_refl
            eq_refl eq_refl))).
  - repeat constructor; discriminate.
  - vm_compute; discriminate.
Defined.

(** ** Acknowledgements and refusals *)

Section Acknowledge.

Variable cfg : http_cfg.
Variable env : http_env.
Variable hi : option http_init_t.

Lemma waiting_for_ack hs w ft :
  written_total hs <> 0 ->
  written_total hs <> sent_total hs ->
  send_response cfg env hi (hs, w) ft = (hs, w).
Proof.
  intros W N. unfold send_response.
  apply Z.eqb_neq in W, N. rewrite W, N. cbn [negb andb].
  now rewrite Bool.orb_true_r.
Qed.

(** X13.  While the acknowledgements that come in add up to less than
    what was written, the pump does nothing: every [DATA_SENT] event is
    counted in [sent_total], and nothing is read, sent or closed. *)
Theorem partial_acks_send_nothing (ks : list Z) :
  forall (hs : http_state_t) (w : world),
    0 <= sent_total hs ->
    Forall (fun k => 0 <= k) ks ->
    sent_total hs + fold_right Z.add 0 ks < written_total hs ->
    written_total hs < SIZE_MOD ->
    exists hs',
      run_events cfg env hi (map ESP_CB_CONN_DATA_SENT ks) (Some hs, w)
      = (Some hs', w)
      /\ sent_total hs' = sent_total hs + fold_right Z.add 0 ks
      /\ written_total hs' = written_total hs
      /\ buff hs' = buff hs
      /\ resp_file hs' = resp_file hs.
Proof.
  induction ks as [|k ks IH]; intros hs w S0 F L M.
  - exists hs. cbn. rewrite Z.add_0_r. now repeat split.
  - inversion F as [|? ? Hk Hks]; subst. cbn [fold_right] in L.
    assert (Sum : 0 <= fold_right Z.add 0 ks).
    { clear - Hks. induction Hks; cbn; lia. }
    unfold run_events in *. cbn [map fold_left]. rewrite evt_data_sent.
    rewrite sz_add_small by lia.
    set (hs1 := set_sent_total (sent_total hs + k) hs).
    rewrite (waiting_for_ack hs1 w false)
      by (unfold hs1; fields; lia).
    cbn [fst snd].
    destruct (IH hs1 w) as (hs' & E & A & B & C & D);
      try (unfold hs1; fields; lia); [exact Hks|].
    exists hs'. split; [exact E|]. unfold hs1 in *. fields_in A.
    fields_in B. fields_in C. fields_in D.
    cbn [fold_right]. repeat split; try assumption. lia.
Qed.

(** X14.  The only piece of a static file is refused by
    [esp_conn_send]: [written_total] stays as it is and the piece is not
    offered again; at the next poll the pump finds nothing left to read and
    closes the connection. *)
Theorem refused_static_file_is_dropped (hs : http_state_t) (w : world)
    (d : bytes) :
  process_resp hs = true ->
  resp_file_opened hs = true ->
  is_ssi hs = false ->
  resp_file hs = {| data := d; is_static := true; fptr := 0 |} ->
  written_total hs = 0 ->
  sent_total hs = 0 ->
  0 < zlen d < SIZE_MOD ->
  let first := send_response cfg env hi (hs, w) true in
  written_total (fst first) = 0
  /\ trace (snd first) = trace w ++ [EvConnSend d Esp.espPARAMERR]
  /\ trace (snd (http_evt_cb cfg env hi ESP_CB_CONN_POLL
                   (Some (fst first), snd first)))
     = trace w ++ [EvConnSend d Esp.espPARAMERR; EvConnClose].
Proof.
  intros P O I F W S R first. subst first.
  assert (E1 : send_response cfg env hi (hs, w) true
               = (read_resp_file cfg env hs,
                  emit (EvConnSend d Esp.espPARAMERR) w)).
  { unfold send_response. rewrite P, O, I, W, S. cbn [negb orb andb Z.eqb].
    unfold send_response_no_ssi. rewrite W, S. cbn [Z.eqb].
    rewrite Bool.orb_true_r, (read_static cfg env d hs O F R).
    fields. unfold esp_conn_send. cbv zeta. cbn [Esp.espr_eqb]. fields.
    now rewrite sub_array_whole. }
  rewrite E1. cbn [fst snd].
  rewrite (read_static cfg env d hs O F R). fields.
  split; [exact W|]. split; [reflexivity|].
  rewrite evt_poll.
  set (hs1 := set_buff (Some d) _).
  assert (E2 : send_response cfg env hi
                 (hs1, emit (EvConnSend d Esp.espPARAMERR) w) false
               = (read_resp_file cfg env hs1,
                  emit EvConnClose (emit (EvConnSend d Esp.espPARAMERR) w))).
  { unfold send_response, hs1. fields. rewrite P, O, I, W, S.
    cbn [negb orb andb Z.eqb].
    unfold send_response_no_ssi. fields. rewrite W, S. cbn [Z.eqb].
    rewrite Bool.orb_true_r. fold hs1.
    assert (B : buff (read_resp_file cfg env hs1) = None).
    { unfold read_resp_file, hs1. fields. rewrite O. cbn [negb].
      unfold http_fs_data_read_file_left. cbn [data fptr].
      replace (zlen d - (0 + zlen d)) with 0 by lia.
      reflexivity. }
    rewrite B. fields. rewrite B. reflexivity. }
  rewrite E2. wfields. now rewrite <- List.app_assoc.
Qed.

(** X15.  A connection whose request method is not allowed keeps its
    state until it is closed, and at every poll and every acknowledgement
    before that the server offers the whole 405 response to
    [esp_conn_send] again and asks again for the connection to be closed.
    Each time the response is given back, for the call hands NULL for
    [bw]: not one byte of it goes to the connection. *)
Theorem not_allowed_answer_is_refused_each_time (evs : list esp_cb_t) :
  forall (hs : http_state_t) (w : world),
    HTTP_USE_METHOD_NOTALLOWED_RESP cfg = true ->
    process_resp hs = true ->
    resp_file_opened hs = false ->
    req_method hs = HTTP_METHOD_NOTALLOWED ->
    written_total hs = 0 ->
    Forall (fun e => e = ESP_CB_CONN_POLL
                     \/ exists k, e = ESP_CB_CONN_DATA_SENT k) evs ->
    trace (snd (run_events cfg env hi evs (Some hs, w)))
    = trace w
      ++ flat_map (fun _ => [EvConnSend (http_data_method_not_allowed cfg)
                               Esp.espPARAMERR; EvConnClose]) evs
    /\ conn_bytes (trace (snd (run_events cfg env hi evs (Some hs, w))))
       = conn_bytes (trace w).
Proof.
  induction evs as [|e evs IH]; intros hs w N P O M W F.
  - cbn. rewrite List.app_nil_r. split; reflexivity.
  - inversion F as [|? ? He Hevs]; subst.
    assert (R : forall hs0,
               transfer_view hs0
               = (true, false, is_ssi hs0, HTTP_METHOD_NOTALLOWED, 0,
                  sent_total hs0) ->
               send_response cfg env hi (hs0, w) false
               = (hs0, emit EvConnClose
                         (emit (EvConnSend (http_data_method_not_allowed cfg)
                                  Esp.espPARAMERR) w))).
    { intros hs0 V. unfold transfer_view in V. injection V as P0 O0 M0 W0.
      unfold send_response. rewrite P0, O0, M0, W0, N.
      cbn [negb orb andb Z.eqb method_eqb]. reflexivity. }
    unfold run_events in *. cbn [fold_left flat_map].
    assert (E : exists hs1,
               http_evt_cb cfg env hi e (Some hs, w)
               = (Some hs1,
                  emit EvConnClose
                    (emit (EvConnSend (http_data_method_not_allowed cfg)
                             Esp.espPARAMERR) w))
               /\ transfer_view hs1
                  = (true, false, is_ssi hs1, HTTP_METHOD_NOTALLOWED, 0,
                     sent_total hs1)).
    { destruct He as [->|(k & ->)].
      - rewrite evt_poll, (R hs).
        + exists hs. split; [reflexivity|].
          unfold transfer_view. now rewrite P, O, M, W.
        + unfold transfer_view. now rewrite P, O, M, W.
      - rewrite evt_data_sent.
        rewrite (R (set_sent_total (sz_add (sent_total hs) k) hs)).
        + eexists. split; [reflexivity|].
          unfold transfer_view. fields. now rewrite P, O, M, W.
        + unfold transfer_view. fields. now rewrite P, O, M, W. }
    destruct E as (hs1 & E & V). rewrite E.
    unfold transfer_view in V. injection V as P1 O1 M1 W1.
    destruct (IH hs1 (emit EvConnClose
                        (emit (EvConnSend (http_data_method_not_allowed cfg)
                                 Esp.espPARAMERR) w))
                N P1 O1 M1 W1 Hevs) as (I1 & I2).
    split.
    + rewrite I1. wfields. rewrite <- !List.app_assoc. reflexivity.
    + rewrite I2. wfields. rewrite !conn_bytes_app. cbn [conn_bytes].
      cbn [Esp.espr_eqb]. now rewrite !List.app_nil_r.
Qed.

End Acknowledge.

Lemma partial_acks_send_nothing_witness :
  let hs := set_written_total 100 (set_process_resp true (hs_zero cfg_default)) in
  exists hs',
    run_events cfg_default (env_with (fun _ => None) 1000) None
      [ESP_CB_CONN_DATA_SENT 30; ESP_CB_CONN_DATA_SENT 40] (Some hs, world_zero)
    = (Some hs', world_zero)
    /\ sent_total hs' = 70.
Proof.
  intros hs.
  destruct (partial_acks_send_nothing cfg_default
              (env_with (fun _ => None) 1000) None [30; 40] hs world_zero)
    as (hs' & E & S & _).
  - cbn. lia.
  - repeat constructor; lia.
  - cbn. lia.
  - reflexivity.
  - exists hs'. split; [exact E|exact S].
Defined.

Lemma refused_static_file_is_dropped_witness :
  let env := env_with (fun _ => None) 1000 in
  let hs := set_process_resp true
              (set_resp_file_opened true
                 (set_resp_file {| data := b "page"; is_static := true;
                                   fptr := 0 |} (hs_zero cfg_default))) in
  let first := send_response cfg_default env None (hs, world_zero) true in
  trace (snd (http_evt_cb cfg_default env None ESP_CB_CONN_POLL
                (Some (fst first), snd first)))
  = [EvConnSend (b "page") Esp.espPARAMERR; EvConnClose].
Proof.
  intros env hs first.
  refine (proj2 (proj2 (refused_static_file_is_dropped cfg_default env None
            hs world_zero (b "page")
            eq_refl eq_refl eq_refl eq_refl eq_refl eq_refl _))).
  split; reflexivity.
Defined.

Lemma not_allowed_answer_is_refused_each_time_witness :
  let hs := set_req_method HTTP_METHOD_NOTALLOWED
              (set_process_resp true (hs_zero cfg_default)) in
  conn_bytes (trace (snd (run_events cfg_default
                            (env_with (fun _ => None) 1000) None
                            [ESP_CB_CONN_POLL; ESP_CB_CONN_DATA_SENT 69]
                            (Some hs, world_zero))))
  = [].
Proof.
  intros hs.
  refine (proj2 (not_allowed_answer_is_refused_each_time cfg_default
            (env_with (fun _ => None) 1000) None
            [ESP_CB_CONN_POLL; ESP_CB_CONN_DATA_SENT 69] hs world_zero
            eq_refl eq_refl eq_refl eq_refl eq_refl _)).
  constructor; [now left|].
  constructor; [right; now exists 69|constructor].
Defined.

(** ** Credit that comes back after a partial flush *)

(** X25.  A pass of the loop of [send_response_ssi] in which the switch
    turns the byte down while the tag buffer holds more than the credit
    [c0], on a connection that reports credit again after the write: the
    first [c0] bytes of the tag buffer are written and right after them
    the byte looked at, and the read position moves on.  The rest of the
    tag buffer has not been written: [ssi_tag_buff_ptr] and the buffer are
    as they were and [ssi_tag_buff_written] is [c0], while the scanner is
    at rest for the bytes that follow.  So the byte is on the connection
    before bytes that stand before it in the file. *)
Theorem byte_overtakes_rest_of_tag_buffer
    (cfg : http_cfg) (env : http_env) (hi : option http_init_t)
    (ch : ascii) (hm : http_state_t) (wm : world) :
  snd (ssi_switch cfg env hi ch (hm, wm)) = true ->
  0 < conn_mem_available hm < ssi_tag_buff_ptr hm ->
  sz (conn_credit env (trace wm)) <> 0 ->
  let c0 := conn_mem_available hm in
  let after := ssi_byte cfg env hi ch (hm, wm) in
  (exists c2,
      trace (snd after)
      = trace wm
        ++ [ EvConnWrite false (sub_array (ssi_tag_buff hm) 0 c0) false
               (sz (conn_credit env (trace wm)));
             EvConnWrite false [ch] false c2 ])
  /\ buff_ptr (fst after) = sz_add (buff_ptr hm) 1
  /\ ssi_state (fst after) = HTTP_SSI_STATE_WAIT_BEGIN
  /\ ssi_tag_buff_ptr (fst after) = ssi_tag_buff_ptr hm
  /\ ssi_tag_buff (fst after) = ssi_tag_buff hm
  /\ ssi_tag_buff_written (fst after) = c0.
Proof.
  intros T C N c0 after. subst after. unfold ssi_byte.
  rewrite (switch_turns_down cfg env hi ch hm wm T).
  rewrite (ssi_reset_partial env ch hm wm) by lia.
  cbv zeta. apply Z.eqb_neq in N. rewrite N. fields.
  split; [|repeat split].
  eexists. rewrite <- List.app_assoc. reflexivity.
Qed.

Lemma byte_overtakes_rest_of_tag_buffer_witness :
  let env := env_credits (fs_only "/t.shtml" (b "<!-x") true) [2; 5] 5 in
  let hm := set_buff (Some (b "<!-x"))
              (set_buff_len 4
                 (set_buff_ptr 3
                    (set_ssi_state HTTP_SSI_STATE_BEGIN
                       (set_ssi_tag_buff_ptr 3
                          (set_ssi_tag_buff
                             (b "<!-"
                              ++ repeat NUL (ssi_tag_buff_size cfg_default - 3))
                             (set_conn_mem_available 2
                                (hs_zero cfg_default))))))) in
  let wm := emit (EvConnWrite false [] false 2) world_zero in
  (exists c2,
      trace (snd (ssi_byte cfg_default env hi_all "x" (hm, wm)))
      = [ EvConnWrite false [] false 2;
          EvConnWrite false (b "<!") false 5;
          EvConnWrite false (b "x") false c2 ])
  /\ conn_bytes
       (trace (snd (run_events cfg_default env hi_all
                      [ESP_CB_CONN_ACTIVE;
                       ESP_CB_CONN_DATA_RECV
                         [b "GET /t.shtml HTTP/1.0" ++ CRLF ++ CRLF];
                       ESP_CB_CONN_DATA_SENT 3]
                      (None, world_zero))))
     = b "<!x-".
Proof.
  intros env hm wm.
  split; [|vm_compute; reflexivity].
  destruct (byte_overtakes_rest_of_tag_buffer cfg_default env hi_all "x"
              hm wm)
    as ((c2 & R) & _);
    [ reflexivity | split; reflexivity | vm_compute; discriminate | ].
  exists c2. exact R.
Defined.

(** ** A tag still open where the file ends *)

Lemma read_nothing_left (cfg : http_cfg) (env : http_env)
    (hs : http_state_t) (file : bytes) (st : bool) :
  resp_file_opened hs = true ->
  resp_file hs = {| data := file; is_static := st; fptr := zlen file |} ->
  read_resp_file cfg env hs = set_buff None (set_buff_ptr 0 hs).
Proof.
  intros O F. unfold read_resp_file. rewrite O. cbn [negb]. cbv zeta.
  fields. rewrite F. unfold http_fs_data_read_file_left. cbn [data fptr].
  now rewrite Z.sub_diag.
Qed.

Lemma ssi_loop_no_buffer (cfg : http_cfg) (env : http_env)
    (hi : option http_init_t) fuel hs w :
  buff hs = None -> ssi_loop cfg env hi fuel (hs, w) = (hs, w).
Proof. intros B. destruct fuel; [reflexivity|]. cbn [ssi_loop]. now rewrite B. Qed.

(** X26.  The pump is called for a file sent with SSI when the whole file
    has been read and scanned and everything written is acknowledged.
    What the tag buffer still holds of a tag that was open where the file
    ended is written from position [ssi_tag_buff_written] on, which is the
    length of the last flush and not the beginning of this tag; then the
    connection is closed.  When [ssi_tag_buff_written] is not below
    [ssi_tag_buff_ptr] nothing of the tag buffer is written. *)
Theorem open_tag_at_end_of_file
    (cfg : http_cfg) (env : http_env) (hi : option http_init_t)
    (hs : http_state_t) (w : world) (file d : bytes) (st : bool) :
  process_resp hs = true ->
  resp_file_opened hs = true ->
  is_ssi hs = true ->
  written_total hs = sent_total hs ->
  resp_file hs = {| data := file; is_static := st; fptr := zlen file |} ->
  buff hs = Some d ->
  buff_ptr hs = buff_len hs ->
  0 <= ssi_tag_buff_written hs ->
  ssi_tag_buff_ptr hs < SIZE_MOD ->
  let c := sz (conn_credit env (trace w)) in
  let last := send_response cfg env hi (hs, w) false in
  (ssi_tag_buff_ptr hs <= ssi_tag_buff_written hs ->
   exists c2,
     trace (snd last)
     = trace w
       ++ [ EvConnWrite false [] false c; EvConnWrite false [] true c2;
            EvConnClose ])
  /\ (ssi_tag_buff_written hs < ssi_tag_buff_ptr hs ->
      c <> 0 ->
      exists c1 c2,
        trace (snd last)
        = trace w
          ++ [ EvConnWrite false [] false c;
               EvConnWrite false
                 (sub_array (ssi_tag_buff hs) (ssi_tag_buff_written hs)
                    (Z.min (ssi_tag_buff_ptr hs - ssi_tag_buff_written hs) c))
                 false c1;
               EvConnWrite false [] true c2;
               EvConnClose ]).
Proof.
  intros P O I W F B E W0 M c last. subst last.
  pose proof (sz_range (conn_credit env (trace w))) as CR. fold c in CR.
  unfold send_response. rewrite P, O, I, W, Z.eqb_refl.
  cbn [negb orb andb]. rewrite Bool.andb_false_r.
  unfold send_response_ssi. cbv zeta.
  change (esp_conn_write env false [] false (hs, w))
    with (set_conn_mem_available c hs, emit (EvConnWrite false [] false c) w).
  split.
  - intros L. unfold ssi_resume. fields.
    assert (Q : (ssi_tag_buff_written hs <? ssi_tag_buff_ptr hs) = false)
      by (apply Z.ltb_ge; lia).
    rewrite Q. fields. rewrite B, E, Z.eqb_refl. cbn [orb].
    rewrite (read_nothing_left cfg env _ file st) by (fields; assumption).
    rewrite ssi_loop_no_buffer by reflexivity.
    unfold esp_conn_write, esp_conn_close. fields.
    eexists. rewrite <- !List.app_assoc. reflexivity.
  - intros L C0.
    rewrite ssi_resume_flush by (fields; lia).
    cbv zeta. fields.
    match goal with
    | |- context [if ?x then set_ssi_tag_buff_ptr 0 ?a else ?a] =>
        destruct x
    end; fields; rewrite B, E, Z.eqb_refl; cbn [orb];
      rewrite (read_nothing_left cfg env _ file st) by (fields; assumption);
      rewrite ssi_loop_no_buffer by reflexivity;
      unfold esp_conn_write, esp_conn_close; fields;
      eexists _, _; rewrite <- !List.app_assoc; reflexivity.
Qed.

Lemma open_tag_at_end_of_file_witness :
  let env := env_with (fs_only "/t.shtml" (b "<!-x<") true) 1000 in
  let hs := set_process_resp true
              (set_resp_file_opened true
                 (set_is_ssi true
                    (set_resp_file {| data := b "<!-x<"; is_static := true;
                                      fptr := 5 |}
                       (set_buff (Some (b "<!-x<"))
                          (set_buff_len 5
                             (set_buff_ptr 5
                                (set_ssi_state HTTP_SSI_STATE_BEGIN
                                   (set_ssi_tag_buff_ptr 1
                                      (set_ssi_tag_buff_written 3
                                         (hs_zero cfg_default)))))))))) in
  (exists c2,
      trace (snd (send_response cfg_default env hi_all (hs, world_zero) false))
      = [ EvConnWrite false [] false 1000; EvConnWrite false [] true c2;
          EvConnClose ])
  /\ conn_bytes
       (trace (snd (run_events cfg_default env hi_all
                      [ESP_CB_CONN_ACTIVE;
                       ESP_CB_CONN_DATA_RECV
                         [b "GET /t.shtml HTTP/1.0" ++ CRLF ++ CRLF];
                       ESP_CB_CONN_DATA_SENT 4]
                      (None, world_zero))))
     = b "<!-x".
Proof.
  intros env hs.
  split; [|vm_compute; reflexivity].
  destruct (proj1 (open_tag_at_end_of_file cfg_default env hi_all hs
                     world_zero (b "<!-x<") (b "<!-x<") true
                     eq_refl eq_refl eq_refl eq_refl eq_refl eq_refl eq_refl
                     ltac:(vm_compute; discriminate) eq_refl))
    as (c2 & R); [vm_compute; discriminate|].
  exists c2. exact R.
Defined.

(** ** The tag scanner stays within the tag buffer *)

Lemma sz_sub_below x y m :
  0 <= x < SIZE_MOD -> 0 <= y -> 0 <= m -> y + m < SIZE_MOD ->
  sz_sub x y < m -> y <= x /\ sz_sub x y = x - y.
Proof.
  intros X Y Mn F H. unfold sz_sub, sz in *.
  destruct (Z_lt_le_dec x y) as [L|L].
  - exfalso.
    replace (x - y) with (x - y + SIZE_MOD + (-1) * SIZE_MOD) in H by lia.
    rewrite Z.mod_add in H by (unfold SIZE_MOD; lia).
    rewrite Z.mod_small in H by lia. lia.
  - split; [exact L|]. apply Z.mod_small. lia.
Qed.

Section TagBounds.

Variable cfg : http_cfg.
Variable env : http_env.
Variable hi : option http_init_t.

Hypothesis start_one : 1 <= HTTP_SSI_TAG_START_LEN cfg.
Hypothesis end_one : 1 <= HTTP_SSI_TAG_END_LEN cfg.
Hypothesis max_nonneg : 0 <= HTTP_SSI_TAG_MAX_LEN cfg.
Hypothesis fits :
  HTTP_SSI_TAG_START_LEN cfg + HTTP_SSI_TAG_MAX_LEN cfg
  + HTTP_SSI_TAG_END_LEN cfg + 1 < SIZE_MOD.

Lemma ssi_ok_view hs hs' :
  ssi_view hs' = ssi_view hs -> ssi_ok cfg hs -> ssi_ok cfg hs'.
Proof.
  unfold ssi_view, ssi_ok. intros V. injection V as S P L.
  now rewrite S, P, L.
Qed.

Lemma ssi_view_user_writes f tag hs w :
  ssi_view (fst (run_ssi_fn env f tag (hs, w))) = ssi_view hs.
Proof.
  unfold run_ssi_fn.
  generalize (emit (EvSsi tag (zlen tag)) w) as w1.
  generalize (f tag) as l. intros l. revert hs.
  induction l as [|d l IH]; intros hs w1; cbn [fold_left]; [reflexivity|].
  unfold esp_http_server_write at 2, esp_conn_write. rewrite IH. reflexivity.
Qed.

Lemma ssi_ok_switch ch hs w :
  ssi_ok cfg hs -> ssi_ok cfg (fst (fst (ssi_switch cfg env hi ch (hs, w)))).
Proof.
  intros K. pose proof K as (Pb & Lb & St). cbv zeta in *.
  unfold ssi_switch. destruct (ssi_state hs) eqn:E; cbv beta iota in St.
  - destruct (Ascii.eqb _ _); [|exact K].
    unfold ssi_ok. fields. lia.
  - destruct (_ && _) eqn:G; [|exact K].
    apply andb_true_iff in G as [G _]. zbool. unfold tag_push. fields.
    rewrite (sz_add_small (ssi_tag_buff_ptr hs) 1) by lia.
    destruct (_ =? _) eqn:G2; zbool; unfold ssi_ok; fields;
      rewrite ?E; cbv beta iota; lia.
  - destruct (Ascii.eqb _ _).
    + unfold tag_push, ssi_ok. fields.
      rewrite (sz_add_small (ssi_tag_buff_ptr hs) 1) by lia. lia.
    + destruct (_ <? _) eqn:G; [|exact K]. zbool.
      destruct (sz_sub_below (ssi_tag_buff_ptr hs) (HTTP_SSI_TAG_START_LEN cfg)
                  (HTTP_SSI_TAG_MAX_LEN cfg) ltac:(lia) ltac:(lia) max_nonneg
                  ltac:(lia) G) as (G1 & G2).
      rewrite G2 in G. unfold tag_push, ssi_ok. fields.
      rewrite (sz_add_small (ssi_tag_buff_ptr hs) 1) by lia.
      rewrite (sz_add_small (ssi_tag_len hs) 1) by lia.
      rewrite E. cbv beta iota. lia.
  - destruct (_ && _) eqn:G; [|exact K].
    apply andb_true_iff in G as [G _]. zbool.
    assert (In1 : 0 <= sz_sub (ssi_tag_buff_ptr hs) (HTTP_SSI_TAG_START_LEN cfg)
                  < SIZE_MOD) by apply sz_range.
    destruct (sz_sub_below
                (sz_sub (ssi_tag_buff_ptr hs) (HTTP_SSI_TAG_START_LEN cfg))
                (ssi_tag_len hs) (HTTP_SSI_TAG_END_LEN cfg)
                In1 ltac:(lia) ltac:(lia) ltac:(lia) G)
      as (G1 & G2).
    rewrite G2 in G.
    assert (A : HTTP_SSI_TAG_START_LEN cfg <= ssi_tag_buff_ptr hs
                /\ sz_sub (ssi_tag_buff_ptr hs) (HTTP_SSI_TAG_START_LEN cfg)
                   = ssi_tag_buff_ptr hs - HTTP_SSI_TAG_START_LEN cfg).
    { apply (sz_sub_below _ _ (ssi_tag_len hs + HTTP_SSI_TAG_END_LEN cfg));
        lia. }
    destruct A as (A1 & A2). rewrite A2 in *.
    unfold tag_push. fields.
    rewrite (sz_add_small (ssi_tag_buff_ptr hs) 1) by lia.
    destruct (_ =? _) eqn:G3.
    + destruct hi as [h|]; [destruct (ssi_fn h) as [f|]|].
      * match goal with
        | |- context [run_ssi_fn env f ?t (?hs0, w)] =>
            destruct (run_ssi_fn env f t (hs0, w)) as [hs1 w1]
        end.
        unfold ssi_ok. fields. lia.
      * unfold ssi_ok. fields. lia.
      * unfold ssi_ok. fields. lia.
    + unfold ssi_ok. fields. rewrite E. cbv beta iota. lia.
Qed.

Ltac split_ifs :=
  repeat (match goal with
          | |- context [if ?c then _ else _] => destruct c eqn:?
          end; cbv beta iota zeta; fields).

Lemma ssi_ok_reset ch hs w :
  ssi_ok cfg hs -> ssi_ok cfg (fst (ssi_reset env ch (hs, w))).
Proof.
  intros (Pb & Lb & _). unfold ssi_reset, esp_conn_write. cbv beta iota zeta.
  split_ifs; unfold ssi_ok; fields; lia.
Qed.

Lemma ssi_ok_byte ch hs w :
  ssi_ok cfg hs -> ssi_ok cfg (fst (ssi_byte cfg env hi ch (hs, w))).
Proof.
  intros K. unfold ssi_byte. pose proof (ssi_ok_switch ch hs w K) as K1.
  destruct (ssi_switch cfg env hi ch (hs, w)) as [[hs1 w1] r].
  cbn [fst] in K1. destruct r; [now apply ssi_ok_reset|exact K1].
Qed.

Lemma ssi_ok_loop fuel s :
  ssi_ok cfg (fst s) -> ssi_ok cfg (fst (ssi_loop cfg env hi fuel s)).
Proof.
  revert s. induction fuel as [|fuel IH]; intros [hs w] K; [exact K|].
  cbn [ssi_loop]. destruct (buff hs); [|exact K].
  destruct (_ && _); [|exact K].
  apply IH. now apply ssi_ok_byte.
Qed.

Lemma ssi_ok_resume hs w :
  ssi_ok cfg hs -> ssi_ok cfg (fst (ssi_resume env (hs, w))).
Proof.
  intros K. pose proof K as (Pb & Lb & St).
  unfold ssi_resume, esp_conn_write. cbv beta iota zeta.
  destruct (_ <? _); [|exact K]. destruct (negb _); [|exact K]. fields.
  destruct (_ =? _); [|exact K].
  unfold ssi_ok. fields. destruct (ssi_state hs); lia.
Qed.

Lemma ssi_view_read_into_buffer hs :
  ssi_view (read_into_buffer hs) = ssi_view hs.
Proof.
  unfold read_into_buffer.
  destruct (http_fs_data_read_file _ _) as [[n d] f].
  destruct (n =? 0); reflexivity.
Qed.

Lemma ssi_view_alloc_loop l hs :
  ssi_view (alloc_loop env l hs) = ssi_view hs.
Proof.
  revert hs. induction l as [x IH|x IH|]; intros hs; cbn [alloc_loop];
    (destruct (mem_alloc env _);
     [now rewrite ssi_view_read_into_buffer|]);
    try (destruct (_ >? _); [now rewrite IH|]); reflexivity.
Qed.

Lemma ssi_view_read_resp_file hs :
  ssi_view (read_resp_file cfg env hs) = ssi_view hs.
Proof.
  unfold read_resp_file. destruct (negb _); [reflexivity|].
  cbv zeta. destruct (_ =? 0); [reflexivity|].
  destruct (is_static _).
  - destruct (http_fs_data_read_file _ _) as [[n d] f].
    destruct (n =? 0); reflexivity.
  - match goal with |- context [match ?x with Z.pos _ => _ | _ => _ end] =>
      destruct x end.
    + destruct (mem_alloc env _);
        [now rewrite ssi_view_read_into_buffer|reflexivity].
    + now rewrite ssi_view_alloc_loop.
    + destruct (mem_alloc env _);
        [now rewrite ssi_view_read_into_buffer|reflexivity].
Qed.

Lemma ssi_ok_send_response_ssi hs w :
  ssi_ok cfg hs -> ssi_ok cfg (fst (send_response_ssi cfg env hi (hs, w))).
Proof.
  intros K. unfold send_response_ssi. cbv zeta.
  assert (K1 : ssi_ok cfg
                 (fst (ssi_resume env (esp_conn_write env false [] false (hs, w))))).
  { unfold esp_conn_write at 1. apply ssi_ok_resume.
    revert K. apply ssi_ok_view. reflexivity. }
  destruct (ssi_resume env _) as [hs1 w1]. cbn [fst] in K1.
  match goal with
  | |- context [ssi_loop cfg env hi ?n (?h, w1)] =>
      assert (K2 : ssi_ok cfg h)
        by (destruct (_ || _);
            [revert K1; apply ssi_ok_view, ssi_view_read_resp_file|exact K1]);
      pose proof (ssi_ok_loop n (h, w1) K2) as K3;
      destruct (ssi_loop cfg env hi n (h, w1)) as [hs2 w2]
  end.
  cbn [fst] in K3. unfold esp_conn_write. cbn [fst].
  revert K3. apply ssi_ok_view. reflexivity.
Qed.

Lemma ssi_view_send_response_no_ssi hs w :
  ssi_view (fst (send_response_no_ssi cfg env (hs, w))) = ssi_view hs.
Proof.
  unfold send_response_no_ssi. cbv zeta.
  match goal with
  | |- context [if ?c then read_resp_file cfg env hs else hs] =>
      assert (K : ssi_view (if c then read_resp_file cfg env hs else hs)
                  = ssi_view hs)
        by (destruct c; [apply ssi_view_read_resp_file|reflexivity]);
      destruct (if c then read_resp_file cfg env hs else hs) as [] eqn:E
  end.
  rewrite <- K. clear K E.
  match goal with |- context [match buff ?x with _ => _ end] =>
    destruct (buff x) end; [|reflexivity].
  unfold esp_conn_send. cbv zeta.
  destruct (Esp.espr_eqb _ _); reflexivity.
Qed.

Lemma ssi_ok_send_response hs w ft :
  ssi_ok cfg hs -> ssi_ok cfg (fst (send_response cfg env hi (hs, w) ft)).
Proof.
  intros K. unfold send_response.
  destruct (_ || _); [exact K|].
  destruct (resp_file_opened hs).
  - assert (K1 : ssi_ok cfg
                   (fst (if is_ssi hs then send_response_ssi cfg env hi (hs, w)
                         else send_response_no_ssi cfg env (hs, w)))).
    { destruct (is_ssi hs); [now apply ssi_ok_send_response_ssi|].
      revert K. apply ssi_ok_view, ssi_view_send_response_no_ssi. }
    destruct (if is_ssi hs then _ else _) as [hs1 w1]. cbn [fst] in K1.
    destruct (buff hs1); exact K1.
  - exact K.
Qed.

Lemma ssi_view_headers_done hs c pos w :
  ssi_view (fst (headers_done cfg env hi hs c pos w)) = ssi_view hs.
Proof.
  unfold headers_done. cbv zeta.
  destruct (http_parse_uri cfg c w) as [r w1].
  match goal with
  | |- context [let '(a, c0) := ?x in _] =>
      assert (K : ssi_view (fst x) = ssi_view hs); [|destruct x as [hs1 w2]]
  end.
  { destruct (_ && _).
    - cbv beta iota zeta. fields. destruct (negb _); [|reflexivity].
      destruct (_ >? _); [|reflexivity].
      destruct (http_post_send_to_user hi c _ _) as [c' w3]. fields.
      destruct (_ >=? _); reflexivity.
    - destruct (_ =? _); reflexivity. }
  cbn [fst] in K. rewrite <- K.
  destruct (_ && _); [|reflexivity].
  destruct (get_file_frame cfg env hi hs1 (cstr (http_uri w2)) w2) as (F & _).
  unfold frame_view in F. unfold ssi_view.
  injection F as _ _ _ _ _ _ _ _ _ _ _ _ _ F1 _ F2 F3 _.
  now rewrite F1, F2, F3.
Qed.

Lemma ssi_view_body_data hs pk w :
  ssi_view (fst (body_data cfg hi hs pk w)) = ssi_view hs.
Proof.
  unfold body_data. destruct (_ && _); [|reflexivity].
  destruct (_ <? _); [|reflexivity]. cbv zeta. fields.
  destruct (_ >=? _); reflexivity.
Qed.

Lemma ssi_ok_zero : ssi_ok cfg (hs_zero cfg).
Proof. unfold ssi_ok, hs_zero. fields. lia. Qed.

Lemma arg_ok_evt e arg w :
  arg_ok cfg arg -> arg_ok cfg (fst (http_evt_cb cfg env hi e (arg, w))).
Proof.
  intros K. unfold http_evt_cb. destruct e.
  - destruct (state_alloc env); [exact ssi_ok_zero|exact K].
  - destruct arg as [hs|]; [|exact I].
    match goal with
    | |- context [let '(a, c0) := ?x in let '(a1, c1) := _ in _] =>
        assert (K1 : ssi_ok cfg (fst x)); [|destruct x as [hs1 w1]]
    end.
    { destruct (negb _).
      - cbv zeta. fields. destruct (esp_pbuf_strfind _ _ _).
        + revert K. apply ssi_ok_view.
          rewrite ssi_view_headers_done. reflexivity.
        + exact K.
      - revert K. apply ssi_ok_view, ssi_view_body_data. }
    cbn [fst] in K1.
    assert (K2 : ssi_ok cfg
                   (fst (if process_resp hs1
                         then send_response cfg env hi (hs1, w1) true
                         else (hs1, w1))))
      by (destruct (process_resp hs1);
          [now apply ssi_ok_send_response|exact K1]).
    destruct (if process_resp hs1 then _ else _) as [hs2 w2]. exact K2.
  - destruct arg as [hs|]; [|exact I].
    match goal with
    | |- context [send_response cfg env hi (?h, w) false] =>
        assert (K1 : ssi_ok cfg (fst (send_response cfg env hi (h, w) false)))
          by (apply ssi_ok_send_response; exact K);
        destruct (send_response cfg env hi (h, w) false) as [hs1 w1]
    end.
    exact K1.
  - exact K.
  - destruct arg; exact I.
  - destruct arg as [hs|]; [|exact I].
    pose proof (ssi_ok_send_response hs w false K) as K1.
    destruct (send_response cfg env hi (hs, w) false) as [hs1 w1]. exact K1.
  - exact K.
Qed.

Lemma arg_ok_run evs s :
  arg_ok cfg (fst s) -> arg_ok cfg (fst (run_events cfg env hi evs s)).
Proof.
  unfold run_events. revert s.
  induction evs as [|e evs IH]; intros [arg w] K; [exact K|].
  cbn [fold_left]. apply IH. now apply arg_ok_evt.
Qed.

(** X16.  With markers of at least one byte and sizes that fit [size_t],
    no run of connection events takes the tag scanner out of its buffer:
    in the state a connection has afterwards the write position is at most
    start marker, longest name and end marker together (the buffer has one
    element more) and the length of the name is at most
    [HTTP_SSI_TAG_MAX_LEN]. *)
Theorem tag_scanner_stays_in_buffer (evs : list esp_cb_t) (w : world)
    (hs : http_state_t) :
  fst (run_events cfg env hi evs (None, w)) = Some hs ->
  0 <= ssi_tag_buff_ptr hs
       <= HTTP_SSI_TAG_START_LEN cfg + HTTP_SSI_TAG_MAX_LEN cfg
          + HTTP_SSI_TAG_END_LEN cfg
  /\ 0 <= ssi_tag_len hs <= HTTP_SSI_TAG_MAX_LEN cfg.
Proof.
  intros R. pose proof (arg_ok_run evs (None, w) I) as K.
  rewrite R in K. destruct K as (Pb & Lb & _). now split.
Qed.

End TagBounds.

Lemma tag_scanner_stays_in_buffer_witness :
  exists hs,
    fst (run_events cfg_default
           (env_with (fs_only "/a.shtml" (b "x<!--#t") true) 1000) hi_all
           [ESP_CB_CONN_ACTIVE;
            ESP_CB_CONN_DATA_RECV [b "GET /a.shtml HTTP/1.1" ++ CRLF ++ CRLF]]
           (None, world_zero)) = Some hs
    /\ ssi_tag_buff_ptr hs = 6
    /\ 0 <= ssi_tag_buff_ptr hs
           <= HTTP_SSI_TAG_START_LEN cfg_default
              + HTTP_SSI_TAG_MAX_LEN cfg_default
              + HTTP_SSI_TAG_END_LEN cfg_default.
Proof.
  eexists. split; [vm_compute; reflexivity|]. split; [reflexivity|].
  refine (proj1 (tag_scanner_stays_in_buffer cfg_default
            (env_with (fs_only "/a.shtml" (b "x<!--#t") true) 1000) hi_all
            _ _ _ _
            [ESP_CB_CONN_ACTIVE;
             ESP_CB_CONN_DATA_RECV [b "GET /a.shtml HTTP/1.1" ++ CRLF ++ CRLF]]
            world_zero _ _)); vm_compute; try reflexivity; discriminate.
Defined.

(** ** The content length of a request *)

Lemma digits_wrap ds :
  forall a,
    fold_left (fun a d => sz (10 * a + (code d - 48))) ds (sz a)
    = sz (fold_left (fun a d => 10 * a + (code d - 48)) ds a).
Proof.
  induction ds as [|d ds IH]; intros a; [reflexivity|].
  cbn [fold_left]. rewrite <- IH. f_equal. unfold sz.
  rewrite Z.add_mod, Z.mul_mod_idemp_r, <- Z.add_mod;
    unfold SIZE_MOD; lia.
Qed.

Lemma digits_run ds :
  forall (tail : bytes) x rest acc,
    x :: rest = ds ++ tail ->
    Forall (fun d => is_digit d = true) ds ->
    match tail with [] => True | t :: _ => is_digit t = false end ->
    digits_loop rest x acc
    = fold_left (fun a d => sz (10 * a + (code d - 48))) ds acc.
Proof.
  induction ds as [|d ds IH]; intros tail x rest acc E D T.
  - cbn [List.app] in E. subst tail. cbn [fold_left].
    destruct rest; cbn [digits_loop]; now rewrite T.
  - cbn [List.app] in E. injection E as Ex Er. subst x.
    apply Forall_cons_iff in D as [Dd Dds].
    destruct rest as [|c rest]; cbn [digits_loop fold_left]; rewrite Dd.
    + destruct ds; [reflexivity|discriminate].
    + now apply (IH tail).
Qed.

Lemma get_at_behind (c : esp_pbuf_p) (l1 l2 : bytes) :
  linearise c = l1 ++ l2 ->
  esp_pbuf_get_at c (zlen l1) = nth_error l2 0.
Proof.
  intros E. unfold esp_pbuf_get_at.
  destruct (Z.ltb_spec (zlen l1) 0) as [H|_];
    [pose proof (zlen_nonneg l1); lia|].
  unfold zlen. rewrite Nat2Z.id, E, nth_error_app2 by lia.
  now rewrite Nat.sub_diag.
Qed.

Lemma skipn_behind {A} (l1 : list A) x l2 :
  skipn (S (Z.to_nat (zlen l1))) (l1 ++ x :: l2) = l2.
Proof.
  unfold zlen. rewrite Nat2Z.id.
  change (S (List.length l1)) with (1 + List.length l1)%nat.
  rewrite <- skipn_skipn, skipn_app, skipn_all, Nat.sub_diag.
  reflexivity.
Qed.

Lemma digit_not_space d : is_digit d = true -> Ascii.eqb d " " = false.
Proof.
  unfold is_digit. intros H. apply andb_true_iff in H as [H _].
  apply Z.leb_le in H. destruct (Ascii.eqb_spec d " "); [|reflexivity].
  subst d. vm_compute in H. now contradiction H.
Qed.

(** X24.  The content length of a request is read from the first
    [Content-Length:] (or, when there is none, the first
    [content-length:]; no other spelling is looked for): one space behind
    the colon, if there is one, is skipped, and the decimal digits that
    follow, up to the first byte that is no digit or to the end of the
    data, give the number, taken modulo 2^32.  No digit there gives 0. *)
Theorem content_length_is_decimal_value (env : http_env) (c : esp_pbuf_p)
    (name pre sp ds tail : bytes) :
  name = b "Content-Length:"
  \/ (name = b "content-length:"
      /\ esp_pbuf_strfind c (b "Content-Length:") 0 = None) ->
  esp_pbuf_strfind c name 0 = Some (zlen pre) ->
  linearise c = pre ++ name ++ sp ++ ds ++ tail ->
  zlen (linearise c) < SIZE_MOD ->
  sp = [] \/ sp = [" "%char] ->
  Forall (fun d => is_digit d = true) ds ->
  match tail with [] => True | t :: _ => is_digit t = false end ->
  (sp = [] -> ds = [] -> exists t tl, tail = t :: tl /\ t <> " "%char) ->
  parse_content_length env c = digits_value ds mod SIZE_MOD.
Proof.
  intros N F L B Sp D T G.
  assert (Ln : zlen name = 15) by (destruct N as [N|[N _]]; now subst name).
  assert (Found :
    match esp_pbuf_strfind c (b "Content-Length:") 0 with
    | Some pos => Some pos
    | None => esp_pbuf_strfind c (b "content-length:") 0
    end = Some (zlen pre)).
  { destruct N as [N|[N N0]]; subst name; [now rewrite F|now rewrite N0]. }
  unfold parse_content_length. cbv zeta. rewrite Found.
  assert (P : sz_add (zlen pre) 15 = zlen (pre ++ name)).
  { rewrite zlen_app, Ln. apply sz_add_small.
    rewrite L, !zlen_app, Ln in B.
    pose proof (zlen_nonneg pre). pose proof (zlen_nonneg sp).
    pose proof (zlen_nonneg ds). pose proof (zlen_nonneg tail). lia. }
  rewrite P.
  assert (L2 : linearise c = (pre ++ name) ++ sp ++ ds ++ tail)
    by (now rewrite <- app_assoc).
  assert (V : forall x rest, x :: rest = ds ++ tail ->
                digits_loop rest x 0 = digits_value ds mod SIZE_MOD).
  { intros x rest E. rewrite (digits_run ds tail x rest 0 E D T).
    apply (digits_wrap ds 0). }
  destruct Sp as [Sp|Sp]; subst sp.
  - cbn [List.app] in L2. rewrite (get_at_behind c _ _ L2).
    destruct (ds ++ tail) as [|x rest] eqn:E.
    + exfalso. apply app_eq_nil in E as [E1 E2].
      destruct (G eq_refl E1) as (t & tl & E3 & _). congruence.
    + cbn [nth_error].
      assert (X : Ascii.eqb x " " = false).
      { destruct ds as [|d ds'].
        - destruct (G eq_refl eq_refl) as (t & tl & E3 & E4).
          cbn [List.app] in E. rewrite E3 in E. injection E as E _.
          subst x. now apply Ascii.eqb_neq.
        - cbn [List.app] in E. injection E as E _. subst x.
          inversion D; subst. now apply digit_not_space. }
      rewrite X. rewrite (get_at_behind c _ _ L2). cbn [nth_error].
      rewrite L2, skipn_behind. now apply V.
  - cbn [List.app] in L2. rewrite (get_at_behind c _ _ L2).
    cbn [nth_error]. rewrite Ascii.eqb_refl.
    assert (P1 : sz_add (zlen (pre ++ name)) 1
                 = zlen ((pre ++ name) ++ [" "%char])).
    { rewrite (zlen_app (pre ++ name)). change (zlen [" "%char]) with 1.
      apply sz_add_small. rewrite L2, (zlen_app (pre ++ name)), zlen_cons in B.
      pose proof (zlen_nonneg (pre ++ name)).
      pose proof (zlen_nonneg (ds ++ tail)). lia. }
    rewrite P1.
    assert (L3 : linearise c = ((pre ++ name) ++ [" "%char]) ++ ds ++ tail)
      by (rewrite L2, <- (app_assoc (pre ++ name) [" "%char] (ds ++ tail));
          reflexivity).
    rewrite (get_at_behind c _ _ L3).
    destruct (ds ++ tail) as [|x rest] eqn:E.
    + apply app_eq_nil in E as [E1 E2]. subst ds. cbn [nth_error].
      rewrite L3, app_nil_r.
      unfold zlen. rewrite Nat2Z.id.
      rewrite skipn_all2 by lia. reflexivity.
    + cbn [nth_error]. rewrite L3, skipn_behind. now apply V.
Qed.

Lemma content_length_is_decimal_value_witness :
  parse_content_length (env_with (fun _ => None) 1000)
    [b "POST /f HTTP/1.1" ++ CRLF; b "content-length:4294967299" ++ CRLF]
  = 3.
Proof.
  refine (content_length_is_decimal_value (env_with (fun _ => None) 1000)
            [b "POST /f HTTP/1.1" ++ CRLF; b "content-length:4294967299" ++ CRLF]
            (b "content-length:") (b "POST /f HTTP/1.1" ++ CRLF) []
            (b "4294967299") CRLF _ eq_refl eq_refl eq_refl _ _ _ _).
  - right. split; reflexivity.
  - now left.
  - repeat constructor.
  - reflexivity.
  - discriminate.
Defined.

End HttpExtra.

(** * Properties of the low-level driver *)

Module LlFacts.

Import Ll.

Lemma u16_small x : 0 <= x < U16_MOD -> u16 x = x.
Proof. intros H. unfold u16. now apply Z.mod_small. Qed.

Lemma u16_back x : - U16_MOD <= x < 0 -> u16 x = x + U16_MOD.
Proof.
  intros H. unfold u16.
  replace x with (x + U16_MOD + (-1) * U16_MOD) at 1 by lia.
  rewrite Z.mod_add by (unfold U16_MOD; lia).
  apply Z.mod_small. lia.
Qed.

Lemma u16_forth x : U16_MOD <= x < 2 * U16_MOD -> u16 x = x - U16_MOD.
Proof.
  intros H. unfold u16.
  replace x with (x - U16_MOD + 1 * U16_MOD) at 1 by lia.
  rewrite Z.mod_add by (unfold U16_MOD; lia).
  apply Z.mod_small. lia.
Qed.

Ltac sizes := unfold USART_MEM_SIZE, U16_MOD in *; simpl Z.pow in *.

Lemma position_range i :
  0 <= ndtr_of i <= USART_MEM_SIZE -> 0 <= position i <= USART_MEM_SIZE.
Proof.
  intros H. assert (N : u16 (ndtr_of i) = ndtr_of i)
    by (apply u16_small; sizes; lia).
  destruct i as [idle n|tc ht n]; cbn [ndtr_of position] in *; rewrite N.
  - rewrite u16_small; sizes; lia.
  - destruct (tc && _); rewrite u16_small; sizes; lia.
Qed.

Lemma handle_at b c s :
  0 <= old_pos s <= c -> c <= USART_MEM_SIZE ->
  handle (irq_at (b, c)) s = did (EvInput (old_pos s) (c - old_pos s))
                               (set_old_pos c s).
Proof.
  intros O C. unfold irq_at. cbn [fst snd].
  assert (N : u16 (USART_MEM_SIZE - c) = USART_MEM_SIZE - c)
    by (apply u16_small; sizes; lia).
  assert (P : u16 (USART_MEM_SIZE - (USART_MEM_SIZE - c)) = c)
    by (rewrite u16_small; sizes; lia).
  assert (R : u16 (c - old_pos s) = c - old_pos s)
    by (apply u16_small; sizes; lia).
  destruct b; cbn [handle].
  - unfold ESP_USART_IRQHANDLER. cbv zeta. rewrite N, P, R.
    replace (old_pos s + (c - old_pos s)) with c by lia.
    rewrite (u16_small c) by (sizes; lia). reflexivity.
  - unfold ESP_USART_DMA_RX_STREAM_IRQHANDLER. cbv zeta.
    cbn [andb]. rewrite N, P, R. reflexivity.
Qed.

Lemma handle_complete ht n s :
  0 <= old_pos s <= USART_MEM_SIZE ->
  n = 0 \/ n = USART_MEM_SIZE ->
  handle (DmaIrq true ht n) s
  = did (EvInput (old_pos s) (USART_MEM_SIZE - old_pos s)) (set_old_pos 0 s).
Proof.
  intros O N. cbn [handle].
  unfold ESP_USART_DMA_RX_STREAM_IRQHANDLER. cbv zeta.
  assert (C : u16 (USART_MEM_SIZE
                   - (if true && (u16 n =? USART_MEM_SIZE) then 0 else u16 n))
              = USART_MEM_SIZE)
    by (destruct N; subst n; reflexivity).
  rewrite C. rewrite u16_small by (sizes; lia). reflexivity.
Qed.

(** X17.  One round of the receive buffer: the interrupts come with the
    DMA stream at places that do not go back (each one the idle line of the
    UART or the half-transfer flag), and the transfer-complete interrupt
    ends the round, the position register reading 0 or the reloaded size.
    Then [esp_input] is called once per interrupt, each call takes up
    where the one before ended, the first starts at [old_pos] and the last
    ends at the end of the buffer, and [old_pos] is 0 afterwards: every
    byte of the round is handed to the stack once, in order. *)
Theorem buffer_round_is_handed_over_once (ks : list (bool * Z)) (ht : bool)
    (n : Z) :
  forall s : ll_t,
    0 <= old_pos s <= USART_MEM_SIZE ->
    rising (old_pos s) (map snd ks) ->
    n = 0 \/ n = USART_MEM_SIZE ->
    log (handle_all (map irq_at ks ++ [DmaIrq true ht n]) s)
    = log s ++ pieces (old_pos s) (map snd ks ++ [USART_MEM_SIZE])
    /\ old_pos (handle_all (map irq_at ks ++ [DmaIrq true ht n]) s) = 0.
Proof.
  induction ks as [|[b c] ks IH]; intros s O R N.
  - cbn [map List.app handle_all fold_left pieces].
    rewrite (handle_complete ht n s O N). split; reflexivity.
  - cbn [map snd rising] in R. destruct R as (C & R).
    cbn [map List.app handle_all fold_left snd pieces].
    rewrite (handle_at b c s) by lia.
    destruct (IH (did (EvInput (old_pos s) (c - old_pos s)) (set_old_pos c s)))
      as (L & P); [cbn [did set_old_pos old_pos]; lia|exact R|exact N|].
    unfold handle_all in L, P. rewrite L, P.
    cbn [did set_old_pos old_pos log]. rewrite <- app_assoc.
    split; reflexivity.
Qed.

Lemma buffer_round_is_handed_over_once_witness :
  log (handle_all [UartIrq true 924; DmaIrq false true 512;
                   UartIrq true 24; DmaIrq true false 1024] ll_zero)
  = [EvInput 0 100; EvInput 100 412; EvInput 512 488; EvInput 1000 24].
Proof.
  refine (proj1 (buffer_round_is_handed_over_once
                   [(true, 100); (false, 512); (true, 1000)] false 1024
                   ll_zero _ _ _)).
  - cbn; unfold USART_MEM_SIZE; lia.
  - cbn; unfold USART_MEM_SIZE; lia.
  - now right.
Defined.

(** X18.  Either handler, with [old_pos] and the position register within
    the buffer size: the call of [esp_input] starts at [old_pos], and it
    stays within the buffer, ending at the place of the DMA stream, when
    that place is not behind [old_pos].  When it is behind (the stream has
    gone round and the round was not closed), the length is taken modulo
    2^16 and the bytes asked for end beyond the buffer. *)
Theorem input_range_and_buffer (i : irq) (s : ll_t) :
  0 <= old_pos s <= USART_MEM_SIZE ->
  0 <= ndtr_of i <= USART_MEM_SIZE ->
  i <> UartIrq false (ndtr_of i) ->
  exists len,
    log (handle i s) = log s ++ [EvInput (old_pos s) len]
    /\ (old_pos s <= position i -> old_pos s + len = position i)
    /\ (position i < old_pos s ->
        len = U16_MOD - (old_pos s - position i)
        /\ USART_MEM_SIZE < old_pos s + len).
Proof.
  intros O N A. pose proof (position_range i N) as P.
  exists (u16 (position i - old_pos s)). split; [|split].
  - destruct i as [[|] n|tc ht n]; cbn [ndtr_of] in *;
      [reflexivity|congruence|].
    cbn [handle position]. unfold ESP_USART_DMA_RX_STREAM_IRQHANDLER.
    cbv zeta. destruct tc; [reflexivity|]. destruct ht; reflexivity.
  - intros L. rewrite u16_small by (sizes; lia). lia.
  - intros L. rewrite u16_back by (sizes; lia). sizes. lia.
Qed.

Lemma input_range_and_buffer_witness :
  log (handle (UartIrq true 1020) (set_old_pos 1000 ll_zero))
  = [EvInput 1000 64540].
Proof.
  destruct (input_range_and_buffer (UartIrq true 1020)
              (set_old_pos 1000 ll_zero))
    as (len & L & _ & B); [cbn; unfold USART_MEM_SIZE; lia|cbn; unfold USART_MEM_SIZE; lia|discriminate|].
  rewrite L. destruct B as (B & _); [vm_compute; reflexivity|].
  rewrite B. reflexivity.
Defined.

(** X19.  Whatever interrupts come, as long as the position register
    reads a number within the buffer size, [old_pos] stays within the
    buffer size, so every call of [esp_input] starts inside the buffer or
    at its end. *)
Theorem old_pos_stays_in_buffer (l : list irq) :
  forall s : ll_t,
    0 <= old_pos s <= USART_MEM_SIZE ->
    Forall starts_inside (log s) ->
    Forall (fun i => 0 <= ndtr_of i <= USART_MEM_SIZE) l ->
    0 <= old_pos (handle_all l s) <= USART_MEM_SIZE
    /\ Forall starts_inside (log (handle_all l s)).
Proof.
  induction l as [|i l IH]; intros s O S N; [now split|].
  inversion N as [|? ? Ni Nl]; subst.
  cbn [handle_all fold_left]. apply IH; [| |exact Nl].
  - pose proof (position_range i Ni) as P.
    destruct i as [[|] n|tc ht n]; cbn [handle position ndtr_of] in *.
    + unfold ESP_USART_IRQHANDLER. cbv zeta.
      cbn [did set_old_pos old_pos].
      set (c := u16 (USART_MEM_SIZE - u16 n)) in *.
      destruct (Z_le_gt_dec (old_pos s) c) as [L|L].
      * rewrite (u16_small (c - old_pos s)) by (sizes; lia).
        rewrite u16_small; sizes; lia.
      * rewrite (u16_back (c - old_pos s)) by (sizes; lia).
        rewrite u16_forth; sizes; lia.
    + exact O.
    + unfold ESP_USART_DMA_RX_STREAM_IRQHANDLER. cbv zeta.
      destruct tc; [cbn [did set_old_pos old_pos]; sizes; lia|].
      destruct ht; cbn [did set_old_pos old_pos andb] in *; [exact P|exact O].
  - destruct i as [[|] n|tc ht n]; cbn [handle].
    + unfold ESP_USART_IRQHANDLER. cbv zeta. cbn [did log set_old_pos].
      apply Forall_app. split; [exact S|]. constructor; [exact O|constructor].
    + exact S.
    + unfold ESP_USART_DMA_RX_STREAM_IRQHANDLER. cbv zeta.
      destruct tc; [|destruct ht]; cbn [did log set_old_pos];
        (apply Forall_app; split; [exact S|]);
        (constructor; [exact O|constructor]).
Qed.

Lemma old_pos_stays_in_buffer_witness :
  0 <= old_pos (handle_all [UartIrq true 1020; DmaIrq false false 1000;
                            UartIrq true 1024]
                           (set_old_pos 1000 ll_zero)) <= USART_MEM_SIZE.
Proof.
  refine (proj1 (old_pos_stays_in_buffer
                   [UartIrq true 1020; DmaIrq false false 1000;
                    UartIrq true 1024]
                   (set_old_pos 1000 ll_zero) _ _ _)).
  - cbn; unfold USART_MEM_SIZE; lia.
  - constructor.
  - repeat constructor; cbn; unfold USART_MEM_SIZE; lia.
Defined.




End LlFacts.

(** * Further properties of the command API *)

Module EspExtra.

Import Esp.

Lemma init_step (E : sys_env) (c : esp_cmd_t) (body : esp_msg_body)
    (e : esp_t) :
  (mbox_waiting (mbox_producer e) < mbox_size (mbox_producer e))%nat ->
  let e' := out_state (api_call E (with_def c body) 0 e) in
  mbox_size (mbox_producer e') = mbox_size (mbox_producer e)
  /\ (List.length (mbox_put (mbox_producer e'))
      <= S (List.length (mbox_put (mbox_producer e))))%nat
  /\ map summary (mbox_put (mbox_producer e'))
     = map summary (mbox_put (mbox_producer e))
       ++ (if msg_alloc_ok E (n_msg_alloc e) then [(c, c, body)] else [])
  /\ n_msg_alloc e' = S (n_msg_alloc e)
  /\ cb_func e' = cb_func e /\ cb_server e' = cb_server e
  /\ cb_calls e' = cb_calls e.
Proof.
  intros R. unfold api_call, ESP_MSG_VAR_ALLOC.
  destruct (msg_alloc_ok E (n_msg_alloc e)).
  - unfold send_msg_to_producer_queue. cbn [Z.eqb negb]. cbv zeta.
    unfold esp_sys_mbox_putnow. cbn [set_n_msg_alloc mbox_producer].
    apply Nat.ltb_lt in R. rewrite R.
    cbn. rewrite map_app, length_app. cbn. repeat split. lia.
  - cbn. rewrite app_nil_r. repeat split. lia.
Qed.

Lemma waiting_le (mb : esp_sys_mbox_t) :
  (mbox_waiting mb <= List.length (mbox_put mb))%nat.
Proof. unfold mbox_waiting. lia. Qed.

Lemma init_state (E : sys_env) (cb : option esp_cb_func_t) (e : esp_t) :
  let f := match cb with Some f => f | None => def_callback end in
  let e' := out_state (esp_init E cb e) in
  cb_func e' = f
  /\ cb_server e' = f
  /\ cb_calls e' = cb_calls e ++ [(f, ESP_CB_INIT_FINISH)]
  /\ map summary (mbox_put (mbox_producer e'))
     = init_commands_allocated E (n_msg_alloc e).
Proof.
  cbv zeta. unfold esp_init. cbv zeta.
  unfold esp_reset, esp_set_wifi_mode, esp_set_mux, espi_set_dinfo,
    esp_get_conns_status.
  match goal with
  | |- context [api_call E (with_def ESP_CMD_RESET msg_none) 0 ?x] =>
      set (e0 := x)
  end.
  destruct (init_step E ESP_CMD_RESET msg_none e0)
    as (S1 & L1 & M1 & N1 & F1 & V1 & C1); [cbn; lia|].
  set (e1 := out_state (api_call E (with_def ESP_CMD_RESET msg_none) 0 e0))
    in *.
  pose proof (waiting_le (mbox_producer e1)) as W1.
  destruct (init_step E ESP_CMD_WIFI_CWMODE (msg_wifi_mode ESP_MODE_STA) e1)
    as (S2 & L2 & M2 & N2 & F2 & V2 & C2);
    [rewrite S1; cbn in *; lia|].
  set (e2 := out_state (api_call E _ 0 e1)) in *.
  pose proof (waiting_le (mbox_producer e2)) as W2.
  destruct (init_step E ESP_CMD_TCPIP_CIPMUX (msg_tcpip_mux 1) e2)
    as (S3 & L3 & M3 & N3 & F3 & V3 & C3);
    [rewrite S2, S1; cbn in *; lia|].
  set (e3 := out_state (api_call E _ 0 e2)) in *.
  pose proof (waiting_le (mbox_producer e3)) as W3.
  destruct (init_step E ESP_CMD_TCPIP_CIPDINFO (msg_tcpip_dinfo 1) e3)
    as (S4 & L4 & M4 & N4 & F4 & V4 & C4);
    [rewrite S3, S2, S1; cbn in *; lia|].
  set (e4 := out_state (api_call E _ 0 e3)) in *.
  pose proof (waiting_le (mbox_producer e4)) as W4.
  destruct (init_step E ESP_CMD_TCPIP_CIPSTATUS msg_none e4)
    as (S5 & L5 & M5 & N5 & F5 & V5 & C5);
    [rewrite S4, S3, S2, S1; cbn in *; lia|].
  set (e5 := out_state (api_call E _ 0 e4)) in *.
  cbn [out_state cb_func cb_server cb_calls mbox_producer].
  repeat split.
  - now rewrite F5, F4, F3, F2, F1.
  - now rewrite V5, V4, V3, V2, V1.
  - now rewrite C5, C4, C3, C2, C1, F5, F4, F3, F2, F1.
  - rewrite M5, M4, M3, M2, M1, N4, N3, N2, N1.
    unfold init_commands_allocated. cbn.
    destruct (msg_alloc_ok E (n_msg_alloc e));
      destruct (msg_alloc_ok E (S (n_msg_alloc e)));
      destruct (msg_alloc_ok E (S (S (n_msg_alloc e))));
      destruct (msg_alloc_ok E (S (S (S (n_msg_alloc e)))));
      destruct (msg_alloc_ok E (S (S (S (S (n_msg_alloc e))))));
      reflexivity.
Qed.

(** X21.  [esp_init] answers [espOK] and reports [ESP_CB_INIT_FINISH],
    once, to the callback it has installed (the default one for NULL) as
    the general and as the server callback, whether or not its five
    commands could be queued: the producer mailbox then holds exactly the
    commands whose message could be allocated, in the order RESET, CWMODE,
    CIPMUX, CIPDINFO, CIPSTATUS; none of them when every allocation
    fails. *)
Theorem init_finishes_whatever_fails (E : sys_env)
    (cb : option esp_cb_func_t) (e : esp_t) :
  let f := match cb with Some f => f | None => def_callback end in
  let o := esp_init E cb e in
  returned o = Some espOK
  /\ cb_func (out_state o) = f
  /\ cb_server (out_state o) = f
  /\ cb_calls (out_state o) = cb_calls e ++ [(f, ESP_CB_INIT_FINISH)]
  /\ map summary (mbox_put (mbox_producer (out_state o)))
     = init_commands_allocated E (n_msg_alloc e)
  /\ ((forall n, msg_alloc_ok E n = false) ->
      mbox_put (mbox_producer (out_state o)) = []).
Proof.
  cbv zeta. destruct (init_state E cb e) as (F & V & C & M).
  cbv zeta in F, V, C, M.
  split; [reflexivity|]. repeat split; try assumption.
  intros A. apply (map_eq_nil summary). rewrite M.
  unfold init_commands_allocated. cbn. now rewrite !A.
Qed.

(** X22.  A connection is a client, a server or closed, and exactly one
    of the three: of [esp_conn_is_client], [esp_conn_is_server] and
    [esp_conn_is_closed] one answers 1 and the others 0; and
    [esp_conn_is_active] answers a number that is not 0 exactly when the
    connection is a client or a server. *)
Theorem connection_is_client_server_or_closed (conn : esp_conn_t) :
  0 <= f_active conn < 256 ->
  (esp_conn_is_client conn, esp_conn_is_server conn, esp_conn_is_closed conn)
  = (if c_true (f_active conn)
     then if c_true (f_client conn) then (1, 0, 0) else (0, 1, 0)
     else (0, 0, 1))
  /\ (esp_conn_is_active conn <> 0 <->
      esp_conn_is_client conn + esp_conn_is_server conn = 1)
  /\ (esp_conn_is_active conn = 0 <-> esp_conn_is_closed conn = 1).
Proof.
  intros R. unfold esp_conn_is_client, esp_conn_is_server, esp_conn_is_closed,
    esp_conn_is_active, c_true.
  rewrite (Z.mod_small (f_active conn)) by exact R.
  destruct (Z.eqb_spec (f_active conn) 0) as [A|A];
    destruct (f_client conn =? 0); cbn; repeat split; intros; try lia;
    congruence.
Qed.

Lemma connection_is_client_server_or_closed_witness :
  esp_conn_is_active {| f_active := 1; f_client := 0 |} <> 0 <->
  esp_conn_is_client {| f_active := 1; f_client := 0 |}
  + esp_conn_is_server {| f_active := 1; f_client := 0 |} = 1.
Proof.
  refine (proj1 (proj2 (connection_is_client_server_or_closed
                          {| f_active := 1; f_client := 0 |} _))).
  cbn. lia.
Defined.

(** X23.  After [esp_init], installing a server callback and then calling
    [esp_set_default_server_callback] with NULL brings the server callback
    back to the general callback [esp_init] installed (the user's, when one
    was given, not [def_callback]); neither call changes the general
    callback, the producer mailbox or the callbacks made so far, and both
    answer [espOK]. *)
Theorem null_server_callback_is_general_callback (E : sys_env)
    (cb : option esp_cb_func_t) (g : esp_cb_func_t) (e : esp_t) :
  let e1 := out_state (esp_init E cb e) in
  let o2 := esp_set_default_server_callback (Some g) e1 in
  let o3 := esp_set_default_server_callback None (out_state o2) in
  returned o2 = Some espOK /\ returned o3 = Some espOK
  /\ cb_server (out_state o2) = g
  /\ cb_server (out_state o3)
     = match cb with Some f => f | None => def_callback end
  /\ cb_func (out_state o3) = cb_func e1
  /\ mbox_producer (out_state o3) = mbox_producer e1
  /\ cb_calls (out_state o3) = cb_calls e1.
Proof.
  cbv zeta.
  destruct (init_state E cb e) as (F & _).
  cbv zeta in F. unfold esp_set_default_server_callback.
  cbn [returned out_state set_cb_server cb_server cb_func mbox_producer
       cb_calls].
  rewrite F. repeat split.
Qed.

End EspExtra.
